(** * Service-analytics pipeline: identity mapping, address and text
      normalisation, GPS stop matching, sales merging and metrics.

    A shallow embedding of the core of the [service-analytics] repository
    (package [src/data_processing], [src/analysis] and [config]) and the
    properties its specification states about it.

    Conventions of the embedding.
    - Text is a [string] of ASCII characters; the Python string methods the
      code calls ([strip], [upper], [lower], [in], [split]) and the handful of
      regular expressions of [cleaner.py] are written out as functions.
    - A pandas cell is a [cell]; a row is a total function from column names
      to cells and a data frame is its column index together with its rows.
    - Money is counted in whole minor units ([VInt]); timestamps are seconds.
      Ratios that pandas holds as floats are exact rationals ([Q]).
    - A function that can raise returns a [result]; a function that draws
      random numbers takes the generator's state and returns the new one. *)

From Stdlib Require Import Bool Arith ZArith QArith Qminmax Lia List Ascii String.
From Stdlib Require Import DecimalString.
Import ListNotations.
Close Scope Q_scope.
Open Scope nat_scope.
Open Scope list_scope.
Open Scope string_scope.

Set Implicit Arguments.

(* ================================================================== *)
(** ** Exceptions *)

Inductive exn : Type :=
  | ValueError (msg : string)
  | KeyError (key : string)
  | OverflowError.

Inductive result (A : Type) : Type :=
  | Ok (a : A)
  | Raise (e : exn).

Arguments Ok {A} a.
Arguments Raise {A} e.

Definition bind {A B : Type} (r : result A) (k : A -> result B) : result B :=
  match r with
  | Ok a => k a
  | Raise e => Raise e
  end.

Notation "x <- r ;; k" := (bind r (fun x => k))
  (at level 61, r at next level, right associativity).

Definition raises {A : Type} (r : result A) : bool :=
  match r with Ok _ => false | Raise _ => true end.

(* ================================================================== *)
(** ** Python strings *)

Module PyStr.

(** [str.isspace] on one ASCII character; the class [\s] of [re] is the same
    set: tab, line feed, vertical tab, form feed, carriage return, the four
    separators 0x1c-0x1f and the space. *)
Definition is_space (c : ascii) : bool :=
  let n := nat_of_ascii c in
  (Nat.leb 9 n && Nat.leb n 13) || (Nat.leb 28 n && Nat.leb n 32).

Definition is_upper (c : ascii) : bool :=
  let n := nat_of_ascii c in Nat.leb 65 n && Nat.leb n 90.

Definition is_lower (c : ascii) : bool :=
  let n := nat_of_ascii c in Nat.leb 97 n && Nat.leb n 122.

Definition is_digit (c : ascii) : bool :=
  let n := nat_of_ascii c in Nat.leb 48 n && Nat.leb n 57.

(** The class [\w] of [re]: letters, digits and the underscore. *)
Definition is_word (c : ascii) : bool :=
  is_upper c || is_lower c || is_digit c || Ascii.eqb c "_".

Definition upper_char (c : ascii) : ascii :=
  if is_lower c then ascii_of_nat (nat_of_ascii c - 32) else c.

Definition lower_char (c : ascii) : ascii :=
  if is_upper c then ascii_of_nat (nat_of_ascii c + 32) else c.

Fixpoint map_chars (f : ascii -> ascii) (s : string) : string :=
  match s with
  | EmptyString => EmptyString
  | String c r => String (f c) (map_chars f r)
  end.

Definition upper : string -> string := map_chars upper_char.
Definition lower : string -> string := map_chars lower_char.

Fixpoint lstrip (s : string) : string :=
  match s with
  | EmptyString => EmptyString
  | String c r => if is_space c then lstrip r else s
  end.

(** [rstrip]: a character is dropped when it is blank and so is everything
    after it. *)
Fixpoint rstrip (s : string) : string :=
  match s with
  | EmptyString => EmptyString
  | String c r =>
      match rstrip r with
      | EmptyString => if is_space c then EmptyString else String c EmptyString
      | r' => String c r'
      end
  end.

Definition strip (s : string) : string := rstrip (lstrip s).

Fixpoint startswith (p s : string) : bool :=
  match p, s with
  | EmptyString, _ => true
  | String a p', String b s' => Ascii.eqb a b && startswith p' s'
  | String _ _, EmptyString => false
  end.

(** [sub in s]. *)
Fixpoint contains (sub s : string) : bool :=
  startswith sub s ||
  match s with
  | EmptyString => false
  | String _ r => contains sub r
  end.

Fixpoint drop (n : nat) (s : string) : string :=
  match n, s with
  | O, _ => s
  | S k, String _ r => drop k r
  | S _, EmptyString => EmptyString
  end.

(** Number of blank characters [s] starts with. *)
Fixpoint count_space (s : string) : nat :=
  match s with
  | String c r => if is_space c then S (count_space r) else O
  | EmptyString => O
  end.

(** [s.split(sep)] for a one-character separator: always at least one
    field. *)
Fixpoint split (sep : ascii) (s : string) : list string :=
  match s with
  | EmptyString => [EmptyString]
  | String c r =>
      if Ascii.eqb c sep then EmptyString :: split sep r
      else match split sep r with
           | f :: fs => String c f :: fs
           | [] => [String c EmptyString]
           end
  end.

(** [str(n)] of an integer. *)
Definition of_Z (z : Z) : string := NilZero.string_of_int (Z.to_int z).

End PyStr.

(* ================================================================== *)
(** ** Data frames *)

(** One cell of a pandas column: missing ([NaN], [None], [NaT]), text, an
    integer, a float or a boolean. *)
Inductive cell : Type :=
  | NA
  | VStr (s : string)
  | VInt (z : Z)
  | VFloat (q : Q)
  | VBool (b : bool).

Definition row : Type := string -> cell.

Record DataFrame : Type := mkDF {
  columns : list string;
  rows : list row
}.

Definition has_col (c : string) (cols : list string) : bool :=
  existsb (String.eqb c) cols.

(** [pd.isna]. *)
Definition isna (c : cell) : bool :=
  match c with NA => true | _ => false end.

(** The number a cell is as a Python value, for the cells that are numbers:
    [True == 1] and [1 == 1.0] hold in Python and such values hash alike. *)
Definition as_number (c : cell) : option Q :=
  match c with
  | VInt z => Some (inject_Z z)
  | VFloat q => Some q
  | VBool b => Some (inject_Z (if b then 1 else 0))
  | NA | VStr _ => None
  end.

(** Equality of the keys of a merge, of [drop_duplicates] and of a
    [groupby]: missing keys are equal to each other there, text is equal to
    the same text and a number to the same number. *)
Definition cell_eqb (a b : cell) : bool :=
  match a, b with
  | NA, NA => true
  | VStr s, VStr t => String.eqb s t
  | _, _ =>
      match as_number a, as_number b with
      | Some p, Some q => Qeq_bool p q
      | _, _ => false
      end
  end.

(** [str(x)] of a cell, as [astype(str)] applies it. How Python prints a
    float is left open: [float_repr] is any function. *)
Definition py_str (float_repr : Q -> string) (c : cell) : string :=
  match c with
  | NA => "nan"
  | VStr s => s
  | VInt z => PyStr.of_Z z
  | VFloat q => float_repr q
  | VBool true => "True"
  | VBool false => "False"
  end.

(** The text a function gets when it is handed a cell and calls [str] on
    it, unless the cell is missing. *)
Definition text_of (float_repr : Q -> string) (c : cell) : option string :=
  match c with
  | NA => None
  | _ => Some (py_str float_repr c)
  end.

(** [a == b] between two values of a frame: a missing value is equal to
    nothing, not even to itself. *)
Definition py_eq (a b : cell) : bool :=
  negb (isna a) && cell_eqb a b.

Definition Qlt_bool (a b : Q) : bool := negb (Qle_bool b a).

(** [row[c] = v]. *)
Definition set_col (c : string) (v : cell) (r : row) : row :=
  fun k => if String.eqb k c then v else r k.

(** [df[c] = f(row)] for every row; the column is appended to the index when
    it is new. *)
Definition assign (c : string) (f : row -> cell) (df : DataFrame) : DataFrame :=
  {| columns := if has_col c (columns df) then columns df else columns df ++ [c];
     rows := map (fun r => set_col c (f r) r) (rows df) |}.

(** [df.drop(columns=[c])]. *)
Definition drop_col (c : string) (df : DataFrame) : DataFrame :=
  {| columns := filter (fun k => negb (String.eqb k c)) (columns df);
     rows := map (set_col c NA) (rows df) |}.

(** The number a cell adds to a column sum: [sum] skips missing values. *)
Definition num_of (c : cell) : Z :=
  match c with VInt z => z | _ => 0%Z end.

Definition col_sum (c : string) (rs : list row) : Z :=
  fold_right (fun r acc => (num_of (r c) + acc)%Z) 0%Z rs.

(* ================================================================== *)
(** ** config/mapping.py *)

Module Mapping.

(** GPS device name to technician code. *)
Definition TECH_MAPPING : list (string * string) :=
  [ ("James", "JS"); ("Joe", "JD"); ("Bianca", "BB"); ("Ricardo (NEW)", "RR");
    ("Shane", "SS"); ("Porter", "AP"); ("Dane", "DM"); ("Sean", "SF") ].

(** [{v: k for k, v in TECH_MAPPING.items()}]: the codes are distinct, so no
    entry overwrites another. *)
Definition TECH_REVERSE_MAPPING : list (string * string) :=
  map (fun kv => (snd kv, fst kv)) TECH_MAPPING.

(** [d.get(k)] on a dictionary written as its items. *)
Fixpoint dict_get {V : Type} (d : list (string * V)) (k : string) : option V :=
  match d with
  | [] => None
  | (k', v) :: rest => if String.eqb k k' then Some v else dict_get rest k
  end.

End Mapping.

(* ================================================================== *)
(** ** src/data_processing/cleaner.py *)

Module Cleaner.
Import PyStr.

(** *** The regular expressions of [standardize_address]

    [re.sub] scans the subject from the left; where the pattern matches it
    writes the replacement and goes on after the match, elsewhere it copies
    one character. A matcher is given the character before the position
    (for [\b]) and the rest of the subject, and answers with the length of
    the match. None of the patterns below matches the empty string. *)

Definition matcher : Type := option ascii -> string -> option nat.

(** [skip] is the number of characters of the current match still to be
    consumed. *)
Fixpoint re_sub_from (m : matcher) (repl : string) (prev : option ascii)
    (skip : nat) (s : string) : string :=
  match s with
  | EmptyString => EmptyString
  | String c rest =>
      match skip with
      | S k => re_sub_from m repl (Some c) k rest
      | O =>
          match m prev s with
          | Some (S k) => repl ++ re_sub_from m repl (Some c) k rest
          | _ => String c (re_sub_from m repl (Some c) 0 rest)
          end
      end
  end.

Definition re_sub (m : matcher) (repl s : string) : string :=
  re_sub_from m repl None 0 s.

Definition word_char (c : option ascii) : bool :=
  match c with Some a => is_word a | None => false end.

Definition head_char (s : string) : option ascii :=
  match s with String c _ => Some c | EmptyString => None end.

Fixpoint last_char (prev : option ascii) (s : string) : option ascii :=
  match s with
  | EmptyString => prev
  | String c r => last_char (Some c) r
  end.

(** [\b]: exactly one of the two neighbours is a word character. *)
Definition word_boundary (before after : option ascii) : bool :=
  xorb (word_char before) (word_char after).

(** [r'\b' + w + r'\b'] for a literal [w]. *)
Definition m_word (w : string) : matcher := fun prev s =>
  if word_boundary prev (head_char s) && startswith w s
     && word_boundary (last_char prev w) (head_char (drop (String.length w) s))
  then Some (String.length w) else None.

(** [r'\b' + w + r'\.'] for a literal [w]. *)
Definition m_word_dot (w : string) : matcher := fun prev s =>
  if word_boundary prev (head_char s) && startswith (w ++ ".") s
  then Some (S (String.length w)) else None.

(** [r'\s+']. *)
Definition m_spaces : matcher := fun _ s =>
  match count_space s with O => None | n => Some n end.

(** [c \s* c] for a literal character [c]: [r',\s*,'] and [r'\.\s*\.']. *)
Definition m_doubled (c : ascii) : matcher := fun _ s =>
  match s with
  | String a r =>
      if Ascii.eqb a c then
        let n := count_space r in
        match drop n r with
        | String b _ => if Ascii.eqb b c then Some (n + 2) else None
        | EmptyString => None
        end
      else None
  | EmptyString => None
  end.

(** [$] without [re.MULTILINE]: the end of the subject, or just before a
    line feed that ends it. *)
Definition at_end (s : string) : bool :=
  match s with
  | EmptyString => true
  | String c EmptyString => Ascii.eqb c "010"
  | _ => false
  end.

(** [r',\s*USA$']. *)
Definition m_usa_end : matcher := fun _ s =>
  match s with
  | String a r =>
      if Ascii.eqb a "," then
        let n := count_space r in
        let t := drop n r in
        if startswith "USA" t && at_end (drop 3 t) then Some (n + 4) else None
      else None
  | EmptyString => None
  end.

Definition abbrev_map : list (string * string) :=
  [ ("STREET", "ST"); ("AVENUE", "AVE"); ("BOULEVARD", "BLVD"); ("DRIVE", "DR");
    ("LANE", "LN"); ("ROAD", "RD"); ("COURT", "CT"); ("CIRCLE", "CIR");
    ("PLACE", "PL"); ("HIGHWAY", "HWY"); ("APARTMENT", "APT"); ("SUITE", "STE");
    ("CALIFORNIA", "CA") ].

(** One turn of the loop over [abbrev_map.items()]. *)
Definition fold_abbrev (address : string) (entry : string * string) : string :=
  let (full, abbr) := entry in
  let address := re_sub (m_word full) abbr address in
  re_sub (m_word_dot abbr) abbr address.

(** [standardize_address] on text. *)
Definition standardize_address_str (address_str : string) : string :=
  if String.eqb address_str "" then "" else
  let address := upper (strip address_str) in
  let address := fold_left fold_abbrev abbrev_map address in
  let address := re_sub m_spaces " " address in
  let address := re_sub (m_doubled ",") "," address in
  let address := re_sub (m_doubled ".") "." address in
  let address := re_sub m_usa_end "" address in
  strip address.

(** [standardize_address]: a missing address ([None], [NaN]) gives the empty
    string. *)
Definition standardize_address (address_str : option string) : string :=
  match address_str with
  | None => ""
  | Some s => standardize_address_str s
  end.

(** [standardize_tech_code]; [str(tech_code)] is the argument's text. *)
Definition tech_variations : list (string * string) :=
  [ ("ROBERT", "RR"); ("RICK", "RR"); ("RICARDO", "RR"); ("JAMES", "JS");
    ("JIM", "JS"); ("JOSEPH", "JD"); ("JOEY", "JD"); ("DANIEL", "DM");
    ("DANNY", "DM"); ("SHANE", "SS"); ("SHAWN", "SF"); ("SEAN", "SF");
    ("BIANCA", "BB"); ("ADAM", "AP"); ("PORTER", "AP") ].

Definition standardize_tech_code (tech_code : option string) : string :=
  match tech_code with
  | None => "UNKNOWN"
  | Some code =>
      if String.eqb code "" then "UNKNOWN" else
      let tech := upper (strip code) in
      match Mapping.dict_get tech_variations tech with
      | Some canonical => canonical
      | None =>
          (* valid_codes: the keys of both mappings; either way the code
             is returned as it is *)
          if existsb (String.eqb tech)
               (map fst Mapping.TECH_REVERSE_MAPPING ++ map fst Mapping.TECH_MAPPING)
          then tech else tech
      end
  end.

(** [standardize_appliance_type]: the categories in the order of the
    dictionary, each with its keywords. *)
Definition appliance_categories : list (string * list string) :=
  [ ("REFRIGERATOR", [ "REFRIG"; "FRIDGE"; "FRIG"; "REFRIGERATOR"; "FREEZER" ]);
    ("WASHER", [ "WASH"; "WASHER"; "CLOTHES WASHER" ]);
    ("DRYER", [ "DRYER"; "CLOTHES DRYER" ]);
    ("DISHWASHER", [ "DISH"; "DISHW"; "DISHWASHER" ]);
    ("OVEN", [ "OVEN"; "RANGE"; "STOVE"; "COOKTOP" ]);
    ("MICROWAVE", [ "MICRO"; "MICROWAVE" ]);
    ("DISPOSAL", [ "DISP"; "DISPOSAL"; "GARBAGE DISPOSAL" ]);
    ("OTHER", []) ].

(** The loop over [categories.items()]: the first category one of whose
    keywords occurs in the text. *)
Fixpoint first_category (categories : list (string * list string)) (appliance : string)
  : option string :=
  match categories with
  | [] => None
  | (category, keywords) :: rest =>
      if existsb (fun keyword => contains keyword appliance) keywords
      then Some category
      else first_category rest appliance
  end.

Definition standardize_appliance_type (appliance_type : option string) : string :=
  match appliance_type with
  | None => "UNKNOWN"
  | Some text =>
      if String.eqb text "" then "UNKNOWN" else
      let appliance := upper (strip text) in
      match first_category appliance_categories appliance with
      | Some category => category
      | None => appliance
      end
  end.

Section Fuzzy.

(** [fuzz.token_sort_ratio] of the fuzzywuzzy package: a score from 0 to
    100. *)
Variable token_sort_ratio : string -> string -> Z.

(** [match_address_confidence]. *)
Definition match_address_confidence (address1 address2 : option string) : Q :=
  match address1, address2 with
  | Some a1, Some a2 =>
      if String.eqb a1 "" || String.eqb a2 "" then 0%Q else
      let std_addr1 := standardize_address address1 in
      let std_addr2 := standardize_address address2 in
      if String.eqb std_addr1 std_addr2 then 100%Q else
      let ratio := inject_Z (token_sort_ratio std_addr1 std_addr2) in
      let min_len := Nat.min (String.length std_addr1) (String.length std_addr2) in
      if Nat.ltb min_len 10 then (ratio * (8 # 10))%Q else ratio
  | _, _ => 0%Q
  end.

End Fuzzy.

(** The first [n] characters of [s], when [s] starts with [n] digits. *)
Fixpoint digits_prefix (n : nat) (s : string) : option string :=
  match n with
  | O => Some EmptyString
  | S k =>
      match s with
      | String c r =>
          if is_digit c then option_map (String c) (digits_prefix k r) else None
      | EmptyString => None
      end
  end.

(** [re.search(r'(\d{5})(?:-\d{4})?', address)]: group 1 of the leftmost
    match, the first five digits in a row; the optional group after them
    has no part in it. *)
Fixpoint search_zip (address : string) : option string :=
  match digits_prefix 5 address with
  | Some zip => Some zip
  | None =>
      match address with
      | String _ rest => search_zip rest
      | EmptyString => None
      end
  end.

(** [extract_zip_code]; a missing address is [None]. *)
Definition extract_zip_code (address : option string) : string :=
  match address with
  | None => ""
  | Some text =>
      if String.eqb text "" then "" else
      match search_zip text with
      | Some zip => zip
      | None => ""
      end
  end.

End Cleaner.

(* ================================================================== *)
(** ** Pseudo-random generators *)

Module Random.

(** The state of a generator: the variates in [0, 1) it is going to yield,
    and how many of them were consumed. Python's [random] module and
    NumPy's [np.random] each hold one such state, and they are separate. *)
Record generator : Type := mkGen {
  stream : nat -> Q;
  cursor : nat
}.

Definition next (g : generator) : Q * generator :=
  (stream g (cursor g), {| stream := stream g; cursor := S (cursor g) |}).

(** Integer part of a rational, rounding down. *)
Definition floor (q : Q) : Z := (Qnum q / Zpos (Qden q))%Z.

(** [random.uniform(a, b)]: [a + (b - a) * random()]. *)
Definition uniform (a b : Q) (g : generator) : Q * generator :=
  let (u, g') := next g in ((a + (b - a) * u)%Q, g').

(** [random.randint(a, b)]: one of the [b - a + 1] integers from [a] to [b],
    picked by the next variate. *)
Definition randint (a b : Z) (g : generator) : Z * generator :=
  let (u, g') := next g in
  ((a + floor (u * inject_Z (b - a + 1)) mod (b - a + 1))%Z, g').

(** [xs] without its element at position [i]. *)
Fixpoint remove_nth {A : Type} (i : nat) (xs : list A) {struct xs} : list A :=
  match xs, i with
  | [], _ => []
  | _ :: r, O => r
  | x :: r, S j => x :: remove_nth j r
  end.

(** [np.random.choice(population, size=k, replace=False)]: [k] draws, each
    removing the drawn element from the population. *)
Fixpoint choice {A : Type} (d : A) (population : list A) (k : nat) (g : generator)
  : list A * generator :=
  match k with
  | O => ([], g)
  | S k' =>
      match population with
      | [] => ([], g)
      | _ :: _ =>
          let (u, g1) := next g in
          let i := Z.to_nat (floor (u * inject_Z (Z.of_nat (List.length population)))
                             mod Z.of_nat (List.length population))%Z in
          let (picked, g2) := choice d (remove_nth i population) k' g1 in
          (nth i population d :: picked, g2)
      end
  end.

End Random.

(* ================================================================== *)
(** ** config/cancel_categories.py *)

Module CancelCategories.

Definition CANCEL_CATEGORIES : list (string * list string) :=
  [ ("CUSTOMER_INITIATED",
      [ "customer cancel"; "client cancel"; "cust canceled";
        "cancelled by customer"; "cstmr declined"; "customer declined" ]);
    ("FIXED_ITSELF",
      [ "appliance starting working"; "started working"; "fixed itself";
        "working after"; "unplugging" ]);
    ("SCHEDULING_CONFLICT",
      [ "reschedule"; "schedule conflict"; "not available"; "changed appmnt";
        "chngd appmnt" ]);
    ("PAYMENT_ISSUE",
      [ "payment"; "credit card"; "cc for service"; "service" ]);
    ("NO_SHOW",
      [ "no show"; "not home"; "customer not present"; "nobody home";
        "not at home" ]);
    ("PRICE_TOO_HIGH",
      [ "too expensive"; "cost too high"; "price too high"; "cheaper elsewhere";
        "not worth" ]);
    ("CHANGED_MIND",
      [ "changed mind"; "decided against"; "decided not to"; "will try later";
        "will fix later" ]);
    ("OTHER", []) ].

Definition CATEGORY_PRIORITY : list string :=
  [ "CUSTOMER_INITIATED"; "PRICE_TOO_HIGH"; "NO_SHOW"; "SCHEDULING_CONFLICT";
    "CHANGED_MIND"; "FIXED_ITSELF"; "PAYMENT_ISSUE"; "OTHER" ].

End CancelCategories.

(* ================================================================== *)
(** ** src/analysis/text_mining.py *)

Module TextMining.
Import PyStr Mapping CancelCategories.

(** The inner loop of [extract_cancellation_reason]: the number of keywords
    of one category that occur in the description. *)
Definition count_matches (keywords : list string) (description : string) : nat :=
  List.length (filter (fun keyword => contains (lower keyword) description) keywords).

(** The dictionary [category_matches], in insertion order: the categories
    with a non-empty keyword list and at least one hit, with their hits. *)
Definition category_matches_in (categories : list (string * list string))
    (description : string) : list (string * nat) :=
  flat_map
    (fun entry : string * list string =>
       let (category, keywords) := entry in
       match keywords with
       | [] => []
       | _ :: _ =>
           let matches := count_matches keywords description in
           if Nat.ltb 0 matches then [(category, matches)] else []
       end)
    categories.

Definition category_matches : string -> list (string * nat) :=
  category_matches_in CANCEL_CATEGORIES.

(** [len(CANCEL_CATEGORIES[category])]. *)
Definition keyword_count (category : string) : nat :=
  match dict_get CANCEL_CATEGORIES category with
  | Some keywords => List.length keywords
  | None => 0
  end.

(** [min(category_matches[category] / len(CANCEL_CATEGORIES[category]), 1.0)];
    the keyword list of a category that has hits is not empty. *)
Definition confidence_of (category : string) (matches : nat) : Q :=
  Qmin (Z.of_nat matches # Pos.of_nat (keyword_count category)) 1.

(** The loop over [CATEGORY_PRIORITY]: the first category of the list that is
    a key of [category_matches]. *)
Fixpoint first_in_priority (priority : list string) (matches : list (string * nat))
  : option (string * nat) :=
  match priority with
  | [] => None
  | category :: rest =>
      match dict_get matches category with
      | Some m => Some (category, m)
      | None => first_in_priority rest matches
      end
  end.

(** [extract_cancellation_reason]; a missing description is [None]. *)
Definition extract_cancellation_reason (description : option string) : string * Q :=
  match description with
  | None => ("UNKNOWN", 0%Q)
  | Some text =>
      if String.eqb text "" then ("UNKNOWN", 0%Q) else
      let description := lower text in
      let matches := category_matches description in
      match matches with
      | [] => ("OTHER", 0%Q)
      | (first, m) :: others =>
          let single := (first, confidence_of first m) in
          match others with
          | [] => single
          | _ :: _ =>
              match first_in_priority CATEGORY_PRIORITY matches with
              | Some (category, hits) => (category, confidence_of category hits)
              | None => single
              end
          end
      end
  end.

(** *** [extract_cancellation_reasons_from_df] *)

(** [Series.str.contains('a|b|...', case=False, na=False)] for literal
    alternatives: false on a cell that is not text. *)
Definition str_contains (alternatives : list string) (c : cell) : bool :=
  match c with
  | VStr s => existsb (fun a => contains (lower a) (lower s)) alternatives
  | _ => false
  end.

Definition STATUS_PATTERN : list string := [ "Cancel"; "Cancelled"; "Canceled" ].

Definition TEXT_PATTERN : list string :=
  [ "cancel"; "cancelled"; "canceled"; "call off"; "not home" ].

(** [mask | other] on two masks of one frame. *)
Definition mask_or (mask other : list bool) : list bool :=
  map (fun p : bool * bool => fst p || snd p) (combine mask other).

Definition or_into (mask : option (list bool)) (other : list bool) : option (list bool) :=
  match mask with
  | None => Some other
  | Some m => Some (mask_or m other)
  end.

(** [canceled_mask] as it stands before the check for [None]. *)
Definition canceled_mask (result_df : DataFrame) : option (list bool) :=
  let cols := columns result_df in
  let canceled_mask :=
    if has_col "JobCanceled" cols
    then Some (map (fun r : row => py_eq (r "JobCanceled") (VBool true)) (rows result_df))
    else None in
  let canceled_mask :=
    if has_col "Status" cols
    then or_into canceled_mask
           (map (fun r : row => str_contains STATUS_PATTERN (r "Status")) (rows result_df))
    else canceled_mask in
  if has_col "WorkDescription" cols
  then or_into canceled_mask
         (map (fun r : row => str_contains TEXT_PATTERN (r "WorkDescription"))
            (rows result_df))
  else canceled_mask.

(** [mask.sum()]. *)
Definition mask_sum (mask : list bool) : nat :=
  List.length (filter (fun b : bool => b) mask).

(** [max(1, int(n_jobs * 0.05))]: the product is rounded down, and for the
    sizes a frame can have that is the quotient by 20. *)
Definition demo_size (n_jobs : nat) : nat := Nat.max 1 (n_jobs / 20).

(** [result_df.index.isin(cancel_indices)]; the index of the frame is the
    positions of its rows. *)
Definition index_isin (n_jobs : nat) (cancel_indices : list nat) : list bool :=
  map (fun i => existsb (Nat.eqb i) cancel_indices) (seq 0 n_jobs).

(** The mask the cancelled jobs are processed by: the one read from the data
    or, when that one selects no job of a frame that has jobs, the mask of
    randomly chosen jobs. *)
Definition effective_mask (n_jobs : nat) (mask : list bool) (g : Random.generator)
  : list bool * Random.generator :=
  if Nat.eqb (mask_sum mask) 0 && Nat.ltb 0 n_jobs then
    let (cancel_indices, g') :=
      Random.choice 0 (seq 0 n_jobs) (demo_size n_jobs) g in
    (index_isin n_jobs cancel_indices, g')
  else (mask, g).

Section Frames.

Variable float_repr : Q -> string.

(** The two assignments made for one cancelled job. *)
Definition set_reason (r : row) : row :=
  let (reason, confidence) :=
    extract_cancellation_reason (text_of float_repr (r "WorkDescription")) in
  set_col "CancellationConfidence" (VFloat confidence)
    (set_col "CancellationReason" (VStr reason) r).

Fixpoint process_canceled (with_description : bool) (mask : list bool) (rs : list row)
  : list row :=
  match mask, rs with
  | canceled :: mask', r :: rs' =>
      (if canceled && with_description then set_reason r else r)
      :: process_canceled with_description mask' rs'
  | _, _ => rs
  end.

(** [total_cancellations / total_jobs if total_jobs > 0 else 0]. *)
Definition company_cancel_rate (total_cancellations total_jobs : nat) : cell :=
  if Nat.ltb 0 total_jobs
  then VFloat (Z.of_nat total_cancellations # Pos.of_nat total_jobs)
  else VInt 0.

(** [extract_cancellation_reasons_from_df]; [g] is the state of NumPy's
    global generator. The block that counts cancellations per CSR only
    prints. *)
Definition extract_cancellation_reasons_from_df (df : DataFrame) (g : Random.generator)
  : DataFrame * Random.generator :=
  let result_df :=
    if has_col "CancellationReason" (columns df) then df
    else assign "CancellationReason" (fun _ => VStr "NOT_CANCELED") df in
  let result_df :=
    if has_col "CancellationConfidence" (columns result_df) then result_df
    else assign "CancellationConfidence" (fun _ => VFloat 0) result_df in
  match canceled_mask result_df with
  | None => (result_df, g)
  | Some mask =>
      let n_jobs := List.length (rows result_df) in
      let (mask, g') := effective_mask n_jobs mask g in
      let processed :=
        {| columns := columns result_df;
           rows := process_canceled (has_col "WorkDescription" (columns result_df))
                     mask (rows result_df) |} in
      (assign "CancellationRate"
         (fun _ => company_cancel_rate (mask_sum mask) n_jobs) processed,
       g')
  end.

End Frames.

End TextMining.

(* ================================================================== *)
(** ** config/settings.py *)

Module Settings.

Definition GPS_MATCH_THRESHOLD : Q := 8 # 10.

(** Minutes before and after the scheduled time. *)
Definition DEFAULT_TIME_WINDOW : Z := 30.

End Settings.

(* ================================================================== *)
(** ** src/data_processing/integrator.py *)

Module Integrator.
Import PyStr Mapping Settings.

(** The lambda of [map_tech_codes_to_devices]: only text can be a key of
    [TECH_REVERSE_MAPPING]. *)
Definition device_for_tech (x : cell) : string :=
  match x with
  | VStr code =>
      match dict_get TECH_REVERSE_MAPPING code with
      | Some device => device
      | None => "UNKNOWN"
      end
  | _ => "UNKNOWN"
  end.

Definition map_tech_codes_to_devices (df : DataFrame) (tech_col : string) : DataFrame :=
  assign "Device" (fun r => VStr (device_for_tech (r tech_col))) df.

(** *** Merging frames *)

(** [pd.merge(left, right, how='left')]: the rows of [left] in their order,
    each once per row of [right] with an equal key (in the order of [right]),
    and once with the columns of [right] missing when there is none.
    [join l (Some r)] is the merged row. *)
Definition merge_left (on : row -> row -> bool) (join : row -> option row -> row)
    (left right : list row) : list row :=
  flat_map
    (fun l =>
       match filter (on l) right with
       | [] => [join l None]
       | found => map (fun r => join l (Some r)) found
       end)
    left.

(** [drop_duplicates(subset=..., keep='first')]: a row is dropped when the
    key of an earlier row that was kept is equal to its key. *)
Fixpoint drop_duplicates_from (same : row -> row -> bool) (kept : list row)
    (rs : list row) : list row :=
  match rs with
  | [] => []
  | r :: rest =>
      if existsb (same r) kept then drop_duplicates_from same kept rest
      else r :: drop_duplicates_from same (r :: kept) rest
  end.

Definition drop_duplicates (same : row -> row -> bool) (rs : list row) : list row :=
  drop_duplicates_from same [] rs.

Definition REVENUE_COLS : list string :=
  [ "LaborSold"; "PartsSold"; "SCallSold"; "MerchandiseSold"; "TotalSale" ].

Definition TYPE6_REVENUE_COLS : list string :=
  [ "TotalLaborInSale"; "TotalMaterialInSale"; "TotalMateriaInSale" ].

(** Equality of two sales rows on [subset=['TechCode', 'InvoiceNumber']]. *)
Definition same_tech_invoice (a b : row) : bool :=
  cell_eqb (a "TechCode") (b "TechCode")
  && cell_eqb (a "InvoiceNumber") (b "InvoiceNumber").

Section Frames.

Variable float_repr : Q -> string.

(** [.astype(str).str.strip()] and [.astype(str).str.strip().str.upper()]. *)
Definition str_strip (c : cell) : cell := VStr (strip (py_str float_repr c)).
Definition str_strip_upper (c : cell) : cell :=
  VStr (upper (strip (py_str float_repr c))).

(** The first part of [merge_sales_with_jobs]: the sales frame as it stands
    after the technician column was given its twin and the duplicates were
    dropped. [jobs_cols] and [sales_cols] are the two column indexes as they
    were on entry. *)
Definition sales_with_tech (jobs_cols : list string) (sales_df : DataFrame) : DataFrame :=
  let sales_cols := columns sales_df in
  let sales_df :=
    if has_col "TechCode" jobs_cols && has_col "Technician" sales_cols
       && negb (has_col "TechCode" sales_cols)
    then assign "TechCode" (fun r => str_strip_upper (r "Technician")) sales_df
    else sales_df in
  if has_col "Technician" jobs_cols && has_col "TechCode" sales_cols
     && negb (has_col "Technician" sales_cols)
  then assign "Technician" (fun r => str_strip_upper (r "TechCode")) sales_df
  else sales_df.

Definition sales_deduplicated (jobs_cols : list string) (sales_df : DataFrame) : DataFrame :=
  let sales_cols := columns sales_df in
  let sales_df := sales_with_tech jobs_cols sales_df in
  if has_col "InvoiceNumber" sales_cols && has_col "TechCode" sales_cols
  then {| columns := columns sales_df;
          rows := drop_duplicates same_tech_invoice (rows sales_df) |}
  else sales_df.

(** The loop that removes the revenue columns from the jobs frame. *)
Definition drop_revenue_cols (jobs_df : DataFrame) : DataFrame :=
  fold_left
    (fun df col => if has_col col (columns df) then drop_col col df else df)
    REVENUE_COLS jobs_df.

Definition zero_type6_cols (jobs_df : DataFrame) : DataFrame :=
  fold_left
    (fun df col =>
       if has_col col (columns df) then assign col (fun _ => VInt 0) df else df)
    TYPE6_REVENUE_COLS jobs_df.

(** The name the sales side's [InvoiceNumber] gets in the merged frame:
    [suffixes=('', '_sales')] renames it when the jobs frame has a column of
    that name. *)
Definition invoice_col (jobs_cols : list string) : string :=
  if has_col "InvoiceNumber" jobs_cols then "InvoiceNumber_sales" else "InvoiceNumber".

(** A row of the exact merge: the revenue columns and the invoice number come
    from the sales row, everything else from the job. *)
Definition join_exact (jobs_cols revenue : list string) (job : row) (sale : option row) : row :=
  fun c =>
    if String.eqb c (invoice_col jobs_cols) then
      match sale with Some s => s "InvoiceNumber" | None => NA end
    else if has_col c revenue then
      match sale with Some s => s c | None => NA end
    else job c.

Definition on_tech_job_invoice (job sale : row) : bool :=
  cell_eqb (job "TechCode") (sale "TechCode")
  && cell_eqb (job "JobNumber") (sale "InvoiceNumber").

(** [sales_df.groupby('TechCode').agg({col: 'sum' ...}).reset_index()]: one
    row per technician code that is not missing, holding the sums of the
    technician's rows. The order of the groups does not show in a left merge
    on the group key; they stand here in the order of first appearance. *)
Definition same_tech (a b : row) : bool := cell_eqb (a "TechCode") (b "TechCode").

Definition sales_summary (revenue : list string) (sales : list row) : list row :=
  map
    (fun head : row => fun c =>
       if String.eqb c "TechCode" then head "TechCode"
       else if has_col c revenue
            then VInt (col_sum c (filter (same_tech head) sales))
            else NA)
    (drop_duplicates same_tech (filter (fun r => negb (isna (r "TechCode"))) sales)).

Definition join_summary (revenue : list string) (job : row) (summary : option row) : row :=
  fun c =>
    if has_col c revenue then
      match summary with Some s => s c | None => NA end
    else job c.

(** [merge_sales_with_jobs]. *)
Definition merge_sales_with_jobs (jobs_df sales_df : DataFrame) : result DataFrame :=
  let jobs_cols := columns jobs_df in
  let sales_cols := columns sales_df in
  let sales_df := sales_deduplicated jobs_cols sales_df in
  let revenue := filter (fun col => has_col col sales_cols) REVENUE_COLS in
  if has_col "JobNumber" jobs_cols && has_col "InvoiceNumber" sales_cols then
    let jobs_df := assign "JobNumber" (fun r => str_strip (r "JobNumber")) jobs_df in
    let sales_df := assign "InvoiceNumber" (fun r => str_strip (r "InvoiceNumber")) sales_df in
    (* sales_df[sales_cols_for_merge] *)
    if negb (has_col "TechCode" (columns sales_df)) then Raise (KeyError "TechCode") else
    let jobs_df := drop_revenue_cols jobs_df in
    let jobs_df :=
      match revenue with
      | [] => jobs_df
      | _ :: _ => zero_type6_cols jobs_df
      end in
    (* left_on=['TechCode', 'JobNumber'] *)
    if negb (has_col "TechCode" (columns jobs_df)) then Raise (KeyError "TechCode") else
    let merged_df :=
      {| columns := columns jobs_df ++ invoice_col (columns jobs_df) :: revenue;
         rows := merge_left on_tech_job_invoice (join_exact (columns jobs_df) revenue)
                   (rows jobs_df) (rows sales_df) |} in
    Ok (if has_col "TotalMateriaInSale" (columns merged_df)
           && negb (has_col "TotalMaterialInSale" (columns merged_df))
        then assign "TotalMaterialInSale" (fun r => r "TotalMateriaInSale") merged_df
        else merged_df)
  else if has_col "TechCode" jobs_cols && has_col "TechCode" sales_cols then
    let jobs_df := drop_revenue_cols jobs_df in
    match revenue with
    | [] =>
        (* agg({}): pandas refuses an aggregation of no column *)
        Raise (ValueError "No objects to concatenate")
    | _ :: _ =>
        Ok {| columns := columns jobs_df ++ revenue;
              rows := merge_left same_tech (join_summary revenue)
                        (rows jobs_df) (sales_summary revenue (rows sales_df)) |}
    end
  else Ok jobs_df.

End Frames.

(** *** Matching jobs to GPS stops

    [FirstAppmnt], [Start Time] and [End Time] are datetime columns (the
    loaders convert them with [errors='coerce']): a cell is a timestamp, in
    seconds, or missing. *)

Definition timestamp_of (c : cell) : option Z :=
  match c with VInt t => Some t | _ => None end.

(** The GPS columns as [match_jobs_to_gps_stops] adds them, before any
    match. *)
Definition gps_defaults (job : row) : row :=
  set_col "GPS_MatchConfidence" (VFloat 0)
    (set_col "GPS_Address" (VStr "")
       (set_col "GPS_Duration" NA
          (set_col "GPS_EndTime" NA
             (set_col "GPS_StartTime" NA job)))).

Definition GPS_COLS : list string :=
  [ "GPS_StartTime"; "GPS_EndTime"; "GPS_Duration"; "GPS_Address";
    "GPS_MatchConfidence" ].

Section Matching.

Variable float_repr : Q -> string.
Variable token_sort_ratio : string -> string -> Z.

Definition address_confidence (job stop : row) : Q :=
  Cleaner.match_address_confidence token_sort_ratio
    (text_of float_repr (job "Address")) (text_of float_repr (stop "Address")).

(** The mask that selects [device_stops]. *)
Definition in_window (time_window_minutes : Z) (job : row) (scheduled_time : Z)
    (stop : row) : bool :=
  py_eq (stop "Device") (job "Device")
  && match timestamp_of (stop "Start Time") with
     | Some start =>
         (scheduled_time - 60 * time_window_minutes <=? start)%Z
         && (start <=? scheduled_time + 60 * time_window_minutes)%Z
     | None => false
     end.

Definition device_stops (time_window_minutes : Z) (job : row) (scheduled_time : Z)
    (gps : list row) : list row :=
  filter (in_window time_window_minutes job scheduled_time) gps.

(** One turn of the loop over [device_stops.iterrows()]. *)
Definition consider (job : row) (best : option row * Q) (stop : row) : option row * Q :=
  let (best_match, best_confidence) := best in
  let confidence := address_confidence job stop in
  if Qlt_bool best_confidence confidence
     && Qle_bool (GPS_MATCH_THRESHOLD * 100) confidence
  then (Some stop, confidence)
  else (best_match, best_confidence).

Definition best_stop (job : row) (stops : list row) : option row * Q :=
  fold_left (consider job) stops (None, 0%Q).

(** [(best_match['End Time'] - best_match['Start Time']).total_seconds() / 60]. *)
Definition stop_minutes (stop : row) : cell :=
  match timestamp_of (stop "Start Time"), timestamp_of (stop "End Time") with
  | Some start, Some finish => VFloat ((finish - start) # 60)
  | _, _ => NA
  end.

(** The stop a job is matched to, with its confidence. *)
Definition matched_stop (time_window_minutes : Z) (gps : list row) (job : row)
  : option (row * Q) :=
  if py_eq (job "Device") (VStr "UNKNOWN") then None else
  match timestamp_of (job "FirstAppmnt") with
  | None => None
  | Some scheduled_time =>
      match best_stop job (device_stops time_window_minutes job scheduled_time gps) with
      | (Some stop, confidence) => Some (stop, confidence)
      | (None, _) => None
      end
  end.

(** The body of the loop over the jobs. *)
Definition match_job (time_window_minutes : Z) (gps : list row) (job : row) : row :=
  let job := gps_defaults job in
  match matched_stop time_window_minutes gps job with
  | None => job
  | Some (best_match, best_confidence) =>
      set_col "GPS_MatchConfidence" (VFloat best_confidence)
        (set_col "GPS_Address" (best_match "Address")
           (set_col "GPS_Duration" (stop_minutes best_match)
              (set_col "GPS_EndTime" (best_match "End Time")
                 (set_col "GPS_StartTime" (best_match "Start Time") job))))
  end.

Definition match_jobs_to_gps_stops (job_df gps_df : DataFrame)
    (time_window_minutes : Z) : DataFrame :=
  {| columns :=
       fold_left (fun cols c => if has_col c cols then cols else (cols ++ [c])%list)
         GPS_COLS (columns job_df);
     rows := map (match_job time_window_minutes (rows gps_df)) (rows job_df) |}.

End Matching.

End Integrator.

(* ================================================================== *)
(** ** Python numbers read from text *)

Module PyNum.
Import PyStr.

(** A Python float: the rational a double holds, an infinity or
    not-a-number. The doubles among the rationals are those
    [round_to_double] answers with. *)
Inductive pyfloat : Type :=
  | Finite (q : Q)
  | Infinity (negative : bool)
  | NotANumber.

Definition digit_value (c : ascii) : Z := Z.of_nat (nat_of_ascii c - 48).

(** The rest of a digit part, [("_"? digit)*]: the digits read so far as a
    number, how many there are, and the text left. *)
Fixpoint more_digits (acc : Z) (n : nat) (s : string) : Z * nat * string :=
  match s with
  | String c r =>
      if is_digit c then more_digits (10 * acc + digit_value c) (S n) r
      else if Ascii.eqb c "_" then
        match r with
        | String d r' =>
            if is_digit d then more_digits (10 * acc + digit_value d) (S n) r'
            else (acc, n, s)
        | EmptyString => (acc, n, s)
        end
      else (acc, n, s)
  | EmptyString => (acc, n, s)
  end.

(** A digit part, [digit ("_"? digit)*]. *)
Definition digit_part (s : string) : option (Z * nat * string) :=
  match s with
  | String c r => if is_digit c then Some (more_digits (digit_value c) 1 r) else None
  | EmptyString => None
  end.

(** An optional sign: [true] for a minus. *)
Definition sign_of (s : string) : bool * string :=
  match s with
  | String "-" r => (true, r)
  | String "+" r => (false, r)
  | _ => (false, s)
  end.

(** The point and the digits after it, when there are any. *)
Definition fraction_of (s : string) : Z * nat * string :=
  match s with
  | String "." r =>
      match digit_part r with
      | Some found => found
      | None => (0%Z, 0, r)
      end
  | _ => (0%Z, 0, s)
  end.

(** [\[eE\] sign? digitpart] at the end of a literal: the exponent. *)
Definition exponent_of (s : string) : option Z :=
  match s with
  | EmptyString => Some 0%Z
  | String c r =>
      if Ascii.eqb c "e" || Ascii.eqb c "E" then
        let (negative, r') := sign_of r in
        match digit_part r' with
        | Some (e, _, EmptyString) => Some (if negative then - e else e)%Z
        | _ => None
        end
      else None
  end.

Definition pow10 (e : Z) : Q :=
  match e with
  | Z0 => 1%Q
  | Zpos p => inject_Z (10 ^ Zpos p)
  | Zneg p => (1 # Z.to_pos (10 ^ Zpos p))%Q
  end.

(** A decimal literal without its sign: digits before or after the point,
    at least one of them, and an optional exponent. *)
Definition unsigned_float (s : string) : option Q :=
  let '(whole, n_whole, after_whole) :=
    match digit_part s with
    | Some found => found
    | None => (0%Z, 0, s)
    end in
  let '(frac, n_frac, after_frac) := fraction_of after_whole in
  if Nat.eqb (n_whole + n_frac) 0 then None else
  match exponent_of after_frac with
  | Some e =>
      Some ((inject_Z whole + inject_Z frac * pow10 (- Z.of_nat n_frac)) * pow10 e)%Q
  | None => None
  end.

(** The number a literal of [float] denotes, before it is rounded to a
    double; [None] when the text is no literal. *)
Definition decimal_literal (s : string) : option pyfloat :=
  let (negative, body) := sign_of (strip s) in
  let word := lower body in
  if String.eqb word "inf" || String.eqb word "infinity" then Some (Infinity negative)
  else if String.eqb word "nan" then Some NotANumber
  else
    match unsigned_float body with
    | Some q => Some (Finite (if negative then - q else q)%Q)
    | None => None
    end.

(** *** Doubles *)

(** [N / D] rounded to the nearest integer, to the even one of two that
    are equally near. *)
Definition round_half_even (N D : Z) : Z :=
  let m := (N / D)%Z in
  let r := (N mod D)%Z in
  match (2 * r ?= D)%Z with
  | Lt => m
  | Gt => (m + 1)%Z
  | Eq => if Z.even m then m else (m + 1)%Z
  end.

(** The double nearest to [n / d], for [n > 0]: [E] is the binary exponent
    of the quotient, the significand has 53 bits (fewer below [2 ^ -1022],
    where the doubles are the multiples of [2 ^ -1074]), and what rounds to
    [2 ^ 1024] or more is the infinity. *)
Definition round_positive (n : Z) (d : positive) : pyfloat :=
  let e0 := (Z.log2 n - Z.log2 (Zpos d))%Z in
  let reaches :=
    if (0 <=? e0)%Z then (Zpos d * 2 ^ e0 <=? n)%Z
    else (Zpos d <=? n * 2 ^ (- e0))%Z in
  let E := if reaches then e0 else (e0 - 1)%Z in
  let u := Z.max (E - 52) (-1074) in
  let m :=
    if (0 <=? u)%Z then round_half_even n (Zpos d * 2 ^ u)
    else round_half_even (n * 2 ^ (- u)) (Zpos d) in
  if (1024 <=? (if (m =? 2 ^ 53)%Z then E + 1 else E))%Z then Infinity false
  else Finite (if (0 <=? u)%Z then inject_Z (m * 2 ^ u)
               else Qred (m # Z.to_pos (2 ^ (- u)))).

Definition fneg (x : pyfloat) : pyfloat :=
  match x with
  | Finite q => Finite (- q)%Q
  | Infinity negative => Infinity (negb negative)
  | NotANumber => NotANumber
  end.

(** The double a real number is rounded to: the result of reading a
    literal and of every operation on doubles. *)
Definition round_to_double (q : Q) : pyfloat :=
  let q := Qred q in
  match Qnum q with
  | Z0 => Finite 0
  | Zpos _ => round_positive (Qnum q) (Qden q)
  | Zneg p => fneg (round_positive (Zpos p) (Qden q))
  end.

(** [float(s)]; [None] is a [ValueError]. *)
Definition float_of_string (s : string) : option pyfloat :=
  match decimal_literal s with
  | Some (Finite q) => Some (round_to_double q)
  | other => other
  end.

(** [x * k] for a constant [k > 0], and [x + y]. *)
Definition fscale (x : pyfloat) (k : Q) : pyfloat :=
  match x with
  | Finite q => round_to_double (q * k)
  | other => other
  end.

Definition fadd (x y : pyfloat) : pyfloat :=
  match x, y with
  | NotANumber, _ | _, NotANumber => NotANumber
  | Finite p, Finite q => round_to_double (p + q)
  | Infinity a, Infinity b => if Bool.eqb a b then Infinity a else NotANumber
  | Infinity a, Finite _ | Finite _, Infinity a => Infinity a
  end.

(** [int(x)] of a float: the fraction is cut off. *)
Definition int_of_float (x : pyfloat) : result Z :=
  match x with
  | Finite q => Ok (Z.quot (Qnum q) (Zpos (Qden q)))
  | Infinity _ => Raise OverflowError
  | NotANumber => Raise (ValueError "cannot convert float NaN to integer")
  end.

(** [int(s)] of text; [None] is a [ValueError]. *)
Definition int_of_string (s : string) : option Z :=
  let (negative, body) := sign_of (strip s) in
  match digit_part body with
  | Some (n, _, EmptyString) => Some (if negative then - n else n)%Z
  | _ => None
  end.

End PyNum.

(* ================================================================== *)
(** ** src/data_processing/importers.py (the duration reader) *)

Module Importers.
Import PyStr PyNum.

(** The body of the [try] of [convert_duration_to_seconds]; [None] is an
    exception. *)
Definition duration_seconds (duration_str : string) : option Z :=
  match split ":" duration_str with
  | [h; m; s] =>
      match int_of_string h, int_of_string m, int_of_string s with
      | Some h, Some m, Some s => Some (h * 3600 + m * 60 + s)%Z
      | _, _, _ => None
      end
  | [m; s] =>
      match int_of_string m, int_of_string s with
      | Some m, Some s => Some (m * 60 + s)%Z
      | _, _ => None
      end
  | _ => Some 0%Z
  end.

(** [convert_duration_to_seconds]: a value that is not text gives 0, and so
    does any exception. *)
Definition convert_duration_to_seconds (duration_str : cell) : Z :=
  match duration_str with
  | VStr s =>
      match duration_seconds s with
      | Some seconds => seconds
      | None => 0%Z
      end
  | _ => 0%Z
  end.

End Importers.

(* ================================================================== *)
(** ** src/analysis/metrics.py: [parse_duration] *)

Module Durations.
Import PyStr PyNum.

(** [float(part)]. *)
Definition to_float (part : string) : result pyfloat :=
  match float_of_string part with
  | Some x => Ok x
  | None => Raise (ValueError "could not convert string to float")
  end.

(** [parse_duration]; a missing value is [None]. *)
Definition parse_duration (duration_str : option string) : result Z :=
  match duration_str with
  | None => Ok 0%Z
  | Some text =>
      if String.eqb text "" then Ok 0%Z else
      match split ":" text with
      | [h; m; s] =>
          hours <- to_float h ;;
          minutes <- to_float m ;;
          seconds <- to_float s ;;
          int_of_float (fadd (fadd (fscale hours 3600) (fscale minutes 60)) seconds)
      | [m; s] =>
          minutes <- to_float m ;;
          seconds <- to_float s ;;
          int_of_float (fadd (fscale minutes 60) seconds)
      | first :: _ =>
          x <- to_float first ;;
          int_of_float x
      | [] => Ok 0%Z
      end
  end.

End Durations.

(* ================================================================== *)
(** ** config/alert_weights.py *)

Module AlertWeights.

Definition ALERT_WEIGHTS : list (string * Z) :=
  [ ("Harsh Braking", -5); ("Harsh Cornering", -3); ("Harsh Acceleration", -4);
    ("Speeding Over", -7); ("Engine Idle", -2); ("After Hours", -6) ]%Z.

Definition DRIVING_SCORE_THRESHOLDS : list (string * Z) :=
  [ ("EXCELLENT", 90); ("GOOD", 75); ("AVERAGE", 60); ("BELOW_AVERAGE", 40);
    ("POOR", 0) ]%Z.

End AlertWeights.

(* ================================================================== *)
(** ** pandas.cut *)

Module Pandas.

Fixpoint increasing (bins : list Q) : bool :=
  match bins with
  | a :: ((b :: _) as rest) => Qle_bool a b && increasing rest
  | _ => true
  end.

Fixpoint distinct_edges (bins : list Q) : bool :=
  match bins with
  | a :: ((b :: _) as rest) => negb (Qeq_bool a b) && distinct_edges rest
  | _ => true
  end.

(** The label of the interval [(lo, hi\]] that holds [x]. *)
Fixpoint bin_label (x : Q) (bins : list Q) (labels : list string) : cell :=
  match bins, labels with
  | lo :: ((hi :: _) as rest), label :: labels' =>
      if Qlt_bool lo x && Qle_bool x hi then VStr label
      else bin_label x rest labels'
  | _, _ => NA
  end.

(** [pd.cut(x, bins=bins, labels=labels, right=True)] for a list of edges:
    the edges must not decrease, must be distinct, and there must be one
    label per interval; a value outside every interval is missing. *)
Definition cut (x : list Q) (bins : list Q) (labels : list string) : result (list cell) :=
  if negb (increasing bins) then
    Raise (ValueError "bins must increase monotonically.")
  else if negb (distinct_edges bins) then
    Raise (ValueError "Bin edges must be unique")
  else if negb (Nat.eqb (S (List.length labels)) (List.length bins)) then
    Raise (ValueError "Bin labels must be one fewer than the number of bin edges")
  else Ok (map (fun v => bin_label v bins labels) x).

End Pandas.

(* ================================================================== *)
(** ** src/analysis/metrics.py: [calculate_driving_metrics] *)

Module Driving.
Import Mapping AlertWeights.

(** Insertion of a label into a sorted list without repeats, as the sorted
    keys of a [groupby] are. *)
Fixpoint insert_sorted (x : string) (xs : list string) : list string :=
  match xs with
  | [] => [x]
  | y :: rest =>
      if String.eqb x y then xs
      else if String.ltb x y then x :: xs
      else y :: insert_sorted x rest
  end.

Definition sorted_unique (xs : list string) : list string :=
  fold_right insert_sorted [] xs.

(** The text of a key cell; the technician codes and the alert types are
    text, and a missing key drops out of a [groupby]. *)
Definition label_of (c : cell) : option string :=
  match c with VStr s => Some s | _ => None end.

Definition labels_of (col : string) (rs : list row) : list string :=
  flat_map (fun r : row => match label_of (r col) with Some s => [s] | None => [] end) rs.

Definition has_label (col label : string) (r : row) : bool :=
  match label_of (r col) with Some s => String.eqb s label | None => false end.

(** [merged_alerts.groupby(['TechCode', 'AlertType']).size().unstack(fill_value=0)]:
    one row per technician that has an alert, one column per alert type
    that occurs, both sorted. The technician is the index of this frame
    and not one of its columns; the row holds the index under [TechCode],
    where [reset_index] finds it. *)
Definition alert_count_table (merged_alerts : list row) : DataFrame :=
  let counted :=
    filter (fun r : row => negb (isna (r "TechCode")) && negb (isna (r "AlertType")))
      merged_alerts in
  let alert_types := sorted_unique (labels_of "AlertType" counted) in
  let techs := sorted_unique (labels_of "TechCode" counted) in
  {| columns := alert_types;
     rows :=
       map
         (fun tech : string => fun c : string =>
            if String.eqb c "TechCode" then VStr tech
            else if has_col c alert_types
                 then VInt (Z.of_nat (List.length
                        (filter (fun r => has_label "TechCode" tech r
                                          && has_label "AlertType" c r) counted)))
                 else NA)
         techs |}.

(** The alert type columns: every column but [TotalAlerts]. *)
Definition alert_type_cols (cols : list string) : list string :=
  filter (fun c => negb (String.eqb c "TotalAlerts")) cols.

Definition weight_of (alert_type : string) : Z :=
  match dict_get ALERT_WEIGHTS alert_type with
  | Some w => w
  | None => 0%Z
  end.

(** [sum(alert_counts[t] * ALERT_WEIGHTS.get(t, 0) for t in ...)] for one
    row. *)
Definition weighted_sum (alert_types : list string) (r : row) : Z :=
  fold_right (fun t acc => (num_of (r t) * weight_of t + acc)%Z) 0%Z alert_types.

(** [sum(ALERT_WEIGHTS.values()) * 100]. *)
Definition max_possible_bad_score : Z :=
  (fold_right (fun kv acc => snd kv + acc) 0 ALERT_WEIGHTS * 100)%Z.

Definition clip (lo hi x : Q) : Q := Qmin hi (Qmax lo x).

(** [100 - (WeightedScore / max_possible_bad_score * 100)], clipped to
    [0, 100]. *)
Definition driving_score (weighted_score : Z) : Q :=
  clip 0 100
    (100 - inject_Z weighted_score / inject_Z max_possible_bad_score * 100)%Q.

(** The bins and labels handed to [pd.cut]. *)
Definition category_bins : list Q :=
  (0 :: map (fun kv => inject_Z (snd kv)) DRIVING_SCORE_THRESHOLDS ++ [100])%Q%list.

Definition category_labels : list string :=
  (map fst DRIVING_SCORE_THRESHOLDS ++ ["Excellent"])%list.

Definition driving_category (scores : list Q) : result (list cell) :=
  Pandas.cut scores category_bins category_labels.

(** The columns left of the technician frame and the key the alerts are
    merged on. *)
Definition join_key (tech_cols alert_cols : list string) : result string :=
  if has_col "DeviceId" alert_cols then Ok "DeviceId"
  else
    match filter (fun id_col => has_col id_col alert_cols && has_col id_col tech_cols)
            [ "VehicleId"; "UnitId"; "TrackerName" ] with
    | id_col :: _ => Ok id_col
    | [] => Raise (ValueError "No matching ID column found between tech data and alerts")
    end.

(** [alert_counts.reset_index()]: the index becomes the first column,
    named [TechCode] as the index is; pandas refuses to insert it when a
    column has that name already. *)
Definition reset_index (alert_counts : DataFrame) : result DataFrame :=
  if has_col "TechCode" (columns alert_counts)
  then Raise (ValueError "cannot insert TechCode, already exists")
  else Ok {| columns := "TechCode" :: columns alert_counts;
             rows := rows alert_counts |}.

(** [calculate_driving_metrics]; what it returns is the frame after
    [reset_index], on either path. *)
Definition calculate_driving_metrics (tech_df alert_df : DataFrame) : result DataFrame :=
  if negb (has_col "TechCode" (columns tech_df) && has_col "DeviceId" (columns tech_df))
  then Raise (ValueError "Tech data must have TechCode and DeviceId columns") else
  id_col <- join_key (columns tech_df) (columns alert_df) ;;
  (* a TechCode column of the alerts would be renamed by the merge *)
  if has_col "TechCode" (columns alert_df) then Raise (KeyError "TechCode") else
  if negb (has_col "AlertType" (columns alert_df)) then Raise (KeyError "AlertType") else
  let merged_alerts :=
    Integrator.merge_left
      (fun alert tech => cell_eqb (alert id_col) (tech id_col))
      (fun alert tech =>
         set_col "TechCode" (match tech with Some t => t "TechCode" | None => NA end) alert)
      (rows alert_df) (rows tech_df) in
  let alert_counts := alert_count_table merged_alerts in
  let alert_types := columns alert_counts in
  let alert_counts :=
    assign "TotalAlerts"
      (fun r => VInt (fold_right (fun t acc => (num_of (r t) + acc)%Z) 0%Z alert_types))
      alert_counts in
  let scored := alert_type_cols (columns alert_counts) in
  if forallb (fun t => has_col t (map fst ALERT_WEIGHTS)) scored then
    let alert_counts :=
      assign "WeightedScore" (fun r => VInt (weighted_sum scored r)) alert_counts in
    let alert_counts :=
      assign "DrivingScore"
        (fun r => VFloat (driving_score (num_of (r "WeightedScore")))) alert_counts in
    categories <-
      driving_category
        (map (fun r : row => driving_score (num_of (r "WeightedScore"))) (rows alert_counts)) ;;
    reset_index
      {| columns := (columns alert_counts ++ ["DrivingCategory"])%list;
         rows := map (fun rc : row * cell => set_col "DrivingCategory" (snd rc) (fst rc))
                   (combine (rows alert_counts) categories) |}
  else reset_index alert_counts.

End Driving.

(* ================================================================== *)
(** ** src/analysis/metrics.py: [calculate_tech_revenue_metrics] *)

Module Revenue.
Import PyStr.

(** The two generators of the process: the one of Python's [random] module
    and NumPy's global one. *)
Record generators : Type := mkGens {
  py_random : Random.generator;
  np_random : Random.generator
}.

(** One row of the technician metrics. *)
Record TechMetrics : Type := mkMetrics {
  TechCode : cell;
  TotalJobs : Z;
  TotalLabor : Q;
  TotalParts : Q;
  TotalServiceCalls : Q;
  TotalRevenue : Q;
  TotalPartCost : Q;
  TotalProfit : Q;
  AvgRevenuePerJob : Q;
  AvgProfitPerJob : Q;
  ProfitMargin : Q;
  PartMarkupPct : Q;
  SpecialOrderPartsCount : Z;
  StockPartsCount : Z;
  AvgLaborPerJob : Q;
  AvgPartsPerJob : Q;
  PartsToLaborRatio : Q;
  PartsTax : Q
}.

Definition PART_COST_COL : string :=
  "TtlPartCost (includes value of any unused items not returned to vendor)".

(** [pd.to_numeric(x, errors='coerce')] followed by [fillna(0)], on one
    cell: text is read as a number when it is one. *)
Definition to_numeric_or_zero (c : cell) : Q :=
  match c with
  | VInt z => inject_Z z
  | VFloat q => q
  | VBool b => inject_Z (if b then 1 else 0)
  | VStr s =>
      match PyNum.decimal_literal s with
      | Some (PyNum.Finite q) => q
      | _ => 0%Q
      end
  | NA => 0%Q
  end.

Definition Qsum (xs : list Q) : Q := fold_right Qplus 0%Q xs.

(** [df['TechCode'].value_counts()]: the distinct codes that are not
    missing with the number of their rows, the most frequent first and
    codes of equal frequency in the order of their first rows. *)
Fixpoint insert_by_count (entry : cell * nat) (sorted : list (cell * nat)) : list (cell * nat) :=
  match sorted with
  | [] => [entry]
  | e :: rest =>
      if Nat.leb (snd e) (snd entry) then entry :: sorted
      else e :: insert_by_count entry rest
  end.

(** The distinct values of a column, each where it occurs first. *)
Fixpoint distinct_from (seen : list cell) (cs : list cell) : list cell :=
  match cs with
  | [] => []
  | c :: rest =>
      if existsb (cell_eqb c) seen then distinct_from seen rest
      else c :: distinct_from (c :: seen) rest
  end.

Definition value_counts (codes : list cell) : list (cell * nat) :=
  let present := filter (fun c => negb (isna c)) codes in
  fold_right insert_by_count []
    (map (fun c => (c, List.length (filter (cell_eqb c) present)))
       (distinct_from [] present)).

(** The columns whose name contains [Usage]. *)
Definition part_usage_cols (cols : list string) : list string :=
  filter (contains "Usage") cols.

Definition count_usage (usage_cols : list string) (value : string) (r : row) : Z :=
  Z.of_nat (List.length (filter (fun col => py_eq (r col) (VStr value)) usage_cols)).

Section Frames.

Variable float_repr : Q -> string.

(** The state NumPy's generator is in after [np.random.seed(s)]. *)
Variable np_seeded : Z -> Random.generator.

(** The first loop: [tech_tiers\[tech\] = random.randint(1, 5)]. *)
Fixpoint draw_tiers (techs : list (cell * nat)) (g : Random.generator)
  : list Z * Random.generator :=
  match techs with
  | [] => ([], g)
  | _ :: rest =>
      let (tier, g1) := Random.randint 1 5 g in
      let (tiers, g2) := draw_tiers rest g1 in
      (tier :: tiers, g2)
  end.

(** One turn of the second loop. [tech_rows] are the rows of the technician
    in the frame. The amounts are worked out in the rationals: they are
    the numbers the expressions of the code denote, which the doubles of
    the code follow up to the rounding of each operation, so that an
    equation between the amounts of a row holds here where the doubles
    may differ in the last place. *)
Definition tech_row (has_part_cost has_usage_data : bool) (usage_cols : list string)
    (df_rows : list row) (tech : cell) (jobs : nat) (tier : Z) (g : Random.generator)
  : TechMetrics * Random.generator :=
  let base_rate := 225%Q in
  let tier_multiplier := ((8 # 10) + inject_Z tier * (1 # 10))%Q in
  let avg_job_value := (base_rate * tier_multiplier)%Q in
  let (variation, g) := Random.uniform (- (1 # 10)) (1 # 10) g in
  let avg_job_value := (avg_job_value * (1 + variation))%Q in
  let total_revenue := (avg_job_value * inject_Z (Z.of_nat jobs))%Q in
  let (labor_pct, g) := Random.uniform (4 # 10) (6 # 10) g in
  let (parts_pct, g) := Random.uniform (25 # 100) (45 # 100) g in
  let service_pct := (1 - labor_pct - parts_pct)%Q in
  let labor := (total_revenue * labor_pct)%Q in
  let parts := (total_revenue * parts_pct)%Q in
  let service := (total_revenue * service_pct)%Q in
  let tech_rows := filter (fun r : row => py_eq (r "TechCode") tech) df_rows in
  let part_cost_sum := Qsum (map (fun r : row => to_numeric_or_zero (r PART_COST_COL)) tech_rows) in
  let real_cost := has_part_cost && Qlt_bool 0 part_cost_sum in
  let (part_cost, g) :=
    if real_cost then (part_cost_sum, g)
    else let (share, g') := Random.uniform (4 # 10) (6 # 10) g in ((parts * share)%Q, g') in
  let markup_pct :=
    if Qlt_bool 0 part_cost then ((parts - part_cost) / part_cost * 100)%Q else 0%Q in
  let counted := real_cost && has_usage_data in
  let profit := (total_revenue - part_cost)%Q in
  let profit_margin :=
    if Qlt_bool 0 total_revenue then (profit / total_revenue * 100)%Q else 0%Q in
  let n := inject_Z (Z.of_nat jobs) in
  ({| TechCode := tech;
      TotalJobs := Z.of_nat jobs;
      TotalLabor := labor;
      TotalParts := parts;
      TotalServiceCalls := service;
      TotalRevenue := total_revenue;
      TotalPartCost := part_cost;
      TotalProfit := profit;
      AvgRevenuePerJob := (total_revenue / n)%Q;
      AvgProfitPerJob := (profit / n)%Q;
      ProfitMargin := profit_margin;
      PartMarkupPct := markup_pct;
      SpecialOrderPartsCount :=
        if counted
        then fold_right Z.add 0%Z (map (count_usage usage_cols "via S/O") tech_rows)
        else 0%Z;
      StockPartsCount :=
        if counted
        then fold_right Z.add 0%Z (map (count_usage usage_cols "from stock") tech_rows)
        else 0%Z;
      AvgLaborPerJob := (labor / n)%Q;
      AvgPartsPerJob := (parts / n)%Q;
      PartsToLaborRatio := (parts / labor)%Q;
      PartsTax := (parts * (1 # 10))%Q |},
   g).

Fixpoint tech_rows_loop (has_part_cost has_usage_data : bool) (usage_cols : list string)
    (df_rows : list row) (techs : list (cell * nat)) (tiers : list Z)
    (g : Random.generator) : list TechMetrics * Random.generator :=
  match techs, tiers with
  | (tech, jobs) :: techs', tier :: tiers' =>
      let (m, g1) := tech_row has_part_cost has_usage_data usage_cols df_rows tech jobs tier g in
      let (ms, g2) := tech_rows_loop has_part_cost has_usage_data usage_cols df_rows techs' tiers' g1 in
      (m :: ms, g2)
  | _, _ => ([], g)
  end.

(** [calculate_tech_revenue_metrics]: the metrics and the generators as the
    call leaves them. *)
Definition calculate_tech_revenue_metrics (tech_jobs_df : DataFrame) (w : generators)
  : result (list TechMetrics) * generators :=
  let cols := columns tech_jobs_df in
  let with_code : result (list row) :=
    if has_col "TechCode" cols then Ok (rows tech_jobs_df)
    else if has_col "Technician" cols
    then Ok (map (fun r : row => set_col "TechCode" (VStr (py_str float_repr (r "Technician"))) r)
               (rows tech_jobs_df))
    else Raise (ValueError
           "Missing required TechCode column and no Technician column to use as substitute") in
  match with_code with
  | Raise e => (Raise e, w)
  | Ok df_rows =>
      let tech_counts := value_counts (map (fun r : row => r "TechCode") df_rows) in
      let has_part_cost := has_col PART_COST_COL cols in
      let usage_cols := part_usage_cols cols in
      let has_usage_data := Nat.ltb 0 (List.length usage_cols) in
      (* np.random.seed(42) *)
      let np := np_seeded 42 in
      let (tiers, g) := draw_tiers tech_counts (py_random w) in
      let (tech_metrics, g) :=
        tech_rows_loop has_part_cost has_usage_data usage_cols df_rows tech_counts tiers g in
      (Ok tech_metrics, {| py_random := g; np_random := np |})
  end.

End Frames.

End Revenue.

(* ================================================================== *)
(** ** src/analysis/classifier.py *)

Module Classifier.
Import TextMining.

(** [df.loc\[mask, c\] = v]: the rows the mask selects get [v] under [c]. *)
Definition loc_set (mask : row -> bool) (c : string) (v : cell) (df : DataFrame)
  : DataFrame :=
  {| columns := columns df;
     rows := map (fun r => if mask r then set_col c v r else r) (rows df) |}.

(** [df\[c\] == True]. *)
Definition is_true (c : string) (r : row) : bool := py_eq (r c) (VBool true).

(** [pd.notna(x) & (x > 0)] on an amount: a number, or missing. *)
Definition is_positive (x : cell) : bool :=
  match as_number x with
  | Some q => Qlt_bool 0 q
  | None => false
  end.

Definition CLOSED_STATUS : list string := [ "Completed"; "Archived"; "Closed" ].

(** [classify_ftc_jobs]. *)
Definition classify_ftc_jobs (df : DataFrame) : DataFrame :=
  let result_df := assign "Is_FTC" (fun _ => VBool false) df in
  let result_df :=
    if has_col "CompletedOnFirstTrip" (columns result_df)
    then loc_set (is_true "CompletedOnFirstTrip") "Is_FTC" (VBool true) result_df
    else result_df in
  let result_df :=
    if has_col "HowManyVisits" (columns result_df) && has_col "Status" (columns result_df)
    then loc_set
           (fun r => py_eq (r "HowManyVisits") (VInt 1)
                     && str_contains CLOSED_STATUS (r "Status"))
           "Is_FTC" (VBool true) result_df
    else result_df in
  if has_col "JobCanceled" (columns result_df)
  then loc_set (is_true "JobCanceled") "Is_FTC" (VBool false) result_df
  else result_df.

Definition diagnostic_keywords : list string :=
  [ "diagnostic"; "diagnose"; "diagnosis"; "quote"; "quoted"; "estimate";
    "not worth"; "too expensive"; "declined repair"; "customer declined";
    "cust declined" ].

(** The loop over the keywords: one assignment per keyword. *)
Definition flag_keywords (keywords : list string) (text_col flag : string)
    (df : DataFrame) : DataFrame :=
  fold_left
    (fun df keyword =>
       loc_set (fun r => str_contains [keyword] (r text_col)) flag (VBool true) df)
    keywords df.

(** [classify_diagnostic_only]. *)
Definition classify_diagnostic_only (df : DataFrame) : DataFrame :=
  let result_df := assign "Is_DiagnosticOnly" (fun _ => VBool false) df in
  let result_df :=
    if has_col "TotalMaterialInSale" (columns result_df)
       && has_col "SCallSold" (columns result_df)
    then loc_set
           (fun r => py_eq (r "TotalMaterialInSale") (VInt 0)
                     && is_positive (r "SCallSold"))
           "Is_DiagnosticOnly" (VBool true) result_df
    else result_df in
  if has_col "WorkDescription" (columns result_df)
  then flag_keywords diagnostic_keywords "WorkDescription" "Is_DiagnosticOnly" result_df
  else result_df.

Definition recall_keywords : list string :=
  [ "recall"; "safety notice"; "safety alert"; "manufacturer notice";
    "service bulletin"; "factory recall"; "warranty recall" ].

(** [classify_recalls]. *)
Definition classify_recalls (df : DataFrame) : DataFrame :=
  let result_df := assign "Is_Recall" (fun _ => VBool false) df in
  let result_df :=
    if has_col "WorkDescription" (columns result_df)
    then flag_keywords recall_keywords "WorkDescription" "Is_Recall" result_df
    else result_df in
  if has_col "Department" (columns result_df)
  then loc_set (fun r => str_contains ["recall"] (r "Department")) "Is_Recall"
         (VBool true) result_df
  else result_df.

(** [df.loc\[df\[c\], ...\]]: the rows in which the flag is set. *)
Definition flagged (c : string) (r : row) : bool :=
  match r c with VBool b => b | _ => false end.

(** [classify_all_jobs]. *)
Definition classify_all_jobs (df : DataFrame) : DataFrame :=
  let result_df := classify_ftc_jobs df in
  let result_df := classify_diagnostic_only result_df in
  let result_df := classify_recalls result_df in
  let result_df := assign "JobType" (fun _ => VStr "Standard Repair") result_df in
  let result_df :=
    loc_set (flagged "Is_DiagnosticOnly") "JobType" (VStr "Diagnostic Only") result_df in
  let result_df := loc_set (flagged "Is_Recall") "JobType" (VStr "Recall") result_df in
  if has_col "JobCanceled" (columns result_df)
  then loc_set (is_true "JobCanceled") "JobType" (VStr "Canceled") result_df
  else result_df.

End Classifier.

(* ================================================================== *)
(** ** src/analysis/text_mining.py: [extract_time_on_job] *)

Module TimeOnJob.
Import PyStr PyNum.

(** The digits [s] starts with, and the rest: [\d*], which takes as many
    digits as there are. *)
Fixpoint digits_run (s : string) : string * string :=
  match s with
  | String c r =>
      if is_digit c then let (digits, rest) := digits_run r in (String c digits, rest)
      else (EmptyString, s)
  | EmptyString => (EmptyString, EmptyString)
  end.

(** The group of a pattern at the start of [s], and the text after it:
    one or more digits, and for a pattern that takes a fraction an
    optional point and any number of digits after them. The quantifiers
    are greedy, and no shorter choice can make the rest of one of the
    patterns below match: what follows the group in them starts with a
    blank or a letter, and a shorter choice leaves a digit or a point in
    front. *)
Definition number_at (with_fraction : bool) (s : string) : option (string * string) :=
  match digits_run s with
  | (EmptyString, _) => None
  | (whole, rest) =>
      if with_fraction then
        match rest with
        | String "." after_point =>
            let (fraction, rest') := digits_run after_point in
            Some (whole ++ "." ++ fraction, rest')
        | _ => Some (whole, rest)
        end
      else Some (whole, rest)
  end.

(** A pattern: whether its group takes a fraction, whether [\s*] stands
    between the group and the unit, and the unit. *)
Record pattern : Type := mkPattern {
  with_fraction : bool;
  with_blanks : bool;
  unit_word : string
}.

(** The group of a match of the pattern that starts at the start of [s]. *)
Definition match_here (p : pattern) (s : string) : option string :=
  match number_at (with_fraction p) s with
  | Some (group, rest) =>
      let rest := if with_blanks p then drop (count_space rest) rest else rest in
      if startswith (unit_word p) rest then Some group else None
  | None => None
  end.

(** [re.findall(pattern, s)\[0\]]: the group of the leftmost match. *)
Fixpoint first_match (p : pattern) (s : string) : option string :=
  match match_here p s with
  | Some group => Some group
  | None =>
      match s with
      | String _ rest => first_match p rest
      | EmptyString => None
      end
  end.

Definition hour_patterns : list pattern :=
  [ mkPattern true true "hour"; mkPattern true true "hr"; mkPattern false false "h" ].

Definition minute_patterns : list pattern :=
  [ mkPattern false true "min"; mkPattern false false "m" ].

(** [float(matches\[0\])]. A group is digits with at most one point in
    them, so it is neither an infinity nor not-a-number. The number is
    the one the group denotes, taken before it is rounded to a double. *)
Definition to_float (group : string) : result Q :=
  match decimal_literal group with
  | Some (Finite q) => Ok q
  | Some _ => Ok 0%Q
  | None => Raise (ValueError "could not convert string to float")
  end.

(** The loop over the patterns: the number of the first pattern that
    matches somewhere, 0 when none does. *)
Fixpoint first_pattern (patterns : list pattern) (description : string) : result Q :=
  match patterns with
  | [] => Ok 0%Q
  | p :: rest =>
      match first_match p description with
      | Some group => to_float group
      | None => first_pattern rest description
      end
  end.

(** [extract_time_on_job]; a missing description is [None], and so is the
    answer when no time is found. *)
Definition extract_time_on_job (description : option string) : result (option Q) :=
  match description with
  | None => Ok None
  | Some text =>
      if String.eqb text "" then Ok None else
      let description := lower text in
      hours <- first_pattern hour_patterns description ;;
      minutes <- first_pattern minute_patterns description ;;
      let total_minutes := (hours * 60 + minutes)%Q in
      if Qeq_bool total_minutes 0 then Ok None else Ok (Some total_minutes)
  end.

End TimeOnJob.

(* ================================================================== *)
(** ** src/data_processing/integrator.py: [add_alert_data_to_techs] *)

Module TechAlerts.
Import PyStr.

(** [alert_type.replace(" ", "_")]. *)
Definition underscored (alert_type : string) : string :=
  map_chars (fun c => if Ascii.eqb c " " then "_"%char else c) alert_type.

Definition alert_col (alert_type : string) : string := "Alert_" ++ underscored alert_type.

(** The alert types of a list of alerts, when every one of them is text;
    [None] when one is not: [alert_type.replace] is a method of strings
    only, and the loop over [alert_df\['Alert'\].unique()] raises
    [AttributeError] on a missing value or a number. *)
Fixpoint alert_types_of (alerts : list row) : option (list string) :=
  match alerts with
  | [] => Some []
  | a :: rest =>
      match a "Alert", alert_types_of rest with
      | VStr t, Some ts => Some (t :: ts)
      | _, _ => None
      end
  end.

(** The alerts of the device of a technician: [alert_counts\['Device'\] ==
    tech\['Device'\]]. *)
Definition device_alerts (alert_rows : list row) (tech : row) : list row :=
  filter (fun a : row => py_eq (a "Device") (tech "Device")) alert_rows.

Definition count_of (alert_type : string) (alerts : list row) : Z :=
  Z.of_nat (List.length
              (filter (fun a : row => cell_eqb (a "Alert") (VStr alert_type)) alerts)).

(** The body of the loop over the technicians: the counts of the device's
    alert types are written in the order of the groups, the types sorted,
    and then the total. *)
Definition with_alert_counts (alert_rows : list row) (tech : row) : row :=
  let alerts := device_alerts alert_rows tech in
  let types := Driving.sorted_unique (Driving.labels_of "Alert" alerts) in
  let counted :=
    fold_left (fun r t => set_col (alert_col t) (VInt (count_of t alerts)) r) types tech in
  set_col "Total_Alerts" (VInt (Z.of_nat (List.length alerts))) counted.

(** [add_alert_data_to_techs]; [None] stands for an exception: [KeyError]
    when the alerts have no [Alert] or no [Device] column or the
    technicians no [Device] column, [AttributeError] when an alert type is
    not text. *)
Definition add_alert_data_to_techs (tech_df alert_df : DataFrame) : option DataFrame :=
  if negb (has_col "Alert" (columns alert_df)) then None else
  match alert_types_of (rows alert_df) with
  | None => None
  | Some alert_types =>
      let result_df :=
        fold_left
          (fun df t =>
             if has_col (alert_col t) (columns df) then df
             else assign (alert_col t) (fun _ => VInt 0) df)
          alert_types tech_df in
      let result_df :=
        if has_col "Total_Alerts" (columns result_df) then result_df
        else assign "Total_Alerts" (fun _ => VInt 0) result_df in
      if negb (has_col "Device" (columns alert_df)) then None else
      match rows result_df with
      | [] => Some result_df
      | _ :: _ =>
          if negb (has_col "Device" (columns result_df)) then None else
          Some {| columns := columns result_df;
                  rows := map (with_alert_counts (rows alert_df)) (rows result_df) |}
      end
  end.

End TechAlerts.

(* ================================================================== *)
(** ** src/analysis/metrics.py: [calculate_performance_metrics] and
       [calculate_cancellation_metrics] *)

Module GroupBy.
Import PyNum.

(** How a call ends: with a value, with the [ValueError] the functions
    raise themselves, or with an exception raised inside pandas (the sum
    or the quotient of a column that holds text, a merge key that is both
    an index level and a column). *)
Inductive outcome (A : Type) : Type :=
  | Returns (a : A)
  | RaisesValueError (msg : string)
  | RaisesInPandas.

Arguments Returns {A} a.
Arguments RaisesValueError {A} msg.
Arguments RaisesInPandas {A}.

(** [np.random.choice(\[True, False\], size=n, p=\[p, 1 - p\])]: one
    variate of NumPy's generator per value, [True] when it is below [p]. *)
Fixpoint np_choice (p : Q) (n : nat) (g : Random.generator)
  : list bool * Random.generator :=
  match n with
  | O => ([], g)
  | S n' =>
      let (u, g1) := Random.next g in
      let (flags, g2) := np_choice p n' g1 in
      (Qlt_bool u p :: flags, g2)
  end.

(** [df\[c\] = values], the values given row by row. *)
Definition assign_values (c : string) (values : list cell) (df : DataFrame) : DataFrame :=
  {| columns := if has_col c (columns df) then columns df else columns df ++ [c];
     rows := map (fun rv : row * cell => set_col c (snd rv) (fst rv))
               (combine (rows df) values) |}.

(** The technician column: [TechCode], or a copy of [Technician]. *)
Definition with_tech_code (df : DataFrame) : outcome DataFrame :=
  if has_col "TechCode" (columns df) then Returns df
  else if has_col "Technician" (columns df)
  then Returns (assign "TechCode" (fun r => r "Technician") df)
  else RaisesValueError "Missing required column: TechCode or Technician".

(** The job column: [JobId], or a copy of [JobNumber], or of
    [InvoiceNumber], or the positions of the rows. *)
Definition with_job_id (df : DataFrame) : DataFrame :=
  if has_col "JobId" (columns df) then df
  else if has_col "JobNumber" (columns df)
  then assign "JobId" (fun r => r "JobNumber") df
  else if has_col "InvoiceNumber" (columns df)
  then assign "JobId" (fun r => r "InvoiceNumber") df
  else assign_values "JobId"
         (map (fun i => VInt (Z.of_nat i)) (seq 0 (List.length (rows df)))) df.

(** The order of the keys of a [groupby]: numbers by their value, text by
    its characters, numbers before text. *)
Definition key_ltb (a b : cell) : bool :=
  match as_number a, as_number b with
  | Some p, Some q => Qlt_bool p q
  | Some _, None => true
  | None, Some _ => false
  | None, None =>
      match a, b with
      | VStr s, VStr t => String.ltb s t
      | _, _ => false
      end
  end.

Fixpoint insert_key (k : cell) (keys : list cell) : list cell :=
  match keys with
  | [] => [k]
  | y :: rest =>
      if cell_eqb k y then k :: rest
      else if key_ltb k y then k :: keys
      else y :: insert_key k rest
  end.

(** The keys of [groupby(col)]: the values of the column that are not
    missing, each once (as its first row has it) and sorted. *)
Definition group_keys (col : string) (rs : list row) : list cell :=
  fold_right insert_key []
    (filter (fun c => negb (isna c)) (map (fun r : row => r col) rs)).

(** The rows of a group. *)
Definition group_of (col : string) (key : cell) (rs : list row) : list row :=
  filter (fun r : row => cell_eqb (r col) key) rs.

(** ['count']: the cells of the group that are not missing. *)
Definition count_present (col : string) (rs : list row) : Z :=
  Z.of_nat (List.length (filter (fun r : row => negb (isna (r col))) rs)).

(** ['sum']: missing cells are skipped, [True] is 1 and [False] is 0.
    [None] when a cell of the group is text: the sum, or the quotient
    taken of it afterwards, is a [TypeError]. *)
Fixpoint sum_cells (cs : list cell) : option Q :=
  match cs with
  | [] => Some 0%Q
  | c :: rest =>
      match c, sum_cells rest with
      | _, None => None
      | VStr _, _ => None
      | NA, Some s => Some s
      | VInt z, Some s => Some (inject_Z z + s)%Q
      | VFloat q, Some s => Some (q + s)%Q
      | VBool b, Some s => Some (inject_Z (if b then 1 else 0) + s)%Q
      end
  end.

Definition sum_col (col : string) (rs : list row) : option Q :=
  sum_cells (map (fun r : row => r col) rs).

(** [a / n] on two columns of numbers: a division by zero is an infinity,
    or not a number when [a] is zero too. *)
Definition divide (a : Q) (n : Z) : pyfloat :=
  if (n =? 0)%Z then
    if Qeq_bool a 0 then NotANumber else Infinity (Qlt_bool a 0)
  else Finite (a / inject_Z n)%Q.

(** Every element of the list, when each of them is there. *)
Fixpoint all_some {A : Type} (xs : list (option A)) : option (list A) :=
  match xs with
  | [] => Some []
  | Some x :: rest =>
      match all_some rest with
      | Some ys => Some (x :: ys)
      | None => None
      end
  | None :: _ => None
  end.

End GroupBy.

(** *** [calculate_performance_metrics] *)

Module Performance.
Import PyNum GroupBy.

(** One row of the performance metrics; [TimeOnJob] holds the mean, the
    median, the minimum and the maximum of the times when the jobs have a
    [TimeOnJob] column. *)
Record PerformanceRow : Type := mkPerformance {
  TechCode : cell;
  TotalJobs : Z;
  FTC_Jobs : Q;
  DiagnosticOnly_Jobs : Q;
  FTC_Rate : pyfloat;
  DiagnosticOnly_Rate : pyfloat;
  TimeOnJob : option (cell * cell * cell * cell)
}.

Section Frames.

(** The four statistics pandas takes of the times of a group, [None] when
    it raises over them. *)
Variable time_statistics : list cell -> option (cell * cell * cell * cell).

Definition performance_row (with_time : bool) (df_rows : list row) (tech : cell)
  : option PerformanceRow :=
  let jobs := group_of "TechCode" tech df_rows in
  let total := count_present "JobId" jobs in
  match sum_col "Is_FTC" jobs, sum_col "Is_DiagnosticOnly" jobs with
  | Some ftc, Some diagnostic =>
      let counted :=
        mkPerformance tech total ftc diagnostic (divide ftc total) (divide diagnostic total) in
      if with_time then
        match time_statistics (map (fun r : row => r "TimeOnJob") jobs) with
        | Some statistics => Some (counted (Some statistics))
        | None => None
        end
      else Some (counted None)
  | _, _ => None
  end.

(** [calculate_performance_metrics]: the metrics, sorted by technician, and
    NumPy's generator as the call leaves it. The frame of the caller is
    not changed: the function works on a copy. *)
Definition calculate_performance_metrics (tech_jobs_df : DataFrame) (g : Random.generator)
  : outcome (list PerformanceRow) * Random.generator :=
  match with_tech_code tech_jobs_df with
  | RaisesValueError msg => (RaisesValueError msg, g)
  | RaisesInPandas => (RaisesInPandas, g)
  | Returns df =>
      let n := List.length (rows df) in
      let (df, g) :=
        if has_col "Is_FTC" (columns df) then (df, g)
        else let (flags, g) := np_choice (8 # 10) n g in
             (assign_values "Is_FTC" (map VBool flags) df, g) in
      let (df, g) :=
        if has_col "Is_DiagnosticOnly" (columns df) then (df, g)
        else let (flags, g) := np_choice (15 # 100) n g in
             (assign_values "Is_DiagnosticOnly" (map VBool flags) df, g) in
      let df := with_job_id df in
      let techs := group_keys "TechCode" (rows df) in
      match all_some
              (map (performance_row (has_col "TimeOnJob" (columns df)) (rows df)) techs) with
      | Some tech_performance => (Returns tech_performance, g)
      | None => (RaisesInPandas, g)
      end
  end.

End Frames.

End Performance.

(** *** [calculate_cancellation_metrics] *)

Module Cancellation.
Import PyNum GroupBy.

(** One row of the cancellation metrics. [reason_counts] are the columns
    the pivot of the reasons adds, a column per reason: the number of the
    technician's cancelled jobs with that reason, and nothing at all for a
    technician the pivot has no row of. *)
Record CancellationRow : Type := mkCancellation {
  TechCode : cell;
  TotalJobs : Z;
  CanceledJobs : Q;
  CancellationRate : pyfloat;
  reason_counts : list (cell * option Z)
}.

(** [df\['JobCanceled'\] == True]. *)
Definition is_canceled (r : row) : bool := py_eq (r "JobCanceled") (VBool true).

(** The jobs whose reasons are counted:
    [df\[df\['JobCanceled'\] == True\].groupby(\['TechCode', 'CancellationReason'\])],
    which leaves out a missing technician and a missing reason. *)
Definition with_reason (df_rows : list row) : list row :=
  filter (fun r : row => is_canceled r && negb (isna (r "TechCode"))
                         && negb (isna (r "CancellationReason"))) df_rows.

(** The row of a technician in the pivot, merged from the left: a count
    for every reason, zero where the technician has none, when the
    technician has a counted job; no value for any reason otherwise. *)
Definition reasons_of (counted : list row) (reasons : list cell) (tech : cell)
  : list (cell * option Z) :=
  let own := group_of "TechCode" tech counted in
  map (fun reason =>
         (reason,
          match own with
          | [] => None
          | _ :: _ => Some (Z.of_nat (List.length (group_of "CancellationReason" reason own)))
          end))
    reasons.

Definition cancellation_row (with_reasons : bool) (df_rows : list row) (tech : cell)
  : option CancellationRow :=
  let jobs := group_of "TechCode" tech df_rows in
  let total := count_present "JobId" jobs in
  match sum_col "JobCanceled" jobs with
  | Some canceled =>
      let counted := with_reason df_rows in
      Some (mkCancellation tech total canceled (divide canceled total)
              (if with_reasons
               then reasons_of counted (group_keys "CancellationReason" counted) tech
               else []))
  | None => None
  end.

(** [calculate_cancellation_metrics]: the metrics, sorted by technician,
    the frame of the caller and NumPy's generator as the call leaves
    them. The technician column is written into the frame of the caller,
    before the copy is taken. When a reason has the name of one of the
    three metric columns the merge renames both columns; the values are
    those of the record. *)
Definition calculate_cancellation_metrics (tech_jobs_df : DataFrame) (g : Random.generator)
  : outcome (list CancellationRow) * DataFrame * Random.generator :=
  match with_tech_code tech_jobs_df with
  | RaisesValueError msg => (RaisesValueError msg, tech_jobs_df, g)
  | RaisesInPandas => (RaisesInPandas, tech_jobs_df, g)
  | Returns tech_jobs_df =>
      let df := with_job_id tech_jobs_df in
      let (df, g) :=
        if has_col "JobCanceled" (columns df) then (df, g)
        else if has_col "Status" (columns df)
        then (assign "JobCanceled"
                (fun r => VBool (TextMining.str_contains ["Cancel"] (r "Status"))) df, g)
        else let (flags, g) := np_choice (1 # 10) (List.length (rows df)) g in
             (assign_values "JobCanceled" (map VBool flags) df, g) in
      let techs := group_keys "TechCode" (rows df) in
      let with_reasons := has_col "CancellationReason" (columns df) in
      match all_some (map (cancellation_row with_reasons (rows df)) techs) with
      | None => (RaisesInPandas, tech_jobs_df, g)
      | Some tech_cancellations =>
          if with_reasons
             && existsb (cell_eqb (VStr "TechCode"))
                  (group_keys "CancellationReason" (with_reason (rows df)))
          then (RaisesInPandas, tech_jobs_df, g)
          else (Returns tech_cancellations, tech_jobs_df, g)
      end
  end.

End Cancellation.

(* ================================================================== *)
(** * Properties *)

(** ** Address standardisation *)

(** The example of the specification: the three abbreviations are folded. *)
Example standardize_address_example :
  Cleaner.standardize_address (Some "123 Main Street, Suite 4B, California")
  = "123 MAIN ST, STE 4B, CA".
Proof. vm_compute. reflexivity. Qed.

(** [re.sub] replaces matches that do not overlap: of three commas in a row
    (with or without blanks between them) the first two are merged and the
    third is left, so one pass leaves a doubled comma behind. *)
Example doubled_comma_left_behind :
  Cleaner.re_sub (Cleaner.m_doubled ",") "," "A, , , B" = "A, , B"
  /\ Cleaner.re_sub (Cleaner.m_doubled ",") "," "A, , B" = "A, B".
Proof. split; vm_compute; reflexivity. Qed.

(** C7. [standardize_address] is not idempotent: an address with two empty
    components, ["123 Main St, , , CA"], is standardised to
    ["123 MAIN ST, , CA"], and standardising that gives ["123 MAIN ST, CA"]. *)
Theorem standardize_address_not_idempotent :
  let x := Some "123 Main St, , , CA" in
  Cleaner.standardize_address x = "123 MAIN ST, , CA"
  /\ Cleaner.standardize_address (Some (Cleaner.standardize_address x)) = "123 MAIN ST, CA"
  /\ Cleaner.standardize_address (Some (Cleaner.standardize_address x))
     <> Cleaner.standardize_address x.
Proof.
  cbv zeta. repeat split; try (vm_compute; reflexivity).
  vm_compute. discriminate.
Qed.

(** The same happens with a trailing country that is written twice. *)
Example standardize_address_usa_twice :
  Cleaner.standardize_address (Some "466 Primero Ct, Cotati, CA 94931, USA, USA")
  = "466 PRIMERO CT, COTATI, CA 94931, USA".
Proof. vm_compute. reflexivity. Qed.

(** ** Durations *)

Example parse_duration_hms : Durations.parse_duration (Some "2:30:45") = Ok 9045%Z.
Proof. vm_compute. reflexivity. Qed.

Example parse_duration_missing :
  Durations.parse_duration None = Ok 0%Z /\ Durations.parse_duration (Some "") = Ok 0%Z.
Proof. split; reflexivity. Qed.

(** A field that is no number makes [float] raise, and nothing in
    [parse_duration] catches it. *)
Lemma parse_duration_single_field_raises (text : string) :
  text <> "" ->
  PyStr.split ":" text = [text] ->
  PyNum.float_of_string text = None ->
  Durations.parse_duration (Some text)
  = Raise (ValueError "could not convert string to float").
Proof.
  intros Hne Hsplit Hfloat. unfold Durations.parse_duration.
  destruct (String.eqb_spec text "") as [E | _]; [contradiction |].
  rewrite Hsplit. unfold Durations.to_float. rewrite Hfloat. reflexivity.
Qed.

(** C9. [parse_duration] raises on a value that is not a duration: on
    ["abc"] and on ["1:xx:03"] the result is a [ValueError], where the
    loader's [convert_duration_to_seconds] answers 0. *)
Theorem parse_duration_raises_on_malformed :
  Durations.parse_duration (Some "abc")
  = Raise (ValueError "could not convert string to float")
  /\ Durations.parse_duration (Some "1:xx:03")
     = Raise (ValueError "could not convert string to float")
  /\ Importers.convert_duration_to_seconds (VStr "abc") = 0%Z
  /\ Importers.convert_duration_to_seconds (VStr "1:xx:03") = 0%Z.
Proof. repeat split; vm_compute; reflexivity. Qed.

(** ** Driving score *)

(** With no alert the weighted score is 0 and the driving score is 100. *)
Lemma driving_score_no_alerts : (Driving.driving_score 0 == 100)%Q.
Proof. vm_compute. reflexivity. Qed.

Lemma weighted_sum_no_alerts (alert_types : list string) (r : row) :
  (forall t, In t alert_types -> num_of (r t) = 0%Z) ->
  Driving.weighted_sum alert_types r = 0%Z.
Proof.
  induction alert_types as [| t ts IH]; intros H; simpl; [reflexivity |].
  rewrite (H t (or_introl eq_refl)), IH; [reflexivity |].
  intros u Hu. apply H. right. exact Hu.
Qed.

(** The edges handed to [pd.cut] are 0, 90, 75, 60, 40, 0, 100: they
    decrease, and [pd.cut] refuses them whatever the scores are. *)
Lemma driving_category_raises (scores : list Q) :
  Driving.driving_category scores
  = Raise (ValueError "bins must increase monotonically.").
Proof. reflexivity. Qed.

(** The frames of the example below: two technicians, one alert of the
    first. *)
Definition two_techs : DataFrame :=
  {| columns := ["TechCode"; "DeviceId"];
     rows :=
       [ (fun c => if String.eqb c "TechCode" then VStr "JS"
                   else if String.eqb c "DeviceId" then VStr "D1" else NA);
         (fun c => if String.eqb c "TechCode" then VStr "JD"
                   else if String.eqb c "DeviceId" then VStr "D2" else NA) ] |}.

Definition one_alert : DataFrame :=
  {| columns := ["DeviceId"; "AlertType"];
     rows :=
       [ (fun c => if String.eqb c "DeviceId" then VStr "D1"
                   else if String.eqb c "AlertType" then VStr "Harsh Braking"
                   else NA) ] |}.

(** C5. The score of a technician without alerts is 100, but the category
    is never assigned: [calculate_driving_metrics] raises as soon as every
    alert type has a weight, here for two technicians of whom the second
    has no alert. *)
Theorem calculate_driving_metrics_raises :
  (Driving.driving_score 0 == 100)%Q
  /\ (forall scores, raises (Driving.driving_category scores) = true)
  /\ Driving.calculate_driving_metrics two_techs one_alert
     = Raise (ValueError "bins must increase monotonically.").
Proof.
  split; [exact driving_score_no_alerts |].
  split; [intros scores; reflexivity |].
  vm_compute. reflexivity.
Qed.

(** What the thresholds would give were the edges sorted: on increasing
    edges [pd.cut] puts 100 in the last interval. *)
Example cut_sorted_edges :
  Pandas.cut [100%Q] [0%Q; 40%Q; 60%Q; 75%Q; 90%Q; 100%Q]
    ["POOR"; "BELOW_AVERAGE"; "AVERAGE"; "GOOD"; "EXCELLENT"]
  = Ok [VStr "EXCELLENT"].
Proof. vm_compute. reflexivity. Qed.

(** ** Revenue metrics and the random generators *)

Definition one_job : DataFrame :=
  {| columns := ["TechCode"];
     rows := [ fun c => if String.eqb c "TechCode" then VStr "JS" else NA ] |}.

(** Two states Python's generator can be in when the process starts: the
    variates they yield differ. *)
Definition entropy_a : Random.generator :=
  {| Random.stream := fun _ => 0%Q; Random.cursor := 0 |}.

Definition entropy_b : Random.generator :=
  {| Random.stream := fun _ => (1 # 2)%Q; Random.cursor := 0 |}.

(** A state whose variates change from draw to draw. *)
Definition entropy_c : Random.generator :=
  {| Random.stream := fun i => (Z.of_nat (i mod 7) # 7)%Q; Random.cursor := 0 |}.

(** Two jobs, neither of them cancelled. *)
Definition two_quiet_jobs : DataFrame :=
  {| columns := ["WorkDescription"];
     rows :=
       [ (fun c => if String.eqb c "WorkDescription" then VStr "Replaced pump" else NA);
         (fun c => if String.eqb c "WorkDescription" then VStr "Cleaned filter" else NA) ] |}.

Definition reasons_of (df : DataFrame) : list cell :=
  map (fun r : row => r "CancellationReason") (rows df).

Definition revenue_of (r : result (list Revenue.TechMetrics)) : list Q :=
  match r with
  | Ok ms => map (fun m => Qred (Revenue.TotalRevenue m)) ms
  | Raise _ => []
  end.

Section RevenueRuns.

Variable float_repr : Q -> string.
Variable np_seeded : Z -> Random.generator.

Let run := Revenue.calculate_tech_revenue_metrics float_repr np_seeded.

(** The call seeds NumPy's generator and leaves Python's where the draws
    took it: the seed has no part in the numbers drawn. *)
Lemma revenue_metrics_seed_only_numpy (df : DataFrame) (w : Revenue.generators) :
  raises (fst (run df w)) = false ->
  Revenue.np_random (snd (run df w)) = np_seeded 42.
Proof.
  unfold run, Revenue.calculate_tech_revenue_metrics.
  destruct (has_col "TechCode" (columns df)).
  - destruct (Revenue.draw_tiers _ _), (Revenue.tech_rows_loop _ _ _ _ _ _ _).
    reflexivity.
  - destruct (has_col "Technician" (columns df)).
    + destruct (Revenue.draw_tiers _ _), (Revenue.tech_rows_loop _ _ _ _ _ _ _).
      reflexivity.
    + simpl. discriminate.
Qed.

(** C4. [calculate_tech_revenue_metrics] is no function of its input frame:
    for one job of one technician the total revenue is 729/4 when Python's
    generator starts in one state and 495/2 when it starts in another,
    whatever state NumPy's generator is in; and a second call in the same
    process, which starts where the first one left the generator, gives
    2025/7 after 5265/28. The cancellation flags are no function of the
    frame either: of two jobs that were not cancelled, the first is given a
    reason in one state of NumPy's generator and the second in another. *)
Theorem revenue_metrics_depend_on_random_state (np : Random.generator) :
  revenue_of (fst (run one_job (Revenue.mkGens entropy_a np))) = [(729 # 4)%Q]
  /\ revenue_of (fst (run one_job (Revenue.mkGens entropy_b np))) = [(495 # 2)%Q]
  /\ (let first := run one_job (Revenue.mkGens entropy_c np) in
      let second := run one_job (snd first) in
      revenue_of (fst first) = [(5265 # 28)%Q]
      /\ revenue_of (fst second) = [(2025 # 7)%Q])
  /\ reasons_of (fst (TextMining.extract_cancellation_reasons_from_df float_repr
                        two_quiet_jobs entropy_a))
     = [VStr "OTHER"; VStr "NOT_CANCELED"]
  /\ reasons_of (fst (TextMining.extract_cancellation_reasons_from_df float_repr
                        two_quiet_jobs entropy_b))
     = [VStr "NOT_CANCELED"; VStr "OTHER"].
Proof.
  repeat split; vm_compute; reflexivity.
Qed.

End RevenueRuns.

(* ================================================================== *)
(** ** Cancellation reasons *)

Section CancellationReason.
Import Mapping CancelCategories TextMining.

(** [first_in_priority] answers with the first category of the list that
    has hits: it is in the list, has an entry, and no category before it
    has one. *)
Lemma first_in_priority_spec (priority : list string) (matches : list (string * nat))
    (category : string) (hits : nat) :
  first_in_priority priority matches = Some (category, hits) ->
  exists i,
    nth_error priority i = Some category
    /\ dict_get matches category = Some hits
    /\ forall j other, j < i -> nth_error priority j = Some other ->
                       dict_get matches other = None.
Proof.
  induction priority as [| c rest IH]; simpl; [discriminate |].
  destruct (dict_get matches c) as [m |] eqn:Hc.
  - intros H. injection H as <- <-. exists 0. repeat split; auto.
    intros j other Hj. lia.
  - intros H. destruct (IH H) as (i & Hi & Hget & Hbefore).
    exists (S i). repeat split; auto.
    intros [| j] other Hj Hnth; simpl in Hnth.
    + injection Hnth as <-. exact Hc.
    + apply (Hbefore j); [lia | exact Hnth].
Qed.

(** The loop over the priority list finds a category as soon as one key of
    the matches is in the list. *)
Lemma first_in_priority_found (priority : list string) (matches : list (string * nat))
    (category : string) (hits : nat) :
  In category priority ->
  dict_get matches category = Some hits ->
  first_in_priority priority matches <> None.
Proof.
  induction priority as [| c rest IH]; simpl; [tauto |].
  intros [-> | Hin] Hget.
  - rewrite Hget. discriminate.
  - destruct (dict_get matches c); [discriminate | auto].
Qed.

Lemma dict_get_in_keys {V : Type} (d : list (string * V)) (k : string) (v : V) :
  dict_get d k = Some v -> In k (map fst d).
Proof.
  induction d as [| [k' v'] d IH]; simpl; [discriminate |].
  destruct (String.eqb_spec k k') as [-> | _]; [left; reflexivity | right; auto].
Qed.

(** An entry of [category_matches] belongs to a category of the table whose
    keyword list is not empty, and holds the number of its keywords that
    occur in the description, which is not zero. *)
Lemma category_matches_in_entry (categories : list (string * list string))
    (description category : string) (hits : nat) :
  NoDup (map fst categories) ->
  dict_get (category_matches_in categories description) category = Some hits ->
  exists keywords,
    dict_get categories category = Some keywords
    /\ keywords <> []
    /\ hits = count_matches keywords description
    /\ 0 < hits.
Proof.
  induction categories as [| [c kws] rest IH]; simpl; [discriminate |].
  intros Hnd Hget. inversion Hnd as [| ? ? Hnotin Hnd']; subst.
  assert (Hrest :
    dict_get (category_matches_in rest description) category = Some hits ->
    exists keywords,
      (if String.eqb category c then Some kws else dict_get rest category) = Some keywords
      /\ keywords <> [] /\ hits = count_matches keywords description /\ 0 < hits).
  { intros H. destruct (IH Hnd' H) as (keywords & Hk & Hrest).
    exists keywords. split; [| exact Hrest].
    destruct (String.eqb_spec category c) as [-> | _]; [| exact Hk].
    exfalso. apply Hnotin. exact (dict_get_in_keys _ _ Hk). }
  destruct kws as [| kw kws']; [exact (Hrest Hget) |].
  destruct (Nat.ltb 0 (count_matches (kw :: kws') description)) eqn:Hpos;
    [| exact (Hrest Hget)].
  simpl in Hget. destruct (String.eqb_spec category c) as [-> | Hne].
  - injection Hget as <-. exists (kw :: kws'). repeat split; try discriminate.
    apply Nat.ltb_lt. exact Hpos.
  - destruct (Hrest Hget) as (keywords & Hk & Hr). exists keywords. auto.
Qed.

Lemma cancel_categories_nodup : NoDup (map fst CANCEL_CATEGORIES).
Proof.
  simpl. repeat constructor; simpl; intuition discriminate.
Qed.

(** Every category of the table is in the priority list. *)
Lemma categories_in_priority (category : string) :
  In category (map fst CANCEL_CATEGORIES) -> In category CATEGORY_PRIORITY.
Proof.
  simpl. intros H. repeat (destruct H as [<- | H]; [simpl; tauto |]). contradiction.
Qed.

(** C6. When keywords of more than one category occur in a description,
    [extract_cancellation_reason] returns the category with hits that comes
    first in [CATEGORY_PRIORITY], whatever the numbers of hits are, with the
    confidence [min(hits / number of keywords of that category, 1)]; and
    ["customer cancel due to price too high"], in which one keyword of
    [CUSTOMER_INITIATED] and one of [PRICE_TOO_HIGH] occur, yields
    [CUSTOMER_INITIATED], the first entry of the priority list, with
    confidence 1/6. *)
Theorem extract_cancellation_reason_priority :
  (forall text : string,
     text <> "" ->
     1 < List.length (category_matches (PyStr.lower text)) ->
     exists (i : nat) (category : string) (keywords : list string),
       nth_error CATEGORY_PRIORITY i = Some category
       /\ dict_get CANCEL_CATEGORIES category = Some keywords
       /\ 0 < count_matches keywords (PyStr.lower text)
       /\ (forall j other, j < i -> nth_error CATEGORY_PRIORITY j = Some other ->
                          dict_get (category_matches (PyStr.lower text)) other = None)
       /\ extract_cancellation_reason (Some text)
          = (category,
             Qmin (Z.of_nat (count_matches keywords (PyStr.lower text))
                   # Pos.of_nat (List.length keywords)) 1))
  /\ category_matches "customer cancel due to price too high"
     = [("CUSTOMER_INITIATED", 1); ("PRICE_TOO_HIGH", 1)]
  /\ CATEGORY_PRIORITY = "CUSTOMER_INITIATED" :: "PRICE_TOO_HIGH" :: skipn 2 CATEGORY_PRIORITY
  /\ extract_cancellation_reason (Some "customer cancel due to price too high")
     = ("CUSTOMER_INITIATED", (1 # 6)%Q).
Proof.
  split; [| repeat split; vm_compute; reflexivity].
  intros text Hne Hlen. unfold extract_cancellation_reason.
  destruct (String.eqb_spec text "") as [E | _]; [contradiction |].
  set (description := PyStr.lower text) in *.
  destruct (category_matches description) as [| [first m] others] eqn:Hm;
    [simpl in Hlen; lia |].
  destruct others as [| second others']; [simpl in Hlen; lia |].
  rewrite <- Hm.
  assert (Hfirst : dict_get (category_matches description) first = Some m).
  { rewrite Hm. simpl. rewrite String.eqb_refl. reflexivity. }
  assert (Hin : In first CATEGORY_PRIORITY).
  { apply categories_in_priority.
    destruct (category_matches_in_entry _ _ _ cancel_categories_nodup Hfirst)
      as (kws & Hk & _).
    exact (dict_get_in_keys _ _ Hk). }
  destruct (first_in_priority CATEGORY_PRIORITY (category_matches description))
    as [[category hits] |] eqn:Hprio;
    [| exfalso; exact (first_in_priority_found _ _ _ Hin Hfirst Hprio)].
  destruct (first_in_priority_spec _ _ Hprio) as (i & Hi & Hget & Hbefore).
  destruct (category_matches_in_entry _ _ _ cancel_categories_nodup Hget)
    as (keywords & Hk & _ & Hhits & Hpos).
  exists i, category, keywords. subst hits.
  repeat split; auto.
  unfold confidence_of, keyword_count. rewrite Hk. reflexivity.
Qed.

(** The tie-break at work on the example of the specification. *)
Lemma extract_cancellation_reason_priority_example :
  exists (i : nat) (category : string) (keywords : list string),
    nth_error CATEGORY_PRIORITY i = Some category
    /\ dict_get CANCEL_CATEGORIES category = Some keywords
    /\ 0 < count_matches keywords (PyStr.lower "customer cancel due to price too high")
    /\ (forall j other, j < i -> nth_error CATEGORY_PRIORITY j = Some other ->
           dict_get (category_matches (PyStr.lower "customer cancel due to price too high"))
             other = None)
    /\ extract_cancellation_reason (Some "customer cancel due to price too high")
       = (category,
          Qmin (Z.of_nat (count_matches keywords
                            (PyStr.lower "customer cancel due to price too high"))
                # Pos.of_nat (List.length keywords)) 1).
Proof.
  apply (proj1 extract_cancellation_reason_priority
           "customer cancel due to price too high").
  - discriminate.
  - vm_compute. lia.
Defined.

(** Hit counts do not decide: a description with two keywords of
    [PRICE_TOO_HIGH] and one of [CUSTOMER_INITIATED] still yields
    [CUSTOMER_INITIATED]. *)
Example priority_beats_hit_count :
  category_matches "customer declined, too expensive and not worth it"
  = [("CUSTOMER_INITIATED", 1); ("PRICE_TOO_HIGH", 2)]
  /\ fst (extract_cancellation_reason
            (Some "Customer declined, too expensive and not worth it"))
     = "CUSTOMER_INITIATED".
Proof. split; vm_compute; reflexivity. Qed.

End CancellationReason.

(* ================================================================== *)
(** ** Technician codes and devices *)

Section DeviceLookup.
Import PyStr Mapping Integrator.

Lemma dict_get_in {V : Type} (d : list (string * V)) (k : string) (v : V) :
  dict_get d k = Some v -> In (k, v) d.
Proof.
  induction d as [| [k' v'] d IH]; simpl; [discriminate |].
  destruct (String.eqb_spec k k') as [-> | _].
  - intros H. injection H as ->. left. reflexivity.
  - intros H. right. auto.
Qed.

Lemma reverse_mapping_in (code device : string) :
  In (code, device) TECH_REVERSE_MAPPING -> In (device, code) TECH_MAPPING.
Proof.
  unfold TECH_REVERSE_MAPPING. rewrite in_map_iff.
  intros ([d c] & Heq & Hin). simpl in Heq. injection Heq as <- <-. exact Hin.
Qed.

(** [standardize_tech_code] looks at a code through [upper (strip code)]
    only. *)
Lemma standardize_tech_code_normal_form (s t : string) :
  s <> "" -> t <> "" -> upper (strip s) = upper (strip t) ->
  Cleaner.standardize_tech_code (Some s) = Cleaner.standardize_tech_code (Some t).
Proof.
  intros Hs Ht Heq. unfold Cleaner.standardize_tech_code.
  destruct (String.eqb_spec s "") as [E | _]; [contradiction |].
  destruct (String.eqb_spec t "") as [E | _]; [contradiction |].
  rewrite Heq. reflexivity.
Qed.

(** The lookup of [map_tech_codes_to_devices] compares the code as it
    stands: ["JS"] is the code of James, ["js"] and [" JS"] are codes of
    nobody, although uppercasing and trimming them gives ["JS"]. *)
Lemma device_lookup_is_case_sensitive :
  device_for_tech (VStr "JS") = "James"
  /\ device_for_tech (VStr "js") = "UNKNOWN"
  /\ device_for_tech (VStr " JS") = "UNKNOWN"
  /\ upper (strip "js") = "JS"
  /\ upper (strip " JS") = "JS"
  /\ device_for_tech (VStr "js") <> device_for_tech (VStr (upper (strip "js"))).
Proof.
  repeat split; try (vm_compute; reflexivity).
  vm_compute. discriminate.
Qed.

(** C8, as the code has it. The lookup returns the device of a code that is
    one of the mapping's codes, character for character, and [UNKNOWN] for
    every other value, and [map_tech_codes_to_devices] fills [Device] with
    it for every row: nothing is raised. Case and surrounding blanks are
    ignored only for codes that went through [standardize_tech_code]
    first, which the function does not call. *)
Theorem device_lookup_exact_match :
  (forall device code,
     In (device, code) TECH_MAPPING -> device_for_tech (VStr code) = device)
  /\ (forall x,
        (forall device code, In (device, code) TECH_MAPPING -> x <> VStr code) ->
        device_for_tech x = "UNKNOWN")
  /\ (forall df tech_col,
        rows (map_tech_codes_to_devices df tech_col)
        = map (fun r => set_col "Device" (VStr (device_for_tech (r tech_col))) r) (rows df)
        /\ forall r, In r (rows (map_tech_codes_to_devices df tech_col)) ->
                     exists device, r "Device" = VStr device)
  /\ (forall s t,
        s <> "" -> t <> "" -> upper (strip s) = upper (strip t) ->
        device_for_tech (VStr (Cleaner.standardize_tech_code (Some s)))
        = device_for_tech (VStr (Cleaner.standardize_tech_code (Some t)))).
Proof.
  split; [| split; [| split]].
  - intros device code Hin. simpl in Hin.
    repeat (destruct Hin as [Heq | Hin];
            [injection Heq as <- <-; vm_compute; reflexivity |]).
    contradiction.
  - intros x Hnot. destruct x as [| code | | |]; try reflexivity.
    unfold device_for_tech.
    destruct (dict_get TECH_REVERSE_MAPPING code) as [device |] eqn:Hget;
      [| reflexivity].
    exfalso. apply (Hnot device code); [| reflexivity].
    apply reverse_mapping_in, dict_get_in. exact Hget.
  - intros df tech_col. split; [reflexivity |].
    intros r Hin. simpl in Hin. apply in_map_iff in Hin.
    destruct Hin as (r0 & <- & _).
    exists (device_for_tech (r0 tech_col)).
    unfold set_col. rewrite String.eqb_refl. reflexivity.
  - intros s t Hs Ht Heq.
    rewrite (standardize_tech_code_normal_form Hs Ht Heq). reflexivity.
Qed.

(** The composition at work: [" js"] and ["JS"] lead to the same device
    once they are standardised. *)
Lemma device_lookup_after_standardizing :
  device_for_tech (VStr (Cleaner.standardize_tech_code (Some " js")))
  = device_for_tech (VStr (Cleaner.standardize_tech_code (Some "JS"))).
Proof.
  apply (proj2 (proj2 (proj2 device_lookup_exact_match)) " js" "JS").
  - discriminate.
  - discriminate.
  - vm_compute. reflexivity.
Defined.

End DeviceLookup.

(* ================================================================== *)
(** ** Matching jobs to GPS stops *)

Lemma Qlt_bool_iff (a b : Q) : Qlt_bool a b = true <-> (a < b)%Q.
Proof.
  unfold Qlt_bool. rewrite negb_true_iff. split.
  - intros H. apply Qnot_le_lt. intros Hle.
    apply Qle_bool_iff in Hle. congruence.
  - intros H. destruct (Qle_bool b a) eqn:E; [| reflexivity].
    apply Qle_bool_iff in E. exfalso. exact (Qlt_not_le _ _ H E).
Qed.

Lemma threshold_is_80 (c : Q) :
  Qle_bool (Settings.GPS_MATCH_THRESHOLD * 100) c = true <-> (80 <= c)%Q.
Proof.
  rewrite Qle_bool_iff.
  assert (E : (Settings.GPS_MATCH_THRESHOLD * 100 == 80)%Q) by reflexivity.
  rewrite E. tauto.
Qed.

(** A filtered list that splits around an element comes from a list that
    splits around it in the same way. *)
Lemma filter_split_inv {A : Type} (f : A -> bool) (l : list A) :
  forall a x b,
  filter f l = (a ++ x :: b)%list ->
  exists l1 l2,
    l = (l1 ++ x :: l2)%list /\ filter f l1 = a /\ filter f l2 = b.
Proof.
  induction l as [| y l IH]; intros a x b H; simpl in H.
  - destruct a; discriminate.
  - destruct (f y) eqn:Hy.
    + destruct a as [| a0 a]; simpl in H; injection H as -> H.
      * exists [], l. simpl. auto.
      * destruct (IH _ _ _ H) as (l1 & l2 & -> & <- & <-).
        exists (a0 :: l1), l2. simpl. rewrite Hy. auto.
    + destruct (IH _ _ _ H) as (l1 & l2 & -> & <- & <-).
      exists (y :: l1), l2. simpl. rewrite Hy. auto.
Qed.

Lemma below_threshold (c : Q) :
  Qle_bool (Settings.GPS_MATCH_THRESHOLD * 100) c = false -> (c < 80)%Q.
Proof.
  intros H. apply Qnot_le_lt. intros Hle.
  apply threshold_is_80 in Hle. congruence.
Qed.

Lemma not_Qlt_bool (a b : Q) : Qlt_bool a b = false -> (b <= a)%Q.
Proof.
  intros H. apply Qnot_lt_le. intros Hlt.
  apply Qlt_bool_iff in Hlt. congruence.
Qed.

(** The GPS columns of a row hold the values they were created with. *)
Definition unmatched (r : row) : Prop :=
  r "GPS_StartTime" = NA /\ r "GPS_EndTime" = NA /\ r "GPS_Duration" = NA
  /\ r "GPS_Address" = VStr "" /\ r "GPS_MatchConfidence" = VFloat 0.

(** The GPS columns of a row hold the data of [stop], matched at
    confidence [c]. *)
Definition carries (r stop : row) (c : Q) : Prop :=
  r "GPS_StartTime" = stop "Start Time" /\ r "GPS_EndTime" = stop "End Time"
  /\ r "GPS_Duration" = Integrator.stop_minutes stop
  /\ r "GPS_Address" = stop "Address" /\ r "GPS_MatchConfidence" = VFloat c.

Lemma set_col_other (c k : string) (v : cell) (r : row) :
  k <> c -> set_col c v r k = r k.
Proof.
  intros H. unfold set_col. destruct (String.eqb_spec k c); [contradiction | reflexivity].
Qed.

Section GpsMatching.
Import Integrator.

Variable float_repr : Q -> string.
Variable token_sort_ratio : string -> string -> Z.

Let confidence := address_confidence float_repr token_sort_ratio.
Let consider := Integrator.consider float_repr token_sort_ratio.
Let best_stop := Integrator.best_stop float_repr token_sort_ratio.
Let matched_stop := Integrator.matched_stop float_repr token_sort_ratio.
Let match_job := Integrator.match_job float_repr token_sort_ratio.

(** What the loop over the candidates has established after the stops
    [seen]: with no best match yet, every stop seen is below the threshold;
    with a best match, it is one of the stops seen, its confidence reaches
    the threshold, every stop seen before it is strictly below it and no
    stop seen after it is above it. *)
Definition best_so_far (job : row) (seen : list row) (best : option row * Q) : Prop :=
  match best with
  | (None, c) => c = 0%Q /\ forall s, In s seen -> (confidence job s < 80)%Q
  | (Some stop, c) =>
      c = confidence job stop /\ (80 <= c)%Q
      /\ exists before after,
           seen = (before ++ stop :: after)%list
           /\ (forall s, In s before -> (confidence job s < c)%Q)
           /\ (forall s, In s after -> (confidence job s <= c)%Q)
  end.

Lemma consider_keeps_best (job : row) (seen : list row) (best : option row * Q)
    (stop : row) :
  best_so_far job seen best ->
  best_so_far job (seen ++ [stop]) (consider job best stop).
Proof.
  destruct best as [[current |] c]; unfold consider, Integrator.consider;
    fold (confidence job stop); set (x := confidence job stop); simpl.
  - intros (Hc & H80 & before & after & -> & Hbefore & Hafter).
    destruct (Qlt_bool c x && Qle_bool (Settings.GPS_MATCH_THRESHOLD * 100) x)
      eqn:Htest; simpl.
    + apply andb_true_iff in Htest. destruct Htest as [Hlt Hge].
      apply Qlt_bool_iff in Hlt. apply threshold_is_80 in Hge.
      split; [reflexivity |]. split; [exact Hge |].
      exists (before ++ current :: after)%list, []. repeat split.
      * intros s Hs. apply in_app_or in Hs. destruct Hs as [Hs | [<- | Hs]].
        -- eapply Qlt_trans; [apply Hbefore; exact Hs | exact Hlt].
        -- rewrite <- Hc. exact Hlt.
        -- eapply Qle_lt_trans; [apply Hafter; exact Hs | exact Hlt].
      * intros s [].
    + split; [exact Hc |]. split; [exact H80 |].
      exists before, (after ++ [stop])%list. repeat split.
      * rewrite <- app_assoc. reflexivity.
      * exact Hbefore.
      * intros s Hs. apply in_app_or in Hs. destruct Hs as [Hs | [<- | []]];
          [apply Hafter; exact Hs |].
        apply andb_false_iff in Htest. destruct Htest as [Hlt | Hge].
        -- exact (not_Qlt_bool _ _ Hlt).
        -- apply Qlt_le_weak. eapply Qlt_le_trans; [| exact H80].
           exact (below_threshold _ Hge).
  - intros (-> & Hseen).
    destruct (Qlt_bool 0 x && Qle_bool (Settings.GPS_MATCH_THRESHOLD * 100) x)
      eqn:Htest; simpl.
    + apply andb_true_iff in Htest. destruct Htest as [_ Hge].
      apply threshold_is_80 in Hge.
      split; [reflexivity |]. split; [exact Hge |].
      exists seen, []. repeat split.
      * intros s Hs. eapply Qlt_le_trans; [apply Hseen; exact Hs | exact Hge].
      * intros s [].
    + split; [reflexivity |].
      intros s Hs. apply in_app_or in Hs. destruct Hs as [Hs | [<- | []]];
        [apply Hseen; exact Hs |].
      apply andb_false_iff in Htest. destruct Htest as [Hlt | Hge].
      * eapply Qle_lt_trans; [exact (not_Qlt_bool _ _ Hlt) | reflexivity].
      * exact (below_threshold _ Hge).
Qed.

Lemma fold_consider_keeps_best (job : row) (stops seen : list row)
    (best : option row * Q) :
  best_so_far job seen best ->
  best_so_far job (seen ++ stops) (fold_left (consider job) stops best).
Proof.
  revert seen best. induction stops as [| stop stops IH]; intros seen best H; simpl.
  - rewrite app_nil_r. exact H.
  - replace (seen ++ stop :: stops)%list with ((seen ++ [stop]) ++ stops)%list
      by (rewrite <- app_assoc; reflexivity).
    apply IH. apply consider_keeps_best. exact H.
Qed.

Lemma best_stop_is_best (job : row) (stops : list row) :
  best_so_far job stops (best_stop job stops).
Proof.
  unfold best_stop, Integrator.best_stop.
  apply (fold_consider_keeps_best job stops [] (None, 0%Q)).
  split; [reflexivity | intros s []].
Qed.

Lemma in_window_spec (W : Z) (job : row) (T : Z) (stop : row) :
  in_window W job T stop = true <->
  py_eq (stop "Device") (job "Device") = true
  /\ exists start, stop "Start Time" = VInt start
                   /\ (T - 60 * W <= start <= T + 60 * W)%Z.
Proof.
  unfold in_window, timestamp_of. split.
  - intros H. apply andb_true_iff in H. destruct H as [Hdev Htime].
    split; [exact Hdev |].
    destruct (stop "Start Time") as [| | start | |]; try discriminate.
    exists start. split; [reflexivity |].
    apply andb_true_iff in Htime. destruct Htime as [Hlo Hhi].
    apply Z.leb_le in Hlo. apply Z.leb_le in Hhi. lia.
  - intros (Hdev & start & -> & Hlo & Hhi). rewrite Hdev. simpl.
    apply andb_true_iff. split; apply Z.leb_le; assumption.
Qed.

(** The GPS columns added before the loop are not among the columns the
    matching reads. *)
Lemma matched_stop_reads_job_columns (W : Z) (gps : list row) (job : row) :
  matched_stop W gps (gps_defaults job) = matched_stop W gps job.
Proof. reflexivity. Qed.

Lemma matched_stop_unfold (W : Z) (gps : list row) (job : row) (T : Z) :
  py_eq (job "Device") (VStr "UNKNOWN") = false ->
  job "FirstAppmnt" = VInt T ->
  matched_stop W gps job
  = match best_stop job (device_stops W job T gps) with
    | (Some stop, c) => Some (stop, c)
    | (None, _) => None
    end.
Proof.
  intros Hdev Htime. unfold matched_stop, Integrator.matched_stop.
  rewrite Hdev, Htime. reflexivity.
Qed.

Lemma match_job_other_columns (W : Z) (gps : list row) (job : row) (c : string) :
  ~ In c GPS_COLS ->
  Integrator.match_job float_repr token_sort_ratio W gps job c = job c.
Proof.
  intros Hc. unfold GPS_COLS in Hc. simpl in Hc.
  unfold Integrator.match_job.
  destruct (Integrator.matched_stop float_repr token_sort_ratio W gps (gps_defaults job))
    as [[stop conf] |]; unfold gps_defaults;
    repeat (rewrite set_col_other; [| intros ->; tauto]); reflexivity.
Qed.

(** The loop over the candidates of one job with a known device and an
    appointment at [T]: the stop it ends with is the first of the best
    stops of the device in the window, when one reaches 80, and there is
    none otherwise. *)
Lemma best_stop_in_window (W : Z) (gps : list row) (job : row) (T : Z) :
  py_eq (job "Device") (VStr "UNKNOWN") = false ->
  job "FirstAppmnt" = VInt T ->
  (forall stop c,
     matched_stop W gps job = Some (stop, c) ->
     py_eq (stop "Device") (job "Device") = true
     /\ (exists start, stop "Start Time" = VInt start
                       /\ (T - 60 * W <= start <= T + 60 * W)%Z)
     /\ c = confidence job stop
     /\ (80 <= c)%Q
     /\ (exists earlier later,
           gps = (earlier ++ stop :: later)%list
           /\ (forall s, In s earlier -> in_window W job T s = true ->
                         (confidence job s < c)%Q)
           /\ (forall s, In s later -> in_window W job T s = true ->
                         (confidence job s <= c)%Q))
     /\ match_job W gps job "GPS_StartTime" = stop "Start Time"
     /\ match_job W gps job "GPS_EndTime" = stop "End Time"
     /\ match_job W gps job "GPS_Duration" = stop_minutes stop
     /\ match_job W gps job "GPS_Address" = stop "Address"
     /\ match_job W gps job "GPS_MatchConfidence" = VFloat c)
  /\ (matched_stop W gps job = None <->
      forall s, In s gps -> in_window W job T s = true -> (confidence job s < 80)%Q)
  /\ (matched_stop W gps job = None ->
      match_job W gps job "GPS_StartTime" = NA
      /\ match_job W gps job "GPS_EndTime" = NA
      /\ match_job W gps job "GPS_Duration" = NA
      /\ match_job W gps job "GPS_Address" = VStr ""
      /\ match_job W gps job "GPS_MatchConfidence" = VFloat 0)
  /\ (W = Settings.DEFAULT_TIME_WINDOW ->
      (forall stop c,
         matched_stop W gps job = Some (stop, c) ->
         stop "Start Time" <> VInt (T + 31 * 60) /\ ~ (confidence job stop == 70)%Q)
      /\ (forall s,
            In s gps -> in_window W job T s = true -> (confidence job s == 85)%Q ->
            exists stop c, matched_stop W gps job = Some (stop, c) /\ (85 <= c)%Q)
      /\ (forall s,
            gps = [s] -> in_window W job T s = true -> (confidence job s == 85)%Q ->
            matched_stop W gps job = Some (s, confidence job s))).
Proof.
  intros Hdev Htime.
  pose proof (@matched_stop_unfold W gps job T Hdev Htime) as Hunfold.
  pose proof (best_stop_is_best job (device_stops W job T gps)) as Hbest.
  (* the two readings of the loop's result *)
  assert (Hsome : forall stop c,
    matched_stop W gps job = Some (stop, c) ->
    c = confidence job stop /\ (80 <= c)%Q
    /\ in_window W job T stop = true
    /\ exists earlier later,
         gps = (earlier ++ stop :: later)%list
         /\ (forall s, In s earlier -> in_window W job T s = true ->
                       (confidence job s < c)%Q)
         /\ (forall s, In s later -> in_window W job T s = true ->
                       (confidence job s <= c)%Q)).
  { intros stop c Hm. rewrite Hunfold in Hm.
    destruct (best_stop job (device_stops W job T gps)) as [[best |] bc];
      [| discriminate].
    injection Hm as -> ->.
    destruct Hbest as (Hc & H80 & before & after & Hsplit & Hbefore & Hafter).
    unfold device_stops in Hsplit.
    destruct (@filter_split_inv _ _ _ _ _ _ Hsplit) as (l1 & l2 & Hgps & H1 & H2).
    assert (Hin : In stop (filter (in_window W job T) gps))
      by (rewrite Hsplit; apply in_or_app; right; left; reflexivity).
    apply filter_In in Hin.
    repeat split; try tauto.
    exists l1, l2. repeat split; [exact Hgps | |].
    - intros s Hs Hw. apply Hbefore. rewrite <- H1. apply filter_In. auto.
    - intros s Hs Hw. apply Hafter. rewrite <- H2. apply filter_In. auto. }
  assert (Hnone :
    matched_stop W gps job = None <->
    forall s, In s gps -> in_window W job T s = true -> (confidence job s < 80)%Q).
  { rewrite Hunfold. split.
    - destruct (best_stop job (device_stops W job T gps)) as [[best |] bc];
        [discriminate |].
      intros _ s Hs Hw. destruct Hbest as [_ Hall].
      apply Hall. apply filter_In. auto.
    - intros Hall.
      destruct (best_stop job (device_stops W job T gps)) as [[best |] bc];
        [| reflexivity].
      destruct Hbest as (Hc & H80 & before & after & Hsplit & _).
      assert (Hin : In best (filter (in_window W job T) gps))
        by (unfold device_stops in Hsplit; rewrite Hsplit;
            apply in_or_app; right; left; reflexivity).
      apply filter_In in Hin. destruct Hin as [Hin Hw].
      exfalso. apply (Qlt_not_le _ _ (Hall best Hin Hw)).
      rewrite <- Hc. exact H80. }
  assert (Hjob : forall c0,
    match_job W gps job c0
    = match matched_stop W gps job with
      | None => gps_defaults job c0
      | Some (best_match, best_confidence) =>
          set_col "GPS_MatchConfidence" (VFloat best_confidence)
            (set_col "GPS_Address" (best_match "Address")
               (set_col "GPS_Duration"
                  (Integrator.stop_minutes best_match)
                  (set_col "GPS_EndTime" (best_match "End Time")
                     (set_col "GPS_StartTime" (best_match "Start Time")
                        (gps_defaults job))))) c0
      end).
  { intros c0. unfold match_job, Integrator.match_job.
    fold (matched_stop W gps (gps_defaults job)).
    rewrite matched_stop_reads_job_columns.
    destruct (matched_stop W gps job) as [[b bc] |]; reflexivity. }
  split; [| split; [exact Hnone | split]].
  - intros stop c Hm.
    destruct (Hsome stop c Hm) as (Hc & H80 & Hw & Hsplit).
    apply in_window_spec in Hw. destruct Hw as [Hd Hstart].
    repeat split; auto; rewrite Hjob, Hm; reflexivity.
  - intros Hm. repeat split; rewrite Hjob, Hm; reflexivity.
  - intros ->. split; [| split].
    + intros stop c Hm.
      destruct (Hsome stop c Hm) as (Hc & H80 & Hw & _).
      apply in_window_spec in Hw. destruct Hw as (_ & start & Hstart & Hrange).
      split.
      * rewrite Hstart. intros Heq. injection Heq as ->.
        unfold Settings.DEFAULT_TIME_WINDOW in Hrange. lia.
      * intros H70. rewrite Hc, H70 in H80. revert H80. apply Qlt_not_le.
        reflexivity.
    + intros s Hs Hw H85.
      destruct (matched_stop Settings.DEFAULT_TIME_WINDOW gps job)
        as [[stop c] |] eqn:Hm.
      * exists stop, c. split; [reflexivity |].
        destruct (Hsome stop c eq_refl) as (Hc & _ & _ & earlier & later & Hgps & He & Hl).
        rewrite <- H85. rewrite Hgps in Hs.
        apply in_app_or in Hs. destruct Hs as [Hs | [<- | Hs]].
        -- apply Qlt_le_weak. apply He; assumption.
        -- rewrite Hc. apply Qle_refl.
        -- apply Hl; assumption.
      * exfalso. apply (Qlt_not_le _ _ (proj1 Hnone eq_refl s Hs Hw)).
        rewrite H85. discriminate.
    + intros s -> Hw H85.
      destruct (matched_stop Settings.DEFAULT_TIME_WINDOW [s] job)
        as [[stop c] |] eqn:Hm.
      * destruct (Hsome stop c eq_refl) as (Hc & _ & _ & earlier & later & Hgps & _).
        assert (stop = s).
        { destruct earlier as [| e [| e' earlier]]; simpl in Hgps.
          - injection Hgps as ->. reflexivity.
          - injection Hgps as _ Hgps. discriminate.
          - injection Hgps as _ Hgps. discriminate. }
        subst stop. rewrite Hc. reflexivity.
      * exfalso. apply (Qlt_not_le _ _ (proj1 Hnone eq_refl s (or_introl eq_refl) Hw)).
        rewrite H85. discriminate.
Qed.

(** C3. [match_jobs_to_gps_stops] returns one row per job, in the order of
    the jobs, with every column other than the five GPS columns as the job
    has it; nothing is raised. A job whose device is [UNKNOWN] or which has
    no appointment keeps the GPS columns as they were created. For a job
    with a known device and an appointment at [T], and a window of [W]
    minutes: the row is left unmatched, its GPS columns as they were
    created, exactly when no stop of the job's device that starts in
    [T - W, T + W] reaches a confidence of 80; otherwise the row carries
    the times, the address and the confidence of a stop of the GPS frame
    that has the job's device and starts in the window, whose confidence
    is at least 80, where no stop of the device in the window has a higher
    one and every such stop that comes before it in the GPS frame has a
    strictly lower one (the first of equals wins). With the default window
    of 30 minutes the row never holds a stop that starts at [T] + 31
    minutes, nor a confidence of 70, and the row of a job that has a stop
    of confidence 85 in the window is matched, to that stop when it is the
    only one of the frame. *)
Theorem gps_match_is_best_in_window (W : Z) (job_df gps_df : DataFrame) :
  let gps := rows gps_df in
  Forall2
    (fun job r : row =>
       (forall k, ~ In k GPS_COLS -> r k = job k)
       /\ (py_eq (job "Device") (VStr "UNKNOWN") = true
           \/ timestamp_of (job "FirstAppmnt") = None -> unmatched r)
       /\ forall T,
            py_eq (job "Device") (VStr "UNKNOWN") = false ->
            job "FirstAppmnt" = VInt T ->
            (unmatched r <->
             forall s, In s gps -> in_window W job T s = true ->
                       (confidence job s < 80)%Q)
            /\ (unmatched r
                \/ exists stop earlier later,
                     gps = (earlier ++ stop :: later)%list
                     /\ py_eq (stop "Device") (job "Device") = true
                     /\ (exists start, stop "Start Time" = VInt start
                                       /\ (T - 60 * W <= start <= T + 60 * W)%Z)
                     /\ (80 <= confidence job stop)%Q
                     /\ (forall s, In s earlier -> in_window W job T s = true ->
                                   (confidence job s < confidence job stop)%Q)
                     /\ (forall s, In s later -> in_window W job T s = true ->
                                   (confidence job s <= confidence job stop)%Q)
                     /\ carries r stop (confidence job stop))
            /\ (W = Settings.DEFAULT_TIME_WINDOW ->
                r "GPS_StartTime" <> VInt (T + 31 * 60)
                /\ (forall c, r "GPS_MatchConfidence" = VFloat c -> ~ (c == 70)%Q)
                /\ (forall s,
                      In s gps -> in_window W job T s = true ->
                      (confidence job s == 85)%Q ->
                      exists stop c, In stop gps /\ carries r stop c /\ (85 <= c)%Q)
                /\ (forall s,
                      gps = [s] -> in_window W job T s = true ->
                      (confidence job s == 85)%Q ->
                      carries r s (confidence job s))))
    (rows job_df)
    (rows (match_jobs_to_gps_stops float_repr token_sort_ratio job_df gps_df W)).
Proof.
  cbv zeta. unfold match_jobs_to_gps_stops. cbn [rows].
  induction (rows job_df) as [| job jobs IH]; cbn [map]; constructor; [| exact IH].
  clear IH jobs. set (gps := rows gps_df).
  change (Integrator.match_job float_repr token_sort_ratio W gps job)
    with (match_job W gps job).
  split; [intros k Hk; apply match_job_other_columns; exact Hk |].
  split.
  - intros Hskip.
    assert (Hm : matched_stop W gps (gps_defaults job) = None).
    { rewrite matched_stop_reads_job_columns.
      unfold matched_stop, Integrator.matched_stop.
      destruct Hskip as [-> | Hn]; [reflexivity |].
      destruct (py_eq (job "Device") (VStr "UNKNOWN")); [reflexivity |].
      rewrite Hn. reflexivity. }
    unfold match_job, Integrator.match_job.
    fold (matched_stop W gps (gps_defaults job)). rewrite Hm.
    repeat split.
  - intros T Hdev Htime.
    destruct (@best_stop_in_window W gps job T Hdev Htime)
      as (Hsome & Hnone & Hdefault & Hscenario).
    destruct (matched_stop W gps job) as [[stop c] |] eqn:Hm.
    + destruct (Hsome stop c eq_refl)
        as (Hd & Hstart & Hc & H80 & (earlier & later & Hgps & He & Hl)
            & H1 & H2 & H3 & H4 & H5).
      assert (Hcarries : carries (match_job W gps job) stop c)
        by (repeat split; assumption).
      assert (Hmatched : ~ unmatched (match_job W gps job)).
      { intros (_ & _ & _ & _ & H0). rewrite H5 in H0. injection H0 as H0.
        rewrite H0 in H80. revert H80. apply Qlt_not_le. reflexivity. }
      split; [| split].
      * split; [intros Hu; contradiction |].
        intros Hall. apply (proj2 Hnone) in Hall. discriminate Hall.
      * right. subst c. exists stop, earlier, later. repeat split; assumption.
      * intros HW. destruct (Hscenario HW) as (Hnever & H85 & Hsole).
        destruct (Hnever stop c eq_refl) as [Hlate H70].
        split; [rewrite H1; exact Hlate |].
        split; [| split].
        -- intros c' Heq. rewrite H5 in Heq. injection Heq as <-.
           rewrite Hc. exact H70.
        -- intros s Hs Hw Hs85.
           destruct (H85 s Hs Hw Hs85) as (stop' & c' & Heq & Hle).
           injection Heq as <- <-. exists stop, c.
           split; [| split; [exact Hcarries | exact Hle]].
           rewrite Hgps. apply in_or_app. right. left. reflexivity.
        -- intros s Hgs Hw Hs85.
           pose proof (Hsole s Hgs Hw Hs85) as Heq. injection Heq as <- <-.
           exact Hcarries.
    + pose proof (Hdefault eq_refl) as Hu.
      assert (Hunmatched : unmatched (match_job W gps job)) by exact Hu.
      split; [| split].
      * split; [intros _; exact (proj1 Hnone eq_refl) | intros _; exact Hunmatched].
      * left. exact Hunmatched.
      * intros HW. destruct (Hscenario HW) as (_ & H85 & Hsole).
        destruct Hu as (H1 & _ & _ & _ & H5).
        split; [rewrite H1; discriminate |].
        split; [| split].
        -- intros c' Heq. rewrite H5 in Heq. injection Heq as <-.
           intros H70. discriminate H70.
        -- intros s Hs Hw Hs85.
           destruct (H85 s Hs Hw Hs85) as (stop' & c' & Heq & _). discriminate Heq.
        -- intros s Hgs Hw Hs85. discriminate (Hsole s Hgs Hw Hs85).
Qed.

End GpsMatching.

(** The scenario of the specification: a job at 10:00 and one stop of its
    device that starts 29 minutes later, with an address that scores 85. *)
Definition job_at_ten : row := fun c =>
  if String.eqb c "Device" then VStr "James"
  else if String.eqb c "FirstAppmnt" then VInt 36000
  else if String.eqb c "Address" then VStr "12 Elm Street, Cotati"
  else NA.

Definition stop_at (start : Z) : row := fun c =>
  if String.eqb c "Device" then VStr "James"
  else if String.eqb c "Start Time" then VInt start
  else if String.eqb c "End Time" then VInt (start + 1800)
  else if String.eqb c "Address" then VStr "12 Elm St, Cotati CA"
  else NA.

Definition jobs_at_ten : DataFrame :=
  {| columns := ["Device"; "FirstAppmnt"; "Address"]; rows := [job_at_ten] |}.

(** The GPS frame with a stop of the job's device at each of [starts]. *)
Definition stops_at (starts : list Z) : DataFrame :=
  {| columns := ["Device"; "Start Time"; "End Time"; "Address"];
     rows := map stop_at starts |}.

Lemma Forall2_single {A B : Type} (R : A -> B -> Prop) (x : A) (y : B) :
  Forall2 R [x] [y] -> R x y.
Proof.
  intros H. apply Forall2_cons_iff in H. exact (proj1 H).
Defined.

Lemma gps_match_scenario :
  exists r,
    rows (Integrator.match_jobs_to_gps_stops (fun _ => "") (fun _ _ => 85%Z)
            jobs_at_ten (stops_at [36000 + 29 * 60])%Z Settings.DEFAULT_TIME_WINDOW)
    = [r]
    /\ carries r (stop_at (36000 + 29 * 60)) 85
    /\ r "GPS_StartTime" = VInt 37740
    /\ r "GPS_MatchConfidence" = VFloat 85
    /\ r "Address" = VStr "12 Elm Street, Cotati".
Proof.
  pose proof (@gps_match_is_best_in_window (fun _ => "") (fun _ _ => 85%Z)
                Settings.DEFAULT_TIME_WINDOW jobs_at_ten
                (stops_at [36000 + 29 * 60]%Z)) as Hrows.
  eexists. split; [reflexivity |].
  apply Forall2_single in Hrows.
  destruct Hrows as (Hother & _ & Hknown).
  destruct (Hknown 36000%Z eq_refl eq_refl) as (_ & _ & Hdefault).
  destruct (Hdefault eq_refl) as (_ & _ & _ & Hsole).
  assert (Hcarries := Hsole (stop_at (36000 + 29 * 60)) eq_refl eq_refl eq_refl).
  split; [exact Hcarries |].
  destruct Hcarries as (Hstart & _ & _ & _ & Hconfidence).
  split; [exact Hstart |]. split; [exact Hconfidence |].
  apply Hother. vm_compute. intuition discriminate.
Defined.

(** The other two stops of the scenario: one 31 minutes after the
    appointment, and one in the window whose address scores 70. Neither is
    matched, and the job keeps the GPS columns it was given. *)
Example gps_match_out_of_window :
  map (fun r : row => (r "GPS_StartTime", r "GPS_Address", r "GPS_MatchConfidence"))
    (rows (Integrator.match_jobs_to_gps_stops (fun _ => "") (fun _ _ => 85%Z)
             jobs_at_ten (stops_at [36000 + 31 * 60])%Z Settings.DEFAULT_TIME_WINDOW))
  = [ (NA, VStr "", VFloat 0) ]
  /\ map (fun r : row => (r "GPS_StartTime", r "GPS_Address", r "GPS_MatchConfidence"))
       (rows (Integrator.match_jobs_to_gps_stops (fun _ => "") (fun _ _ => 70%Z)
                jobs_at_ten (stops_at [36000 + 10 * 60])%Z
                Settings.DEFAULT_TIME_WINDOW))
     = [ (NA, VStr "", VFloat 0) ].
Proof. split; vm_compute; reflexivity. Qed.


(* ================================================================== *)
(** ** Random choice without replacement *)

Section RandomChoice.
Import Random.

Context {A : Type}.

Lemma remove_nth_length (l : list A) (i : nat) :
  i < List.length l -> List.length (remove_nth i l) = pred (List.length l).
Proof.
  revert i. induction l as [| x l IH]; intros i Hi; simpl in *; [lia |].
  destruct i as [| j]; [reflexivity |].
  simpl. rewrite IH by lia. destruct l; simpl in *; lia.
Qed.

Lemma remove_nth_incl (l : list A) (i : nat) (x : A) :
  In x (remove_nth i l) -> In x l.
Proof.
  revert i. induction l as [| y l IH]; intros i H; simpl in *; [exact H |].
  destruct i as [| j]; [right; exact H |].
  destruct H as [-> | H]; [left; reflexivity | right; eauto].
Qed.

Lemma remove_nth_NoDup (l : list A) (i : nat) : NoDup l -> NoDup (remove_nth i l).
Proof.
  revert i. induction l as [| y l IH]; intros i H; simpl; [constructor |].
  inversion H as [| ? ? Hnotin Hl]; subst.
  destruct i as [| j]; [exact Hl |].
  constructor; [| apply IH; exact Hl].
  intros Hin. apply Hnotin. eapply remove_nth_incl. exact Hin.
Qed.

Lemma remove_nth_not_in (d : A) (l : list A) (i : nat) :
  NoDup l -> i < List.length l -> ~ In (nth i l d) (remove_nth i l).
Proof.
  revert i. induction l as [| y l IH]; intros i H Hi; simpl in *; [lia |].
  inversion H as [| ? ? Hnotin Hl]; subst.
  destruct i as [| j]; [exact Hnotin |].
  intros [Heq | Hin].
  - apply Hnotin. rewrite Heq. apply nth_In. lia.
  - apply (IH j Hl); [lia | exact Hin].
Qed.

(** The position drawn from a population of a given size. *)
Definition drawn_index (g : generator) (size : nat) : nat :=
  Z.to_nat (floor (stream g (cursor g) * inject_Z (Z.of_nat size))
            mod Z.of_nat size).

Lemma drawn_index_bound (g : generator) (size : nat) :
  0 < size -> drawn_index g size < size.
Proof.
  intros Hpos. unfold drawn_index.
  assert (H : (0 < Z.of_nat size)%Z) by lia.
  pose proof (Z.mod_pos_bound
                (floor (stream g (cursor g) * inject_Z (Z.of_nat size))) _ H).
  lia.
Qed.

Lemma choice_step (d : A) (population : list A) (k : nat) (g : generator) :
  population <> [] ->
  let i := drawn_index g (List.length population) in
  let rest := choice d (remove_nth i population) k
                {| stream := stream g; cursor := S (cursor g) |} in
  choice d population (S k) g = (nth i population d :: fst rest, snd rest).
Proof.
  destruct population as [| p population]; [congruence |]. intros _.
  cbv zeta. cbn [choice next]. fold (drawn_index g (List.length (p :: population))).
  destruct (choice d (remove_nth (drawn_index g (List.length (p :: population)))
                        (p :: population)) k
              {| stream := stream g; cursor := S (cursor g) |}).
  reflexivity.
Qed.

(** [choice] draws [k] distinct elements of a population without
    repeats, whatever the generator yields. *)
Lemma choice_spec (d : A) (k : nat) :
  forall (population : list A) (g : generator),
  NoDup population -> k <= List.length population ->
  List.length (fst (choice d population k g)) = k
  /\ NoDup (fst (choice d population k g))
  /\ incl (fst (choice d population k g)) population.
Proof.
  induction k as [| k IH]; intros population g Hnd Hk.
  - simpl. repeat split; [constructor | intros x []].
  - assert (Hne : population <> []) by (destruct population; simpl in Hk; [lia | discriminate]).
    rewrite (choice_step d k g Hne). cbv zeta. cbn [fst].
    set (i := drawn_index g (List.length population)).
    assert (Hi : i < List.length population) by (apply drawn_index_bound; lia).
    destruct (IH (remove_nth i population)
                {| stream := stream g; cursor := S (cursor g) |}
                (remove_nth_NoDup i Hnd)) as (Hlen & Hnd' & Hincl).
    { rewrite remove_nth_length by exact Hi. lia. }
    repeat split.
    + simpl. rewrite Hlen. reflexivity.
    + constructor; [| exact Hnd'].
      intros Hin. apply (remove_nth_not_in d Hnd Hi). apply Hincl. exact Hin.
    + intros x [<- | Hx].
      * apply nth_In. exact Hi.
      * eapply remove_nth_incl. apply Hincl. exact Hx.
Qed.

End RandomChoice.

(* ================================================================== *)
(** ** Cancellations invented for a frame without any *)

Section DemoCancellations.
Import TextMining.

(** A row shows a cancellation when one of the indicators the frame has
    columns for is set. *)
Definition shows_cancellation (cols : list string) (r : row) : bool :=
  (has_col "JobCanceled" cols && py_eq (r "JobCanceled") (VBool true))
  || (has_col "Status" cols && str_contains STATUS_PATTERN (r "Status"))
  || (has_col "WorkDescription" cols
      && str_contains TEXT_PATTERN (r "WorkDescription")).

Definition has_indicator_col (cols : list string) : bool :=
  has_col "JobCanceled" cols || has_col "Status" cols || has_col "WorkDescription" cols.

Lemma mask_or_map {A : Type} (f g : A -> bool) (l : list A) :
  mask_or (map f l) (map g l) = map (fun x => f x || g x) l.
Proof.
  unfold mask_or. induction l as [| x l IH]; simpl; [reflexivity |].
  rewrite IH. reflexivity.
Qed.

(** The mask read from the data is the row-wise disjunction of the
    indicators; there is none when the frame has none of the three
    columns. *)
Lemma canceled_mask_rowwise (df : DataFrame) :
  canceled_mask df
  = if has_indicator_col (columns df)
    then Some (map (shows_cancellation (columns df)) (rows df))
    else None.
Proof.
  unfold canceled_mask, has_indicator_col, shows_cancellation, or_into.
  destruct (has_col "JobCanceled" (columns df)),
           (has_col "Status" (columns df)),
           (has_col "WorkDescription" (columns df));
    simpl; rewrite ?mask_or_map; try reflexivity;
    f_equal; apply map_ext; intros r;
    rewrite ?orb_false_r; reflexivity.
Qed.

Lemma has_col_app (c : string) (cols extra : list string) :
  has_col c (cols ++ extra)%list = has_col c cols || has_col c extra.
Proof. unfold has_col. apply existsb_app. Qed.

Lemma has_col_assign_other (k c : string) (f : row -> cell) (df : DataFrame) :
  String.eqb k c = false ->
  has_col k (columns (assign c f df)) = has_col k (columns df).
Proof.
  intros Hk. unfold assign. simpl.
  destruct (has_col c (columns df)); [reflexivity |].
  rewrite has_col_app. simpl. rewrite Hk. rewrite !orb_false_r. reflexivity.
Qed.

(** A column with another name changes neither the indicators nor the
    descriptions. *)
Lemma canceled_mask_assign (c : string) (f : row -> cell) (df : DataFrame) :
  String.eqb "JobCanceled" c = false ->
  String.eqb "Status" c = false ->
  String.eqb "WorkDescription" c = false ->
  canceled_mask (assign c f df) = canceled_mask df.
Proof.
  intros H1 H2 H3. rewrite !canceled_mask_rowwise.
  unfold has_indicator_col, shows_cancellation.
  rewrite !has_col_assign_other by assumption.
  destruct (has_col "JobCanceled" (columns df) || has_col "Status" (columns df)
            || has_col "WorkDescription" (columns df)); [| reflexivity].
  f_equal. unfold assign. simpl. rewrite map_map. apply map_ext. intros r.
  unfold set_col. rewrite H1, H2, H3. reflexivity.
Qed.

Lemma mask_sum_map {A : Type} (f : A -> bool) (l : list A) :
  mask_sum (map f l) = List.length (filter f l).
Proof.
  unfold mask_sum. induction l as [| x l IH]; simpl; [reflexivity |].
  destruct (f x); simpl; rewrite IH; reflexivity.
Qed.

(** As many rows are selected as indices were drawn. *)
Lemma mask_sum_index_isin (n : nat) (picked : list nat) :
  NoDup picked -> (forall i, In i picked -> i < n) ->
  mask_sum (index_isin n picked) = List.length picked.
Proof.
  intros Hnd Hlt. unfold index_isin. rewrite mask_sum_map.
  set (selected := filter (fun i => existsb (Nat.eqb i) picked) (seq 0 n)).
  assert (Hsel : forall i, In i selected <-> In i picked).
  { intros i. unfold selected. rewrite filter_In, in_seq, existsb_exists. split.
    - intros (_ & j & Hj & Heq). apply Nat.eqb_eq in Heq. subst. exact Hj.
    - intros Hi. split; [specialize (Hlt i Hi); lia |].
      exists i. split; [exact Hi | apply Nat.eqb_refl]. }
  apply Nat.le_antisymm.
  - apply NoDup_incl_length.
    + apply NoDup_filter, seq_NoDup.
    + intros i Hi. apply Hsel. exact Hi.
  - apply NoDup_incl_length; [exact Hnd |].
    intros i Hi. apply Hsel. exact Hi.
Qed.

Lemma index_isin_nth (n : nat) (picked : list nat) (i : nat) :
  i < n -> nth i (index_isin n picked) false = existsb (Nat.eqb i) picked.
Proof.
  intros Hi. unfold index_isin.
  rewrite (nth_indep _ false (existsb (Nat.eqb 0) picked))
    by (rewrite length_map, length_seq; exact Hi).
  rewrite (map_nth (fun j => existsb (Nat.eqb j) picked)).
  rewrite seq_nth by exact Hi. reflexivity.
Qed.

Section Frames.

Variable float_repr : Q -> string.

Lemma process_canceled_length (wd : bool) (mask : list bool) (rs : list row) :
  List.length (process_canceled float_repr wd mask rs) = List.length rs.
Proof.
  revert rs. induction mask as [| b mask IH]; intros [| r rs]; simpl; auto.
Qed.

Lemma process_canceled_nth (wd : bool) (mask : list bool) (rs : list row)
    (i : nat) (d : row) :
  List.length mask = List.length rs -> i < List.length rs ->
  nth i (process_canceled float_repr wd mask rs) d
  = if nth i mask false && wd then set_reason float_repr (nth i rs d)
    else nth i rs d.
Proof.
  revert rs i. induction mask as [| b mask IH]; intros [| r rs] i Hlen Hi;
    simpl in *; try lia.
  destruct i as [| j]; [reflexivity |].
  apply IH; lia.
Qed.

(** C10. A frame that has jobs and at least one of the columns
    [JobCanceled], [Status] and [WorkDescription], and in which no row
    shows a cancellation, comes back with cancellations all the same:
    [max(1, n / 20)] distinct rows are drawn with NumPy's generator, each
    of them gets the reason and the confidence extracted from its
    description (when the frame has descriptions), and every row gets the
    cancellation rate [max(1, n / 20) / n], which is not zero. *)
Theorem demo_cancellations_are_fabricated (df : DataFrame) (g : Random.generator) :
  rows df <> [] ->
  has_indicator_col (columns df) = true ->
  (forall r, In r (rows df) -> shows_cancellation (columns df) r = false) ->
  let n := List.length (rows df) in
  let k := Nat.max 1 (n / 20) in
  let chosen := fst (Random.choice 0 (seq 0 n) k g) in
  let out := fst (extract_cancellation_reasons_from_df float_repr df g) in
  List.length chosen = k
  /\ NoDup chosen
  /\ (forall i, In i chosen -> i < n)
  /\ List.length (rows out) = n
  /\ (forall r, In r (rows out) ->
        r "CancellationRate" = VFloat (Z.of_nat k # Pos.of_nat n))
  /\ (0 < Z.of_nat k # Pos.of_nat n)%Q
  /\ (has_col "WorkDescription" (columns df) = true ->
      forall i d, In i chosen ->
        nth i (rows out) d "CancellationReason"
        = VStr (fst (extract_cancellation_reason
                       (text_of float_repr (nth i (rows df) d "WorkDescription"))))
        /\ nth i (rows out) d "CancellationConfidence"
           = VFloat (snd (extract_cancellation_reason
                            (text_of float_repr (nth i (rows df) d "WorkDescription"))))).
Proof.
  intros Hrows Hcol Hnone n k chosen out.
  assert (Hn : 0 < n) by (unfold n; destruct (rows df); [congruence | simpl; lia]).
  assert (Hk : k <= n).
  { unfold k. apply Nat.max_lub; [lia |]. apply Nat.Div0.div_le_upper_bound. lia. }
  destruct (@choice_spec nat 0 k (seq 0 n) g (seq_NoDup n 0))
    as (Hlen & Hnd & Hincl); [rewrite length_seq; exact Hk |].
  fold chosen in Hlen, Hnd, Hincl.
  assert (Hlt : forall i, In i chosen -> i < n).
  { intros i Hi. apply Hincl in Hi. apply in_seq in Hi. lia. }
  (* the frame with the two result columns *)
  set (df1 := if has_col "CancellationReason" (columns df) then df
              else assign "CancellationReason" (fun _ => VStr "NOT_CANCELED") df).
  set (df2 := if has_col "CancellationConfidence" (columns df1) then df1
              else assign "CancellationConfidence" (fun _ => VFloat 0) df1).
  assert (Hrows2 : exists f : row -> row,
            rows df2 = map f (rows df)
            /\ forall r, f r "WorkDescription" = r "WorkDescription").
  { unfold df2, df1.
    destruct (has_col "CancellationReason" (columns df)); simpl;
      match goal with
      | |- context [if ?b then _ else _] => destruct b
      end; simpl; rewrite ?map_map;
      try (exists (fun r => r); split; [symmetry; apply map_id | reflexivity]);
      eexists; (split; [reflexivity | reflexivity]). }
  destruct Hrows2 as (prep & Hprep & Hdesc).
  assert (Hlen2 : List.length (rows df2) = n)
    by (rewrite Hprep, length_map; reflexivity).
  assert (Hcols2 : has_col "WorkDescription" (columns df2)
                   = has_col "WorkDescription" (columns df)).
  { unfold df2, df1.
    repeat match goal with
           | |- context [if ?b then _ else _] => destruct b
           end;
      rewrite ?has_col_assign_other by reflexivity; reflexivity. }
  assert (Hmask : canceled_mask df2 = Some (map (fun _ => false) (rows df))).
  { assert (E : canceled_mask df2 = canceled_mask df).
    { unfold df2, df1.
      destruct (has_col "CancellationReason" (columns df));
        match goal with
        | |- context [if ?b then _ else _] => destruct b
        end; rewrite ?canceled_mask_assign by reflexivity; reflexivity. }
    rewrite E, canceled_mask_rowwise, Hcol. f_equal.
    apply map_ext_in. exact Hnone. }
  assert (Hout : out
    = assign "CancellationRate"
        (fun _ => company_cancel_rate (mask_sum (index_isin n chosen)) n)
        {| columns := columns df2;
           rows := process_canceled float_repr
                     (has_col "WorkDescription" (columns df2))
                     (index_isin n chosen) (rows df2) |}).
  { unfold out, extract_cancellation_reasons_from_df.
    fold df1. fold df2. rewrite Hmask, Hlen2.
    unfold effective_mask.
    rewrite mask_sum_map.
    replace (filter (fun _ : row => false) (rows df)) with (@nil row)
      by (clear; induction (rows df); simpl; auto).
    simpl List.length. rewrite Nat.eqb_refl.
    replace (Nat.ltb 0 n) with true by (symmetry; apply Nat.ltb_lt; exact Hn).
    simpl andb. unfold demo_size. fold k. unfold chosen.
    destruct (Random.choice 0 (seq 0 n) k g) as [picked g']. reflexivity. }
  rewrite mask_sum_index_isin in Hout by assumption.
  rewrite Hlen in Hout.
  assert (Hrate : company_cancel_rate k n = VFloat (Z.of_nat k # Pos.of_nat n)).
  { unfold company_cancel_rate.
    replace (Nat.ltb 0 n) with true by (symmetry; apply Nat.ltb_lt; exact Hn).
    reflexivity. }
  rewrite Hrate in Hout.
  repeat split; try assumption.
  - rewrite Hout. simpl. rewrite length_map, process_canceled_length. exact Hlen2.
  - intros r Hr. rewrite Hout in Hr. simpl in Hr. apply in_map_iff in Hr.
    destruct Hr as (r0 & <- & _). unfold set_col. rewrite String.eqb_refl.
    reflexivity.
  - unfold Qlt. simpl. unfold k. lia.
  - rewrite Hout. simpl.
    rewrite (nth_indep _ d (set_col "CancellationRate"
                              (VFloat (Z.of_nat k # Pos.of_nat n)) d))
      by (rewrite length_map, process_canceled_length, Hlen2; apply Hlt; assumption).
    rewrite (map_nth (set_col "CancellationRate" (VFloat (Z.of_nat k # Pos.of_nat n)))).
    rewrite process_canceled_nth
      by (rewrite ?Hlen2; unfold index_isin;
          rewrite ?length_map, ?length_seq; auto).
    rewrite index_isin_nth by auto.
    replace (existsb (Nat.eqb i) chosen) with true
      by (symmetry; apply existsb_exists; exists i; split;
          [assumption | apply Nat.eqb_refl]).
    rewrite Hcols2, H. simpl andb. cbv iota.
    rewrite Hprep.
    rewrite (nth_indep _ d (prep d)) by (rewrite length_map; apply Hlt; assumption).
    rewrite (map_nth prep). unfold set_reason. rewrite Hdesc.
    destruct (extract_cancellation_reason
                (text_of float_repr (nth i (rows df) d "WorkDescription")))
      as [reason conf].
    reflexivity.
  - rewrite Hout. simpl.
    rewrite (nth_indep _ d (set_col "CancellationRate"
                              (VFloat (Z.of_nat k # Pos.of_nat n)) d))
      by (rewrite length_map, process_canceled_length, Hlen2; apply Hlt; assumption).
    rewrite (map_nth (set_col "CancellationRate" (VFloat (Z.of_nat k # Pos.of_nat n)))).
    rewrite process_canceled_nth
      by (rewrite ?Hlen2; unfold index_isin;
          rewrite ?length_map, ?length_seq; auto).
    rewrite index_isin_nth by auto.
    replace (existsb (Nat.eqb i) chosen) with true
      by (symmetry; apply existsb_exists; exists i; split;
          [assumption | apply Nat.eqb_refl]).
    rewrite Hcols2, H. simpl andb. cbv iota.
    rewrite Hprep.
    rewrite (nth_indep _ d (prep d)) by (rewrite length_map; apply Hlt; assumption).
    rewrite (map_nth prep). unfold set_reason. rewrite Hdesc.
    destruct (extract_cancellation_reason
                (text_of float_repr (nth i (rows df) d "WorkDescription")))
      as [reason conf].
    reflexivity.
Qed.

End Frames.

End DemoCancellations.

Definition one_quiet_job : DataFrame :=
  {| columns := ["TechCode"; "WorkDescription"];
     rows := [ fun c => if String.eqb c "TechCode" then VStr "JS"
                        else if String.eqb c "WorkDescription"
                             then VStr "Replaced drain pump, tested OK"
                             else NA ] |}.

(** One job that was not cancelled: the frame comes back with a
    cancellation rate of 1. *)
Lemma demo_cancellations_example :
  let out := fst (TextMining.extract_cancellation_reasons_from_df
                    (fun _ => "") one_quiet_job entropy_a) in
  List.length (rows out) = 1
  /\ forall r, In r (rows out) -> r "CancellationRate" = VFloat (1 # 1).
Proof.
  pose proof (@demo_cancellations_are_fabricated (fun _ => "") one_quiet_job entropy_a)
    as H.
  cbv zeta in H.
  destruct H as (_ & _ & _ & Hlen & Hrate & _).
  - discriminate.
  - reflexivity.
  - intros r [<- | []]. reflexivity.
  - split; [exact Hlen | exact Hrate].
Defined.

Example demo_cancellations_reason :
  map (fun r : row => (r "CancellationReason", r "CancellationRate"))
    (rows (fst (TextMining.extract_cancellation_reasons_from_df
                  (fun _ => "") one_quiet_job entropy_a)))
  = [(VStr "OTHER", VFloat (1 # 1))].
Proof. vm_compute. reflexivity. Qed.

(* ================================================================== *)
(** ** Keys of a frame *)

Lemma cell_eqb_refl (a : cell) : cell_eqb a a = true.
Proof.
  destruct a as [| s | z | q | b]; simpl;
    [reflexivity | apply String.eqb_refl | | |];
    apply Qeq_bool_iff; reflexivity.
Qed.

Lemma cell_eqb_sym (a b : cell) : cell_eqb a b = cell_eqb b a.
Proof.
  assert (Hq : forall p q, Qeq_bool p q = Qeq_bool q p).
  { intros p q. destruct (Qeq_bool p q) eqn:E1, (Qeq_bool q p) eqn:E2; auto.
    - apply Qeq_bool_iff in E1. symmetry in E1. apply Qeq_bool_iff in E1. congruence.
    - apply Qeq_bool_iff in E2. symmetry in E2. apply Qeq_bool_iff in E2. congruence. }
  destruct a, b; simpl; auto using String.eqb_sym.
Qed.

Lemma cell_eqb_trans (a b c : cell) :
  cell_eqb a b = true -> cell_eqb b c = true -> cell_eqb a c = true.
Proof.
  assert (Hq : forall p q r, Qeq_bool p q = true -> Qeq_bool q r = true ->
                             Qeq_bool p r = true).
  { intros p q r H1 H2. apply Qeq_bool_iff in H1, H2. apply Qeq_bool_iff.
    rewrite H1. exact H2. }
  destruct a, b, c; simpl; try discriminate; eauto;
    intros H1 H2; apply String.eqb_eq in H1, H2; subst; apply String.eqb_refl.
Qed.

(** An equivalence on rows, decided by [same]. *)
Record row_equivalence (same : row -> row -> bool) : Prop := {
  same_refl : forall a, same a a = true;
  same_sym : forall a b, same a b = same b a;
  same_trans : forall a b c, same a b = true -> same b c = true -> same a c = true
}.

Lemma same_tech_invoice_equivalence : row_equivalence Integrator.same_tech_invoice.
Proof.
  unfold Integrator.same_tech_invoice. constructor.
  - intros a. rewrite !cell_eqb_refl. reflexivity.
  - intros a b. rewrite (cell_eqb_sym (a "TechCode")),
      (cell_eqb_sym (a "InvoiceNumber")). reflexivity.
  - intros a b c H1 H2. apply andb_true_iff in H1, H2. apply andb_true_iff.
    destruct H1, H2. split; eapply cell_eqb_trans; eassumption.
Qed.

Lemma same_tech_equivalence : row_equivalence Integrator.same_tech.
Proof.
  unfold Integrator.same_tech. constructor.
  - intros a. apply cell_eqb_refl.
  - intros a b. apply cell_eqb_sym.
  - intros a b c. apply cell_eqb_trans.
Qed.

Section DropDuplicates.
Import Integrator.

Variable same : row -> row -> bool.
Hypothesis same_equiv : row_equivalence same.

(** A row that is kept is a row of the frame, and its key is the key of no
    row kept before. *)
Lemma drop_duplicates_from_in (kept rs : list row) (r : row) :
  In r (drop_duplicates_from same kept rs) ->
  In r rs /\ existsb (same r) kept = false.
Proof.
  revert kept. induction rs as [| y rs IH]; intros kept H; simpl in *; [contradiction |].
  destruct (existsb (same y) kept) eqn:Hy.
  - destruct (IH _ H). auto.
  - destruct H as [<- | H]; [auto |].
    destruct (IH _ H) as [Hin Hnot]. split; [auto |].
    simpl in Hnot. apply orb_false_iff in Hnot. tauto.
Qed.

(** No two rows that are kept have the same key. *)
Lemma drop_duplicates_from_distinct (kept rs : list row) :
  ForallOrdPairs (fun a b => same a b = false) (drop_duplicates_from same kept rs).
Proof.
  revert kept. induction rs as [| y rs IH]; intros kept; simpl; [constructor |].
  destruct (existsb (same y) kept); [apply IH |].
  constructor; [| apply IH].
  apply Forall_forall. intros r Hr.
  apply drop_duplicates_from_in in Hr. destruct Hr as [_ Hnot].
  simpl in Hnot. apply orb_false_iff in Hnot.
  rewrite (same_sym same_equiv). tauto.
Qed.

(** Every row of the frame has its key among the keys kept before, or the
    first row of the frame with that key is kept. *)
Lemma drop_duplicates_from_first (kept rs : list row) (r : row) :
  In r rs ->
  existsb (same r) kept = true
  \/ exists before first after,
       rs = (before ++ first :: after)%list
       /\ same r first = true
       /\ (forall x, In x before -> same r x = false)
       /\ In first (drop_duplicates_from same kept rs).
Proof.
  revert kept. induction rs as [| y rs IH]; intros kept Hin; [contradiction |].
  simpl. destruct (same r y) eqn:Hry.
  - (* the head has the key of r *)
    destruct (existsb (same y) kept) eqn:Hy.
    + left. apply existsb_exists in Hy. destruct Hy as (k & Hk & Hyk).
      apply existsb_exists. exists k. split; [exact Hk |].
      exact (same_trans same_equiv _ _ _ Hry Hyk).
    + right. exists [], y, rs. simpl. repeat split; auto. intros x [].
  - destruct Hin as [-> | Hin];
      [rewrite (same_refl same_equiv) in Hry; discriminate |].
    assert (Hstep : forall kept',
      (existsb (same r) kept' = true -> existsb (same r) kept = true) ->
      (forall x, In x (drop_duplicates_from same kept' rs) ->
                 In x (if existsb (same y) kept
                       then drop_duplicates_from same kept rs
                       else y :: drop_duplicates_from same (y :: kept) rs)) ->
      existsb (same r) kept = true
      \/ exists before first after,
           (y :: rs = before ++ first :: after)%list
           /\ same r first = true
           /\ (forall x, In x before -> same r x = false)
           /\ In first (if existsb (same y) kept
                        then drop_duplicates_from same kept rs
                        else y :: drop_duplicates_from same (y :: kept) rs)).
    { intros kept' Hkept Hsub.
      destruct (IH kept' Hin) as [H | (before & first & after & -> & Hs & Hb & Hf)];
        [left; auto |].
      right. exists (y :: before), first, after. repeat split; auto.
      intros x [<- | Hx]; auto. }
    destruct (existsb (same y) kept) eqn:Hy.
    + apply (Hstep kept); auto.
    + apply (Hstep (y :: kept)).
      * simpl. rewrite Hry. simpl. auto.
      * intros x Hx. right. exact Hx.
Qed.

End DropDuplicates.

(* ================================================================== *)
(** ** Deduplication of the sales records *)

Section SalesDeduplication.
Import Integrator.

Variable float_repr : Q -> string.

(** Dropping duplicates commutes with a change of the rows that leaves the
    keys alone. *)
Lemma drop_duplicates_from_map (same : row -> row -> bool) (adjust : row -> row)
    (kept rs : list row) :
  (forall a b, same (adjust a) (adjust b) = same a b) ->
  drop_duplicates_from same (map adjust kept) (map adjust rs)
  = map adjust (drop_duplicates_from same kept rs).
Proof.
  intros Hsame. revert kept. induction rs as [| y rs IH]; intros kept; simpl;
    [reflexivity |].
  assert (E : existsb (same (adjust y)) (map adjust kept) = existsb (same y) kept).
  { clear IH. induction kept as [| k kept IHk]; simpl; [reflexivity |].
    rewrite Hsame, IHk. reflexivity. }
  rewrite E. destruct (existsb (same y) kept); [apply IH |].
  simpl. f_equal. apply (IH (y :: kept)).
Qed.

(** The twin of the technician column is the only change made to the sales
    rows before the duplicates are dropped; a frame that has [TechCode]
    keeps it. *)
Lemma sales_with_tech_rows (jobs_cols : list string) (sales_df : DataFrame) :
  exists adjust : row -> row,
    rows (sales_with_tech float_repr jobs_cols sales_df) = map adjust (rows sales_df)
    /\ forall r c,
         c <> "Technician" ->
         (c <> "TechCode" \/ has_col "TechCode" (columns sales_df) = true) ->
         adjust r c = r c.
Proof.
  unfold sales_with_tech.
  destruct (has_col "TechCode" jobs_cols && has_col "Technician" (columns sales_df)
            && negb (has_col "TechCode" (columns sales_df))) eqn:E1;
    destruct (has_col "Technician" jobs_cols && has_col "TechCode" (columns sales_df)
              && negb (has_col "Technician" (columns sales_df))) eqn:E2;
    simpl; rewrite ?map_map; eexists;
    (split; [first [reflexivity | symmetry; apply map_id] |]);
    intros r c Hc1 Hc2; unfold set_col;
    repeat match goal with
           | |- context [String.eqb c ?k] =>
               destruct (String.eqb_spec c k) as [-> | _]
           end; try reflexivity; try congruence.
  all: destruct Hc2 as [Hc2 | Hc2]; [congruence |].
  all: rewrite Hc2 in E1; rewrite !andb_false_r in E1; discriminate.
Qed.

(** When the sales frame has the columns [TechCode] and [InvoiceNumber],
    the sales rows left after [drop_duplicates] hold at most one row per
    pair of technician and invoice cell: no two of them have the same
    pair of cells, each of them is a row of the frame, and for every row
    of the frame the first row of the frame with its pair of cells is
    among them. The invoice numbers are not stripped yet. *)
Lemma sales_deduplicated_first_wins (jobs_cols : list string) (sales_df : DataFrame) :
  has_col "TechCode" (columns sales_df) = true ->
  has_col "InvoiceNumber" (columns sales_df) = true ->
  let kept := rows (sales_deduplicated float_repr jobs_cols sales_df) in
  ForallOrdPairs (fun a b => same_tech_invoice a b = false) kept
  /\ exists adjust : row -> row,
       (forall r c, c <> "Technician" -> adjust r c = r c)
       /\ (forall k, In k kept -> exists r, In r (rows sales_df) /\ k = adjust r)
       /\ (forall r, In r (rows sales_df) ->
             exists before first after,
               rows sales_df = (before ++ first :: after)%list
               /\ same_tech_invoice r first = true
               /\ (forall x, In x before -> same_tech_invoice r x = false)
               /\ In (adjust first) kept).
Proof.
  intros Htech Hinv kept.
  destruct (sales_with_tech_rows jobs_cols sales_df) as (adjust & Hrows & Hadj).
  assert (Hkeep : forall r c, c <> "Technician" -> adjust r c = r c)
    by (intros r c Hc; apply Hadj; auto).
  assert (Hsame : forall a b,
            same_tech_invoice (adjust a) (adjust b) = same_tech_invoice a b).
  { intros a b. unfold same_tech_invoice. rewrite !Hkeep by discriminate. reflexivity. }
  assert (Hkept : kept = map adjust (drop_duplicates same_tech_invoice (rows sales_df))).
  { unfold kept, sales_deduplicated. rewrite Hinv, Htech. simpl. rewrite Hrows.
    unfold drop_duplicates.
    exact (drop_duplicates_from_map same_tech_invoice adjust [] (rows sales_df) Hsame). }
  split.
  - unfold kept, sales_deduplicated. rewrite Hinv, Htech. simpl.
    apply drop_duplicates_from_distinct. exact same_tech_invoice_equivalence.
  - exists adjust. split; [exact Hkeep |]. split.
    + intros k Hk. rewrite Hkept in Hk. apply in_map_iff in Hk.
      destruct Hk as (r & <- & Hr).
      apply drop_duplicates_from_in in Hr. exists r. tauto.
    + intros r Hr.
      destruct (drop_duplicates_from_first same_tech_invoice_equivalence [] _ _ Hr)
        as [H | (before & first & after & Hsplit & Hs & Hb & Hf)];
        [discriminate |].
      exists before, first, after. repeat split; auto.
      rewrite Hkept. apply in_map. exact Hf.
Qed.

(** The join compares the invoice numbers after stripping them. When the
    invoice numbers of the frame are stripped text already, as the loader
    leaves them, the rows are the same at the join and no two of them have
    the same pair there either. *)
Lemma stripped_invoices_distinct_at_join (jobs_cols : list string) (sales_df : DataFrame) :
  has_col "TechCode" (columns sales_df) = true ->
  has_col "InvoiceNumber" (columns sales_df) = true ->
  (forall r, In r (rows sales_df) ->
             str_strip float_repr (r "InvoiceNumber") = r "InvoiceNumber") ->
  let kept := rows (sales_deduplicated float_repr jobs_cols sales_df) in
  (forall r c, In r kept ->
     set_col "InvoiceNumber" (str_strip float_repr (r "InvoiceNumber")) r c = r c)
  /\ ForallOrdPairs (fun a b => same_tech_invoice a b = false) kept.
Proof.
  intros Htech Hinv Hstripped kept.
  assert (Hkept : kept
            = drop_duplicates same_tech_invoice
                (rows (sales_with_tech float_repr jobs_cols sales_df))).
  { unfold kept, sales_deduplicated. rewrite Hinv, Htech. reflexivity. }
  split.
  - intros r c Hr. unfold set_col.
    destruct (String.eqb_spec c "InvoiceNumber") as [-> | _]; [| reflexivity].
    rewrite Hkept in Hr. apply drop_duplicates_from_in in Hr. destruct Hr as [Hr _].
    destruct (sales_with_tech_rows jobs_cols sales_df) as (adjust & Hrows & Hadj).
    rewrite Hrows in Hr. apply in_map_iff in Hr. destruct Hr as (r0 & <- & Hr0).
    rewrite Hadj by (auto; discriminate). apply Hstripped. exact Hr0.
  - rewrite Hkept. apply drop_duplicates_from_distinct.
    exact same_tech_invoice_equivalence.
Qed.

End SalesDeduplication.

(** A sales journal in which one invoice of a technician is recorded
    twice. *)
Definition sale (tech invoice : string) (labor : Z) : row := fun c =>
  if String.eqb c "TechCode" then VStr tech
  else if String.eqb c "InvoiceNumber" then VStr invoice
  else if String.eqb c "LaborSold" then VInt labor
  else NA.

Definition sales_with_duplicate : DataFrame :=
  {| columns := ["TechCode"; "InvoiceNumber"; "LaborSold"];
     rows := [ sale "JS" "100" 50; sale "JS" "100" 70; sale "JD" "100" 10 ] |}.

Lemma sales_deduplicated_example :
  ForallOrdPairs (fun a b => Integrator.same_tech_invoice a b = false)
    (rows (Integrator.sales_deduplicated (fun _ => "") ["TechCode"; "JobNumber"]
             sales_with_duplicate)).
Proof.
  apply (proj1 (@sales_deduplicated_first_wins (fun _ => "") ["TechCode"; "JobNumber"]
                  sales_with_duplicate eq_refl eq_refl)).
Defined.

(** The first of the two records of invoice 100 of JS is the one kept. *)
Example sales_deduplicated_keeps_first :
  map (fun r : row => (r "TechCode", r "InvoiceNumber", r "LaborSold"))
    (rows (Integrator.sales_deduplicated (fun _ => "") ["TechCode"; "JobNumber"]
             sales_with_duplicate))
  = [ (VStr "JS", VStr "100", VInt 50); (VStr "JD", VStr "100", VInt 10) ].
Proof. vm_compute. reflexivity. Qed.

(* ================================================================== *)
(** ** Sums of a revenue column *)

Section ColumnSums.

Variable c : string.

Lemma col_sum_app (a b : list row) :
  col_sum c (a ++ b) = (col_sum c a + col_sum c b)%Z.
Proof.
  unfold col_sum. induction a as [| r a IH]; simpl; [reflexivity |].
  rewrite IH. lia.
Qed.

Definition non_negative (rs : list row) : Prop :=
  forall r, In r rs -> (0 <= num_of (r c))%Z.

Lemma col_sum_nonneg (rs : list row) : non_negative rs -> (0 <= col_sum c rs)%Z.
Proof.
  unfold non_negative, col_sum.
  induction rs as [| r rs IH]; intros H; simpl; [lia |].
  specialize (H r (or_introl eq_refl)) as Hr.
  assert (0 <= fold_right (fun r acc => num_of (r c) + acc) 0 rs)%Z
    by (apply IH; intros x Hx; apply H; right; exact Hx).
  lia.
Qed.

Lemma non_negative_filter (f : row -> bool) (rs : list row) :
  non_negative rs -> non_negative (filter f rs).
Proof. intros H r Hr. apply filter_In in Hr. apply H. tauto. Qed.

Lemma col_sum_partition (f : row -> bool) (rs : list row) :
  (col_sum c (filter f rs) + col_sum c (filter (fun r => negb (f r)) rs))%Z
  = col_sum c rs.
Proof.
  unfold col_sum. induction rs as [| r rs IH]; simpl; [reflexivity |].
  destruct (f r); simpl; lia.
Qed.

Lemma col_sum_map (g : row -> row) (rs : list row) :
  (forall r, num_of (g r c) = num_of (r c)) ->
  col_sum c (map g rs) = col_sum c rs.
Proof.
  intros Hg. unfold col_sum. induction rs as [| r rs IH]; simpl; [reflexivity |].
  rewrite Hg, IH. reflexivity.
Qed.

(** Dropping rows cannot raise the sum of amounts that are not negative. *)
Lemma col_sum_drop_duplicates_le (same : row -> row -> bool) (f : row -> bool)
    (kept rs : list row) :
  non_negative rs ->
  (col_sum c (filter f (Integrator.drop_duplicates_from same kept rs))
   <= col_sum c (filter f rs))%Z.
Proof.
  revert kept. induction rs as [| r rs IH]; intros kept Hnn; simpl; [lia |].
  assert (Hrs : non_negative rs) by (intros x Hx; apply Hnn; right; exact Hx).
  assert (Hr : (0 <= num_of (r c))%Z) by (apply Hnn; left; reflexivity).
  destruct (existsb (same r) kept).
  - specialize (IH kept Hrs). destruct (f r); simpl; unfold col_sum in *; simpl; lia.
  - specialize (IH (r :: kept) Hrs). simpl.
    destruct (f r); simpl; unfold col_sum in *; simpl; lia.
Qed.

End ColumnSums.

Lemma filter_comm {A : Type} (f g : A -> bool) (l : list A) :
  filter f (filter g l) = filter g (filter f l).
Proof.
  induction l as [| x l IH]; simpl; [reflexivity |].
  destruct (f x) eqn:Hf, (g x) eqn:Hg; simpl; rewrite ?Hf, ?Hg, IH; reflexivity.
Qed.

Lemma filter_without {A : Type} (f g : A -> bool) (l : list A) :
  (forall x, In x l -> f x = true -> g x = false) ->
  filter f (filter (fun x => negb (g x)) l) = filter f l.
Proof.
  induction l as [| x l IH]; intros H; simpl; [reflexivity |].
  assert (Hl : forall y, In y l -> f y = true -> g y = false)
    by (intros y Hy; apply H; right; exact Hy).
  destruct (g x) eqn:Hg; simpl.
  - destruct (f x) eqn:Hf; [| apply IH; exact Hl].
    rewrite (H x (or_introl eq_refl) Hf) in Hg. discriminate.
  - destruct (f x); rewrite IH by exact Hl; reflexivity.
Qed.

Section MergeSums.
Import Integrator.

Variable c : string.
Variable on : row -> row -> bool.
Variable join : row -> option row -> row.
Variables P Pj Qs : row -> bool.

(** The merged row carries the amount of the sales row, or nothing; it is
    selected with its job; and a sales row joined to a selected job is
    selected. *)
Hypothesis amount_of_sale : forall j s, num_of (join j (Some s) c) = num_of (s c).
Hypothesis amount_of_none : forall j, num_of (join j None c) = 0%Z.
Hypothesis selected_with_job : forall j o, P (join j o) = Pj j.
Hypothesis sale_selected : forall j s, on j s = true -> Pj j = true -> Qs s = true.

(** The rows made for one job. *)
Definition job_block (j : row) (S : list row) : list row :=
  match filter (on j) S with
  | [] => [join j None]
  | found => map (fun r => join j (Some r)) found
  end.

Lemma merge_left_cons (j : row) (J S : list row) :
  merge_left on join (j :: J) S = (job_block j S ++ merge_left on join J S)%list.
Proof. reflexivity. Qed.

Lemma merge_left_agree (J S S' : list row) :
  (forall j, In j J -> filter (on j) S = filter (on j) S') ->
  merge_left on join J S = merge_left on join J S'.
Proof.
  induction J as [| j J IH]; intros H; [reflexivity |].
  rewrite !merge_left_cons. unfold job_block.
  rewrite (H j (or_introl eq_refl)), IH; [reflexivity |].
  intros j' Hj'. apply H. right. exact Hj'.
Qed.

Lemma job_block_sum (j : row) (S : list row) :
  non_negative c S ->
  (col_sum c (filter P (job_block j S)) <= col_sum c (filter Qs (filter (on j) S)))%Z.
Proof.
  intros Hnn. unfold job_block.
  assert (Hpos : (0 <= col_sum c (filter Qs (filter (on j) S)))%Z).
  { apply col_sum_nonneg. do 2 apply non_negative_filter. exact Hnn. }
  destruct (Pj j) eqn:Hj.
  - assert (Hall : filter Qs (filter (on j) S) = filter (on j) S).
    { apply forallb_filter_id. apply forallb_forall. intros s Hs.
      apply filter_In in Hs. apply sale_selected with (j := j); tauto. }
    rewrite Hall.
    destruct (filter (on j) S) as [| s0 found] eqn:Hf.
    + simpl. rewrite selected_with_job, Hj. unfold col_sum. simpl.
      rewrite amount_of_none. lia.
    + assert (Hkeep : filter P (map (fun r => join j (Some r)) (s0 :: found))
                      = map (fun r => join j (Some r)) (s0 :: found)).
      { apply forallb_filter_id. apply forallb_forall. intros x Hx.
        apply in_map_iff in Hx. destruct Hx as (s & <- & _).
        rewrite selected_with_job. exact Hj. }
      rewrite Hkeep. clear Hkeep Hall Hpos Hf.
      unfold col_sum. induction (s0 :: found) as [| s l IHl]; simpl; [lia |].
      rewrite amount_of_sale. lia.
  - assert (Hnone : forall l, filter P (map (fun r => join j (Some r)) l) = []).
    { induction l as [| s l IHl]; simpl; [reflexivity |].
      rewrite selected_with_job, Hj. exact IHl. }
    destruct (filter (on j) S) as [| s0 found].
    + simpl. rewrite selected_with_job, Hj. exact Hpos.
    + rewrite Hnone. exact Hpos.
Qed.

(** When no sales row is joined to two jobs, the selected rows of a left
    merge sum to no more than the selected sales rows. *)
Lemma merge_left_sum_le (J : list row) :
  ForallOrdPairs (fun j1 j2 => forall s, on j1 s = true -> on j2 s = true -> False) J ->
  forall S,
  non_negative c S ->
  (col_sum c (filter P (merge_left on join J S)) <= col_sum c (filter Qs S))%Z.
Proof.
  induction 1 as [| j J Hj HJ IH]; intros S Hnn.
  - simpl. apply col_sum_nonneg, non_negative_filter. exact Hnn.
  - rewrite merge_left_cons, filter_app, col_sum_app.
    set (S0 := filter (fun s => negb (on j s)) S).
    assert (Hagree : merge_left on join J S = merge_left on join J S0).
    { apply merge_left_agree. intros j' Hj'. symmetry. unfold S0.
      apply filter_without. intros s _ Hs.
      destruct (on j s) eqn:E; [| reflexivity].
      exfalso. rewrite Forall_forall in Hj. exact (Hj j' Hj' s E Hs). }
    rewrite Hagree.
    pose proof (IH S0 (non_negative_filter _ Hnn)) as Hrest.
    pose proof (job_block_sum j Hnn) as Hblock.
    pose proof (col_sum_partition c (on j) (filter Qs S)) as Hpart.
    rewrite (filter_comm (on j) Qs) in Hpart.
    unfold S0 in Hrest.
    rewrite (filter_comm Qs (fun s => negb (on j s))) in Hrest.
    unfold S0. lia.
Qed.

End MergeSums.

(* ================================================================== *)
(** ** The shape of the merged frame *)

Section MergeShape.
Import Integrator.

Variable float_repr : Q -> string.

(** A loop that changes one column per turn changes no column outside its
    list. *)
Lemma fold_cols_rows (step : DataFrame -> string -> DataFrame) (cols : list string) :
  (forall df col, exists f : row -> row,
      rows (step df col) = map f (rows df)
      /\ forall r k, k <> col -> f r k = r k) ->
  forall df, exists f : row -> row,
    rows (fold_left step cols df) = map f (rows df)
    /\ forall r k, ~ In k cols -> f r k = r k.
Proof.
  intros Hstep. induction cols as [| col cols IH]; intros df; simpl.
  - exists (fun r => r). split; [symmetry; apply map_id | reflexivity].
  - destruct (Hstep df col) as (f1 & Hrows1 & Hf1).
    destruct (IH (step df col)) as (f2 & Hrows2 & Hf2).
    exists (fun r => f2 (f1 r)). split.
    + rewrite Hrows2, Hrows1, map_map. reflexivity.
    + intros r k Hk. simpl in Hk. rewrite Hf2, Hf1; intuition congruence.
Qed.

Lemma drop_revenue_cols_rows (df : DataFrame) :
  exists f : row -> row,
    rows (drop_revenue_cols df) = map f (rows df)
    /\ forall r k, ~ In k REVENUE_COLS -> f r k = r k.
Proof.
  apply fold_cols_rows. clear df. intros df col.
  destruct (has_col col (columns df)).
  - exists (set_col col NA). split; [reflexivity |].
    intros r k Hk. unfold set_col.
    destruct (String.eqb_spec k col); [contradiction | reflexivity].
  - exists (fun r => r). split; [symmetry; apply map_id | reflexivity].
Qed.

Lemma zero_type6_cols_rows (df : DataFrame) :
  exists f : row -> row,
    rows (zero_type6_cols df) = map f (rows df)
    /\ forall r k, ~ In k TYPE6_REVENUE_COLS -> f r k = r k.
Proof.
  apply fold_cols_rows. clear df. intros df col.
  destruct (has_col col (columns df)).
  - exists (set_col col (VInt 0)). split; [reflexivity |].
    intros r k Hk. unfold set_col.
    destruct (String.eqb_spec k col); [contradiction | reflexivity].
  - exists (fun r => r). split; [symmetry; apply map_id | reflexivity].
Qed.

(** The revenue columns the sales frame has. *)
Definition revenue_of_sales (sales_df : DataFrame) : list string :=
  filter (fun col => has_col col (columns sales_df)) REVENUE_COLS.

Definition strip_invoice (r : row) : row :=
  set_col "InvoiceNumber" (str_strip float_repr (r "InvoiceNumber")) r.

Lemma merge_left_map_join (on : row -> row -> bool) (join : row -> option row -> row)
    (final : row -> row) (J S : list row) :
  map final (merge_left on join J S)
  = merge_left on (fun j o => final (join j o)) J S.
Proof.
  induction J as [| j J IH]; [reflexivity |].
  rewrite !merge_left_cons, map_app, IH. f_equal.
  unfold job_block. destruct (filter (on j) S); [reflexivity |].
  rewrite map_map. reflexivity.
Qed.

(** On the path that joins job numbers to invoice numbers the result is
    the left merge of the jobs, their numbers stripped, with the
    deduplicated sales rows, their numbers stripped. *)
Lemma merge_exact_rows (jobs_df sales_df out : DataFrame) :
  has_col "JobNumber" (columns jobs_df) && has_col "InvoiceNumber" (columns sales_df)
  = true ->
  merge_sales_with_jobs float_repr jobs_df sales_df = Ok out ->
  exists (prep final : row -> row) (jobs_cols : list string),
    (forall r, prep r "TechCode" = r "TechCode")
    /\ (forall r, prep r "JobNumber" = str_strip float_repr (r "JobNumber"))
    /\ (forall r k, k <> "TotalMaterialInSale" -> final r k = r k)
    /\ rows out
       = merge_left on_tech_job_invoice
           (fun j o => final (join_exact jobs_cols (revenue_of_sales sales_df) j o))
           (map prep (rows jobs_df))
           (map strip_invoice
              (rows (sales_deduplicated float_repr (columns jobs_df) sales_df))).
Proof.
  intros Hpath Hok. unfold merge_sales_with_jobs in Hok. rewrite Hpath in Hok.
  fold (revenue_of_sales sales_df) in Hok.
  set (jobs1 := assign "JobNumber" (fun r : row => str_strip float_repr (r "JobNumber"))
                  jobs_df) in *.
  set (jobs2 := drop_revenue_cols jobs1) in *.
  set (jobs3 := match revenue_of_sales sales_df with
                | [] => jobs2
                | _ :: _ => zero_type6_cols jobs2
                end) in *.
  assert (Hprep : exists prep : row -> row,
            rows jobs3 = map prep (rows jobs_df)
            /\ (forall r, prep r "TechCode" = r "TechCode")
            /\ (forall r, prep r "JobNumber" = str_strip float_repr (r "JobNumber"))).
  { destruct (drop_revenue_cols_rows jobs1) as (f2 & Hr2 & Hf2).
    fold jobs2 in Hr2.
    assert (H2 : exists prep : row -> row,
              rows jobs2 = map prep (rows jobs_df)
              /\ (forall r, prep r "TechCode" = r "TechCode")
              /\ (forall r, prep r "JobNumber" = str_strip float_repr (r "JobNumber"))).
    { exists (fun r => f2 (set_col "JobNumber" (str_strip float_repr (r "JobNumber")) r)).
      split; [rewrite Hr2; unfold jobs1; simpl; rewrite map_map; reflexivity |].
      split; intros r; rewrite Hf2 by (simpl; intuition discriminate); reflexivity. }
    unfold jobs3. destruct (revenue_of_sales sales_df); [exact H2 |].
    destruct H2 as (prep & Hr & Ht & Hj).
    destruct (zero_type6_cols_rows jobs2) as (f3 & Hr3 & Hf3).
    exists (fun r => f3 (prep r)). split; [rewrite Hr3, Hr, map_map; reflexivity |].
    split; intros r; rewrite Hf3 by (simpl; intuition discriminate); auto. }
  destruct Hprep as (prep & Hrows & Htech & Hjob).
  destruct (negb (has_col "TechCode" (columns (assign "InvoiceNumber" _ _))));
    [discriminate |].
  destruct (negb (has_col "TechCode" (columns jobs3))); [discriminate |].
  injection Hok as <-.
  match goal with
  | |- context [if ?b then _ else _] => destruct b
  end.
  - exists prep, (fun r => set_col "TotalMaterialInSale" (r "TotalMateriaInSale") r),
      (columns jobs3).
    repeat split; auto.
    + intros r k Hk. unfold set_col.
      destruct (String.eqb_spec k "TotalMaterialInSale"); [contradiction | reflexivity].
    + simpl. rewrite Hrows. apply merge_left_map_join.
  - exists prep, (fun r => r), (columns jobs3). repeat split; auto.
    simpl. rewrite Hrows. reflexivity.
Qed.

(** On the technician-level path the result is the left merge of the jobs
    with the per-technician sums of the deduplicated sales rows. *)
Lemma merge_fallback_rows (jobs_df sales_df out : DataFrame) :
  has_col "JobNumber" (columns jobs_df) && has_col "InvoiceNumber" (columns sales_df)
  = false ->
  has_col "TechCode" (columns jobs_df) && has_col "TechCode" (columns sales_df) = true ->
  merge_sales_with_jobs float_repr jobs_df sales_df = Ok out ->
  exists prep : row -> row,
    (forall r, prep r "TechCode" = r "TechCode")
    /\ rows out
       = merge_left same_tech (join_summary (revenue_of_sales sales_df))
           (map prep (rows jobs_df))
           (sales_summary (revenue_of_sales sales_df)
              (rows (sales_deduplicated float_repr (columns jobs_df) sales_df))).
Proof.
  intros Hpath Htech Hok. unfold merge_sales_with_jobs in Hok.
  rewrite Hpath, Htech in Hok. fold (revenue_of_sales sales_df) in Hok.
  destruct (revenue_of_sales sales_df) as [| col revenue] eqn:Hrev; [discriminate |].
  injection Hok as <-.
  destruct (drop_revenue_cols_rows jobs_df) as (f & Hr & Hf).
  exists f. split; [intros r; apply Hf; simpl; intuition discriminate |].
  simpl. rewrite Hr. reflexivity.
Qed.

End MergeShape.

(* ================================================================== *)
(** ** Merged revenue against the sales journal *)

Lemma has_col_In (k : string) (cols : list string) : has_col k cols = true <-> In k cols.
Proof.
  unfold has_col. rewrite existsb_exists. split.
  - intros (x & Hx & Heq). apply String.eqb_eq in Heq. subst. exact Hx.
  - intros H. exists k. split; [exact H | apply String.eqb_refl].
Qed.

Lemma filter_true {A : Type} (l : list A) : filter (fun _ => true) l = l.
Proof. induction l as [| x l IH]; simpl; [| rewrite IH]; reflexivity. Qed.

Lemma col_sum_filter_map (c : string) (Q : row -> bool) (g : row -> row) (rs : list row) :
  (forall r, Q (g r) = Q r) ->
  (forall r, num_of (g r c) = num_of (r c)) ->
  col_sum c (filter Q (map g rs)) = col_sum c (filter Q rs).
Proof.
  intros HQ Hg. unfold col_sum. induction rs as [| r rs IH]; simpl; [reflexivity |].
  rewrite HQ. destruct (Q r); simpl; rewrite ?Hg, IH; reflexivity.
Qed.

(** The rows of a technician. *)
Definition of_tech (t : cell) (r : row) : bool := cell_eqb (r "TechCode") t.

Section MergedRevenue.
Import Integrator.

Variable float_repr : Q -> string.

(** Two jobs have the same key of the join: the same technician and, once
    stripped, the same job number. *)
Definition same_job_key (a b : row) : bool :=
  cell_eqb (a "TechCode") (b "TechCode")
  && cell_eqb (str_strip float_repr (a "JobNumber")) (str_strip float_repr (b "JobNumber")).

Lemma revenue_col_facts (sales_df : DataFrame) (c : string) :
  In c (revenue_of_sales sales_df) ->
  has_col c (revenue_of_sales sales_df) = true
  /\ c <> "TechCode" /\ c <> "Technician" /\ c <> "InvoiceNumber"
  /\ c <> "InvoiceNumber_sales" /\ c <> "TotalMaterialInSale".
Proof.
  intros Hc. split; [apply has_col_In; exact Hc |].
  apply filter_In in Hc. destruct Hc as [Hc _]. simpl in Hc.
  repeat split; intros ->; intuition discriminate.
Qed.

Lemma tech_not_revenue (sales_df : DataFrame) :
  has_col "TechCode" (revenue_of_sales sales_df) = false.
Proof.
  destruct (has_col "TechCode" (revenue_of_sales sales_df)) eqn:E; [| reflexivity].
  apply has_col_In, filter_In in E. destruct E as [E _]. simpl in E.
  intuition discriminate.
Qed.

(** The amounts of the sales rows as they stand before the duplicates are
    dropped are those of the frame. *)
Lemma raw_amounts (jobs_cols : list string) (sales_df : DataFrame) (c : string) :
  c <> "TechCode" -> c <> "Technician" ->
  non_negative c (rows sales_df) ->
  non_negative c (rows (sales_with_tech float_repr jobs_cols sales_df))
  /\ col_sum c (rows (sales_with_tech float_repr jobs_cols sales_df))
     = col_sum c (rows sales_df).
Proof.
  intros H1 H2 Hnn.
  destruct (sales_with_tech_rows float_repr jobs_cols sales_df) as (adjust & Hrows & Hadj).
  rewrite Hrows. split.
  - intros r Hr. apply in_map_iff in Hr. destruct Hr as (r0 & <- & Hr0).
    rewrite Hadj by auto. apply Hnn. exact Hr0.
  - apply col_sum_map. intros r. rewrite Hadj by auto. reflexivity.
Qed.

(** The selected sales rows that reach the join sum to no more than the
    selected rows of the journal. *)
Lemma deduplicated_sum_le (jobs_cols : list string) (sales_df : DataFrame)
    (c : string) (Q : row -> bool) :
  non_negative c (rows (sales_with_tech float_repr jobs_cols sales_df)) ->
  (col_sum c (filter Q (rows (sales_deduplicated float_repr jobs_cols sales_df)))
   <= col_sum c (filter Q (rows (sales_with_tech float_repr jobs_cols sales_df))))%Z.
Proof.
  intros Hnn. unfold sales_deduplicated.
  destruct (has_col "InvoiceNumber" (columns sales_df)
            && has_col "TechCode" (columns sales_df)); [| apply Z.le_refl].
  simpl. apply col_sum_drop_duplicates_le. exact Hnn.
Qed.

Lemma of_tech_joined (t : cell) (j s : row) :
  cell_eqb (j "TechCode") (s "TechCode") = true ->
  of_tech t j = true -> of_tech t s = true.
Proof.
  unfold of_tech. intros Hjs Hj.
  apply cell_eqb_trans with (b := j "TechCode"); [| exact Hj].
  rewrite cell_eqb_sym. exact Hjs.
Qed.

(** C1, as the code has it. For a revenue column [c] of the sales frame
    whose amounts are not negative:
    - on the path that joins job numbers to invoice numbers, when no two
      jobs have the same technician and (stripped) job number, the sum of
      [c] over the merged rows of a technician is at most its sum over the
      sales rows of that technician, and the sum over all merged rows is at
      most the sum over all sales rows;
    - on the technician-level path every merged row carries, under [c], the
      sum of [c] over the deduplicated sales rows of its technician (or
      nothing, when the technician has no sales row), which is at most the
      sum over the technician's sales rows: the total is repeated on every
      job of the technician. *)
Theorem merged_revenue_bounded (jobs_df sales_df out : DataFrame) (c : string) :
  merge_sales_with_jobs float_repr jobs_df sales_df = Ok out ->
  In c (revenue_of_sales sales_df) ->
  non_negative c (rows sales_df) ->
  let exact :=
    has_col "JobNumber" (columns jobs_df) && has_col "InvoiceNumber" (columns sales_df) in
  let raw := rows (sales_with_tech float_repr (columns jobs_df) sales_df) in
  let kept := rows (sales_deduplicated float_repr (columns jobs_df) sales_df) in
  (exact = true ->
   ForallOrdPairs (fun a b => same_job_key a b = false) (rows jobs_df) ->
   (forall t, (col_sum c (filter (of_tech t) (rows out))
               <= col_sum c (filter (of_tech t) raw))%Z)
   /\ (col_sum c (rows out) <= col_sum c (rows sales_df))%Z)
  /\ (exact = false ->
      has_col "TechCode" (columns jobs_df) && has_col "TechCode" (columns sales_df)
      = true ->
      forall r, In r (rows out) ->
        (r c = NA \/ r c = VInt (col_sum c (filter (of_tech (r "TechCode")) kept)))
        /\ (0 <= num_of (r c) <= col_sum c (filter (of_tech (r "TechCode")) raw))%Z).
Proof.
  intros Hok Hc Hnn exact raw kept.
  destruct (revenue_col_facts _ _ Hc) as (Hrev & Hc1 & Hc2 & Hc3 & Hc4 & Hc5).
  destruct (@raw_amounts (columns jobs_df) sales_df c Hc1 Hc2 Hnn) as [Hraw_nn Hraw_sum].
  fold raw in Hraw_nn, Hraw_sum.
  split.
  - (* the exact path *)
    intros Hpath Huniq.
    destruct (@merge_exact_rows float_repr jobs_df sales_df out Hpath Hok)
      as (prep & final & jc & Htech & Hjob & Hfinal & Hrows).
    fold kept in Hrows.
    set (join := fun j o => final (join_exact jc (revenue_of_sales sales_df) j o))
      in *.
    assert (Hinv : forall k, k <> "InvoiceNumber" -> k <> "InvoiceNumber_sales" ->
                             String.eqb k (invoice_col jc) = false).
    { intros k H1 H2. unfold invoice_col.
      destruct (has_col "InvoiceNumber" jc); apply String.eqb_neq; assumption. }
    assert (A1 : forall j s, num_of (join j (Some s) c) = num_of (s c)).
    { intros j s. unfold join. rewrite Hfinal by exact Hc5.
      unfold join_exact. rewrite Hinv, Hrev by assumption. reflexivity. }
    assert (A2 : forall j, num_of (join j None c) = 0%Z).
    { intros j. unfold join. rewrite Hfinal by exact Hc5.
      unfold join_exact. rewrite Hinv, Hrev by assumption. reflexivity. }
    assert (Atech : forall j o, join j o "TechCode" = j "TechCode").
    { intros j o. unfold join. rewrite Hfinal by discriminate.
      unfold join_exact. rewrite Hinv, tech_not_revenue by discriminate.
      reflexivity. }
    assert (HJ : ForallOrdPairs
                   (fun j1 j2 => forall s, on_tech_job_invoice j1 s = true ->
                                           on_tech_job_invoice j2 s = true -> False)
                   (map prep (rows jobs_df))).
    { clear -Huniq Htech Hjob. induction Huniq as [| a l Ha Hl IH]; simpl; constructor.
      - apply Forall_forall. intros j2 Hj2. apply in_map_iff in Hj2.
        destruct Hj2 as (b & <- & Hb). rewrite Forall_forall in Ha.
        specialize (Ha b Hb). intros s H1 H2.
        unfold on_tech_job_invoice in H1, H2. rewrite Htech, Hjob in H1, H2.
        apply andb_true_iff in H1, H2. destruct H1 as [T1 N1], H2 as [T2 N2].
        unfold same_job_key in Ha. apply andb_false_iff in Ha.
        destruct Ha as [Ha | Ha].
        + assert (X : cell_eqb (a "TechCode") (b "TechCode") = true)
            by (eapply cell_eqb_trans; [exact T1 | rewrite cell_eqb_sym; exact T2]).
          congruence.
        + assert (X : cell_eqb (str_strip float_repr (a "JobNumber"))
                        (str_strip float_repr (b "JobNumber")) = true)
            by (eapply cell_eqb_trans; [exact N1 | rewrite cell_eqb_sym; exact N2]).
          congruence.
      - exact IH. }
    assert (Hkept_nn : non_negative c (map (strip_invoice float_repr) kept)).
    { intros s Hs. apply in_map_iff in Hs. destruct Hs as (d & <- & Hd).
      unfold strip_invoice, set_col.
      rewrite (proj2 (String.eqb_neq c "InvoiceNumber") Hc3).
      assert (Hd' : In d raw).
      { unfold kept, sales_deduplicated in Hd.
        destruct (has_col "InvoiceNumber" (columns sales_df)
                  && has_col "TechCode" (columns sales_df)); [| exact Hd].
        simpl in Hd. apply drop_duplicates_from_in in Hd. tauto. }
      apply Hraw_nn. exact Hd'. }
    assert (Hstrip : forall (Q : row -> bool),
              (forall r, Q (strip_invoice float_repr r) = Q r) ->
              (col_sum c (filter Q (map (strip_invoice float_repr) kept))
               <= col_sum c (filter Q raw))%Z).
    { intros Q HQ. rewrite col_sum_filter_map; [| exact HQ |].
      - apply deduplicated_sum_le. exact Hraw_nn.
      - intros r. unfold strip_invoice, set_col.
        rewrite (proj2 (String.eqb_neq c "InvoiceNumber") Hc3). reflexivity. }
    split.
    + intros t. rewrite Hrows.
      eapply Z.le_trans.
      * apply (@merge_left_sum_le c on_tech_job_invoice join
                 (of_tech t) (of_tech t) (of_tech t) A1 A2).
        -- intros j o. unfold of_tech. rewrite Atech. reflexivity.
        -- intros j s Hon. unfold on_tech_job_invoice in Hon.
           apply andb_true_iff in Hon. apply of_tech_joined. tauto.
        -- exact HJ.
        -- exact Hkept_nn.
      * apply Hstrip. intros r. reflexivity.
    + rewrite <- Hraw_sum.
      rewrite <- (filter_true (rows out)), <- (filter_true raw). rewrite Hrows.
      eapply Z.le_trans.
      * apply (@merge_left_sum_le c on_tech_job_invoice join
                 (fun _ => true) (fun _ => true) (fun _ => true) A1 A2);
          auto.
      * apply Hstrip. reflexivity.
  - (* the technician-level path *)
    intros Hpath Hboth r Hr.
    destruct (@merge_fallback_rows float_repr jobs_df sales_df out Hpath Hboth Hok)
      as (prep & Htech & Hrows).
    fold kept in Hrows. rewrite Hrows in Hr.
    unfold merge_left in Hr. apply in_flat_map in Hr.
    destruct Hr as (j & Hj & Hr).
    assert (Hle : forall t,
              (0 <= col_sum c (filter (of_tech t) kept)
               <= col_sum c (filter (of_tech t) raw))%Z).
    { intros t. split; [| apply deduplicated_sum_le; exact Hraw_nn].
      apply col_sum_nonneg, non_negative_filter.
      intros d Hd. apply Hraw_nn.
      unfold kept, sales_deduplicated in Hd.
      destruct (has_col "InvoiceNumber" (columns sales_df)
                && has_col "TechCode" (columns sales_df)); [| exact Hd].
      simpl in Hd. apply drop_duplicates_from_in in Hd. tauto. }
    assert (Hnone : join_summary (revenue_of_sales sales_df) j None c = NA)
      by (unfold join_summary; rewrite Hrev; reflexivity).
    destruct (filter (same_tech j)
                (sales_summary (revenue_of_sales sales_df) kept)) as [| h0 found] eqn:Hf.
    + destruct Hr as [<- | []]. rewrite Hnone. split; [left; reflexivity |].
      simpl.
      pose proof (Hle (join_summary (revenue_of_sales sales_df) j None "TechCode")).
      lia.
    + apply in_map_iff in Hr. destruct Hr as (h & <- & Hh).
      rewrite <- Hf in Hh. apply filter_In in Hh. destruct Hh as [Hh Hsame].
      unfold sales_summary in Hh. apply in_map_iff in Hh.
      destruct Hh as (head & Hhead & _).
      assert (Hhc : h c = VInt (col_sum c (filter (same_tech head) kept))).
      { rewrite <- Hhead. rewrite (proj2 (String.eqb_neq c "TechCode") Hc1), Hrev.
        reflexivity. }
      assert (Hht : h "TechCode" = head "TechCode")
        by (rewrite <- Hhead; reflexivity).
      unfold same_tech in Hsame. rewrite Hht in Hsame.
      assert (Hgroup : filter (same_tech head) kept
                       = filter (of_tech (j "TechCode")) kept).
      { apply filter_ext. intros s. unfold same_tech, of_tech.
        destruct (cell_eqb (head "TechCode") (s "TechCode")) eqn:E1.
        - symmetry. rewrite cell_eqb_sym.
          eapply cell_eqb_trans; [exact Hsame | exact E1].
        - destruct (cell_eqb (s "TechCode") (j "TechCode")) eqn:E2; [| reflexivity].
          exfalso.
          assert (X : cell_eqb (s "TechCode") (head "TechCode") = true)
            by (eapply cell_eqb_trans; [exact E2 | exact Hsame]).
          rewrite cell_eqb_sym in X. congruence. }
      unfold join_summary. rewrite Hrev, tech_not_revenue, Hhc, Hgroup.
      split; [right; reflexivity |]. simpl. apply Hle.
Qed.

End MergedRevenue.

(** Frames for the two paths of the merge. *)
Definition job_of (tech : string) : row := fun c =>
  if String.eqb c "TechCode" then VStr tech else NA.

Definition numbered_job (tech number : string) : row := fun c =>
  if String.eqb c "TechCode" then VStr tech
  else if String.eqb c "JobNumber" then VStr number
  else NA.

(** Two jobs of one technician, without job numbers. *)
Definition two_jobs_of_js : DataFrame :=
  {| columns := ["TechCode"]; rows := [ job_of "JS"; job_of "JS" ] |}.

Definition one_sale_of_js : DataFrame :=
  {| columns := ["TechCode"; "InvoiceNumber"; "LaborSold"];
     rows := [ sale "JS" "100" 50 ] |}.

(** One job, and its invoice recorded twice: the sale and a credit. *)
Definition job_100 : DataFrame :=
  {| columns := ["TechCode"; "JobNumber"]; rows := [ numbered_job "JS" "100" ] |}.

Definition sale_and_credit : DataFrame :=
  {| columns := ["TechCode"; "InvoiceNumber"; "LaborSold"];
     rows := [ sale "JS" "100" 100; sale "JS" "100" (-40) ] |}.

(** C1 fails as stated. On the technician-level path the total of a
    technician is attached to each of the technician's jobs: two jobs and
    one sale of 50 give a merged sum of 100. On the exact path a credit
    that is dropped as a duplicate raises the merged sum above the raw
    one: 100 against 60. *)
Lemma merged_revenue_exceeds_sales :
  (exists out,
     Integrator.merge_sales_with_jobs (fun _ => "") two_jobs_of_js one_sale_of_js = Ok out
     /\ col_sum "LaborSold" (rows out) = 100%Z
     /\ col_sum "LaborSold" (rows one_sale_of_js) = 50%Z
     /\ col_sum "LaborSold" (filter (of_tech (VStr "JS")) (rows out)) = 100%Z
     /\ col_sum "LaborSold" (filter (of_tech (VStr "JS")) (rows one_sale_of_js)) = 50%Z)
  /\ (exists out,
        Integrator.merge_sales_with_jobs (fun _ => "") job_100 sale_and_credit = Ok out
        /\ col_sum "LaborSold" (rows out) = 100%Z
        /\ col_sum "LaborSold" (rows sale_and_credit) = 60%Z).
Proof.
  split; eexists; (split; [vm_compute; reflexivity |]);
    repeat split; vm_compute; reflexivity.
Qed.

(** Two numbered jobs against the journal with the duplicated invoice. *)
Definition two_numbered_jobs : DataFrame :=
  {| columns := ["TechCode"; "JobNumber"];
     rows := [ numbered_job "JS" "100"; numbered_job "JD" "100" ] |}.

Definition merged_example : DataFrame :=
  match Integrator.merge_sales_with_jobs (fun _ => "") two_numbered_jobs
          sales_with_duplicate with
  | Ok merged => merged
  | Raise _ => {| columns := []; rows := [] |}
  end.

Lemma merged_revenue_example :
  (col_sum "LaborSold" (rows merged_example)
   <= col_sum "LaborSold" (rows sales_with_duplicate))%Z.
Proof.
  refine (proj2 (proj1 (@merged_revenue_bounded (fun _ => "") two_numbered_jobs
                          sales_with_duplicate merged_example "LaborSold" _ _ _)
                   eq_refl _)).
  - reflexivity.
  - left. reflexivity.
  - intros r [<- | [<- | [<- | []]]]; vm_compute; discriminate.
  - repeat constructor.
Defined.

Example merged_example_rows :
  map (fun r : row => (r "TechCode", r "JobNumber", r "LaborSold")) (rows merged_example)
  = [ (VStr "JS", VStr "100", VInt 50); (VStr "JD", VStr "100", VInt 10) ]
  /\ col_sum "LaborSold" (rows sales_with_duplicate) = 130%Z.
Proof. split; vm_compute; reflexivity. Qed.

(** ** Records of one invoice at the join *)



(* ================================================================== *)
(** * Further properties of the code

    Properties of the functions around the ones above: the rest of
    [cleaner.py] and [integrator.py], the classifier, the text mining and
    the metrics. *)

(** ** Text *)

Section Text.
Import PyStr.

Lemma startswith_spec (p s : string) :
  startswith p s = true <-> exists after, s = p ++ after.
Proof.
  revert s. induction p as [|a p IH]; intros s; simpl.
  - split; [intros _; exists s; reflexivity | reflexivity].
  - destruct s as [|b s].
    + split; [discriminate | intros (after & H); discriminate].
    + rewrite andb_true_iff, Ascii.eqb_eq, IH. split.
      * intros (-> & after & ->). exists after. reflexivity.
      * intros (after & H). injection H as -> ->. split; [reflexivity | eauto].
Qed.

Lemma contains_spec (sub s : string) :
  contains sub s = true <-> exists before after, s = before ++ sub ++ after.
Proof.
  induction s as [|c s IH].
  - simpl. rewrite orb_false_r, startswith_spec. split.
    + intros (after & H). exists "", after. exact H.
    + intros (before & after & H). destruct before; simpl in H.
      * exists after. exact H.
      * discriminate.
  - simpl. rewrite orb_true_iff, startswith_spec, IH. split.
    + intros [(after & H) | (before & after & H)].
      * exists "", after. exact H.
      * exists (String c before), after. simpl. rewrite H. reflexivity.
    + intros (before & after & H). destruct before as [|b before]; simpl in H.
      * left. exists after. exact H.
      * right. injection H as -> ->. eauto.
Qed.

Lemma append_assoc (a b c : string) : (a ++ b) ++ c = a ++ b ++ c.
Proof. induction a; simpl; congruence. Qed.

(** A text that holds [a ++ b ++ c] holds [b]. *)
Lemma contains_middle (a b c s : string) :
  contains (a ++ b ++ c) s = true -> contains b s = true.
Proof.
  rewrite !contains_spec. intros (before & after & ->).
  exists (before ++ a), (c ++ after).
  rewrite !append_assoc. reflexivity.
Qed.

End Text.

(** ** Appliance types *)

Section ApplianceTypes.
Import PyStr Cleaner.

(** X1. [standardize_appliance_type] never answers [DISHWASHER] for a text
    in which [WASH] occurs: the keywords of [WASHER] are tried first and
    [WASH] is one of them. A text that holds the word [DISHWASHER] is
    filed under [WASHER], or under [REFRIGERATOR] when it also holds one of
    the keywords of that category. *)
Theorem dishwasher_is_filed_under_washer (text : string) :
  text <> "" ->
  (standardize_appliance_type (Some text) = "DISHWASHER" ->
   contains "WASH" (upper (strip text)) = false
   /\ contains "DISHWASHER" (upper (strip text)) = false)
  /\ (contains "DISHWASHER" (upper (strip text)) = true ->
      standardize_appliance_type (Some text) = "WASHER"
      \/ standardize_appliance_type (Some text) = "REFRIGERATOR").
Proof.
  intros Hne.
  assert (Hwash : contains "WASH" (upper (strip text)) = true ->
                  standardize_appliance_type (Some text) = "WASHER"
                  \/ standardize_appliance_type (Some text) = "REFRIGERATOR").
  { intros Hw. unfold standardize_appliance_type.
    destruct (String.eqb_spec text "") as [E | _]; [contradiction |].
    cbv zeta. unfold appliance_categories.
    cbn [first_category].
    destruct (existsb _ [ "REFRIG"; "FRIDGE"; "FRIG"; "REFRIGERATOR"; "FREEZER" ]).
    - right. reflexivity.
    - cbn [existsb]. rewrite Hw. cbn [orb]. left. reflexivity. }
  assert (Hdish : contains "DISHWASHER" (upper (strip text)) = true ->
                  contains "WASH" (upper (strip text)) = true).
  { apply (@contains_middle "DISH" "WASH" "ER"). }
  split.
  - intros Hres.
    assert (Hnw : contains "WASH" (upper (strip text)) = false).
    { destruct (contains "WASH" (upper (strip text))) eqn:Hw; [| reflexivity].
      destruct (Hwash eq_refl) as [H | H]; rewrite H in Hres; discriminate. }
    split; [exact Hnw |].
    destruct (contains "DISHWASHER" (upper (strip text))) eqn:Hd; [| reflexivity].
    rewrite (Hdish eq_refl) in Hnw. discriminate.
  - intros Hd. apply Hwash, Hdish, Hd.
Qed.

Lemma dishwasher_is_filed_under_washer_example :
  "Dishwasher" <> ""
  /\ contains "DISHWASHER" (upper (strip "Dishwasher")) = true
  /\ standardize_appliance_type (Some "Dishwasher") = "WASHER".
Proof.
  assert (Hne : "Dishwasher" <> "") by discriminate.
  split; [exact Hne |]. split; [reflexivity |].
  destruct (proj2 (dishwasher_is_filed_under_washer Hne) eq_refl) as [H | H].
  - exact H.
  - vm_compute in H. discriminate H.
Defined.

End ApplianceTypes.

(** ** Zip codes *)

Section ZipCodes.
Import PyStr Cleaner.

(** Every character of [s] is a digit. *)
Fixpoint all_digits (s : string) : bool :=
  match s with
  | EmptyString => true
  | String c r => is_digit c && all_digits r
  end.

Lemma digits_prefix_spec (n : nat) (s zip : string) :
  digits_prefix n s = Some zip <->
  String.length zip = n /\ all_digits zip = true /\ exists rest, s = zip ++ rest.
Proof.
  revert s zip. induction n as [|n IH]; intros s zip; simpl.
  - split.
    + intros H. injection H as <-. repeat split. exists s. reflexivity.
    + intros (Hlen & _ & _). destruct zip; [reflexivity | discriminate].
  - destruct s as [|c r].
    + split; [discriminate |].
      intros (Hlen & _ & rest & H). destruct zip; discriminate.
    + destruct (is_digit c) eqn:Hc.
      * destruct (digits_prefix n r) as [z|] eqn:Hz; simpl.
        -- apply IH in Hz. destruct Hz as (Hlen & Hd & rest & ->). split.
           ++ intros H. injection H as <-. simpl. rewrite Hc, Hd, Hlen.
              repeat split. exists rest. reflexivity.
           ++ intros (Hl & Hdz & rest' & H).
              destruct zip as [|a zip]; [discriminate |].
              simpl in *. injection H as <- H. injection Hl as Hl.
              apply andb_true_iff in Hdz. destruct Hdz as [_ Hdz].
              assert (Hsome : digits_prefix n (z ++ rest) = Some zip).
              { apply IH. repeat split; auto. exists rest'. exact H. }
              assert (Hsome' : digits_prefix n (z ++ rest) = Some z).
              { apply IH. repeat split; auto. exists rest. reflexivity. }
              congruence.
        -- split; [discriminate |].
           intros (Hl & Hdz & rest' & H).
           destruct zip as [|a zip]; [discriminate |].
           simpl in *. injection H as <- H. injection Hl as Hl.
           apply andb_true_iff in Hdz. destruct Hdz as [_ Hdz].
           assert (Hsome : digits_prefix n r = Some zip).
           { apply IH. repeat split; auto. exists rest'. exact H. }
           congruence.
      * split; [discriminate |].
        intros (Hl & Hdz & rest' & H).
        destruct zip as [|a zip]; [discriminate |].
        simpl in *. injection H as <- H.
        rewrite Hc in Hdz. discriminate.
Qed.

Lemma search_zip_prefix (address zip : string) :
  digits_prefix 5 address = Some zip -> search_zip address = Some zip.
Proof.
  intros H. destruct address; unfold search_zip; fold search_zip; rewrite H; reflexivity.
Qed.

Lemma search_zip_found (address zip : string) :
  search_zip address = Some zip ->
  String.length zip = 5 /\ all_digits zip = true
  /\ exists before after, address = before ++ zip ++ after.
Proof.
  induction address as [|c r IH]; intros H.
  - simpl in H. discriminate.
  - unfold search_zip in H; fold search_zip in H.
    destruct (digits_prefix 5 (String c r)) as [z|] eqn:Hz.
    + injection H as <-. apply digits_prefix_spec in Hz.
      destruct Hz as (Hl & Hd & rest & Heq). repeat split; auto.
      exists "", rest. exact Heq.
    + destruct (IH H) as (Hl & Hd & before & after & ->). repeat split; auto.
      exists (String c before), after. reflexivity.
Qed.

Lemma search_zip_none (address : string) :
  search_zip address = None ->
  forall before zip after,
    String.length zip = 5 -> all_digits zip = true ->
    address <> before ++ zip ++ after.
Proof.
  induction address as [|c r IH]; intros H before zip after Hl Hd Heq.
  - destruct before; [destruct zip |]; discriminate.
  - unfold search_zip in H; fold search_zip in H.
    destruct (digits_prefix 5 (String c r)) as [z|] eqn:Hz; [discriminate |].
    destruct before as [|b before].
    + simpl in Heq.
      assert (Hs : digits_prefix 5 (String c r) = Some zip).
      { apply digits_prefix_spec. repeat split; auto. exists after. exact Heq. }
      congruence.
    + simpl in Heq. injection Heq as _ Heq.
      exact (IH H before zip after Hl Hd Heq).
Qed.

(** X2. [extract_zip_code] answers with the empty string or with five
    digits that stand in the address, and with the empty string only when
    the address has no five digits in a row. The digits are the first five
    of the leftmost such run: an address that starts with five digits
    (a long house number) gives these, whatever follows. *)
Theorem extract_zip_code_spec (address : string) :
  let zip := extract_zip_code (Some address) in
  (zip = ""
   \/ (String.length zip = 5 /\ all_digits zip = true
       /\ exists before after, address = before ++ zip ++ after))
  /\ (zip = "" ->
      forall before digits after,
        String.length digits = 5 -> all_digits digits = true ->
        address <> before ++ digits ++ after)
  /\ (forall digits rest,
        String.length digits = 5 -> all_digits digits = true ->
        address = digits ++ rest -> zip = digits).
Proof.
  cbv zeta. unfold extract_zip_code.
  destruct (String.eqb_spec address "") as [-> | Hne].
  - split; [left; reflexivity |]. split.
    + intros _ before digits after Hl _ H.
      destruct before; [destruct digits |]; discriminate.
    + intros digits rest Hl _ H. destruct digits; discriminate.
  - destruct (search_zip address) as [z|] eqn:Hz.
    + pose proof (@search_zip_found _ _ Hz) as (Hl & Hd & Hin).
      split; [right; auto |]. split.
      * intros ->. discriminate.
      * intros digits rest Hl' Hd' ->.
        assert (Hs : digits_prefix 5 (digits ++ rest) = Some digits).
        { apply digits_prefix_spec. repeat split; auto. exists rest. reflexivity. }
        rewrite (@search_zip_prefix _ _ Hs) in Hz. congruence.
    + split; [left; reflexivity |]. split.
      * intros _. apply search_zip_none. exact Hz.
      * intros digits rest Hl Hd ->.
        exfalso. exact (@search_zip_none _ Hz "" digits rest Hl Hd eq_refl).
Qed.

(** The house number wins over the zip code at the end. *)
Example extract_zip_code_long_house_number :
  extract_zip_code (Some "12345 Main St, Cotati, CA 94931") = "12345"
  /\ extract_zip_code (Some "466 Primero Ct, Cotati, CA 94931, USA") = "94931"
  /\ extract_zip_code (Some "466 Primero Ct") = ""
  /\ extract_zip_code None = "".
Proof. repeat split. Qed.

End ZipCodes.

(** ** Normal forms of text *)

Section NormalForms.
Import PyStr.

Lemma is_space_upper_char (c : ascii) : is_space (upper_char c) = is_space c.
Proof. destruct c as [[] [] [] [] [] [] [] []]; reflexivity. Qed.

Lemma upper_char_idem (c : ascii) : upper_char (upper_char c) = upper_char c.
Proof. destruct c as [[] [] [] [] [] [] [] []]; reflexivity. Qed.

Lemma lower_upper_char (c : ascii) : lower_char (upper_char c) = lower_char c.
Proof. destruct c as [[] [] [] [] [] [] [] []]; reflexivity. Qed.

Lemma upper_idem (s : string) : upper (upper s) = upper s.
Proof.
  unfold upper. induction s as [|c s IH]; simpl; [reflexivity |].
  rewrite upper_char_idem, IH. reflexivity.
Qed.

Lemma lower_upper (s : string) : lower (upper s) = lower s.
Proof.
  unfold lower, upper. induction s as [|c s IH]; simpl; [reflexivity |].
  rewrite lower_upper_char, IH. reflexivity.
Qed.

Lemma lstrip_upper (s : string) : lstrip (upper s) = upper (lstrip s).
Proof.
  unfold upper. induction s as [|c s IH]; simpl; [reflexivity |].
  rewrite is_space_upper_char. destruct (is_space c); [exact IH | reflexivity].
Qed.

Lemma rstrip_upper (s : string) : rstrip (upper s) = upper (rstrip s).
Proof.
  unfold upper. induction s as [|c s IH]; simpl; [reflexivity |].
  rewrite IH, is_space_upper_char.
  destruct (rstrip s); simpl; [destruct (is_space c) |]; reflexivity.
Qed.

Lemma strip_upper (s : string) : strip (upper s) = upper (strip s).
Proof. unfold strip. rewrite lstrip_upper, rstrip_upper. reflexivity. Qed.

Lemma rstrip_idem (s : string) : rstrip (rstrip s) = rstrip s.
Proof.
  induction s as [|c s IH]; simpl; [reflexivity |].
  destruct (rstrip s) as [|a r] eqn:Hr.
  - destruct (is_space c) eqn:Hc; simpl; [reflexivity |]. rewrite Hc. reflexivity.
  - change (rstrip (String c (String a r))
            = String c (String a r)).
    simpl rstrip at 1. simpl in IH. rewrite IH. reflexivity.
Qed.

(** The text does not start with a blank. *)
Definition clean_head (s : string) : Prop :=
  match s with
  | EmptyString => True
  | String c _ => is_space c = false
  end.

Lemma lstrip_clean_head (s : string) : clean_head (lstrip s).
Proof.
  induction s as [|c s IH]; simpl; [exact I |].
  destruct (is_space c) eqn:Hc; [exact IH | exact Hc].
Qed.

Lemma lstrip_of_clean_head (s : string) : clean_head s -> lstrip s = s.
Proof. destruct s as [|c s]; simpl; [reflexivity |]. intros ->. reflexivity. Qed.

Lemma rstrip_clean_head (s : string) : clean_head s -> clean_head (rstrip s).
Proof.
  destruct s as [|c s]; simpl; [exact (fun H => H) |].
  intros Hc. destruct (rstrip s); [rewrite Hc |]; exact Hc.
Qed.

Lemma strip_idem (s : string) : strip (strip s) = strip s.
Proof.
  unfold strip.
  rewrite (lstrip_of_clean_head _ (rstrip_clean_head _ (lstrip_clean_head s))).
  apply rstrip_idem.
Qed.

Lemma upper_strip_idem (s : string) :
  upper (strip (upper (strip s))) = upper (strip s).
Proof. rewrite strip_upper, strip_idem, upper_idem. reflexivity. Qed.

Lemma upper_empty (s : string) : upper s = "" -> s = "".
Proof. destruct s; [reflexivity | discriminate]. Qed.

End NormalForms.

(** ** Technician codes *)

Section TechCodes.
Import PyStr Mapping Cleaner.

Lemma tech_variations_fixed (name code : string) :
  dict_get tech_variations name = Some code ->
  standardize_tech_code (Some code) = code.
Proof.
  unfold tech_variations. cbn [dict_get].
  repeat match goal with
  | |- (if ?b then _ else _) = _ -> _ => destruct b
  end;
  intros H; try discriminate H; injection H as <-; reflexivity.
Qed.

(** X3. [standardize_tech_code] is idempotent on every code that is not
    blank: a second pass returns the result of the first. A code made of
    blanks only is not answered with [UNKNOWN] but with the empty string,
    which a second pass turns into [UNKNOWN]. *)
Theorem standardize_tech_code_idempotent (code : string) :
  (strip code <> "" ->
   standardize_tech_code (Some (standardize_tech_code (Some code)))
   = standardize_tech_code (Some code))
  /\ (code <> "" -> strip code = "" ->
      standardize_tech_code (Some code) = ""
      /\ standardize_tech_code (Some (standardize_tech_code (Some code))) = "UNKNOWN").
Proof.
  split.
  - intros Hs.
    assert (Hne : code <> "") by (intros ->; apply Hs; reflexivity).
    assert (Ht : upper (strip code) <> "").
    { intros H. apply Hs, upper_empty, H. }
    unfold standardize_tech_code at 2 3.
    destruct (String.eqb_spec code "") as [E | _]; [contradiction |].
    cbv zeta.
    destruct (dict_get tech_variations (upper (strip code))) as [canonical|] eqn:Hv.
    + apply (tech_variations_fixed _ Hv).
    + match goal with
      | |- context [if ?b then ?t else ?t] =>
          replace (if b then t else t) with t by (destruct b; reflexivity)
      end.
      unfold standardize_tech_code.
      destruct (String.eqb_spec (upper (strip code)) "") as [E | _]; [contradiction |].
      cbv zeta. rewrite upper_strip_idem, Hv.
      destruct (existsb _ _); reflexivity.
  - intros Hne Hs. unfold standardize_tech_code at 1 3.
    destruct (String.eqb_spec code "") as [E | _]; [contradiction |].
    cbv zeta. rewrite Hs. split; reflexivity.
Qed.

Lemma standardize_tech_code_idempotent_example :
  strip " jim " <> ""
  /\ standardize_tech_code (Some " jim ") = "JS"
  /\ standardize_tech_code (Some (standardize_tech_code (Some " jim ")))
     = standardize_tech_code (Some " jim ").
Proof.
  assert (Hs : strip " jim " <> "") by (vm_compute; discriminate).
  split; [exact Hs |]. split; [reflexivity |].
  exact (proj1 (standardize_tech_code_idempotent " jim ") Hs).
Defined.

End TechCodes.

(** ** Address confidence *)

Section AddressConfidence.
Import PyStr Cleaner.

Variable token_sort_ratio : string -> string -> Z.

(** X4. [match_address_confidence] returns a score between 0 and 100, as
    its documentation says, whenever [fuzz.token_sort_ratio] does; a pair
    of different standard forms of which one is shorter than ten
    characters scores 80 at most. *)
Theorem match_address_confidence_range (address1 address2 : option string) :
  (forall a b, 0 <= token_sort_ratio a b <= 100)%Z ->
  (0 <= match_address_confidence token_sort_ratio address1 address2 <= 100)%Q
  /\ (standardize_address address1 <> standardize_address address2 ->
      Nat.min (String.length (standardize_address address1))
              (String.length (standardize_address address2)) < 10 ->
      (match_address_confidence token_sort_ratio address1 address2 <= 80)%Q).
Proof.
  intros Hr. unfold match_address_confidence.
  assert (Hq : forall a b,
             (0 <= inject_Z (token_sort_ratio a b) <= 100)%Q
             /\ (0 <= inject_Z (token_sort_ratio a b) * (8 # 10) <= 80)%Q).
  { intros a b. destruct (Hr a b) as [H0 H100].
    unfold Qle, Qmult, inject_Z; simpl. repeat split; lia. }
  destruct address1 as [a1|], address2 as [a2|];
    try (split; [split; [apply Qle_refl | discriminate] | intros _ _; discriminate]).
  destruct (String.eqb a1 "" || String.eqb a2 "").
  { split; [split; [apply Qle_refl | discriminate] | intros _ _; discriminate]. }
  cbv zeta.
  destruct (String.eqb_spec (standardize_address (Some a1)) (standardize_address (Some a2)))
    as [E | E].
  { split; [split; [discriminate | apply Qle_refl] | intros H; contradiction]. }
  destruct (Hq (standardize_address (Some a1)) (standardize_address (Some a2)))
    as [[H0 H100] [H0' H80]].
  destruct (Nat.ltb_spec
              (Nat.min (String.length (standardize_address (Some a1)))
                       (String.length (standardize_address (Some a2)))) 10) as [Hlt | Hge].
  - split; [split; [exact H0' |] | intros _ _; exact H80].
    apply Qle_trans with (y := 80%Q); [exact H80 | discriminate].
  - split; [split; assumption | intros _ Hlt; lia].
Qed.

(** X5. The score does not depend on the order of the two addresses when
    [fuzz.token_sort_ratio] does not. *)
Theorem match_address_confidence_symmetric (address1 address2 : option string) :
  (forall a b, token_sort_ratio a b = token_sort_ratio b a) ->
  match_address_confidence token_sort_ratio address1 address2 = match_address_confidence token_sort_ratio address2 address1.
Proof.
  intros Hsym. unfold match_address_confidence.
  destruct address1 as [a1|], address2 as [a2|]; try reflexivity.
  rewrite (orb_comm (String.eqb a2 "")).
  destruct (String.eqb a1 "" || String.eqb a2 ""); [reflexivity |].
  cbv zeta.
  rewrite (String.eqb_sym (standardize_address (Some a2))).
  rewrite (Nat.min_comm (String.length (standardize_address (Some a2)))).
  rewrite (Hsym (standardize_address (Some a2))).
  reflexivity.
Qed.

End AddressConfidence.

(** A ratio for the examples: 100 for equal texts, 50 otherwise. *)
Definition ratio_by_equality (a b : string) : Z :=
  if String.eqb a b then 100%Z else 50%Z.

Lemma match_address_confidence_range_example :
  (forall a b, 0 <= ratio_by_equality a b <= 100)%Z
  /\ (0 <= Cleaner.match_address_confidence ratio_by_equality
             (Some "12 Oak Street") (Some "12 Oak Lane") <= 100)%Q.
Proof.
  assert (H : forall a b, (0 <= ratio_by_equality a b <= 100)%Z).
  { intros a b. unfold ratio_by_equality. destruct (String.eqb a b); lia. }
  split; [exact H |].
  exact (proj1 (match_address_confidence_range ratio_by_equality
                  (Some "12 Oak Street") (Some "12 Oak Lane") H)).
Defined.

Lemma match_address_confidence_symmetric_example :
  (forall a b, ratio_by_equality a b = ratio_by_equality b a)
  /\ Cleaner.match_address_confidence ratio_by_equality
       (Some "12 Oak Street") (Some "12 Oak Lane")
     = Cleaner.match_address_confidence ratio_by_equality
         (Some "12 Oak Lane") (Some "12 Oak Street").
Proof.
  assert (H : forall a b, ratio_by_equality a b = ratio_by_equality b a).
  { intros a b. unfold ratio_by_equality. rewrite String.eqb_sym. reflexivity. }
  split; [exact H |].
  exact (match_address_confidence_symmetric ratio_by_equality
           (Some "12 Oak Street") (Some "12 Oak Lane") H).
Defined.

(** ** The frame returned by the GPS matching *)

Section GpsFrame.
Import Integrator.

Variable float_repr : Q -> string.
Variable token_sort_ratio : string -> string -> Z.

Lemma gps_columns_spec (cols : list string) (c : string) :
  In c (fold_left (fun cols c => if has_col c cols then cols else (cols ++ [c])%list)
          GPS_COLS cols)
  <-> In c cols \/ In c GPS_COLS.
Proof.
  assert (Hstep : forall (extra : list string) (cols : list string),
            In c (fold_left (fun cols c => if has_col c cols then cols else (cols ++ [c])%list)
                    extra cols)
            <-> In c cols \/ In c extra).
  { induction extra as [|e extra IH]; intros cols0; simpl.
    - tauto.
    - rewrite IH. destruct (has_col e cols0) eqn:He.
      + unfold has_col in He. apply existsb_exists in He.
        destruct He as (x & Hx & Heq). apply String.eqb_eq in Heq. subst x.
        split; [tauto |]. intros [H | [<- | H]]; tauto.
      + rewrite in_app_iff. simpl. tauto. }
  apply Hstep.
Qed.

(** X6. [match_jobs_to_gps_stops] returns the jobs it was given, one row
    per job and in their order, with every column other than the five GPS
    columns as it was; the columns of the result are those of the jobs and
    the five GPS columns. *)
Theorem gps_matching_keeps_jobs (job_df gps_df : DataFrame) (W : Z) :
  let out := match_jobs_to_gps_stops float_repr token_sort_ratio job_df gps_df W in
  List.length (rows out) = List.length (rows job_df)
  /\ Forall2 (fun job r : row => forall c, ~ In c GPS_COLS -> r c = job c)
       (rows job_df) (rows out)
  /\ (forall c, In c (columns out) <-> In c (columns job_df) \/ In c GPS_COLS).
Proof.
  cbv zeta. unfold match_jobs_to_gps_stops. cbn [rows columns].
  split; [apply length_map |]. split.
  - induction (rows job_df) as [|job jobs IH]; simpl; constructor.
    + intros c Hc. apply match_job_other_columns. exact Hc.
    + exact IH.
  - intros c. apply gps_columns_spec.
Qed.

Lemma matched_stop_sound (W : Z) (gps : list row) (job stop : row) (c : Q) :
  matched_stop float_repr token_sort_ratio W gps job = Some (stop, c) ->
  In stop gps
  /\ py_eq (stop "Device") (job "Device") = true
  /\ py_eq (job "Device") (VStr "UNKNOWN") = false
  /\ (exists T start,
        job "FirstAppmnt" = VInt T /\ stop "Start Time" = VInt start
        /\ (T - 60 * W <= start <= T + 60 * W)%Z)
  /\ c = address_confidence float_repr token_sort_ratio job stop
  /\ (80 <= c)%Q.
Proof.
  unfold matched_stop.
  destruct (py_eq (job "Device") (VStr "UNKNOWN")) eqn:Hdev; [discriminate |].
  destruct (job "FirstAppmnt") as [| | T | |] eqn:Htime; simpl; try discriminate.
  pose proof (best_stop_is_best float_repr token_sort_ratio job
                (device_stops W job T gps)) as Hbest.
  destruct (best_stop float_repr token_sort_ratio job (device_stops W job T gps))
    as [[found |] conf]; [| discriminate].
  intros H. injection H as -> ->.
  destruct Hbest as (Hc & H80 & before & after & Hsplit & _).
  assert (Hin : In stop (device_stops W job T gps)).
  { rewrite Hsplit. apply in_or_app. right. left. reflexivity. }
  unfold device_stops in Hin. apply filter_In in Hin. destruct Hin as [Hin Hwin].
  apply in_window_spec in Hwin. destruct Hwin as (Hd & start & Hs & Hrange).
  repeat split; auto. exists T, start. auto.
Qed.

(** X7. Every row [match_jobs_to_gps_stops] returns is either unmatched,
    its GPS columns holding what they were created with, or carries the
    times, the address and the confidence of a stop of the GPS frame that
    has the job's device, starts within the window around the job's
    appointment and reaches a confidence of 80. A job whose device is
    [UNKNOWN] or which has no appointment is never matched, whatever the
    GPS frame holds. *)
Theorem gps_matching_rows (job_df gps_df : DataFrame) (W : Z) :
  Forall2
    (fun job r : row =>
       (unmatched r
        \/ exists stop c,
             In stop (rows gps_df)
             /\ py_eq (stop "Device") (job "Device") = true
             /\ (exists T start,
                   job "FirstAppmnt" = VInt T /\ stop "Start Time" = VInt start
                   /\ (T - 60 * W <= start <= T + 60 * W)%Z)
             /\ c = address_confidence float_repr token_sort_ratio job stop
             /\ (80 <= c)%Q
             /\ carries r stop c)
       /\ (py_eq (job "Device") (VStr "UNKNOWN") = true
           \/ timestamp_of (job "FirstAppmnt") = None -> unmatched r))
    (rows job_df)
    (rows (match_jobs_to_gps_stops float_repr token_sort_ratio job_df gps_df W)).
Proof.
  unfold match_jobs_to_gps_stops. cbn [rows].
  induction (rows job_df) as [|job jobs IH]; simpl; constructor; [| exact IH].
  unfold match_job.
  change (matched_stop float_repr token_sort_ratio W (rows gps_df) (gps_defaults job))
    with (matched_stop float_repr token_sort_ratio W (rows gps_df) job).
  destruct (matched_stop float_repr token_sort_ratio W (rows gps_df) job)
    as [[stop c] |] eqn:Hm.
  - destruct (matched_stop_sound _ _ _ Hm) as (Hin & Hd & Hk & Ht & Hc & H80).
    split.
    + right. exists stop, c. repeat split; auto.
    + intros [Hu | Hn].
      * congruence.
      * destruct Ht as (T & start & HT & _). rewrite HT in Hn. discriminate.
  - split; [left |]; repeat split.
Qed.

End GpsFrame.

(** ** One merged row per job *)

Section MergeRowCount.
Import Integrator.

Variable float_repr : Q -> string.

Lemma merge_left_length_ge (on : row -> row -> bool) (join : row -> option row -> row)
    (left right : list row) :
  List.length left <= List.length (merge_left on join left right).
Proof.
  unfold merge_left. induction left as [|l left IH]; [simpl; lia |].
  cbn [flat_map]. rewrite length_app.
  set (n := List.length (flat_map _ left)) in *.
  destruct (filter (on l) right); cbn [List.length map]; lia.
Qed.

Lemma merge_left_length_eq (on : row -> row -> bool) (join : row -> option row -> row)
    (left right : list row) :
  (forall l, In l left -> List.length (filter (on l) right) <= 1) ->
  List.length (merge_left on join left right) = List.length left.
Proof.
  unfold merge_left. induction left as [|l left IH]; intros H; [reflexivity |].
  cbn [flat_map]. rewrite length_app, IH by (intros; apply H; right; assumption).
  clear IH. pose proof (H l (or_introl eq_refl)) as Hl.
  destruct (filter (on l) right) as [|a [|b rest]]; cbn [List.length map] in *; lia.
Qed.

(** Among rows no two of which have the same key, at most one has the key
    a given row asks for. *)
Lemma filter_at_most_one (same : row -> row -> bool) (p : row -> bool) (rs : list row) :
  ForallOrdPairs (fun a b => same a b = false) rs ->
  (forall a b, p a = true -> p b = true -> same a b = true) ->
  List.length (filter p rs) <= 1.
Proof.
  intros Hd Hp. induction Hd as [| a rs Ha Hd IH]; simpl; [lia |].
  destruct (p a) eqn:Hpa; [| exact IH].
  assert (Hnone : filter p rs = []).
  { rewrite Forall_forall in Ha.
    destruct (filter p rs) as [|b rest] eqn:Hf; [reflexivity |].
    assert (Hb : In b (filter p rs)) by (rewrite Hf; left; reflexivity).
    apply filter_In in Hb. destruct Hb as [Hin Hpb].
    specialize (Ha b Hin). rewrite (Hp a b Hpa Hpb) in Ha. discriminate. }
  rewrite Hnone. simpl. lia.
Qed.

Lemma ForallOrdPairs_map_in {A B : Type} (P : A -> A -> Prop) (Q : B -> B -> Prop)
    (f : A -> B) (l : list A) :
  (forall a b, In a l -> In b l -> P a b -> Q (f a) (f b)) ->
  ForallOrdPairs P l -> ForallOrdPairs Q (map f l).
Proof.
  intros Himp H. induction H as [| a l Ha H IH]; simpl; constructor.
  - rewrite Forall_forall in *. intros y Hy. apply in_map_iff in Hy.
    destruct Hy as (b & <- & Hb). apply Himp; simpl; auto.
  - apply IH. intros x y Hx Hy. apply Himp; simpl; auto.
Qed.

Lemma two_matches_same_pair (j a b : row) :
  on_tech_job_invoice j a = true -> on_tech_job_invoice j b = true ->
  same_tech_invoice a b = true.
Proof.
  unfold on_tech_job_invoice, same_tech_invoice. intros Ha Hb.
  apply andb_true_iff in Ha, Hb. destruct Ha as [Ha1 Ha2], Hb as [Hb1 Hb2].
  apply andb_true_iff. split.
  - apply cell_eqb_trans with (b := j "TechCode"); [rewrite cell_eqb_sym |]; assumption.
  - apply cell_eqb_trans with (b := j "JobNumber"); [rewrite cell_eqb_sym |]; assumption.
Qed.

Lemma two_matches_same_tech (j a b : row) :
  same_tech j a = true -> same_tech j b = true -> same_tech a b = true.
Proof.
  unfold same_tech. intros Ha Hb.
  apply cell_eqb_trans with (b := j "TechCode"); [rewrite cell_eqb_sym |]; assumption.
Qed.

Lemma sales_summary_distinct (revenue : list string) (sales : list row) :
  ForallOrdPairs (fun a b => same_tech a b = false) (sales_summary revenue sales).
Proof.
  unfold sales_summary.
  apply ForallOrdPairs_map_in with (P := fun a b => same_tech a b = false).
  - intros a b _ _ H. exact H.
  - apply drop_duplicates_from_distinct. exact same_tech_equivalence.
Qed.

(** X8. [merge_sales_with_jobs] is a left join: no job is lost, the
    result has at least one row per job. It has exactly one row per job on
    the technician-level path, and on the path that joins job numbers to
    invoice numbers when the sales frame came with a [TechCode] column and
    with invoice numbers that are stripped text (as the loader leaves
    them): the deduplication on technician and invoice then leaves each
    job at most one sales row to join. *)
Theorem merge_keeps_every_job (jobs_df sales_df out : DataFrame) :
  merge_sales_with_jobs float_repr jobs_df sales_df = Ok out ->
  let exact :=
    has_col "JobNumber" (columns jobs_df) && has_col "InvoiceNumber" (columns sales_df) in
  List.length (rows jobs_df) <= List.length (rows out)
  /\ (exact = false -> List.length (rows out) = List.length (rows jobs_df))
  /\ (exact = true ->
      has_col "TechCode" (columns sales_df) = true ->
      (forall r, In r (rows sales_df) ->
                 str_strip float_repr (r "InvoiceNumber") = r "InvoiceNumber") ->
      List.length (rows out) = List.length (rows jobs_df)).
Proof.
  intros Hok exact.
  destruct exact eqn:Hexact; subst exact.
  - destruct (@merge_exact_rows float_repr jobs_df sales_df out Hexact Hok)
      as (prep & final & jobs_cols & _ & _ & _ & Hrows).
    split; [| split; [discriminate |]].
    + rewrite Hrows.
      eapply Nat.le_trans; [| apply merge_left_length_ge]. rewrite length_map. lia.
    + intros _ Htech Hstripped. rewrite Hrows.
      rewrite merge_left_length_eq; [apply length_map |].
      intros l _.
      apply andb_true_iff in Hexact. destruct Hexact as [_ Hinv].
      destruct (@stripped_invoices_distinct_at_join float_repr (columns jobs_df) sales_df
                  Htech Hinv Hstripped) as [Hsame Hdistinct].
      apply filter_at_most_one with (same := same_tech_invoice).
      * apply ForallOrdPairs_map_in with (P := fun a b => same_tech_invoice a b = false);
          [| exact Hdistinct].
        intros a b Ha Hb Hab. unfold same_tech_invoice, strip_invoice.
        rewrite !Hsame by assumption. exact Hab.
      * apply two_matches_same_pair.
  - assert (Hlen : List.length (rows out) = List.length (rows jobs_df)).
    { unfold merge_sales_with_jobs in Hok. rewrite Hexact in Hok.
      destruct (has_col "TechCode" (columns jobs_df) && has_col "TechCode" (columns sales_df))
        eqn:Htech.
      - assert (Hok' : merge_sales_with_jobs float_repr jobs_df sales_df = Ok out).
        { unfold merge_sales_with_jobs. rewrite Hexact, Htech. exact Hok. }
        destruct (@merge_fallback_rows float_repr jobs_df sales_df out Hexact Htech Hok')
          as (prep & _ & Hrows).
        rewrite Hrows, merge_left_length_eq; [apply length_map |].
        intros l _. apply filter_at_most_one with (same := same_tech).
        + apply sales_summary_distinct.
        + apply two_matches_same_tech.
      - injection Hok as <-. reflexivity. }
    split; [lia |]. split; [intros _; exact Hlen | discriminate].
Qed.

End MergeRowCount.

Lemma merge_keeps_every_job_example :
  List.length (rows merged_example) = List.length (rows two_numbered_jobs).
Proof.
  refine (proj2 (proj2 (@merge_keeps_every_job (fun _ => "") two_numbered_jobs
                          sales_with_duplicate merged_example _))
            eq_refl eq_refl _).
  - reflexivity.
  - intros r [<- | [<- | [<- | []]]]; reflexivity.
Defined.

(** Without a [TechCode] column of its own the sales frame is not
    deduplicated, and a job whose invoice was recorded twice comes back as
    two rows. *)
Example merge_repeats_job_without_deduplication :
  match Integrator.merge_sales_with_jobs (fun _ => "") job_100
          {| columns := ["Technician"; "InvoiceNumber"; "LaborSold"];
             rows := [ fun c => if String.eqb c "Technician" then VStr "JS"
                                else if String.eqb c "InvoiceNumber" then VStr "100"
                                else if String.eqb c "LaborSold" then VInt 100 else NA;
                       fun c => if String.eqb c "Technician" then VStr "JS"
                                else if String.eqb c "InvoiceNumber" then VStr "100"
                                else if String.eqb c "LaborSold" then VInt (-40) else NA ] |}
    with
  | Ok out => map (fun r : row => (r "JobNumber", r "LaborSold")) (rows out)
  | Raise _ => []
  end
  = [ (VStr "100", VInt 100); (VStr "100", VInt (-40)) ].
Proof. vm_compute. reflexivity. Qed.

(** ** The columns of the merge *)

Section MergeColumns.
Import Integrator.

Variable float_repr : Q -> string.

Lemma has_col_assign (k c : string) (f : row -> cell) (df : DataFrame) :
  has_col k (columns (assign c f df)) = has_col k (columns df) || String.eqb k c.
Proof.
  unfold assign. cbn [columns].
  destruct (has_col c (columns df)) eqn:Hc.
  - destruct (String.eqb_spec k c) as [-> | _].
    + rewrite Hc. reflexivity.
    + rewrite orb_false_r. reflexivity.
  - rewrite has_col_app. simpl. rewrite orb_false_r. reflexivity.
Qed.

Lemma has_col_drop_col (k c : string) (df : DataFrame) :
  has_col k (columns (drop_col c df)) = has_col k (columns df) && negb (String.eqb k c).
Proof.
  unfold drop_col. cbn [columns]. unfold has_col.
  induction (columns df) as [|x cols IH]; simpl; [reflexivity |].
  destruct (String.eqb_spec x c) as [-> | Hx]; simpl.
  - rewrite IH. destruct (String.eqb_spec k c) as [-> | Hk]; simpl.
    + rewrite !andb_false_r. reflexivity.
    + rewrite !andb_true_r. reflexivity.
  - rewrite IH. destruct (String.eqb_spec k x) as [-> | Hk]; simpl; [| reflexivity].
    destruct (String.eqb_spec x c); [contradiction | reflexivity].
Qed.

Lemma has_col_drop_revenue_cols (k : string) (df : DataFrame) :
  ~ In k REVENUE_COLS ->
  has_col k (columns (drop_revenue_cols df)) = has_col k (columns df).
Proof.
  unfold drop_revenue_cols. revert df.
  induction REVENUE_COLS as [|col cols IH]; intros df Hk; simpl; [reflexivity |].
  rewrite IH by (intros H; apply Hk; right; exact H).
  destruct (has_col col (columns df)); [| reflexivity].
  rewrite has_col_drop_col.
  destruct (String.eqb_spec k col) as [-> | _]; [exfalso; apply Hk; left; reflexivity |].
  apply andb_true_r.
Qed.

Lemma has_col_zero_type6_cols (k : string) (df : DataFrame) :
  has_col k (columns (zero_type6_cols df)) = has_col k (columns df).
Proof.
  unfold zero_type6_cols. revert df.
  induction TYPE6_REVENUE_COLS as [|col cols IH]; intros df; simpl; [reflexivity |].
  rewrite IH. destruct (has_col col (columns df)) eqn:Hc; [| reflexivity].
  rewrite has_col_assign.
  destruct (String.eqb_spec k col) as [-> | _]; [| apply orb_false_r].
  rewrite Hc. reflexivity.
Qed.

Lemma columns_sales_deduplicated (jobs_cols : list string) (sales_df : DataFrame) :
  columns (sales_deduplicated float_repr jobs_cols sales_df)
  = columns (sales_with_tech float_repr jobs_cols sales_df).
Proof.
  unfold sales_deduplicated.
  destruct (has_col "InvoiceNumber" (columns sales_df) && has_col "TechCode" (columns sales_df));
    reflexivity.
Qed.

Lemma has_tech_code_at_join (jobs_cols : list string) (sales_df : DataFrame) :
  has_col "TechCode" (columns (sales_with_tech float_repr jobs_cols sales_df))
  = has_col "TechCode" (columns sales_df)
    || has_col "TechCode" jobs_cols && has_col "Technician" (columns sales_df).
Proof.
  unfold sales_with_tech.
  destruct (has_col "TechCode" jobs_cols) eqn:Hj,
           (has_col "Technician" (columns sales_df)) eqn:Hs,
           (has_col "TechCode" (columns sales_df)) eqn:Ht;
    cbn [andb negb orb];
    repeat match goal with
    | |- context [if ?b then _ else _] => destruct b
    end;
    rewrite ?has_col_assign, ?Ht; reflexivity.
Qed.

(** X9. When the jobs have job numbers and the sales have invoice numbers,
    [merge_sales_with_jobs] joins on the technician code as well and does
    not fall back to another path: it raises [KeyError] when the jobs frame
    has no [TechCode] column, and when the sales frame has neither a
    [TechCode] column nor a [Technician] column to make one from. *)
Theorem merge_raises_without_tech_code (jobs_df sales_df : DataFrame) :
  has_col "JobNumber" (columns jobs_df) = true ->
  has_col "InvoiceNumber" (columns sales_df) = true ->
  has_col "TechCode" (columns jobs_df) = false
  \/ (has_col "TechCode" (columns sales_df) = false
      /\ has_col "Technician" (columns sales_df) = false) ->
  merge_sales_with_jobs float_repr jobs_df sales_df = Raise (KeyError "TechCode").
Proof.
  intros Hjob Hinv Hmissing. unfold merge_sales_with_jobs.
  rewrite Hjob, Hinv. cbn [andb].
  rewrite has_col_assign, columns_sales_deduplicated, has_tech_code_at_join.
  cbn [String.eqb Ascii.eqb Bool.eqb orb]. rewrite orb_false_r.
  destruct (has_col "TechCode" (columns sales_df)
            || has_col "TechCode" (columns jobs_df)
               && has_col "Technician" (columns sales_df)) eqn:Hsales;
    cbn [negb]; [| reflexivity].
  assert (Hjobs : has_col "TechCode" (columns jobs_df) = false).
  { destruct Hmissing as [H | [H1 H2]]; [exact H |].
    rewrite H1, H2, andb_false_r in Hsales. discriminate. }
  match goal with
  | |- (if negb (has_col "TechCode" (columns ?j)) then _ else _) = _ =>
      assert (Hj : has_col "TechCode" (columns j) = false)
  end.
  { destruct (filter _ REVENUE_COLS);
      rewrite ?has_col_zero_type6_cols, has_col_drop_revenue_cols, has_col_assign, Hjobs;
      try reflexivity;
      unfold REVENUE_COLS; simpl; intuition discriminate. }
  rewrite Hj. reflexivity.
Qed.

(** X10. On the path that joins job numbers to invoice numbers, when the
    sales frame has at least one revenue column, the revenue columns of the
    Type6 report the jobs frame has ([TotalLaborInSale],
    [TotalMaterialInSale], [TotalMateriaInSale]) are zero in every row of
    the result, also in the rows of jobs that found no sales record. *)
Theorem merge_zeroes_type6_revenue (jobs_df sales_df out : DataFrame) (c : string) :
  merge_sales_with_jobs float_repr jobs_df sales_df = Ok out ->
  has_col "JobNumber" (columns jobs_df) && has_col "InvoiceNumber" (columns sales_df)
  = true ->
  revenue_of_sales sales_df <> [] ->
  In c TYPE6_REVENUE_COLS ->
  has_col c (columns jobs_df) = true ->
  forall r, In r (rows out) -> r c = VInt 0.
Proof.
  intros Hok Hpath Hrev Hc Hhas.
  assert (Hnot_rev : ~ In c REVENUE_COLS).
  { intros Hin. unfold TYPE6_REVENUE_COLS in Hc. unfold REVENUE_COLS in Hin.
    cbn [In] in Hc, Hin.
    destruct Hc as [<- | [<- | [<- | []]]]; intuition discriminate. }
  unfold merge_sales_with_jobs in Hok. rewrite Hpath in Hok.
  fold (revenue_of_sales sales_df) in Hok.
  set (jobs1 := assign "JobNumber" (fun r : row => str_strip float_repr (r "JobNumber"))
                  jobs_df) in *.
  set (jobs2 := drop_revenue_cols jobs1) in *.
  destruct (revenue_of_sales sales_df) as [| col revenue] eqn:Hr; [contradiction |].
  assert (H2 : has_col c (columns jobs2) = true).
  { unfold jobs2, jobs1. rewrite has_col_drop_revenue_cols by exact Hnot_rev.
    rewrite has_col_assign, Hhas. reflexivity. }
  remember (zero_type6_cols jobs2) as jobs3 eqn:Hj3.
  assert (Hzero : forall r, In r (rows jobs3) -> r c = VInt 0).
  { rewrite Hj3. unfold zero_type6_cols.
    assert (Hfold : forall cols df,
              (In c cols /\ has_col c (columns df) = true
               \/ forall r, In r (rows df) -> r c = VInt 0) ->
              forall r,
                In r (rows (fold_left
                              (fun df col =>
                                 if has_col col (columns df)
                                 then assign col (fun _ => VInt 0) df else df)
                              cols df)) ->
                r c = VInt 0).
    { induction cols as [| k cols IH]; intros df Hdf r Hin; simpl in Hin.
      - destruct Hdf as [[[] _] | Hdf]. apply Hdf. exact Hin.
      - apply (IH _) in Hin; [exact Hin |].
        destruct Hdf as [[[-> | Hk] Hcol] | Hdf].
        + right. rewrite Hcol. intros r0 Hr0. cbn [rows assign] in Hr0.
          apply in_map_iff in Hr0. destruct Hr0 as (r1 & <- & _).
          unfold set_col. rewrite String.eqb_refl. reflexivity.
        + destruct (has_col k (columns df)) eqn:Hkc.
          * destruct (String.eqb_spec c k) as [-> | Hne].
            -- right. intros r0 Hr0. cbn [rows assign] in Hr0.
               apply in_map_iff in Hr0. destruct Hr0 as (r1 & <- & _).
               unfold set_col. rewrite String.eqb_refl. reflexivity.
            -- left. split; [exact Hk |]. rewrite has_col_assign, Hcol. reflexivity.
          * left. auto.
        + right. destruct (has_col k (columns df)); [| exact Hdf].
          intros r0 Hr0. cbn [rows assign] in Hr0.
          apply in_map_iff in Hr0. destruct Hr0 as (r1 & <- & Hr1).
          unfold set_col. destruct (String.eqb c k); [reflexivity | apply Hdf, Hr1]. }
    apply Hfold. left. split; [exact Hc | exact H2]. }
  assert (H3 : has_col c (columns jobs3) = true).
  { rewrite Hj3, has_col_zero_type6_cols. exact H2. }
  clear Hj3.
  destruct (negb (has_col "TechCode" (columns (assign "InvoiceNumber" _ _))));
    [discriminate |].
  destruct (negb (has_col "TechCode" (columns jobs3))); [discriminate |].
  assert (Hjoin : forall j o, In j (rows jobs3) ->
            join_exact (columns jobs3) (col :: revenue) j o c = VInt 0).
  { intros j o Hj. unfold join_exact.
    assert (Hinv : String.eqb c (invoice_col (columns jobs3)) = false).
    { unfold invoice_col.
      destruct (has_col "InvoiceNumber" (columns jobs3)) eqn:Hi.
      - unfold TYPE6_REVENUE_COLS in Hc. simpl in Hc.
        destruct Hc as [<- | [<- | [<- | []]]]; reflexivity.
      - destruct (String.eqb_spec c "InvoiceNumber") as [-> | _]; [| reflexivity].
        congruence. }
    rewrite Hinv.
    assert (Hnr : has_col c (col :: revenue) = false).
    { destruct (has_col c (col :: revenue)) eqn:E; [| reflexivity].
      apply has_col_In in E. rewrite <- Hr in E. unfold revenue_of_sales in E.
      apply filter_In in E. destruct E as [E _]. contradiction. }
    rewrite Hnr. apply Hzero, Hj. }
  assert (Hmerged : forall r,
            In r (merge_left on_tech_job_invoice
                    (join_exact (columns jobs3) (col :: revenue)) (rows jobs3)
                    (rows (assign "InvoiceNumber"
                             (fun r : row => str_strip float_repr (r "InvoiceNumber"))
                             (sales_deduplicated float_repr (columns jobs_df) sales_df)))) ->
            r c = VInt 0).
  { intros r Hin. unfold merge_left in Hin. apply in_flat_map in Hin.
    destruct Hin as (j & Hj & Hin).
    destruct (filter _ _) as [| s found].
    - destruct Hin as [<- | []]. apply Hjoin, Hj.
    - apply in_map_iff in Hin. destruct Hin as (s' & <- & _). apply Hjoin, Hj. }
  injection Hok as <-.
  match goal with
  | |- context [if ?b then _ else _] => destruct b eqn:Hfix
  end.
  - intros r Hin. cbn [rows assign] in Hin. apply in_map_iff in Hin.
    destruct Hin as (r0 & <- & Hr0). unfold set_col.
    destruct (String.eqb_spec c "TotalMaterialInSale") as [-> | _]; [| apply Hmerged, Hr0].
    apply andb_true_iff in Hfix. destruct Hfix as [_ Hfix].
    cbn [columns] in Hfix. rewrite has_col_app, H3 in Hfix. discriminate.
  - exact Hmerged.
Qed.

End MergeColumns.

Definition jobs_without_tech : DataFrame :=
  {| columns := ["JobNumber"];
     rows := [ fun c => if String.eqb c "JobNumber" then VStr "100" else NA ] |}.

Lemma merge_raises_without_tech_code_example :
  Integrator.merge_sales_with_jobs (fun _ => "") jobs_without_tech sales_with_duplicate
  = Raise (KeyError "TechCode").
Proof.
  apply merge_raises_without_tech_code; [reflexivity | reflexivity | left; reflexivity].
Defined.

(** A job with amounts of its own from the Type6 report and no sales
    record. *)
Definition job_with_type6 : DataFrame :=
  {| columns := ["TechCode"; "JobNumber"; "TotalLaborInSale"];
     rows := [ fun c => if String.eqb c "TechCode" then VStr "SS"
                        else if String.eqb c "JobNumber" then VStr "7"
                        else if String.eqb c "TotalLaborInSale" then VInt 12000
                        else NA ] |}.

Definition merged_type6 : DataFrame :=
  match Integrator.merge_sales_with_jobs (fun _ => "") job_with_type6
          sales_with_duplicate with
  | Ok merged => merged
  | Raise _ => {| columns := []; rows := [] |}
  end.

Lemma merge_zeroes_type6_revenue_example :
  rows merged_type6 <> []
  /\ forall r, In r (rows merged_type6) ->
       r "TotalLaborInSale" = VInt 0 /\ r "LaborSold" = NA.
Proof.
  split; [vm_compute; discriminate |].
  intros r Hr. split.
  - refine (@merge_zeroes_type6_revenue (fun _ => "") job_with_type6 sales_with_duplicate
              merged_type6 "TotalLaborInSale" _ _ _ _ _ r Hr).
    + reflexivity.
    + reflexivity.
    + vm_compute. discriminate.
    + left. reflexivity.
    + reflexivity.
  - destruct Hr as [<- | []]. reflexivity.
Defined.

(** ** Cancellation reasons *)

Section ReasonRange.
Import PyStr Mapping CancelCategories TextMining.

Lemma count_matches_le (keywords : list string) (description : string) :
  count_matches keywords description <= List.length keywords.
Proof. unfold count_matches. apply filter_length_le. Qed.

(** The reason extracted from a description that is not empty: [OTHER]
    without confidence when no keyword occurs, or a category that has
    hits. *)
Lemma extract_cancellation_reason_cases (text : string) :
  text <> "" ->
  extract_cancellation_reason (Some text) = ("OTHER", 0%Q)
  \/ exists category hits,
       dict_get (category_matches (lower text)) category = Some hits
       /\ extract_cancellation_reason (Some text)
          = (category, confidence_of category hits).
Proof.
  intros Hne. unfold extract_cancellation_reason.
  destruct (String.eqb_spec text "") as [E | _]; [contradiction |].
  cbv zeta.
  destruct (category_matches (lower text)) as [| [first m] others] eqn:Hm;
    [left; reflexivity |].
  right.
  assert (Hfirst : dict_get ((first, m) :: others) first = Some m).
  { simpl. rewrite String.eqb_refl. reflexivity. }
  destruct others as [| second others]; [exists first, m; auto |].
  destruct (first_in_priority CATEGORY_PRIORITY ((first, m) :: second :: others))
    as [[category hits] |] eqn:Hp.
  - apply first_in_priority_spec in Hp. destruct Hp as (i & _ & Hget & _).
    exists category, hits. auto.
  - exists first, m. auto.
Qed.

Lemma confidence_of_range (category : string) (keywords : list string) (hits : nat) :
  dict_get CANCEL_CATEGORIES category = Some keywords ->
  0 < hits ->
  (0 < confidence_of category hits <= 1)%Q.
Proof.
  intros Hk Hpos. unfold confidence_of.
  split; [| apply Q.le_min_r].
  apply Q.min_glb_lt; [| reflexivity].
  unfold Qlt. simpl. lia.
Qed.

(** X11. [extract_cancellation_reason] answers with [UNKNOWN] exactly for
    a missing or empty description and otherwise with a category of
    [CANCEL_CATEGORIES]; the confidence lies between 0 and 1, and it is 0
    exactly when the answer is [UNKNOWN] or [OTHER]: a category that is
    named has at least one of its keywords in the description. *)
Theorem extract_cancellation_reason_range (description : option string) :
  let result := extract_cancellation_reason description in
  (fst result = "UNKNOWN" <-> description = None \/ description = Some "")
  /\ (fst result = "UNKNOWN" \/ In (fst result) (map fst CANCEL_CATEGORIES))
  /\ (0 <= snd result <= 1)%Q
  /\ ((snd result == 0)%Q <-> fst result = "UNKNOWN" \/ fst result = "OTHER").
Proof.
  cbv zeta.
  destruct description as [text |];
    [| simpl; repeat split; auto; try discriminate; intros; reflexivity].
  destruct (String.eqb_spec text "") as [-> | Hne].
  { simpl. repeat split; auto; try discriminate; intros; reflexivity. }
  destruct (extract_cancellation_reason_cases Hne) as [-> | (category & hits & Hget & ->)].
  - simpl. repeat split; try discriminate; auto.
    + intros [H | H]; [discriminate | congruence].
    + tauto.
  - destruct (category_matches_in_entry _ _ _ cancel_categories_nodup Hget)
      as (keywords & Hk & Hnonempty & _ & Hpos).
    destruct (confidence_of_range category Hk Hpos) as [Hlo Hhi].
    assert (Hcat : category <> "UNKNOWN" /\ category <> "OTHER").
    { split; intros ->; vm_compute in Hk; [discriminate |].
      injection Hk as <-. apply Hnonempty. reflexivity. }
    cbn [fst snd]. repeat split.
    + intros H. destruct Hcat; contradiction.
    + intros [H | H]; [discriminate | congruence].
    + right. exact (dict_get_in_keys _ _ Hk).
    + apply Qlt_le_weak. exact Hlo.
    + exact Hhi.
    + intros H. rewrite H in Hlo. exfalso. exact (Qlt_irrefl _ Hlo).
    + intros [H | H]; destruct Hcat; contradiction.
Qed.

(** The case of the letters of a description plays no part. *)
Lemma extract_cancellation_reason_upper (text : string) :
  extract_cancellation_reason (Some (upper text))
  = extract_cancellation_reason (Some text).
Proof.
  unfold extract_cancellation_reason. rewrite lower_upper.
  destruct text; reflexivity.
Qed.

End ReasonRange.

(** ** Cancellations read from the data *)

Section RealCancellations.
Import TextMining.

Variable float_repr : Q -> string.

(** The two result columns as the function adds them when the frame does
    not have them. *)
Definition with_reason_columns (cols : list string) (r : row) : row :=
  let r1 := if has_col "CancellationReason" cols then r
            else set_col "CancellationReason" (VStr "NOT_CANCELED") r in
  if has_col "CancellationConfidence" cols then r1
  else set_col "CancellationConfidence" (VFloat 0) r1.

Lemma nth_map_rows (f : row -> row) (rs : list row) (i : nat) (d : row) :
  i < List.length rs -> nth i (map f rs) d = f (nth i rs d).
Proof.
  intros Hi. rewrite (nth_indep _ d (f d)) by (rewrite length_map; exact Hi).
  apply map_nth.
Qed.

(** X12. When at least one job of the frame shows a cancellation (its
    [JobCanceled] flag, its [Status] or its [WorkDescription]),
    [extract_cancellation_reasons_from_df] draws nothing: the generator is
    left as it was, the rate is the share of the jobs that show a
    cancellation, exactly these get a reason extracted from their
    description, and every other job keeps its reason ([NOT_CANCELED] when
    the column was new) and all its other columns. *)
Theorem real_cancellations_need_no_draw (df : DataFrame) (g : Random.generator) :
  has_indicator_col (columns df) = true ->
  (exists r, In r (rows df) /\ shows_cancellation (columns df) r = true) ->
  let n := List.length (rows df) in
  let k := List.length (filter (shows_cancellation (columns df)) (rows df)) in
  let out := fst (extract_cancellation_reasons_from_df float_repr df g) in
  snd (extract_cancellation_reasons_from_df float_repr df g) = g
  /\ List.length (rows out) = n
  /\ 0 < k
  /\ (forall r, In r (rows out) ->
        r "CancellationRate" = VFloat (Z.of_nat k # Pos.of_nat n))
  /\ (forall i d, i < n ->
        shows_cancellation (columns df) (nth i (rows df) d) = false ->
        nth i (rows out) d "CancellationReason"
        = (if has_col "CancellationReason" (columns df)
           then nth i (rows df) d "CancellationReason"
           else VStr "NOT_CANCELED")
        /\ forall c, c <> "CancellationRate" -> c <> "CancellationReason" ->
                     c <> "CancellationConfidence" ->
                     nth i (rows out) d c = nth i (rows df) d c)
  /\ (has_col "WorkDescription" (columns df) = true ->
      forall i d, i < n ->
        shows_cancellation (columns df) (nth i (rows df) d) = true ->
        nth i (rows out) d "CancellationReason"
        = VStr (fst (extract_cancellation_reason
                       (text_of float_repr (nth i (rows df) d "WorkDescription"))))
        /\ nth i (rows out) d "CancellationConfidence"
           = VFloat (snd (extract_cancellation_reason
                            (text_of float_repr (nth i (rows df) d "WorkDescription"))))).
Proof.
  intros Hcol (shown & Hshown_in & Hshown) n k out.
  assert (Hk : 0 < k).
  { unfold k. assert (Hin : In shown (filter (shows_cancellation (columns df)) (rows df)))
      by (apply filter_In; auto).
    destruct (filter _ _); [contradiction | simpl; lia]. }
  assert (Hn : 0 < n).
  { unfold n. destruct (rows df); [contradiction | simpl; lia]. }
  set (df1 := if has_col "CancellationReason" (columns df) then df
              else assign "CancellationReason" (fun _ => VStr "NOT_CANCELED") df).
  set (df2 := if has_col "CancellationConfidence" (columns df1) then df1
              else assign "CancellationConfidence" (fun _ => VFloat 0) df1).
  assert (Hconf : has_col "CancellationConfidence" (columns df1)
                  = has_col "CancellationConfidence" (columns df)).
  { unfold df1. destruct (has_col "CancellationReason" (columns df)); [reflexivity |].
    apply has_col_assign_other. reflexivity. }
  assert (Hprep : rows df2 = map (with_reason_columns (columns df)) (rows df)).
  { unfold df2. rewrite Hconf. unfold df1, with_reason_columns.
    destruct (has_col "CancellationReason" (columns df)),
             (has_col "CancellationConfidence" (columns df));
      simpl; rewrite ?map_map; try reflexivity.
    symmetry. apply map_id. }
  assert (Hlen2 : List.length (rows df2) = n)
    by (rewrite Hprep, length_map; reflexivity).
  assert (Hcols2 : has_col "WorkDescription" (columns df2)
                   = has_col "WorkDescription" (columns df)).
  { unfold df2, df1.
    repeat match goal with
           | |- context [if ?b then _ else _] => destruct b
           end;
      rewrite ?has_col_assign_other by reflexivity; reflexivity. }
  set (mask := map (shows_cancellation (columns df)) (rows df)).
  assert (Hmask : canceled_mask df2 = Some mask).
  { assert (E : canceled_mask df2 = canceled_mask df).
    { unfold df2, df1.
      destruct (has_col "CancellationReason" (columns df));
        match goal with
        | |- context [if ?b then _ else _] => destruct b
        end; rewrite ?canceled_mask_assign by reflexivity; reflexivity. }
    rewrite E, canceled_mask_rowwise, Hcol. reflexivity. }
  assert (Hsum : mask_sum mask = k) by apply mask_sum_map.
  assert (Hrun : extract_cancellation_reasons_from_df float_repr df g
    = (assign "CancellationRate" (fun _ => company_cancel_rate k n)
         {| columns := columns df2;
            rows := process_canceled float_repr
                      (has_col "WorkDescription" (columns df2)) mask (rows df2) |},
       g)).
  { unfold extract_cancellation_reasons_from_df.
    fold df1. fold df2. rewrite Hmask, Hlen2.
    unfold effective_mask. rewrite Hsum.
    replace (Nat.eqb k 0) with false by (symmetry; apply Nat.eqb_neq; lia).
    cbn [andb]. rewrite Hsum. reflexivity. }
  assert (Hrate : company_cancel_rate k n = VFloat (Z.of_nat k # Pos.of_nat n)).
  { unfold company_cancel_rate.
    replace (Nat.ltb 0 n) with true by (symmetry; apply Nat.ltb_lt; exact Hn).
    reflexivity. }
  assert (Hnth : forall i d, i < n ->
            nth i (rows out) d
            = set_col "CancellationRate" (VFloat (Z.of_nat k # Pos.of_nat n))
                (if shows_cancellation (columns df) (nth i (rows df) d)
                    && has_col "WorkDescription" (columns df)
                 then set_reason float_repr
                        (with_reason_columns (columns df) (nth i (rows df) d))
                 else with_reason_columns (columns df) (nth i (rows df) d))).
  { intros i d Hi. unfold out. rewrite Hrun, Hrate. cbn [fst rows assign].
    rewrite nth_map_rows by (rewrite process_canceled_length, Hlen2; exact Hi).
    rewrite process_canceled_nth
      by (unfold mask; rewrite ?length_map, ?Hlen2; auto).
    rewrite Hcols2, Hprep, nth_map_rows by exact Hi.
    unfold mask.
    rewrite (nth_indep _ false (shows_cancellation (columns df) d))
      by (rewrite length_map; exact Hi).
    rewrite (map_nth (shows_cancellation (columns df))). reflexivity. }
  split; [rewrite Hrun; reflexivity |].
  split; [unfold out; rewrite Hrun; cbn [fst rows assign];
          rewrite length_map, process_canceled_length; exact Hlen2 |].
  split; [exact Hk |].
  split.
  { intros r Hr. unfold out in Hr. rewrite Hrun, Hrate in Hr. cbn [fst rows assign] in Hr.
    apply in_map_iff in Hr. destruct Hr as (r0 & <- & _).
    unfold set_col. rewrite String.eqb_refl. reflexivity. }
  split.
  - intros i d Hi Hquiet. rewrite (Hnth i d Hi), Hquiet. cbn [andb].
    unfold with_reason_columns. split.
    + unfold set_col. cbn.
      destruct (has_col "CancellationReason" (columns df)),
               (has_col "CancellationConfidence" (columns df)); reflexivity.
    + intros c H1 H2 H3. unfold set_col.
      destruct (String.eqb_spec c "CancellationRate"); [contradiction |].
      destruct (has_col "CancellationReason" (columns df)),
               (has_col "CancellationConfidence" (columns df));
        repeat match goal with
        | |- context [String.eqb c ?x] => destruct (String.eqb_spec c x)
        end; try contradiction; reflexivity.
  - intros Hwd i d Hi Hcancel. rewrite (Hnth i d Hi), Hcancel, Hwd. cbn [andb].
    unfold set_reason.
    assert (Hdesc : with_reason_columns (columns df) (nth i (rows df) d) "WorkDescription"
                    = nth i (rows df) d "WorkDescription").
    { unfold with_reason_columns, set_col.
      destruct (has_col "CancellationReason" (columns df)),
               (has_col "CancellationConfidence" (columns df)); reflexivity. }
    rewrite Hdesc.
    destruct (extract_cancellation_reason
                (text_of float_repr (nth i (rows df) d "WorkDescription")))
      as [reason conf].
    split; reflexivity.
Qed.

End RealCancellations.

(** One job that was called off and one that was done. *)
Definition called_off_and_done : DataFrame :=
  {| columns := ["TechCode"; "WorkDescription"];
     rows := [ (fun c => if String.eqb c "TechCode" then VStr "JS"
                         else if String.eqb c "WorkDescription"
                              then VStr "Customer cancel, too expensive"
                              else NA);
               (fun c => if String.eqb c "TechCode" then VStr "JD"
                         else if String.eqb c "WorkDescription"
                              then VStr "Replaced drain pump, tested OK"
                              else NA) ] |}.

Lemma real_cancellations_need_no_draw_example :
  snd (TextMining.extract_cancellation_reasons_from_df (fun _ => "")
         called_off_and_done entropy_a) = entropy_a
  /\ forall r,
       In r (rows (fst (TextMining.extract_cancellation_reasons_from_df (fun _ => "")
                          called_off_and_done entropy_a))) ->
       r "CancellationRate" = VFloat (1 # 2).
Proof.
  pose proof (@real_cancellations_need_no_draw (fun _ => "") called_off_and_done entropy_a)
    as H.
  cbv zeta in H.
  destruct H as (Hg & _ & _ & Hrate & _).
  - reflexivity.
  - eexists. split; [left; reflexivity | reflexivity].
  - split; [exact Hg | exact Hrate].
Defined.

Example real_cancellations_reasons :
  map (fun r : row => (r "TechCode", r "CancellationReason", r "CancellationConfidence"))
    (rows (fst (TextMining.extract_cancellation_reasons_from_df (fun _ => "")
                  called_off_and_done entropy_a)))
  = [ (VStr "JS", VStr "CUSTOMER_INITIATED", VFloat (1 # 6));
      (VStr "JD", VStr "NOT_CANCELED", VFloat 0) ].
Proof. vm_compute. reflexivity. Qed.

(** ** Jobs per technician *)

Section ValueCounts.
Import Revenue.

Lemma In_insert_by_count (e x : cell * nat) (l : list (cell * nat)) :
  In e (insert_by_count x l) <-> e = x \/ In e l.
Proof.
  induction l as [| y l IH]; simpl; [intuition congruence |].
  destruct (Nat.leb (snd y) (snd x)); simpl; [intuition congruence |].
  rewrite IH. tauto.
Qed.

Lemma In_sorted_by_count (e : cell * nat) (l : list (cell * nat)) :
  In e (fold_right insert_by_count [] l) <-> In e l.
Proof.
  induction l as [| x l IH]; simpl; [tauto |].
  rewrite In_insert_by_count, IH. intuition congruence.
Qed.

Lemma filter_insert_by_count (p : cell * nat -> bool) (x : cell * nat)
    (l : list (cell * nat)) :
  List.length (filter p (insert_by_count x l)) = List.length (filter p (x :: l)).
Proof.
  induction l as [| y l IH]; [reflexivity |].
  cbn [insert_by_count]. destruct (Nat.leb (snd y) (snd x)); [reflexivity |].
  cbn [filter] in *. destruct (p y), (p x); cbn [List.length] in *; lia.
Qed.

Lemma filter_sorted_by_count (p : cell * nat -> bool) (l : list (cell * nat)) :
  List.length (filter p (fold_right insert_by_count [] l)) = List.length (filter p l).
Proof.
  induction l as [| x l IH]; [reflexivity |].
  cbn [fold_right]. rewrite filter_insert_by_count. cbn [filter].
  destruct (p x); cbn [List.length]; rewrite IH; reflexivity.
Qed.

(** The most frequent first. *)
Definition by_falling_count : list (cell * nat) -> Prop :=
  ForallOrdPairs (fun a b : cell * nat => snd b <= snd a).

Lemma insert_by_count_sorted (x : cell * nat) (l : list (cell * nat)) :
  by_falling_count l -> by_falling_count (insert_by_count x l).
Proof.
  unfold by_falling_count. intros Hl.
  induction Hl as [| y l Hy Hl IH]; cbn [insert_by_count].
  - constructor; constructor.
  - destruct (Nat.leb_spec (snd y) (snd x)) as [Hle | Hgt].
    + constructor; [| constructor; assumption].
      constructor; [exact Hle |].
      rewrite Forall_forall in *. intros z Hz. specialize (Hy z Hz). lia.
    + constructor; [| exact IH].
      rewrite Forall_forall in *. intros z Hz.
      apply (proj1 (In_insert_by_count _ _ _)) in Hz. destruct Hz as [-> | Hz]; [lia | auto].
Qed.

Lemma sorted_by_count (l : list (cell * nat)) :
  by_falling_count (fold_right insert_by_count [] l).
Proof.
  induction l as [| x l IH]; [constructor |].
  apply insert_by_count_sorted. exact IH.
Qed.

Lemma distinct_from_in (seen cs : list cell) (c : cell) :
  In c (distinct_from seen cs) -> In c cs /\ existsb (cell_eqb c) seen = false.
Proof.
  revert seen. induction cs as [| y cs IH]; intros seen H; simpl in *; [contradiction |].
  destruct (existsb (cell_eqb y) seen) eqn:Hy.
  - destruct (IH _ H). auto.
  - destruct H as [<- | H]; [auto |].
    destruct (IH _ H) as [Hin Hnot]. split; [auto |].
    simpl in Hnot. apply orb_false_iff in Hnot. tauto.
Qed.

Lemma distinct_from_covers (seen cs : list cell) (c : cell) :
  In c cs ->
  existsb (cell_eqb c) seen = true
  \/ exists first, In first (distinct_from seen cs) /\ cell_eqb c first = true.
Proof.
  revert seen. induction cs as [| y cs IH]; intros seen Hin; [contradiction |].
  cbn [distinct_from].
  destruct (existsb (cell_eqb y) seen) eqn:Hy.
  - destruct Hin as [<- | Hin]; [left; exact Hy | apply IH; exact Hin].
  - destruct Hin as [<- | Hin].
    + right. exists y. split; [left; reflexivity | apply cell_eqb_refl].
    + destruct (IH (y :: seen) Hin) as [Hseen | (first & Hf & Heq)].
      * cbn [existsb] in Hseen. apply orb_true_iff in Hseen.
        destruct Hseen as [Hcy | Hseen]; [| left; exact Hseen].
        right. exists y. split; [left; reflexivity | exact Hcy].
      * right. exists first. split; [right; exact Hf | exact Heq].
Qed.

Lemma distinct_from_at_most_one (seen cs : list cell) (c : cell) :
  List.length (filter (cell_eqb c) (distinct_from seen cs))
  <= (if existsb (cell_eqb c) seen then 0 else 1).
Proof.
  revert seen. induction cs as [| y cs IH]; intros seen; cbn [distinct_from].
  - simpl. destruct (existsb (cell_eqb c) seen); lia.
  - destruct (existsb (cell_eqb y) seen) eqn:Hy; [apply IH |].
    cbn [filter]. specialize (IH (y :: seen)). cbn [existsb] in IH.
    destruct (cell_eqb c y) eqn:Hcy; cbn [orb List.length] in *.
    + destruct (existsb (cell_eqb c) seen) eqn:Hc; [| lia].
      exfalso. apply existsb_exists in Hc. destruct Hc as (z & Hz & Hcz).
      assert (Hyz : cell_eqb y z = true).
      { apply cell_eqb_trans with (b := c); [rewrite cell_eqb_sym |]; assumption. }
      assert (Hex : existsb (cell_eqb y) seen = true)
        by (apply existsb_exists; exists z; auto).
      congruence.
    + exact IH.
Qed.

Lemma cell_eqb_na (c : cell) : isna c = false -> cell_eqb c NA = false.
Proof. destruct c; simpl; try reflexivity. discriminate. Qed.

Lemma filter_present (c : cell) (codes : list cell) :
  isna c = false ->
  filter (cell_eqb c) (filter (fun x => negb (isna x)) codes) = filter (cell_eqb c) codes.
Proof.
  intros Hc. induction codes as [| x codes IH]; [reflexivity |].
  cbn [filter]. destruct (isna x) eqn:Hx; cbn [negb filter].
  - destruct x; try discriminate. rewrite (cell_eqb_na _ Hc). exact IH.
  - rewrite IH. reflexivity.
Qed.

Lemma filter_fst_map (c : cell) (f : cell -> nat) (l : list cell) :
  List.length (filter (fun e : cell * nat => cell_eqb c (fst e)) (map (fun x => (x, f x)) l))
  = List.length (filter (cell_eqb c) l).
Proof.
  induction l as [| x l IH]; [reflexivity |].
  cbn [map filter fst]. destruct (cell_eqb c x); cbn [List.length]; rewrite IH; reflexivity.
Qed.

(** [value_counts]: an entry for each value that occurs and is not
    missing, holding the number of its occurrences, one entry per value,
    the most frequent first. *)
Lemma value_counts_spec (codes : list cell) :
  (forall c n, In (c, n) (value_counts codes) ->
     isna c = false /\ In c codes
     /\ n = List.length (filter (cell_eqb c) codes) /\ 0 < n)
  /\ (forall c, In c codes -> isna c = false ->
        exists first n, In (first, n) (value_counts codes) /\ cell_eqb c first = true)
  /\ (forall c, List.length (filter (fun e => cell_eqb c (fst e)) (value_counts codes)) <= 1)
  /\ by_falling_count (value_counts codes).
Proof.
  unfold value_counts.
  set (present := filter (fun c => negb (isna c)) codes).
  split; [| split; [| split]].
  - intros c n Hin. apply (proj1 (In_sorted_by_count _ _)) in Hin. apply in_map_iff in Hin.
    destruct Hin as (c0 & Heq & Hc0). injection Heq as -> <-.
    apply distinct_from_in in Hc0. destruct Hc0 as [Hc0 _].
    unfold present in Hc0. apply filter_In in Hc0. destruct Hc0 as [Hin Hna].
    apply negb_true_iff in Hna.
    split; [exact Hna |]. split; [exact Hin |].
    unfold present. rewrite filter_present by exact Hna.
    split; [reflexivity |].
    assert (Hc : In c (filter (cell_eqb c) codes))
      by (apply filter_In; split; [exact Hin | apply cell_eqb_refl]).
    destruct (filter (cell_eqb c) codes); [contradiction | simpl; lia].
  - intros c Hin Hna.
    assert (Hp : In c present)
      by (apply filter_In; split; [exact Hin | rewrite Hna; reflexivity]).
    destruct (distinct_from_covers [] present c Hp) as [H | (first & Hf & Heq)];
      [discriminate |].
    exists first, (List.length (filter (cell_eqb first) present)).
    split; [| exact Heq].
    apply (proj2 (In_sorted_by_count _ _)). apply in_map_iff. exists first. auto.
  - intros c. rewrite filter_sorted_by_count.
    pose proof (distinct_from_at_most_one [] present c) as H. cbn [existsb] in H.
    rewrite filter_fst_map. exact H.
  - apply sorted_by_count.
Qed.

End ValueCounts.

(** ** The revenue metrics *)

Section RevenueRows.
Import Revenue.

Variable float_repr : Q -> string.
Variable np_seeded : Z -> Random.generator.

Lemma draw_tiers_length (techs : list (cell * nat)) (g : Random.generator) :
  List.length (fst (draw_tiers techs g)) = List.length techs.
Proof.
  revert g. induction techs as [| t techs IH]; intros g; [reflexivity |].
  cbn [draw_tiers].
  destruct (Random.randint 1 5 g) as [tier g1].
  specialize (IH g1). destruct (draw_tiers techs g1) as [tiers g2].
  cbn [fst List.length] in *. rewrite IH. reflexivity.
Qed.

(** What holds of every row one turn of the loop makes holds of every row
    of the result. *)
Lemma tech_rows_loop_Forall (P : cell -> nat -> TechMetrics -> Prop)
    (has_part_cost has_usage_data : bool) (usage_cols : list string) (df_rows : list row) :
  (forall tech jobs tier g,
     P tech jobs
       (fst (tech_row has_part_cost has_usage_data usage_cols df_rows tech jobs tier g))) ->
  forall techs tiers g,
    List.length tiers = List.length techs ->
    Forall2 (fun entry m => P (fst entry) (snd entry) m) techs
      (fst (tech_rows_loop has_part_cost has_usage_data usage_cols df_rows techs tiers g)).
Proof.
  intros Hrow. induction techs as [| [tech jobs] techs IH]; intros tiers g Hlen.
  - simpl. constructor.
  - destruct tiers as [| tier tiers]; [discriminate |].
    cbn [tech_rows_loop].
    pose proof (Hrow tech jobs tier g) as H1.
    destruct (tech_row has_part_cost has_usage_data usage_cols df_rows tech jobs tier g)
      as [m g1].
    specialize (IH tiers g1 ltac:(simpl in Hlen; lia)).
    destruct (tech_rows_loop has_part_cost has_usage_data usage_cols df_rows techs tiers g1)
      as [ms g2].
    cbn [fst] in *. constructor; assumption.
Qed.

(** The rows of the metrics, one per entry of the job counts. *)
Lemma revenue_metrics_rows (P : cell -> nat -> TechMetrics -> Prop)
    (df : DataFrame) (w : generators) (metrics : list TechMetrics) :
  (forall has_part_cost has_usage_data usage_cols df_rows tech jobs tier g,
     P tech jobs
       (fst (tech_row has_part_cost has_usage_data usage_cols df_rows tech jobs tier g))) ->
  fst (calculate_tech_revenue_metrics float_repr np_seeded df w) = Ok metrics ->
  exists df_rows,
    (has_col "TechCode" (columns df) = true -> df_rows = rows df)
    /\ List.length df_rows = List.length (rows df)
    /\ Forall2 (fun entry m => P (fst entry) (snd entry) m)
         (value_counts (map (fun r : row => r "TechCode") df_rows)) metrics.
Proof.
  intros Hrow Hok. unfold calculate_tech_revenue_metrics in Hok.
  set (with_code := if has_col "TechCode" (columns df) then Ok (rows df)
                    else if has_col "Technician" (columns df)
                    then Ok (map (fun r : row =>
                                    set_col "TechCode"
                                      (VStr (py_str float_repr (r "Technician"))) r)
                               (rows df))
                    else Raise _) in Hok.
  assert (Hcode : forall df_rows, with_code = Ok df_rows ->
            (has_col "TechCode" (columns df) = true -> df_rows = rows df)
            /\ List.length df_rows = List.length (rows df)).
  { intros df_rows. unfold with_code.
    destruct (has_col "TechCode" (columns df)).
    - intros H. injection H as <-. auto.
    - destruct (has_col "Technician" (columns df)); [| discriminate].
      intros H. injection H as <-. split; [discriminate | apply length_map]. }
  destruct with_code as [df_rows | e]; [| discriminate Hok].
  destruct (Hcode df_rows eq_refl) as [Hrows Hlen].
  exists df_rows. split; [exact Hrows |]. split; [exact Hlen |].
  set (techs := value_counts (map (fun r : row => r "TechCode") df_rows)) in *.
  pose proof (draw_tiers_length techs (py_random w)) as Htiers.
  destruct (draw_tiers techs (py_random w)) as [tiers g1].
  cbn [fst] in Htiers.
  match type of Hok with
  | context [tech_rows_loop ?a ?b ?c ?d ?e ?f ?g] =>
      pose proof (@tech_rows_loop_Forall P a b c d (Hrow a b c d) e f g Htiers) as Hall;
      destruct (tech_rows_loop a b c d e f g) as [ms g2]
  end.
  cbn [fst] in *. injection Hok as <-. exact Hall.
Qed.

Lemma Forall2_in_right {A B : Type} (R : A -> B -> Prop) (xs : list A) (ys : list B)
    (y : B) :
  Forall2 R xs ys -> In y ys -> exists x, In x xs /\ R x y.
Proof.
  intros H. induction H as [| x0 y0 xs ys H0 H IH]; intros Hin; [contradiction |].
  destruct Hin as [<- | Hin].
  - exists x0. split; [left; reflexivity | exact H0].
  - destruct (IH Hin) as (x & Hx & HR). exists x. split; [right; exact Hx | exact HR].
Qed.

Lemma Forall2_in_left {A B : Type} (R : A -> B -> Prop) (xs : list A) (ys : list B)
    (x : A) :
  Forall2 R xs ys -> In x xs -> exists y, In y ys /\ R x y.
Proof.
  intros H. induction H as [| x0 y0 xs ys H0 H IH]; intros Hin; [contradiction |].
  destruct Hin as [<- | Hin].
  - exists y0. split; [left; reflexivity | exact H0].
  - destruct (IH Hin) as (y & Hy & HR). exists y. split; [right; exact Hy | exact HR].
Qed.

(** What one turn of the loop writes into the row of a technician: the
    code and the number of the jobs. *)
Definition row_of (tech : cell) (jobs : nat) (m : TechMetrics) : Prop :=
  TechCode m = tech /\ TotalJobs m = Z.of_nat jobs.

Lemma tech_row_row_of (has_part_cost has_usage_data : bool) (usage_cols : list string)
    (df_rows : list row) (tech : cell) (jobs : nat) (tier : Z) (g : Random.generator) :
  row_of tech jobs
    (fst (tech_row has_part_cost has_usage_data usage_cols df_rows tech jobs tier g)).
Proof.
  unfold tech_row, row_of.
  destruct (Random.uniform (- (1 # 10)) (1 # 10) g) as [variation g1].
  destruct (Random.uniform (4 # 10) (6 # 10) g1) as [labor_pct g2].
  destruct (Random.uniform (25 # 100) (45 # 100) g2) as [parts_pct g3].
  match goal with
  | |- context [let (part_cost, g) := ?x in _] => destruct x as [part_cost g4]
  end.
  cbn [fst TechCode TotalJobs]. split; reflexivity.
Qed.

Lemma revenue_rows_of (df : DataFrame) (w : generators) (metrics : list TechMetrics) :
  fst (calculate_tech_revenue_metrics float_repr np_seeded df w) = Ok metrics ->
  exists df_rows,
    (has_col "TechCode" (columns df) = true -> df_rows = rows df)
    /\ List.length df_rows = List.length (rows df)
    /\ Forall2 (fun entry m => row_of (fst entry) (snd entry) m)
         (value_counts (map (fun r : row => r "TechCode") df_rows)) metrics.
Proof.
  apply revenue_metrics_rows. intros. apply tech_row_row_of.
Qed.

(** X14. [calculate_tech_revenue_metrics] returns one row for each
    technician code of the frame that is not missing, and no other: the
    row holds the number of the frame's rows with that code, no code has
    two rows, and the rows stand by falling number of jobs. Rows of the
    frame without a code are counted for nobody. *)
Theorem revenue_one_row_per_technician (df : DataFrame) (w : generators)
    (metrics : list TechMetrics) :
  fst (calculate_tech_revenue_metrics float_repr np_seeded df w) = Ok metrics ->
  has_col "TechCode" (columns df) = true ->
  let codes := map (fun r : row => r "TechCode") (rows df) in
  (forall m, In m metrics ->
     isna (TechCode m) = false /\ In (TechCode m) codes
     /\ TotalJobs m = Z.of_nat (List.length (filter (cell_eqb (TechCode m)) codes)))
  /\ (forall c, In c codes -> isna c = false ->
        exists m, In m metrics /\ cell_eqb c (TechCode m) = true)
  /\ (forall c,
        List.length (filter (fun m => cell_eqb c (TechCode m)) metrics) <= 1)
  /\ ForallOrdPairs (fun a b => (TotalJobs b <= TotalJobs a)%Z) metrics.
Proof.
  intros Hok Htech codes.
  destruct (revenue_rows_of df w Hok) as (df_rows & Hrows & _ & Hall).
  rewrite (Hrows Htech) in Hall. fold codes in Hall.
  destruct (value_counts_spec codes) as (Hentry & Hcover & Hone & Hsorted).
  split; [| split; [| split]].
  - intros m Hm.
    destruct (@Forall2_in_right _ _ _ _ _ _ Hall Hm) as ([tech jobs] & Hin & Hrow).
    destruct Hrow as (Hcode & Hjobs). cbn [fst snd] in *.
    destruct (Hentry _ _ Hin) as (Hna & Hc & Hn & _).
    rewrite Hcode, Hjobs, Hn. auto.
  - intros c Hc Hna.
    destruct (Hcover c Hc Hna) as (first & n & Hin & Heq).
    destruct (@Forall2_in_left _ _ _ _ _ _ Hall Hin) as (m & Hm & Hrow).
    destruct Hrow as (Hcode & _). cbn [fst] in Hcode.
    exists m. split; [exact Hm |]. rewrite Hcode. exact Heq.
  - intros c. specialize (Hone c).
    assert (Hlen : List.length (filter (fun m => cell_eqb c (TechCode m)) metrics)
                   = List.length (filter (fun e : cell * nat => cell_eqb c (fst e))
                                    (value_counts codes))).
    { clear Hone Hsorted Hentry Hcover Hok Hrows.
      induction Hall as [| e m es ms He Hall IH]; [reflexivity |].
      cbn [filter]. destruct He as (Hcode & _). rewrite Hcode.
      destruct (cell_eqb c (fst e)); cbn [List.length]; rewrite IH; reflexivity. }
    rewrite Hlen. exact Hone.
  - unfold by_falling_count in Hsorted.
    clear Hone Hentry Hcover Hok Hrows.
    induction Hall as [| e m es ms He Hall IH]; [constructor |].
    inversion Hsorted as [| ? ? Hfirst Hrest]; subst.
    constructor; [| apply IH; exact Hrest].
    rewrite Forall_forall in *. intros m' Hm'.
    destruct (@Forall2_in_right _ _ _ _ _ _ Hall Hm') as (e' & He' & Hrow').
    destruct He as (_ & Hj). destruct Hrow' as (_ & Hj').
    rewrite Hj, Hj'. specialize (Hfirst e' He'). lia.
Qed.

End RevenueRows.

(** ** Revenue that is drawn, not read *)

Section SyntheticRevenue.
Import Revenue.

Variable float_repr : Q -> string.
Variable np_seeded : Z -> Random.generator.

Lemma tech_row_without_part_cost (usage usage' : bool) (cols cols' : list string)
    (df_rows df_rows' : list row) (tech : cell) (jobs : nat) (tier : Z)
    (g : Random.generator) :
  tech_row false usage cols df_rows tech jobs tier g
  = tech_row false usage' cols' df_rows' tech jobs tier g.
Proof.
  unfold tech_row. cbn [andb].
  destruct (Random.uniform (- (1 # 10)) (1 # 10) g) as [variation g1].
  destruct (Random.uniform (4 # 10) (6 # 10) g1) as [labor_pct g2].
  destruct (Random.uniform (25 # 100) (45 # 100) g2) as [parts_pct g3].
  reflexivity.
Qed.

Lemma tech_rows_loop_without_part_cost (usage usage' : bool) (cols cols' : list string)
    (df_rows df_rows' : list row) (techs : list (cell * nat)) :
  forall tiers g,
    tech_rows_loop false usage cols df_rows techs tiers g
    = tech_rows_loop false usage' cols' df_rows' techs tiers g.
Proof.
  induction techs as [| [tech jobs] techs IH]; intros tiers g; [reflexivity |].
  destruct tiers as [| tier tiers]; [reflexivity |].
  cbn [tech_rows_loop].
  rewrite (tech_row_without_part_cost usage usage' cols cols' df_rows df_rows').
  destruct (tech_row false usage' cols' df_rows' tech jobs tier g) as [m g1].
  rewrite IH. reflexivity.
Qed.

(** X15. The revenue figures are drawn, not read from the data: two
    frames with the same technician codes, row by row, and without the
    part cost column give the same metrics from the same state of the
    generators, whatever their other columns hold (amounts sold, labor,
    parts, totals). *)
Theorem revenue_ignores_amounts (df df' : DataFrame) (w : generators) :
  has_col "TechCode" (columns df) = true ->
  has_col "TechCode" (columns df') = true ->
  has_col PART_COST_COL (columns df) = false ->
  has_col PART_COST_COL (columns df') = false ->
  map (fun r : row => r "TechCode") (rows df) = map (fun r : row => r "TechCode") (rows df') ->
  calculate_tech_revenue_metrics float_repr np_seeded df w
  = calculate_tech_revenue_metrics float_repr np_seeded df' w.
Proof.
  intros Ht Ht' Hp Hp' Hcodes. unfold calculate_tech_revenue_metrics.
  rewrite Ht, Ht', Hp, Hp', Hcodes.
  destruct (draw_tiers _ (py_random w)) as [tiers g].
  rewrite (tech_rows_loop_without_part_cost
             (Nat.ltb 0 (List.length (part_usage_cols (columns df))))
             (Nat.ltb 0 (List.length (part_usage_cols (columns df'))))
             (part_usage_cols (columns df)) (part_usage_cols (columns df'))
             (rows df) (rows df')).
  reflexivity.
Qed.

End SyntheticRevenue.

(** One job of JS with a sale of 100000 on it. *)
Definition one_job_with_sale : DataFrame :=
  {| columns := ["TechCode"; "TotalSale"; "LaborSold"];
     rows := [ fun c => if String.eqb c "TechCode" then VStr "JS"
                        else if String.eqb c "TotalSale" then VInt 100000
                        else if String.eqb c "LaborSold" then VInt 60000
                        else NA ] |}.

Lemma revenue_ignores_amounts_example :
  Revenue.calculate_tech_revenue_metrics (fun _ => "") (fun _ => entropy_a) one_job
    (Revenue.mkGens entropy_b entropy_a)
  = Revenue.calculate_tech_revenue_metrics (fun _ => "") (fun _ => entropy_a)
      one_job_with_sale (Revenue.mkGens entropy_b entropy_a).
Proof.
  apply revenue_ignores_amounts; reflexivity.
Defined.

(** Three jobs of two technicians and one without a technician. *)
Definition jobs_of_two : DataFrame :=
  {| columns := ["TechCode"];
     rows := [ job_of "JD"; job_of "JS"; (fun _ => NA); job_of "JS" ] |}.

Lemma revenue_one_row_per_technician_example :
  match fst (Revenue.calculate_tech_revenue_metrics (fun _ => "") (fun _ => entropy_a)
               jobs_of_two (Revenue.mkGens entropy_b entropy_a)) with
  | Ok ms =>
      ForallOrdPairs (fun a b => (Revenue.TotalJobs b <= Revenue.TotalJobs a)%Z) ms
      /\ map (fun m => (Revenue.TechCode m, Revenue.TotalJobs m)) ms
         = [ (VStr "JS", 2%Z); (VStr "JD", 1%Z) ]
  | Raise _ => False
  end.
Proof.
  destruct (fst (Revenue.calculate_tech_revenue_metrics (fun _ => "")
                   (fun _ => entropy_a) jobs_of_two
                   (Revenue.mkGens entropy_b entropy_a))) as [ms | e] eqn:Hrun.
  - split.
    + exact (proj2 (proj2 (proj2
               (@revenue_one_row_per_technician (fun _ => "") (fun _ => entropy_a)
                  jobs_of_two (Revenue.mkGens entropy_b entropy_a) ms Hrun eq_refl)))).
    + vm_compute in Hrun. injection Hrun as <-. reflexivity.
  - vm_compute in Hrun. discriminate Hrun.
Defined.

(** ** The two readers of durations *)

Section DurationReaders.
Import PyStr PyNum.

(** The number a text of digits writes. *)
Fixpoint decimal_from (acc : Z) (s : string) : Z :=
  match s with
  | EmptyString => acc
  | String c r => decimal_from (10 * acc + digit_value c) r
  end.

Definition decimal (s : string) : Z := decimal_from 0 s.

(** A field of digits: at least one character, and digits only. *)
Definition digit_field (s : string) : Prop := s <> "" /\ all_digits s = true.

Lemma digit_is_plain (c : ascii) :
  is_digit c = true ->
  is_space c = false /\ Ascii.eqb c ":" = false /\ Ascii.eqb c "_" = false
  /\ lower_char c = c
  /\ forall r, sign_of (String c r) = (false, String c r).
Proof.
  destruct c as [[] [] [] [] [] [] [] []]; intros H; try discriminate H;
    repeat split.
Qed.

Lemma more_digits_all (s : string) :
  all_digits s = true ->
  forall acc n, more_digits acc n s = (decimal_from acc s, n + String.length s, "").
Proof.
  induction s as [| c r IH]; intros Hd acc n.
  - simpl. rewrite Nat.add_0_r. reflexivity.
  - simpl in Hd. apply andb_true_iff in Hd. destruct Hd as [Hc Hr].
    cbn [more_digits decimal_from String.length]. rewrite Hc, (IH Hr).
    f_equal. f_equal. lia.
Qed.

Lemma digit_part_all (s : string) :
  digit_field s ->
  digit_part s = Some (decimal s, String.length s, "").
Proof.
  intros [Hne Hd]. destruct s as [| c r]; [contradiction |].
  simpl in Hd. apply andb_true_iff in Hd. destruct Hd as [Hc Hr].
  unfold digit_part. rewrite Hc, (@more_digits_all r Hr). reflexivity.
Qed.

Lemma rstrip_digits (s : string) : all_digits s = true -> rstrip s = s.
Proof.
  induction s as [| c r IH]; intros Hd; [reflexivity |].
  simpl in Hd. apply andb_true_iff in Hd. destruct Hd as [Hc Hr].
  cbn [rstrip]. rewrite (IH Hr).
  destruct (@digit_is_plain c Hc) as (Hs & _). rewrite Hs.
  destruct r; reflexivity.
Qed.

Lemma strip_digits (s : string) : all_digits s = true -> strip s = s.
Proof.
  intros Hd. unfold strip.
  assert (Hl : lstrip s = s).
  { destruct s as [| c r]; [reflexivity |].
    simpl in Hd. apply andb_true_iff in Hd. destruct Hd as [Hc _].
    destruct (@digit_is_plain c Hc) as (Hs & _). simpl. rewrite Hs. reflexivity. }
  rewrite Hl. apply rstrip_digits. exact Hd.
Qed.

Lemma int_of_digits (s : string) :
  digit_field s -> int_of_string s = Some (decimal s).
Proof.
  intros Hf. pose proof Hf as [Hne Hd].
  unfold int_of_string. rewrite (@strip_digits _ Hd).
  destruct s as [| c r]; [contradiction |].
  simpl in Hd. apply andb_true_iff in Hd. destruct Hd as [Hc _].
  destruct (@digit_is_plain c Hc) as (_ & _ & _ & _ & Hsign). rewrite Hsign.
  rewrite (@digit_part_all _ Hf). reflexivity.
Qed.

(** A field of digits denotes the whole number it writes. *)
Lemma literal_of_digits (s : string) :
  digit_field s ->
  exists q, decimal_literal s = Some (Finite q)
            /\ Qnum q = decimal s /\ Qden q = 1%positive.
Proof.
  intros Hf. pose proof Hf as [Hne Hd].
  unfold decimal_literal. rewrite (@strip_digits _ Hd).
  destruct s as [| c r]; [contradiction |].
  pose proof Hd as Hd'. simpl in Hd'. apply andb_true_iff in Hd'. destruct Hd' as [Hc _].
  destruct (@digit_is_plain c Hc) as (_ & _ & _ & Hlow & Hsign). rewrite Hsign.
  assert (Hword : forall w, (String.eqb (lower (String c r)) w = true ->
                             exists r', w = String c r')).
  { intros w Hw. apply String.eqb_eq in Hw. subst w.
    unfold lower. cbn [map_chars]. rewrite Hlow. eauto. }
  assert (Hnot : forall a r', is_digit a = false ->
                              String.eqb (lower (String c r)) (String a r') = false).
  { intros a r' Ha. destruct (String.eqb (lower (String c r)) (String a r')) eqn:E;
      [| reflexivity].
    destruct (Hword _ E) as (r'' & Heq). injection Heq as -> _. congruence. }
  rewrite !Hnot by reflexivity. cbn [orb].
  unfold unsigned_float. rewrite (@digit_part_all _ Hf).
  cbn [fraction_of exponent_of].
  replace (Nat.eqb (String.length (String c r) + 0) 0) with false
    by (symmetry; apply Nat.eqb_neq; simpl; lia).
  eexists. split; [reflexivity |].
  cbn. split; [ring | reflexivity].
Qed.

Lemma split_field (a rest : string) :
  all_digits a = true ->
  split ":" (a ++ String ":" rest) = a :: split ":" rest.
Proof.
  induction a as [| c r IH]; intros Hd.
  - reflexivity.
  - simpl in Hd. apply andb_true_iff in Hd. destruct Hd as [Hc Hr].
    destruct (@digit_is_plain c Hc) as (_ & Hcolon & _).
    cbn [append split]. rewrite Hcolon, (IH Hr). reflexivity.
Qed.

Lemma split_last_field (a : string) :
  all_digits a = true -> split ":" a = [a].
Proof.
  induction a as [| c r IH]; intros Hd; [reflexivity |].
  simpl in Hd. apply andb_true_iff in Hd. destruct Hd as [Hc Hr].
  destruct (@digit_is_plain c Hc) as (_ & Hcolon & _).
  cbn [split]. rewrite Hcolon, (IH Hr). reflexivity.
Qed.

(** *** Whole numbers among the doubles *)

Lemma round_half_even_whole (N : Z) : round_half_even N 1 = N.
Proof. unfold round_half_even. rewrite Z.div_1_r, Z.mod_1_r. reflexivity. Qed.

Lemma Qred_whole (k : Z) : Qred (k # 1) = (k # 1)%Q.
Proof.
  unfold Qred.
  pose proof (Z.ggcd_gcd k 1) as Hg.
  pose proof (Z.ggcd_correct_divisors k 1) as Hd.
  destruct (Z.ggcd k 1) as (g, (a, b)). cbn [fst snd] in Hg, Hd.
  rewrite Z.gcd_1_r in Hg. subst g. destruct Hd as [Ha Hb].
  replace a with k by lia. replace b with 1%Z by lia. reflexivity.
Qed.

(** A whole number below [2 ^ 53] is a double. *)
Lemma round_positive_whole (k : Z) :
  (0 < k < 2 ^ 53)%Z -> round_positive k 1 = Finite (k # 1).
Proof.
  intros [Hpos Hlt]. unfold round_positive.
  change (Z.log2 1) with 0%Z. rewrite Z.sub_0_r.
  pose proof (Z.log2_nonneg k) as HL0.
  assert (HL : (Z.log2 k < 53)%Z) by (apply Z.log2_lt_pow2; assumption).
  pose proof (Z.log2_spec k Hpos) as [Hlow Hhigh].
  set (L := Z.log2 k) in *. cbv zeta.
  replace (0 <=? L)%Z with true by (symmetry; apply Z.leb_le; exact HL0).
  replace (1 * 2 ^ L <=? k)%Z with true by (symmetry; apply Z.leb_le; lia).
  rewrite Z.max_l by lia.
  assert (Hfinite : (1024 <=? L)%Z = false) by (apply Z.leb_gt; lia).
  destruct (Z.leb_spec 0 (L - 52)) as [Hu | Hu].
  - replace (L - 52)%Z with 0%Z by lia.
    rewrite Z.pow_0_r, Z.mul_1_r, round_half_even_whole.
    replace (k =? 2 ^ 53)%Z with false by (symmetry; apply Z.eqb_neq; lia).
    rewrite Hfinite, Z.mul_1_r. reflexivity.
  - rewrite round_half_even_whole.
    set (j := (- (L - 52))%Z).
    assert (Hj : (0 < j)%Z) by (unfold j; lia).
    assert (H2j : (0 < 2 ^ j)%Z) by (apply Z.pow_pos_nonneg; lia).
    assert (Hsum : (2 ^ Z.succ L * 2 ^ j = 2 ^ 53)%Z).
    { rewrite <- Z.pow_add_r by lia. f_equal. unfold j. lia. }
    assert (Hm : (k * 2 ^ j < 2 ^ 53)%Z).
    { rewrite <- Hsum. apply Z.mul_lt_mono_pos_r; assumption. }
    replace (k * 2 ^ j =? 2 ^ 53)%Z with false by (symmetry; apply Z.eqb_neq; lia).
    rewrite Hfinite. f_equal. rewrite <- (Qred_whole k). apply Qred_complete.
    unfold Qeq. cbn [Qnum Qden]. rewrite Z2Pos.id by exact H2j. ring.
Qed.

Lemma round_to_double_whole (q : Q) (k : Z) :
  (q == k # 1)%Q -> (0 <= k < 2 ^ 53)%Z -> round_to_double q = Finite (k # 1).
Proof.
  intros Hq Hk. unfold round_to_double.
  rewrite (Qred_complete _ _ Hq), Qred_whole. cbv zeta. cbn [Qnum Qden].
  destruct k as [| p | p]; [reflexivity | apply round_positive_whole; lia | lia].
Qed.

(** The digits of a field and the size of its number. *)
Lemma digit_value_range (c : ascii) :
  is_digit c = true -> (0 <= digit_value c <= 9)%Z.
Proof.
  destruct c as [[] [] [] [] [] [] [] []]; intros H; try discriminate H;
    vm_compute; split; discriminate.
Qed.

Lemma decimal_from_range (s : string) :
  all_digits s = true ->
  forall acc, (0 <= acc)%Z ->
    (acc * 10 ^ Z.of_nat (String.length s) <= decimal_from acc s
     < (acc + 1) * 10 ^ Z.of_nat (String.length s))%Z.
Proof.
  induction s as [| c r IH]; intros Hd acc Hacc.
  - cbn [decimal_from String.length]. change (10 ^ Z.of_nat 0)%Z with 1%Z. lia.
  - simpl in Hd. apply andb_true_iff in Hd. destruct Hd as [Hc Hr].
    pose proof (@digit_value_range c Hc) as Hv.
    cbn [decimal_from String.length].
    assert (H0 : (0 <= 10 * acc + digit_value c)%Z) by lia.
    pose proof (IH Hr _ H0) as [Hlo Hhi].
    rewrite Nat2Z.inj_succ, Z.pow_succ_r by lia.
    assert (Hp : (0 < 10 ^ Z.of_nat (String.length r))%Z)
      by (apply Z.pow_pos_nonneg; lia).
    nia.
Qed.

(** A field of at most twelve digits writes a number below [10 ^ 12]. *)
Lemma short_field (s : string) :
  digit_field s -> String.length s <= 12 -> (0 <= decimal s < 10 ^ 12)%Z.
Proof.
  intros [_ Hd] Hlen. unfold decimal.
  pose proof (@decimal_from_range s Hd 0%Z (Z.le_refl 0)) as [Hlo Hhi].
  split; [lia |].
  assert (Hpow : (10 ^ Z.of_nat (String.length s) <= 10 ^ 12)%Z)
    by (apply Z.pow_le_mono_r; lia).
  lia.
Qed.

(** [float] of a short field of digits is the whole number it writes. *)
Lemma float_of_digits (s : string) :
  digit_field s -> String.length s <= 12 ->
  float_of_string s = Some (Finite (decimal s # 1)).
Proof.
  intros Hf Hlen. destruct (@literal_of_digits _ Hf) as ([n d] & Hq & Hn & Hd).
  cbn [Qnum Qden] in Hn, Hd. subst n d.
  unfold float_of_string. rewrite Hq. f_equal.
  apply round_to_double_whole; [reflexivity |].
  pose proof (@short_field _ Hf Hlen). lia.
Qed.

Lemma to_float_digits (s : string) :
  digit_field s -> String.length s <= 12 ->
  Durations.to_float s = Ok (Finite (decimal s # 1)).
Proof.
  intros Hf Hlen. unfold Durations.to_float.
  rewrite (@float_of_digits _ Hf Hlen). reflexivity.
Qed.

Lemma fscale_whole (k c : Z) :
  (0 <= k * c < 2 ^ 53)%Z ->
  fscale (Finite (k # 1)) (c # 1) = Finite (k * c # 1).
Proof.
  intros H. unfold fscale. apply round_to_double_whole; [| exact H].
  unfold Qeq. cbn [Qnum Qden Qmult]. lia.
Qed.

Lemma fadd_whole (j k : Z) :
  (0 <= j + k < 2 ^ 53)%Z ->
  fadd (Finite (j # 1)) (Finite (k # 1)) = Finite (j + k # 1).
Proof.
  intros H. unfold fadd. apply round_to_double_whole; [| exact H].
  unfold Qeq. cbn [Qnum Qden Qplus]. lia.
Qed.

(** X16. On durations whose fields are digits, at most twelve of them
    each, the two readers agree: [parse_duration] and the importer's
    [convert_duration_to_seconds] both read [H:M:S] as [3600 H + 60 M + S]
    and [M:S] as [60 M + S]; every product and sum is then a whole number
    below [2 ^ 53], which the doubles of [parse_duration] hold exactly.
    They part on a single number: [parse_duration] reads it as seconds,
    the importer's reader returns 0. *)
Theorem duration_readers_agree (h m s : string) :
  digit_field h -> digit_field m -> digit_field s ->
  String.length h <= 12 -> String.length m <= 12 -> String.length s <= 12 ->
  Durations.parse_duration (Some (h ++ ":" ++ m ++ ":" ++ s))
  = Ok (decimal h * 3600 + decimal m * 60 + decimal s)%Z
  /\ Importers.convert_duration_to_seconds (VStr (h ++ ":" ++ m ++ ":" ++ s))
     = (decimal h * 3600 + decimal m * 60 + decimal s)%Z
  /\ Durations.parse_duration (Some (m ++ ":" ++ s)) = Ok (decimal m * 60 + decimal s)%Z
  /\ Importers.convert_duration_to_seconds (VStr (m ++ ":" ++ s))
     = (decimal m * 60 + decimal s)%Z
  /\ Durations.parse_duration (Some s) = Ok (decimal s)
  /\ Importers.convert_duration_to_seconds (VStr s) = 0%Z.
Proof.
  intros Hh Hm Hs Lh Lm Ls.
  pose proof (@to_float_digits _ Hh Lh) as Hfh.
  pose proof (@to_float_digits _ Hm Lm) as Hfm.
  pose proof (@to_float_digits _ Hs Ls) as Hfs.
  pose proof (@short_field _ Hh Lh) as Bh.
  pose proof (@short_field _ Hm Lm) as Bm.
  pose proof (@short_field _ Hs Ls) as Bs.
  assert (H3 : split ":" (h ++ ":" ++ m ++ ":" ++ s) = [h; m; s]).
  { change (h ++ ":" ++ m ++ ":" ++ s) with (h ++ String ":" (m ++ String ":" s)).
    rewrite (@split_field _ _ (proj2 Hh)), (@split_field _ _ (proj2 Hm)),
      (@split_last_field _ (proj2 Hs)). reflexivity. }
  assert (H2 : split ":" (m ++ ":" ++ s) = [m; s]).
  { change (m ++ ":" ++ s) with (m ++ String ":" s).
    rewrite (@split_field _ _ (proj2 Hm)), (@split_last_field _ (proj2 Hs)). reflexivity. }
  assert (H1 : split ":" s = [s]) by (apply split_last_field; exact (proj2 Hs)).
  assert (Hne : forall a b, digit_field a -> String.eqb (a ++ b) "" = false).
  { intros a b [Ha _]. destruct a; [contradiction | reflexivity]. }
  assert (Hne1 : String.eqb s "" = false).
  { destruct Hs as [Ha _]. destruct s; [contradiction | reflexivity]. }
  assert (Hint : forall k, int_of_float (Finite (k # 1)) = Ok k).
  { intros k. unfold int_of_float. cbn [Qnum Qden]. rewrite Z.quot_1_r. reflexivity. }
  repeat split.
  - unfold Durations.parse_duration. rewrite (Hne _ _ Hh), H3, Hfh, Hfm, Hfs.
    cbn [bind].
    change 3600%Q with (3600 # 1)%Q. change 60%Q with (60 # 1)%Q.
    rewrite !fscale_whole, !fadd_whole by lia. apply Hint.
  - unfold Importers.convert_duration_to_seconds, Importers.duration_seconds.
    rewrite H3, !(@int_of_digits _) by assumption. reflexivity.
  - unfold Durations.parse_duration. rewrite (Hne _ _ Hm), H2, Hfm, Hfs.
    cbn [bind]. change 60%Q with (60 # 1)%Q.
    rewrite fscale_whole, fadd_whole by lia. apply Hint.
  - unfold Importers.convert_duration_to_seconds, Importers.duration_seconds.
    rewrite H2, !(@int_of_digits _) by assumption. reflexivity.
  - unfold Durations.parse_duration. rewrite Hne1, H1, Hfs.
    cbn [bind]. apply Hint.
  - unfold Importers.convert_duration_to_seconds, Importers.duration_seconds.
    rewrite H1. reflexivity.
Qed.

End DurationReaders.

Lemma duration_readers_agree_example :
  Durations.parse_duration (Some "2:30:15") = Ok 9015%Z
  /\ Importers.convert_duration_to_seconds (VStr "2:30:15") = 9015%Z
  /\ Durations.parse_duration (Some "15") = Ok 15%Z
  /\ Importers.convert_duration_to_seconds (VStr "15") = 0%Z.
Proof.
  assert (Hh : digit_field "2") by (split; [discriminate | reflexivity]).
  assert (Hm : digit_field "30") by (split; [discriminate | reflexivity]).
  assert (Hs : digit_field "15") by (split; [discriminate | reflexivity]).
  destruct (@duration_readers_agree "2" "30" "15" Hh Hm Hs) as (H1 & H2 & _ & _ & H5 & H6);
    [simpl; lia .. |].
  repeat split; assumption.
Defined.

(** Beyond such fields the doubles show: a fraction of a minute is cut
    short, a long field is rounded before it is cut, and a field too large
    for a double makes [int] raise; the importer's reader, which reads
    whole numbers only, has the number of the long field exactly. *)
Example parse_duration_rounds :
  Durations.parse_duration (Some "2.05:00") = Ok 122%Z
  /\ Durations.parse_duration (Some "100000000000000000000000")
     = Ok 99999999999999991611392%Z
  /\ Importers.convert_duration_to_seconds (VStr "0:100000000000000000000000")
     = 100000000000000000000000%Z
  /\ Durations.parse_duration (Some "1e400") = Raise OverflowError.
Proof. repeat split; vm_compute; reflexivity. Qed.

(** ** The table of alert counts *)

Section AlertCounts.
Import Mapping AlertWeights Driving.

Lemma In_insert_sorted (x y : string) (xs : list string) :
  In y (insert_sorted x xs) <-> y = x \/ In y xs.
Proof.
  induction xs as [| z xs IH]; simpl; [intuition congruence |].
  destruct (String.eqb_spec x z) as [-> | Hne].
  - simpl. intuition congruence.
  - destruct (String.ltb x z); simpl; [intuition congruence |].
    rewrite IH. tauto.
Qed.

Lemma In_sorted_unique (y : string) (xs : list string) :
  In y (sorted_unique xs) <-> In y xs.
Proof.
  unfold sorted_unique. induction xs as [| x xs IH]; simpl; [tauto |].
  rewrite In_insert_sorted, IH. intuition congruence.
Qed.

Lemma In_labels_of (col label : string) (rs : list row) :
  In label (labels_of col rs) <-> exists r, In r rs /\ r col = VStr label.
Proof.
  unfold labels_of. rewrite in_flat_map. split.
  - intros (r & Hr & Hin). exists r. split; [exact Hr |].
    unfold label_of in Hin. destruct (r col); simpl in Hin; try contradiction.
    destruct Hin as [<- | []]. reflexivity.
  - intros (r & Hr & Heq). exists r. split; [exact Hr |].
    rewrite Heq. simpl. auto.
Qed.

Lemma In_merge_left (on : row -> row -> bool) (join : row -> option row -> row)
    (left right : list row) (r : row) :
  In r (Integrator.merge_left on join left right) <->
  exists l, In l left
    /\ ((filter (on l) right = [] /\ r = join l None)
        \/ exists x, In x right /\ on l x = true /\ r = join l (Some x)).
Proof.
  unfold Integrator.merge_left. rewrite in_flat_map. split.
  - intros (l & Hl & Hin). exists l. split; [exact Hl |].
    destruct (filter (on l) right) as [| x found] eqn:Hf.
    + destruct Hin as [<- | []]. left. auto.
    + right. apply in_map_iff in Hin. destruct Hin as (y & <- & Hy).
      rewrite <- Hf in Hy. apply filter_In in Hy. destruct Hy as [Hy Hon].
      exists y. auto.
  - intros (l & Hl & [[Hf ->] | (x & Hx & Hon & ->)]); exists l; (split; [exact Hl |]).
    + rewrite Hf. left. reflexivity.
    + assert (Hin : In x (filter (on l) right)) by (apply filter_In; auto).
      destruct (filter (on l) right); [contradiction |].
      apply (in_map (fun y : row => join l (Some y))). exact Hin.
Qed.

Lemma forallb_false_in {A : Type} (f : A -> bool) (l : list A) :
  forallb f l = false -> exists x, In x l /\ f x = false.
Proof.
  induction l as [| x l IH]; simpl; [discriminate |].
  destruct (f x) eqn:Hx.
  - intros H. destruct (IH H) as (y & Hy & Hf). exists y. auto.
  - intros _. exists x. auto.
Qed.

(** X17. [calculate_driving_metrics] never returns a driving score of its
    own. When it returns at all, an alert type of the data has no weight
    in [ALERT_WEIGHTS] and the result is the table of counts after
    [reset_index]: its first column is [TechCode], no other column has
    that name, [TotalAlerts] is a column, and every other column is an
    alert type that occurs in the alerts; it has a row for a technician
    exactly when an alert with an alert type is joined to that technician.
    A technician without alerts has no row. *)
Theorem driving_metrics_are_counts (tech_df alert_df out : DataFrame) :
  calculate_driving_metrics tech_df alert_df = Ok out ->
  (exists t alert,
     In alert (rows alert_df) /\ alert "AlertType" = VStr t
     /\ In t (columns out) /\ t <> "TotalAlerts" /\ t <> "TechCode"
     /\ dict_get ALERT_WEIGHTS t = None)
  /\ (exists counts,
        columns out = "TechCode" :: counts
        /\ ~ In "TechCode" counts
        /\ In "TotalAlerts" counts
        /\ forall c, In c counts ->
             c = "TotalAlerts"
             \/ exists alert, In alert (rows alert_df) /\ alert "AlertType" = VStr c)
  /\ exists id_col,
       join_key (columns tech_df) (columns alert_df) = Ok id_col
       /\ forall tech : string,
            (exists r, In r (rows out) /\ r "TechCode" = VStr tech)
            <-> exists alert t,
                  In alert (rows alert_df) /\ In t (rows tech_df)
                  /\ cell_eqb (alert id_col) (t id_col) = true
                  /\ t "TechCode" = VStr tech
                  /\ isna (alert "AlertType") = false.
Proof.
  unfold calculate_driving_metrics.
  destruct (negb (has_col "TechCode" (columns tech_df)
                  && has_col "DeviceId" (columns tech_df))); [discriminate |].
  destruct (join_key (columns tech_df) (columns alert_df)) as [id_col | e];
    [| discriminate].
  cbn [bind].
  destruct (has_col "TechCode" (columns alert_df)); [discriminate |].
  destruct (negb (has_col "AlertType" (columns alert_df))); [discriminate |].
  set (merged := Integrator.merge_left _ _ (rows alert_df) (rows tech_df)).
  set (table := alert_count_table merged).
  set (counts := assign "TotalAlerts" _ table).
  destruct (forallb _ (alert_type_cols (columns counts))) eqn:Hall.
  { rewrite driving_category_raises. discriminate. }
  unfold reset_index.
  destruct (has_col "TechCode" (columns counts)) eqn:Hindex; [discriminate |].
  intros Hok. injection Hok as <-.
  assert (Hfresh : ~ In "TechCode" (columns counts)).
  { intros Hin. apply (proj2 (has_col_In _ _)) in Hin. congruence. }
  set (counted := filter (fun r : row => negb (isna (r "TechCode"))
                                         && negb (isna (r "AlertType"))) merged).
  assert (Hcols : forall c, In c (columns counts) ->
            c = "TotalAlerts" \/ In c (labels_of "AlertType" counted)).
  { intros c Hc. unfold counts, assign in Hc. cbn [columns] in Hc.
    assert (Htable : forall c, In c (columns table) -> In c (labels_of "AlertType" counted)).
    { intros c0 Hc0. unfold table, alert_count_table in Hc0. cbn [columns] in Hc0.
      apply (proj1 (In_sorted_unique _ _)) in Hc0. exact Hc0. }
    destruct (has_col "TotalAlerts" (columns table)); [right; auto |].
    apply in_app_or in Hc. destruct Hc as [Hc | [<- | []]]; auto. }
  assert (Htotal : In "TotalAlerts" (columns counts)).
  { unfold counts, assign. cbn [columns].
    destruct (has_col "TotalAlerts" (columns table)) eqn:Hhas.
    - apply (proj1 (has_col_In _ _)). exact Hhas.
    - apply in_or_app. right. left. reflexivity. }
  assert (Hcounted : forall r, In r counted ->
            exists alert t,
              In alert (rows alert_df) /\ In t (rows tech_df)
              /\ cell_eqb (alert id_col) (t id_col) = true
              /\ r "TechCode" = t "TechCode" /\ r "AlertType" = alert "AlertType"
              /\ isna (alert "AlertType") = false).
  { intros r Hr. unfold counted in Hr. apply filter_In in Hr. destruct Hr as [Hr Hpresent].
    apply andb_true_iff in Hpresent. destruct Hpresent as [Htc Hat].
    apply negb_true_iff in Htc, Hat.
    unfold merged in Hr. apply (proj1 (In_merge_left _ _ _ _ _)) in Hr.
    destruct Hr as (alert & Halert & [[_ ->] | (t & Ht & Hon & ->)]).
    - unfold set_col in Htc. simpl in Htc. discriminate.
    - exists alert, t. repeat split; auto. }
  assert (Hoccurs : forall c, In c (labels_of "AlertType" counted) ->
            exists alert, In alert (rows alert_df) /\ alert "AlertType" = VStr c).
  { intros c Hl. apply (proj1 (In_labels_of _ _ _)) in Hl. destruct Hl as (r & Hr & Heq).
    destruct (Hcounted r Hr) as (alert & _ & Halert & _ & _ & _ & Hat & _).
    exists alert. split; [exact Halert | congruence]. }
  split; [| split].
  - apply forallb_false_in in Hall. destruct Hall as (t & Ht & Hw).
    unfold alert_type_cols in Ht. apply filter_In in Ht. destruct Ht as [Ht Hne].
    assert (Hnot_total : t <> "TotalAlerts") by (intros ->; discriminate).
    destruct (Hcols t Ht) as [-> | Hl]; [congruence |].
    destruct (Hoccurs t Hl) as (alert & Halert & Hat).
    exists t, alert.
    split; [exact Halert |]. split; [exact Hat |].
    split; [right; exact Ht |]. split; [exact Hnot_total |].
    split; [intros Heq; apply Hfresh; rewrite <- Heq; exact Ht |].
    destruct (dict_get ALERT_WEIGHTS t) as [w |] eqn:Hget; [| reflexivity].
    exfalso. apply dict_get_in_keys in Hget. apply (proj2 (has_col_In _ _)) in Hget. congruence.
  - exists (columns counts). split; [reflexivity |].
    split; [exact Hfresh |]. split; [exact Htotal |].
    intros c Hc. destruct (Hcols c Hc) as [-> | Hl]; [left; reflexivity | right].
    exact (Hoccurs c Hl).
  - exists id_col. split; [reflexivity |]. intros tech.
    assert (Hrows : (exists r, In r (rows counts) /\ r "TechCode" = VStr tech)
                    <-> In tech (labels_of "TechCode" counted)).
    { unfold counts, assign, table, alert_count_table. cbn [rows].
      fold counted. rewrite map_map. split.
      - intros (r & Hr & Heq). apply in_map_iff in Hr. destruct Hr as (t0 & <- & Ht0).
        unfold set_col in Heq. simpl in Heq. injection Heq as ->.
        apply (proj1 (In_sorted_unique _ _)) in Ht0. exact Ht0.
      - intros Hin. eexists. split.
        + apply in_map_iff. exists tech. split; [reflexivity |].
          apply (proj2 (In_sorted_unique _ _)). exact Hin.
        + reflexivity. }
    transitivity (In tech (labels_of "TechCode" counted)); [exact Hrows |].
    rewrite In_labels_of. split.
    + intros (r & Hr & Heq).
      destruct (Hcounted r Hr) as (alert & t & Ha & Ht & Hon & Htc & _ & Hat).
      exists alert, t. repeat split; auto. congruence.
    + intros (alert & t & Ha & Ht & Hon & Htc & Hat).
      exists (set_col "TechCode" (t "TechCode") alert). split.
      * unfold counted. apply filter_In. split.
        -- unfold merged. apply (proj2 (In_merge_left _ _ _ _ _)). exists alert. split; [exact Ha |].
           right. exists t. auto.
        -- unfold set_col. simpl. rewrite Htc, Hat. reflexivity.
      * unfold set_col. simpl. exact Htc.
Qed.

End AlertCounts.

(** An alert of a type that has no weight. *)
Definition one_unweighted_alert : DataFrame :=
  {| columns := ["DeviceId"; "AlertType"];
     rows :=
       [ (fun c => if String.eqb c "DeviceId" then VStr "D1"
                   else if String.eqb c "AlertType" then VStr "Seat Belt"
                   else NA) ] |}.

Lemma driving_metrics_are_counts_example :
  match Driving.calculate_driving_metrics two_techs one_unweighted_alert with
  | Ok out =>
      columns out = ["TechCode"; "Seat Belt"; "TotalAlerts"]
      /\ map (fun r : row => (r "TechCode", r "Seat Belt", r "TotalAlerts", r "DrivingScore"))
           (rows out)
         = [ (VStr "JS", VInt 1, VInt 1, NA) ]
      /\ ~ (exists r, In r (rows out) /\ r "TechCode" = VStr "JD")
  | Raise _ => False
  end.
Proof.
  destruct (Driving.calculate_driving_metrics two_techs one_unweighted_alert)
    as [out | e] eqn:Hrun.
  - destruct (@driving_metrics_are_counts two_techs one_unweighted_alert out Hrun)
      as (_ & _ & id_col & Hkey & Hrows).
    split; [| split].
    + vm_compute in Hrun. injection Hrun as <-. reflexivity.
    + vm_compute in Hrun. injection Hrun as <-. reflexivity.
    + intros Hjd. apply Hrows in Hjd.
      destruct Hjd as (alert & t & Ha & Ht & Hon & Htc & _).
      vm_compute in Hkey. injection Hkey as <-.
      destruct Ha as [<- | []].
      destruct Ht as [<- | [<- | []]]; vm_compute in Hon, Htc; discriminate.
  - vm_compute in Hrun. discriminate Hrun.
Defined.

(** ** Job classification *)

Section JobClassification.
Import TextMining Classifier.

(** What the classifier reads off a job: whether it is cancelled, was
    completed on the first trip, is a diagnosis only, is a recall. [cols]
    are the columns of the frame. *)
Definition canceled_job (cols : list string) (r : row) : bool :=
  has_col "JobCanceled" cols && is_true "JobCanceled" r.

Definition first_trip_job (cols : list string) (r : row) : bool :=
  (has_col "CompletedOnFirstTrip" cols && is_true "CompletedOnFirstTrip" r)
  || (has_col "HowManyVisits" cols && has_col "Status" cols
      && (py_eq (r "HowManyVisits") (VInt 1) && str_contains CLOSED_STATUS (r "Status"))).

Definition diagnostic_job (cols : list string) (r : row) : bool :=
  (has_col "TotalMaterialInSale" cols && has_col "SCallSold" cols
   && (py_eq (r "TotalMaterialInSale") (VInt 0) && is_positive (r "SCallSold")))
  || (has_col "WorkDescription" cols
      && existsb (fun keyword => str_contains [keyword] (r "WorkDescription"))
           diagnostic_keywords).

Definition recall_job (cols : list string) (r : row) : bool :=
  (has_col "WorkDescription" cols
   && existsb (fun keyword => str_contains [keyword] (r "WorkDescription"))
        recall_keywords)
  || (has_col "Department" cols && str_contains ["recall"] (r "Department")).

(** A frame whose rows are those of [df], each changed by [f], and whose
    columns are those of [df] and [added]. *)
Definition rowwise (f : row -> row) (added : list string) (df out : DataFrame) : Prop :=
  rows out = map f (rows df)
  /\ forall k, has_col k (columns out) = has_col k (columns df) || has_col k added.

Lemma rowwise_refl (df : DataFrame) : rowwise (fun r => r) [] df df.
Proof.
  split; [symmetry; apply map_id | intros k; symmetry; apply orb_false_r].
Qed.

Lemma rowwise_assign (c : string) (v : cell) (df : DataFrame) :
  rowwise (set_col c v) [c] df (assign c (fun _ => v) df).
Proof.
  split; [reflexivity |]. intros k. rewrite has_col_assign. simpl.
  rewrite orb_false_r. reflexivity.
Qed.

Lemma rowwise_loc_set (mask : row -> bool) (c : string) (v : cell) (df : DataFrame) :
  rowwise (fun r => if mask r then set_col c v r else r) [] df (loc_set mask c v df).
Proof. split; [reflexivity | intros k; symmetry; apply orb_false_r]. Qed.

Lemma rowwise_trans (f g : row -> row) (a b : list string) (df mid out : DataFrame) :
  rowwise f a df mid -> rowwise g b mid out ->
  rowwise (fun r => g (f r)) (a ++ b) df out.
Proof.
  intros [Hr1 Hc1] [Hr2 Hc2]. split.
  - rewrite Hr2, Hr1, map_map. reflexivity.
  - intros k. rewrite Hc2, Hc1, has_col_app, orb_assoc. reflexivity.
Qed.

Lemma rowwise_if (b : bool) (f : row -> row) (df out : DataFrame) :
  rowwise f [] df out ->
  rowwise (fun r => if b then f r else r) [] df (if b then out else df).
Proof. destruct b; [exact (fun H => H) | intros _; apply rowwise_refl]. Qed.

(** The loop over the keywords, on one row. *)
Definition flag_row (keywords : list string) (text_col flag : string) (r : row) : row :=
  fold_left
    (fun r keyword =>
       if str_contains [keyword] (r text_col) then set_col flag (VBool true) r else r)
    keywords r.

Lemma rowwise_flag_keywords (keywords : list string) (text_col flag : string)
    (df : DataFrame) :
  rowwise (flag_row keywords text_col flag) [] df
    (flag_keywords keywords text_col flag df).
Proof.
  unfold flag_keywords, flag_row. revert df.
  induction keywords as [| k ks IH]; intros df; [apply rowwise_refl |].
  cbn [fold_left].
  destruct (IH (loc_set (fun r => str_contains [k] (r text_col)) flag (VBool true) df))
    as [Hr Hc].
  split.
  - rewrite Hr. cbn [rows loc_set]. rewrite map_map. reflexivity.
  - intros c. rewrite Hc. reflexivity.
Qed.

Lemma flag_row_spec (keywords : list string) (text_col flag : string) (r : row) :
  text_col <> flag ->
  (forall k, k <> flag -> flag_row keywords text_col flag r k = r k)
  /\ flag_row keywords text_col flag r flag
     = if existsb (fun keyword => str_contains [keyword] (r text_col)) keywords
       then VBool true else r flag.
Proof.
  intros Hne. unfold flag_row. revert r.
  induction keywords as [| w ws IH]; intros r; [split; reflexivity |].
  cbn [fold_left existsb].
  destruct (str_contains [w] (r text_col)) eqn:Hw.
  - destruct (IH (set_col flag (VBool true) r)) as [Hother Hflag]. split.
    + intros k Hk. rewrite Hother by exact Hk. apply set_col_other. exact Hk.
    + rewrite Hflag. cbn [orb].
      unfold set_col at 2. rewrite String.eqb_refl.
      destruct (existsb _ ws); reflexivity.
  - destruct (IH r) as [Hother Hflag]. split; [exact Hother |].
    rewrite Hflag. reflexivity.
Qed.

Definition ftc_row (cols : list string) (r : row) : row :=
  let r := set_col "Is_FTC" (VBool false) r in
  let r := if has_col "CompletedOnFirstTrip" cols
           then (if is_true "CompletedOnFirstTrip" r
                 then set_col "Is_FTC" (VBool true) r else r)
           else r in
  let r := if has_col "HowManyVisits" cols && has_col "Status" cols
           then (if py_eq (r "HowManyVisits") (VInt 1)
                    && str_contains CLOSED_STATUS (r "Status")
                 then set_col "Is_FTC" (VBool true) r else r)
           else r in
  if has_col "JobCanceled" cols
  then (if is_true "JobCanceled" r then set_col "Is_FTC" (VBool false) r else r)
  else r.

Lemma classify_ftc_jobs_rowwise (df : DataFrame) :
  rowwise (ftc_row (columns df)) ["Is_FTC"] df (classify_ftc_jobs df).
Proof.
  unfold classify_ftc_jobs, ftc_row.
  set (df1 := assign "Is_FTC" (fun _ => VBool false) df).
  pose proof (rowwise_assign "Is_FTC" (VBool false) df) as H1. fold df1 in H1.
  assert (Hcol : forall k, String.eqb k "Is_FTC" = false ->
                           has_col k (columns df1) = has_col k (columns df)).
  { intros k Hk. unfold df1. rewrite has_col_assign, Hk. apply orb_false_r. }
  rewrite !Hcol by reflexivity.
  set (b1 := has_col "CompletedOnFirstTrip" (columns df)).
  set (b2 := has_col "HowManyVisits" (columns df) && has_col "Status" (columns df)).
  set (b3 := has_col "JobCanceled" (columns df)).
  set (df2 := if b1 then loc_set _ _ _ df1 else df1).
  assert (H2 : rowwise _ [] df1 df2)
    by (apply rowwise_if, rowwise_loc_set).
  assert (Hcol2 : forall k, has_col k (columns df2) = has_col k (columns df1)).
  { intros k. rewrite (proj2 H2). apply orb_false_r. }
  rewrite !Hcol2, !Hcol by reflexivity. fold b2.
  set (df3 := if b2 then loc_set _ _ _ df2 else df2).
  assert (H3 : rowwise _ [] df2 df3)
    by (apply rowwise_if, rowwise_loc_set).
  assert (Hcol3 : forall k, has_col k (columns df3) = has_col k (columns df2)).
  { intros k. rewrite (proj2 H3). apply orb_false_r. }
  rewrite !Hcol3, !Hcol2, !Hcol by reflexivity. fold b3.
  pose proof (rowwise_if b3 (rowwise_loc_set (is_true "JobCanceled") "Is_FTC"
                               (VBool false) df3)) as H4.
  pose proof (rowwise_trans (rowwise_trans (rowwise_trans H1 H2) H3) H4) as H.
  exact H.
Qed.


Definition diagnostic_row (cols : list string) (r : row) : row :=
  let r := set_col "Is_DiagnosticOnly" (VBool false) r in
  let r := if has_col "TotalMaterialInSale" cols && has_col "SCallSold" cols
           then (if py_eq (r "TotalMaterialInSale") (VInt 0) && is_positive (r "SCallSold")
                 then set_col "Is_DiagnosticOnly" (VBool true) r else r)
           else r in
  if has_col "WorkDescription" cols
  then flag_row diagnostic_keywords "WorkDescription" "Is_DiagnosticOnly" r
  else r.

Lemma classify_diagnostic_only_rowwise (df : DataFrame) :
  rowwise (diagnostic_row (columns df)) ["Is_DiagnosticOnly"] df
    (classify_diagnostic_only df).
Proof.
  unfold classify_diagnostic_only, diagnostic_row.
  set (df1 := assign "Is_DiagnosticOnly" (fun _ => VBool false) df).
  pose proof (rowwise_assign "Is_DiagnosticOnly" (VBool false) df) as H1. fold df1 in H1.
  assert (Hcol : forall k, String.eqb k "Is_DiagnosticOnly" = false ->
                           has_col k (columns df1) = has_col k (columns df)).
  { intros k Hk. unfold df1. rewrite has_col_assign, Hk. apply orb_false_r. }
  rewrite !Hcol by reflexivity.
  set (b1 := has_col "TotalMaterialInSale" (columns df)
             && has_col "SCallSold" (columns df)).
  set (b2 := has_col "WorkDescription" (columns df)).
  set (df2 := if b1 then loc_set _ _ _ df1 else df1).
  assert (H2 : rowwise _ [] df1 df2)
    by (apply rowwise_if, rowwise_loc_set).
  assert (Hcol2 : forall k, has_col k (columns df2) = has_col k (columns df1)).
  { intros k. rewrite (proj2 H2). apply orb_false_r. }
  rewrite !Hcol2, !Hcol by reflexivity. fold b2.
  pose proof (rowwise_if b2 (rowwise_flag_keywords diagnostic_keywords "WorkDescription"
                               "Is_DiagnosticOnly" df2)) as H3.
  exact (rowwise_trans (rowwise_trans H1 H2) H3).
Qed.

Definition recall_row (cols : list string) (r : row) : row :=
  let r := set_col "Is_Recall" (VBool false) r in
  let r := if has_col "WorkDescription" cols
           then flag_row recall_keywords "WorkDescription" "Is_Recall" r
           else r in
  if has_col "Department" cols
  then (if str_contains ["recall"] (r "Department")
        then set_col "Is_Recall" (VBool true) r else r)
  else r.

Lemma classify_recalls_rowwise (df : DataFrame) :
  rowwise (recall_row (columns df)) ["Is_Recall"] df (classify_recalls df).
Proof.
  unfold classify_recalls, recall_row.
  set (df1 := assign "Is_Recall" (fun _ => VBool false) df).
  pose proof (rowwise_assign "Is_Recall" (VBool false) df) as H1. fold df1 in H1.
  assert (Hcol : forall k, String.eqb k "Is_Recall" = false ->
                           has_col k (columns df1) = has_col k (columns df)).
  { intros k Hk. unfold df1. rewrite has_col_assign, Hk. apply orb_false_r. }
  rewrite !Hcol by reflexivity.
  set (b1 := has_col "WorkDescription" (columns df)).
  set (b2 := has_col "Department" (columns df)).
  set (df2 := if b1 then flag_keywords _ _ _ df1 else df1).
  assert (H2 : rowwise _ [] df1 df2)
    by (apply rowwise_if, rowwise_flag_keywords).
  assert (Hcol2 : forall k, has_col k (columns df2) = has_col k (columns df1)).
  { intros k. rewrite (proj2 H2). apply orb_false_r. }
  rewrite !Hcol2, !Hcol by reflexivity. fold b2.
  pose proof (rowwise_if b2 (rowwise_loc_set
                               (fun r => str_contains ["recall"] (r "Department"))
                               "Is_Recall" (VBool true) df2)) as H3.
  exact (rowwise_trans (rowwise_trans H1 H2) H3).
Qed.

(** The flags of a row after each of the three classifications. *)
Lemma ftc_row_spec (cols : list string) (r : row) :
  ftc_row cols r "Is_FTC" = VBool (first_trip_job cols r && negb (canceled_job cols r))
  /\ forall k, k <> "Is_FTC" -> ftc_row cols r k = r k.
Proof.
  unfold ftc_row, first_trip_job, canceled_job, is_true. cbv zeta.
  destruct (has_col "CompletedOnFirstTrip" cols),
           (has_col "HowManyVisits" cols && has_col "Status" cols),
           (has_col "JobCanceled" cols);
    repeat match goal with
           | |- context [if ?b then set_col _ _ _ else _] => destruct b eqn:?
           end;
    unfold set_col in *; cbn in *;
    repeat match goal with
           | H : ?x = _ |- context [?x] => rewrite H
           end;
    (split; [try reflexivity; try congruence
            | intros k Hk;
              destruct (String.eqb_spec k "Is_FTC"); [contradiction | reflexivity]]).
Qed.


Lemma diagnostic_row_spec (cols : list string) (r : row) :
  diagnostic_row cols r "Is_DiagnosticOnly" = VBool (diagnostic_job cols r)
  /\ forall k, k <> "Is_DiagnosticOnly" -> diagnostic_row cols r k = r k.
Proof.
  unfold diagnostic_row, diagnostic_job. cbv zeta.
  set (r1 := set_col "Is_DiagnosticOnly" (VBool false) r).
  set (b1 := has_col "TotalMaterialInSale" cols && has_col "SCallSold" cols).
  assert (Hread : forall k, k <> "Is_DiagnosticOnly" -> r1 k = r k)
    by (intros k Hk; apply set_col_other; exact Hk).
  rewrite !Hread by discriminate.
  set (amounts := py_eq (r "TotalMaterialInSale") (VInt 0) && is_positive (r "SCallSold")).
  set (r2 := if b1 then (if amounts then set_col "Is_DiagnosticOnly" (VBool true) r1 else r1)
             else r1).
  assert (H2 : r2 "Is_DiagnosticOnly" = VBool (b1 && amounts)
               /\ forall k, k <> "Is_DiagnosticOnly" -> r2 k = r k).
  { unfold r2. destruct b1, amounts; cbn [andb]; split;
      try (unfold r1, set_col; rewrite ?String.eqb_refl; reflexivity);
      intros k Hk; rewrite ?set_col_other by exact Hk; apply Hread; exact Hk. }
  destruct H2 as [Hflag Hother].
  destruct (has_col "WorkDescription" cols); cbn [andb].
  - destruct (@flag_row_spec diagnostic_keywords "WorkDescription" "Is_DiagnosticOnly" r2)
      as [Hk Hf]; [discriminate |].
    rewrite Hf, Hflag, (Hother "WorkDescription") by discriminate. split.
    + destruct (b1 && amounts),
        (existsb (fun keyword => str_contains [keyword] (r "WorkDescription"))
           diagnostic_keywords); reflexivity.
    + intros k Hne. rewrite Hk by exact Hne. apply Hother. exact Hne.
  - rewrite orb_false_r. split; [exact Hflag | exact Hother].
Qed.

Lemma recall_row_spec (cols : list string) (r : row) :
  recall_row cols r "Is_Recall" = VBool (recall_job cols r)
  /\ forall k, k <> "Is_Recall" -> recall_row cols r k = r k.
Proof.
  unfold recall_row, recall_job. cbv zeta.
  set (r1 := set_col "Is_Recall" (VBool false) r).
  assert (Hread : forall k, k <> "Is_Recall" -> r1 k = r k)
    by (intros k Hk; apply set_col_other; exact Hk).
  set (b1 := has_col "WorkDescription" cols).
  set (r2 := if b1 then flag_row recall_keywords "WorkDescription" "Is_Recall" r1 else r1).
  set (words := existsb (fun keyword => str_contains [keyword] (r "WorkDescription"))
                  recall_keywords).
  assert (H2 : r2 "Is_Recall" = VBool (b1 && words)
               /\ forall k, k <> "Is_Recall" -> r2 k = r k).
  { unfold r2. destruct b1; cbn [andb].
    - destruct (@flag_row_spec recall_keywords "WorkDescription" "Is_Recall" r1)
        as [Hk Hf]; [discriminate |].
      rewrite Hf, (Hread "WorkDescription") by discriminate. fold words. split.
      + destruct words; [reflexivity |]. unfold r1, set_col. reflexivity.
      + intros k Hne. rewrite Hk by exact Hne. apply Hread. exact Hne.
    - split; [unfold r1, set_col; reflexivity | exact Hread]. }
  destruct H2 as [Hflag Hother].
  destruct (has_col "Department" cols); cbn [andb].
  - rewrite (Hother "Department") by discriminate.
    destruct (str_contains ["recall"] (r "Department")).
    + rewrite orb_true_r. split.
      * unfold set_col. rewrite String.eqb_refl. reflexivity.
      * intros k Hne. rewrite set_col_other by exact Hne. apply Hother. exact Hne.
    + rewrite orb_false_r. split; [exact Hflag | exact Hother].
  - rewrite orb_false_r. split; [exact Hflag | exact Hother].
Qed.

Lemma Forall2_map_right {A B : Type} (P : A -> B -> Prop) (f : A -> B) (l : list A) :
  (forall x, P x (f x)) -> Forall2 P l (map f l).
Proof. intros H. induction l; simpl; constructor; auto. Qed.

(** X18. [classify_ftc_jobs] flags a job as first trip complete exactly
    when its [CompletedOnFirstTrip] flag is set or it has one visit and a
    status of completed, archived or closed, and it is not cancelled: a
    cancelled job is never first trip complete, whatever its other columns
    say. The jobs come back one by one, in their order, with no other
    column changed. *)
Theorem canceled_job_is_never_first_trip (df : DataFrame) :
  Forall2
    (fun job r : row =>
       r "Is_FTC" = VBool (first_trip_job (columns df) job
                           && negb (canceled_job (columns df) job))
       /\ (canceled_job (columns df) job = true -> r "Is_FTC" = VBool false)
       /\ forall k, k <> "Is_FTC" -> r k = job k)
    (rows df) (rows (classify_ftc_jobs df)).
Proof.
  rewrite (proj1 (classify_ftc_jobs_rowwise df)).
  apply Forall2_map_right. intros job.
  destruct (ftc_row_spec (columns df) job) as [Hflag Hother].
  split; [exact Hflag |]. split; [| exact Hother].
  intros Hc. rewrite Hflag, Hc, andb_false_r. reflexivity.
Qed.

(** The name of the type of a job. *)
Definition job_type (cols : list string) (r : row) : string :=
  if canceled_job cols r then "Canceled"
  else if recall_job cols r then "Recall"
  else if diagnostic_job cols r then "Diagnostic Only"
  else "Standard Repair".

(** What [classify_all_jobs] makes of a job. *)
Definition classified (cols : list string) (job r : row) : Prop :=
  r "JobType" = VStr (job_type cols job)
  /\ r "Is_FTC" = VBool (first_trip_job cols job && negb (canceled_job cols job))
  /\ r "Is_DiagnosticOnly" = VBool (diagnostic_job cols job)
  /\ r "Is_Recall" = VBool (recall_job cols job)
  /\ forall k, k <> "JobType" -> k <> "Is_FTC" -> k <> "Is_DiagnosticOnly" ->
               k <> "Is_Recall" -> r k = job k.

(** The classified frame, row by row, and its columns. *)
Lemma classify_all_jobs_rows (df : DataFrame) :
  exists f : row -> row,
    rows (classify_all_jobs df) = map f (rows df)
    /\ (forall k, has_col k (columns (classify_all_jobs df))
                  = has_col k (columns df)
                    || has_col k ["Is_FTC"; "Is_DiagnosticOnly"; "Is_Recall"; "JobType"])
    /\ forall job, classified (columns df) job (f job).
Proof.
  unfold classify_all_jobs.
  set (df1 := classify_ftc_jobs df).
  set (df2 := classify_diagnostic_only df1).
  set (df3 := classify_recalls df2).
  destruct (classify_ftc_jobs_rowwise df) as [Hr1 Hc1]. fold df1 in Hr1, Hc1.
  destruct (classify_diagnostic_only_rowwise df1) as [Hr2 Hc2]. fold df2 in Hr2, Hc2.
  destruct (classify_recalls_rowwise df2) as [Hr3 Hc3]. fold df3 in Hr3, Hc3.
  assert (Hcols : forall k, String.eqb k "Is_FTC" = false ->
                            String.eqb k "Is_DiagnosticOnly" = false ->
                            String.eqb k "Is_Recall" = false ->
                            has_col k (columns df1) = has_col k (columns df)
                            /\ has_col k (columns df2) = has_col k (columns df)
                            /\ has_col k (columns df3) = has_col k (columns df)).
  { intros k H1 H2 H3.
    assert (Hone : forall c, has_col k [c] = String.eqb k c)
      by (intros c; unfold has_col; simpl; apply orb_false_r).
    rewrite Hc3, Hc2, Hc1, !Hone, H1, H2, H3, !orb_false_r. auto. }
  set (df4 := assign "JobType" (fun _ => VStr "Standard Repair") df3).
  set (df5 := loc_set (flagged "Is_DiagnosticOnly") "JobType" (VStr "Diagnostic Only") df4).
  set (df6 := loc_set (flagged "Is_Recall") "JobType" (VStr "Recall") df5).
  assert (Hcanc : has_col "JobCanceled" (columns df6) = has_col "JobCanceled" (columns df)).
  { unfold df6, df5, df4. cbn [columns loc_set]. rewrite has_col_assign.
    rewrite (proj2 (proj2 (Hcols "JobCanceled" eq_refl eq_refl eq_refl))).
    apply orb_false_r. }
  rewrite Hcanc.
  set (final := fun r : row =>
         let r4 := set_col "JobType" (VStr "Standard Repair") r in
         let r5 := if flagged "Is_DiagnosticOnly" r4
                   then set_col "JobType" (VStr "Diagnostic Only") r4 else r4 in
         let r6 := if flagged "Is_Recall" r5 then set_col "JobType" (VStr "Recall") r5
                   else r5 in
         if has_col "JobCanceled" (columns df)
         then (if is_true "JobCanceled" r6 then set_col "JobType" (VStr "Canceled") r6
               else r6)
         else r6).
  assert (Hrows : rows (if has_col "JobCanceled" (columns df)
                        then loc_set (is_true "JobCanceled") "JobType" (VStr "Canceled") df6
                        else df6)
                  = map (fun job => final (recall_row (columns df2)
                                             (diagnostic_row (columns df1)
                                                (ftc_row (columns df) job))))
                      (rows df)).
  { unfold final. destruct (has_col "JobCanceled" (columns df));
      unfold df6, df5, df4; cbn [rows loc_set assign];
      rewrite Hr3, Hr2, Hr1, !map_map; reflexivity. }
  eexists. split; [exact Hrows |]. split.
  { intros k.
    assert (Hk : has_col k (columns (if has_col "JobCanceled" (columns df)
                                     then loc_set (is_true "JobCanceled") "JobType"
                                            (VStr "Canceled") df6
                                     else df6))
                 = has_col k (columns df3) || String.eqb k "JobType").
    { destruct (has_col "JobCanceled" (columns df));
        unfold df6, df5, df4; cbn [columns loc_set]; apply has_col_assign. }
    rewrite Hk, Hc3, Hc2, Hc1. unfold has_col. cbn [existsb].
    rewrite !orb_false_r, <- !orb_assoc. reflexivity. }
  intros job. unfold classified.
  destruct (ftc_row_spec (columns df) job) as [Hf1 Ho1].
  set (r1 := ftc_row (columns df) job) in *.
  destruct (diagnostic_row_spec (columns df1) r1) as [Hf2 Ho2].
  set (r2 := diagnostic_row (columns df1) r1) in *.
  destruct (recall_row_spec (columns df2) r2) as [Hf3 Ho3].
  set (r3 := recall_row (columns df2) r2) in *.
  assert (Hd : diagnostic_job (columns df1) r1 = diagnostic_job (columns df) job).
  { unfold diagnostic_job.
    rewrite (proj1 (Hcols "TotalMaterialInSale" eq_refl eq_refl eq_refl)),
      (proj1 (Hcols "SCallSold" eq_refl eq_refl eq_refl)),
      (proj1 (Hcols "WorkDescription" eq_refl eq_refl eq_refl)), !Ho1 by discriminate.
    reflexivity. }
  assert (Hr : recall_job (columns df2) r2 = recall_job (columns df) job).
  { unfold recall_job.
    rewrite (proj1 (proj2 (Hcols "WorkDescription" eq_refl eq_refl eq_refl))),
      (proj1 (proj2 (Hcols "Department" eq_refl eq_refl eq_refl))).
    rewrite !Ho2, !Ho1 by discriminate. reflexivity. }
  rewrite Hd in Hf2. rewrite Hr in Hf3.
  assert (Hflags : r3 "Is_FTC" = VBool (first_trip_job (columns df) job
                                        && negb (canceled_job (columns df) job))
                   /\ r3 "Is_DiagnosticOnly" = VBool (diagnostic_job (columns df) job)
                   /\ r3 "Is_Recall" = VBool (recall_job (columns df) job)
                   /\ r3 "JobCanceled" = job "JobCanceled"
                   /\ forall k, k <> "Is_FTC" -> k <> "Is_DiagnosticOnly" ->
                                k <> "Is_Recall" -> r3 k = job k).
  { repeat split.
    - rewrite Ho3, Ho2 by discriminate. exact Hf1.
    - rewrite Ho3 by discriminate. exact Hf2.
    - exact Hf3.
    - rewrite Ho3, Ho2, Ho1 by discriminate. reflexivity.
    - intros k H1 H2 H3. rewrite Ho3, Ho2, Ho1 by assumption. reflexivity. }
  destruct Hflags as (H1 & H2 & H3 & H4 & H5).
  set (ftc := first_trip_job (columns df) job && negb (canceled_job (columns df) job)) in *.
  clearbody ftc.
  unfold final, job_type, canceled_job, flagged, is_true. cbv zeta.
  rewrite !(@set_col_other "JobType") by discriminate.
  rewrite H2.
  destruct (diagnostic_job (columns df) job);
    rewrite ?(@set_col_other "JobType") by discriminate; rewrite H3;
    destruct (recall_job (columns df) job);
    rewrite ?(@set_col_other "JobType") by discriminate; rewrite H4;
    destruct (has_col "JobCanceled" (columns df)); cbn [andb];
    try destruct (py_eq (job "JobCanceled") (VBool true));
    (split; [unfold set_col; rewrite ?String.eqb_refl; reflexivity |]);
    rewrite ?(@set_col_other "JobType") by discriminate;
    (split; [exact H1 |]); (split; [exact H2 || (rewrite H2; reflexivity) |]);
    (split; [exact H3 || (rewrite H3; reflexivity) |]);
    intros k Hk1 Hk2 Hk3 Hk4; rewrite ?set_col_other by exact Hk1; apply H5; assumption.
Qed.

(** X19. [classify_all_jobs] gives every job one of four types, by
    precedence: [Canceled] when the job is cancelled, else [Recall] when it
    is a recall, else [Diagnostic Only] when it is a diagnosis only, else
    [Standard Repair]; the three flags hold what the three classifiers
    found, and no other column is changed. *)
Theorem job_type_by_precedence (df : DataFrame) :
  Forall2
    (fun job r : row =>
       r "JobType" = VStr (job_type (columns df) job)
       /\ r "Is_FTC" = VBool (first_trip_job (columns df) job
                              && negb (canceled_job (columns df) job))
       /\ r "Is_DiagnosticOnly" = VBool (diagnostic_job (columns df) job)
       /\ r "Is_Recall" = VBool (recall_job (columns df) job)
       /\ forall k, k <> "JobType" -> k <> "Is_FTC" -> k <> "Is_DiagnosticOnly" ->
                    k <> "Is_Recall" -> r k = job k)
    (rows df) (rows (classify_all_jobs df)).
Proof.
  destruct (classify_all_jobs_rows df) as (f & Hrows & _ & Hf).
  rewrite Hrows. apply Forall2_map_right.
  intros job. exact (Hf job).
Qed.

End JobClassification.

(** Four jobs: a cancelled recall flagged as done on the first trip, the
    same not cancelled, an estimate, and a job without any mark. *)
Definition marked_job (code : string) (first_trip canceled : cell) (text : string) : row :=
  fun c =>
    if String.eqb c "TechCode" then VStr code
    else if String.eqb c "CompletedOnFirstTrip" then first_trip
    else if String.eqb c "JobCanceled" then canceled
    else if String.eqb c "WorkDescription" then VStr text
    else NA.

Definition marked_jobs : DataFrame :=
  {| columns := ["TechCode"; "CompletedOnFirstTrip"; "JobCanceled"; "WorkDescription"];
     rows := [ marked_job "JS" (VBool true) (VBool true) "Factory RECALL, quoted";
               marked_job "JD" (VBool true) (VBool false) "Factory RECALL, quoted";
               marked_job "SS" (VBool false) NA "gave estimate";
               marked_job "BB" NA NA "replaced pump" ] |}.

Example classify_all_jobs_example :
  map (fun r : row => (r "TechCode", r "Is_FTC", r "JobType"))
    (rows (Classifier.classify_all_jobs marked_jobs))
  = [ (VStr "JS", VBool false, VStr "Canceled");
      (VStr "JD", VBool true, VStr "Recall");
      (VStr "SS", VBool false, VStr "Diagnostic Only");
      (VStr "BB", VBool false, VStr "Standard Repair") ].
Proof. vm_compute. reflexivity. Qed.

(** ** Time on the job *)

Section TimeOnTheJob.
Import PyStr PyNum TimeOnJob.

Lemma digits_run_spec (s : string) :
  all_digits (fst (digits_run s)) = true
  /\ s = fst (digits_run s) ++ snd (digits_run s).
Proof.
  induction s as [| c r IH]; [split; reflexivity |].
  cbn [digits_run]. destruct (is_digit c) eqn:Hc; [| split; reflexivity].
  destruct (digits_run r) as [digits rest]. cbn [fst snd] in *.
  destruct IH as [Hd Heq]. split.
  - simpl. rewrite Hc, Hd. reflexivity.
  - simpl. rewrite <- Heq. reflexivity.
Qed.

(** A number as the patterns take it: digits, or digits, a point and
    digits again (none, possibly). *)
Definition number_text (group : string) : Prop :=
  exists whole, digit_field whole
    /\ (group = whole
        \/ exists fraction, all_digits fraction = true
                            /\ group = whole ++ String "." fraction).

Lemma number_at_text (with_fraction : bool) (s group rest : string) :
  number_at with_fraction s = Some (group, rest) -> number_text group.
Proof.
  unfold number_at.
  destruct (digits_run_spec s) as [Hd _].
  destruct (digits_run s) as [whole after]. cbn [fst] in Hd.
  destruct whole as [| c w]; [discriminate |].
  assert (Hw : digit_field (String c w)) by (split; [discriminate | exact Hd]).
  destruct with_fraction.
  - destruct after as [| a after'].
    + intros H. injection H as <- _. exists (String c w). auto.
    + destruct (Ascii.eqb_spec a ".") as [-> | Hne].
      * destruct (digits_run_spec after') as [Hf _].
        destruct (digits_run after') as [fraction rest']. cbn [fst] in Hf.
        intros H. injection H as <- _. exists (String c w). split; [exact Hw |].
        right. exists fraction. auto.
      * assert (E : match a with
                    | "."%char =>
                        let (fraction, rest') := digits_run after' in
                        Some (String c w ++ "." ++ fraction, rest')
                    | _ => Some (String c w, String a after')
                    end = Some (String c w, String a after')).
        { destruct a as [[] [] [] [] [] [] [] []]; try reflexivity.
          exfalso. apply Hne. reflexivity. }
        rewrite E. intros H. injection H as <- _. exists (String c w). auto.
  - intros H. injection H as <- _. exists (String c w). auto.
Qed.

Lemma first_match_text (p : pattern) (s group : string) :
  first_match p s = Some group -> number_text group.
Proof.
  induction s as [| c r IH]; cbn [first_match]; unfold match_here.
  - destruct (number_at (with_fraction p) "") as [[g rest] |] eqn:Hn; [| discriminate].
    simpl in Hn. discriminate.
  - destruct (number_at (with_fraction p) (String c r)) as [[g rest] |] eqn:Hn;
      [| exact IH].
    destruct (startswith (unit_word p) _); [| exact IH].
    intros H. injection H as <-. exact (@number_at_text _ _ _ _ Hn).
Qed.

Lemma decimal_from_nonneg (s : string) (acc : Z) :
  (0 <= acc)%Z -> (0 <= decimal_from acc s)%Z.
Proof.
  revert acc. induction s as [| c r IH]; intros acc Hacc; [exact Hacc |].
  cbn [decimal_from]. apply IH. unfold digit_value. lia.
Qed.

Lemma pow10_nonneg (e : Z) : (0 <= pow10 e)%Q.
Proof.
  destruct e as [| p | p]; unfold pow10.
  - discriminate.
  - assert (H : (0 < 10 ^ Z.pos p)%Z) by (apply Z.pow_pos_nonneg; lia).
    unfold Qle, inject_Z. cbn [Qnum Qden]. lia.
  - unfold Qle. cbn [Qnum Qden]. lia.
Qed.

Lemma more_digits_until_point (d rest : string) :
  all_digits d = true ->
  forall acc n,
    more_digits acc n (d ++ String "." rest)
    = (decimal_from acc d, n + String.length d, String "." rest).
Proof.
  induction d as [| c r IH]; intros Hd acc n.
  - simpl. rewrite Nat.add_0_r. reflexivity.
  - simpl in Hd. apply andb_true_iff in Hd. destruct Hd as [Hc Hr].
    cbn [append more_digits decimal_from String.length]. rewrite Hc, (IH Hr).
    f_equal. f_equal. lia.
Qed.

Lemma no_blank_strip (s : string) :
  (forall c r, s = String c r -> is_space c = false) ->
  (forall a b c, s = a ++ String c b -> is_space c = false) ->
  strip s = s.
Proof.
  intros Hhead Hall. unfold strip.
  assert (Hl : lstrip s = s).
  { destruct s as [| c r]; [reflexivity |]. simpl. rewrite (Hhead c r eq_refl). reflexivity. }
  rewrite Hl. clear Hl Hhead.
  induction s as [| c r IH]; [reflexivity |].
  cbn [rstrip]. rewrite IH.
  - rewrite (Hall "" r c eq_refl). destruct r; reflexivity.
  - intros a b x Heq. apply (Hall (String c a) b x). simpl. rewrite Heq. reflexivity.
Qed.

Lemma all_digits_char (d a b : string) (c : ascii) :
  all_digits d = true -> d = a ++ String c b -> is_digit c = true.
Proof.
  revert d. induction a as [| x a IH]; intros d Hd Heq; subst d; simpl in Hd;
    apply andb_true_iff in Hd; destruct Hd as [Hc Hr]; [exact Hc |].
  exact (IH _ Hr eq_refl).
Qed.

Lemma in_number_not_blank (whole fraction a b : string) (c : ascii) :
  all_digits whole = true -> all_digits fraction = true ->
  whole ++ String "." fraction = a ++ String c b -> is_space c = false.
Proof.
  revert a. induction whole as [| x w IH]; intros a Hw Hf Heq.
  - destruct a as [| y a]; simpl in Heq.
    + injection Heq as <- _. reflexivity.
    + injection Heq as _ Heq.
      destruct (@digit_is_plain c (@all_digits_char _ _ _ _ Hf Heq)) as [Hs _]. exact Hs.
  - simpl in Hw. apply andb_true_iff in Hw. destruct Hw as [Hx Hw].
    destruct a as [| y a]; simpl in Heq.
    + injection Heq as <- _. destruct (@digit_is_plain x Hx) as [Hs _]. exact Hs.
    + injection Heq as _ Heq. exact (IH a Hw Hf Heq).
Qed.

(** [float] reads a number text as a number that is not negative. *)
Lemma to_float_number (group : string) :
  number_text group -> exists q, to_float group = Ok q /\ (0 <= q)%Q.
Proof.
  intros (whole & Hw & [-> | (fraction & Hf & ->)]).
  - destruct (@literal_of_digits whole Hw) as ([n d] & Hq & Hn & Hd).
    exists (Qmake n d). unfold to_float. rewrite Hq. split; [reflexivity |].
    cbn [Qnum Qden] in *. subst. unfold Qle. simpl.
    rewrite Z.mul_1_r. apply decimal_from_nonneg. lia.
  - destruct Hw as [Hne Hd]. destruct whole as [| c w]; [contradiction |].
    pose proof Hd as Hd'. simpl in Hd'. apply andb_true_iff in Hd'. destruct Hd' as [Hc Hw].
    destruct (@digit_is_plain c Hc) as (Hsp & _ & _ & Hlow & Hsign).
    unfold to_float, decimal_literal.
    rewrite no_blank_strip.
    2:{ intros x r Heq. simpl in Heq. injection Heq as <- _. exact Hsp. }
    2:{ intros a b x Heq. exact (@in_number_not_blank _ _ _ _ _ Hd Hf Heq). }
    change (String c w ++ String "." fraction) with (String c (w ++ String "." fraction)).
    rewrite Hsign.
    assert (Hnot : forall a r', is_digit a = false ->
              String.eqb (lower (String c (w ++ String "." fraction))) (String a r') = false).
    { intros a r' Ha.
      destruct (String.eqb (lower (String c (w ++ String "." fraction))) (String a r')) eqn:E;
        [| reflexivity].
      apply String.eqb_eq in E. unfold lower in E. cbn [map_chars] in E.
      rewrite Hlow in E. injection E as -> _. congruence. }
    rewrite !Hnot by reflexivity. cbn [orb].
    unfold unsigned_float, digit_part. rewrite Hc.
    rewrite (@more_digits_until_point _ _ Hw).
    cbn [fraction_of].
    assert (Hfrac : exists frac n_frac,
              match digit_part fraction with
              | Some found => found
              | None => (0%Z, 0, fraction)
              end = (frac, n_frac, "") /\ (0 <= frac)%Z).
    { destruct fraction as [| x f].
      - exists 0%Z, 0. split; [reflexivity | lia].
      - assert (Hff : digit_field (String x f)) by (split; [discriminate | exact Hf]).
        rewrite (@digit_part_all _ Hff). eexists _, _. split; [reflexivity |].
        apply decimal_from_nonneg. lia. }
    destruct Hfrac as (frac & n_frac & -> & Hfrac).
    cbn [exponent_of].
    replace (Nat.eqb (1 + String.length w + n_frac) 0) with false
      by (symmetry; apply Nat.eqb_neq; lia).
    eexists. split; [reflexivity |].
    apply Qmult_le_0_compat; [| apply pow10_nonneg].
    assert (H0 : (0 <= inject_Z (decimal_from (digit_value c) w))%Q).
    { unfold Qle, inject_Z. simpl. rewrite Z.mul_1_r.
      apply decimal_from_nonneg. unfold digit_value. lia. }
    assert (H1 : (0 <= inject_Z frac * pow10 (- Z.of_nat n_frac))%Q).
    { apply Qmult_le_0_compat; [| apply pow10_nonneg].
      unfold Qle, inject_Z. simpl. lia. }
    apply Qle_trans with (y := (0 + 0)%Q); [discriminate |].
    apply Qplus_le_compat; assumption.
Qed.

Lemma first_pattern_nonneg (patterns : list pattern) (description : string) :
  exists q, first_pattern patterns description = Ok q /\ (0 <= q)%Q.
Proof.
  induction patterns as [| p ps IH]; cbn [first_pattern].
  - exists 0%Q. split; [reflexivity | discriminate].
  - destruct (first_match p description) as [group |] eqn:Hm; [| exact IH].
    apply to_float_number. exact (@first_match_text _ _ _ Hm).
Qed.

(** No character of [s] is a digit. *)
Fixpoint no_digit (s : string) : bool :=
  match s with
  | EmptyString => true
  | String c r => negb (is_digit c) && no_digit r
  end.

Lemma is_digit_lower_char (c : ascii) : is_digit (lower_char c) = is_digit c.
Proof. destruct c as [[] [] [] [] [] [] [] []]; reflexivity. Qed.

Lemma no_digit_lower (s : string) : no_digit (lower s) = no_digit s.
Proof.
  unfold lower. induction s as [| c r IH]; [reflexivity |].
  simpl. rewrite is_digit_lower_char, IH. reflexivity.
Qed.

Lemma first_match_no_digit (p : pattern) (s : string) :
  no_digit s = true -> first_match p s = None.
Proof.
  induction s as [| c r IH]; intros H.
  - reflexivity.
  - simpl in H. apply andb_true_iff in H. destruct H as [Hc Hr].
    apply negb_true_iff in Hc.
    cbn [first_match]. unfold match_here, number_at. cbn [digits_run]. rewrite Hc.
    exact (IH Hr).
Qed.

Lemma first_pattern_no_digit (patterns : list pattern) (s : string) :
  no_digit s = true -> first_pattern patterns s = Ok 0%Q.
Proof.
  intros H. induction patterns as [| p ps IH]; [reflexivity |].
  cbn [first_pattern]. rewrite (@first_match_no_digit p _ H). exact IH.
Qed.

(** X20. [extract_time_on_job] never raises and never answers with zero
    or a negative time: it returns nothing or a positive number of
    minutes, and nothing for a description without a digit in it. *)
Theorem time_on_job_is_positive (description : option string) :
  (extract_time_on_job description = Ok None
   \/ exists minutes, extract_time_on_job description = Ok (Some minutes)
                      /\ (0 < minutes)%Q)
  /\ (forall text, description = Some text -> no_digit text = true ->
        extract_time_on_job description = Ok None).
Proof.
  split.
  - destruct description as [text |]; [| left; reflexivity].
    unfold extract_time_on_job.
    destruct (String.eqb text ""); [left; reflexivity |]. cbv zeta.
    destruct (first_pattern_nonneg hour_patterns (lower text)) as (h & -> & Hh).
    destruct (first_pattern_nonneg minute_patterns (lower text)) as (m & -> & Hm).
    cbn [bind].
    destruct (Qeq_bool (h * 60 + m) 0) eqn:Hz; [left; reflexivity |].
    right. eexists. split; [reflexivity |].
    assert (Hge : (0 <= h * 60 + m)%Q).
    { apply Qle_trans with (y := (0 + 0)%Q); [discriminate |].
      apply Qplus_le_compat; [| exact Hm].
      apply Qmult_le_0_compat; [exact Hh | discriminate]. }
    apply Qle_lt_or_eq in Hge. destruct Hge as [Hlt | Heq]; [exact Hlt |].
    symmetry in Heq. apply Qeq_bool_iff in Heq. congruence.
  - intros text -> Hnd. unfold extract_time_on_job.
    destruct (String.eqb text ""); [reflexivity |]. cbv zeta.
    rewrite !first_pattern_no_digit by (rewrite no_digit_lower; exact Hnd).
    reflexivity.
Qed.

End TimeOnTheJob.

Example time_on_job_examples :
  TimeOnJob.extract_time_on_job (Some "Replaced pump, 1.5 hours") = Ok (Some (1.5 * 60 + 0)%Q)
  /\ TimeOnJob.extract_time_on_job (Some "2 hr 30 min") = Ok (Some (2 * 60 + 30)%Q)
  /\ TimeOnJob.extract_time_on_job (Some "Used a 3mm screw") = Ok (Some (0 * 60 + 3)%Q)
  /\ TimeOnJob.extract_time_on_job (Some "0 hours") = Ok None
  /\ TimeOnJob.extract_time_on_job None = Ok None.
Proof. repeat split; vm_compute; reflexivity. Qed.

(** ** Alert counts of the technicians *)

Section TechnicianAlerts.
Import PyStr TechAlerts.

Lemma alert_col_prefix (t : string) : startswith "Alert_" (alert_col t) = true.
Proof. reflexivity. Qed.

Lemma not_alert_col (k t : string) : startswith "Alert_" k = false -> k <> alert_col t.
Proof. intros H ->. rewrite alert_col_prefix in H. discriminate. Qed.

(** The loop that creates the count columns, row by row: a column of the
    list that the frame does not have yet is created with zeros, every
    other cell is left as it is. *)
Lemma create_count_columns (alert_types : list string) :
  forall df, exists f : row -> row,
    let out :=
      fold_left
        (fun df t =>
           if has_col (alert_col t) (columns df) then df
           else assign (alert_col t) (fun _ => VInt 0) df)
        alert_types df in
    rows out = map f (rows df)
    /\ (forall k, has_col k (columns out)
                  = has_col k (columns df) || has_col k (map alert_col alert_types))
    /\ forall r k,
         f r k = if has_col k (map alert_col alert_types) && negb (has_col k (columns df))
                 then VInt 0 else r k.
Proof.
  induction alert_types as [| t rest IH]; intros df; cbn [fold_left map].
  - exists (fun r => r). cbv zeta. split; [symmetry; apply map_id |].
    split; [intros k; symmetry; apply orb_false_r | reflexivity].
  - destruct (has_col (alert_col t) (columns df)) eqn:Hc.
    + destruct (IH df) as (f & Hrows & Hcols & Hf). cbv zeta in *.
      exists f. split; [exact Hrows |]. split.
      * intros k. rewrite Hcols. unfold has_col at 4. cbn [existsb].
        destruct (String.eqb_spec k (alert_col t)) as [-> | _]; [| reflexivity].
        rewrite Hc. reflexivity.
      * intros r k. rewrite Hf. unfold has_col at 3. cbn [existsb].
        destruct (String.eqb_spec k (alert_col t)) as [-> | _]; [| reflexivity].
        rewrite Hc. cbn [negb]. rewrite !andb_false_r. reflexivity.
    + destruct (IH (assign (alert_col t) (fun _ => VInt 0) df)) as (f & Hrows & Hcols & Hf).
      cbv zeta in *.
      exists (fun r => f (set_col (alert_col t) (VInt 0) r)).
      split; [rewrite Hrows; cbn [rows assign]; rewrite map_map; reflexivity |].
      split.
      * intros k. rewrite Hcols, has_col_assign. unfold has_col at 4. cbn [existsb].
        rewrite <- orb_assoc. reflexivity.
      * intros r k. rewrite Hf, has_col_assign. unfold has_col at 3. cbn [existsb].
        unfold set_col.
        destruct (String.eqb_spec k (alert_col t)) as [-> | _].
        -- rewrite Hc, orb_true_r. cbn [negb orb andb]. rewrite andb_false_r. reflexivity.
        -- rewrite orb_false_r. reflexivity.
Qed.

(** The loop that writes the counts of one technician. *)
Lemma write_counts (value : string -> cell) (types : list string) :
  forall r : row,
    let out := fold_left (fun r t => set_col (alert_col t) (value t) r) types r in
    (forall k, (forall t, In t types -> alert_col t <> k) -> out k = r k)
    /\ (forall t, In t types \/ r (alert_col t) = value t ->
                  (forall t', In t' types -> alert_col t' = alert_col t -> t' = t) ->
                  out (alert_col t) = value t).
Proof.
  induction types as [| x rest IH]; intros r; cbv zeta; cbn [fold_left].
  - split; [reflexivity |]. intros t [[] | H] _. exact H.
  - destruct (IH (set_col (alert_col x) (value x) r)) as [Hother Hcount]. cbv zeta in *.
    split.
    + intros k Hk. rewrite Hother by (intros t Ht; apply Hk; right; exact Ht).
      apply set_col_other. intros ->. apply (Hk x); [left |]; reflexivity.
    + intros t Ht Hone. apply Hcount.
      * destruct (String.eqb_spec (alert_col t) (alert_col x)) as [Heq | Hne].
        -- right. unfold set_col. rewrite Heq, String.eqb_refl.
           rewrite (Hone x (or_introl eq_refl) (eq_sym Heq)). reflexivity.
        -- destruct Ht as [[<- | Ht] | Ht].
           ++ contradiction Hne. reflexivity.
           ++ left. exact Ht.
           ++ right. rewrite set_col_other by exact Hne. exact Ht.
      * intros t' Ht'. apply Hone. right. exact Ht'.
Qed.

(** X21. [add_alert_data_to_techs], when it returns, returns the
    technicians one by one and in their order. [Total_Alerts] of a
    technician is the number of alerts of the technician's device; the
    column of an alert type the device has alerts of holds their number
    (when no other of its alert types has the same column name); the
    column of an alert type the device has no alert of holds 0 when the
    function created it, and is not reset when the frame had it already;
    every column that is neither [Total_Alerts] nor named [Alert_...] is
    left as it was. *)
Theorem alert_totals_per_technician (tech_df alert_df out : DataFrame) :
  add_alert_data_to_techs tech_df alert_df = Some out ->
  Forall2
    (fun tech r : row =>
       let alerts := device_alerts (rows alert_df) tech in
       r "Total_Alerts" = VInt (Z.of_nat (List.length alerts))
       /\ (forall k, k <> "Total_Alerts" -> startswith "Alert_" k = false -> r k = tech k)
       /\ (forall t,
             In t (Driving.labels_of "Alert" alerts) ->
             (forall t', In t' (Driving.labels_of "Alert" alerts) ->
                         alert_col t' = alert_col t -> t' = t) ->
             r (alert_col t) = VInt (count_of t alerts))
       /\ (forall t,
             In t (Driving.labels_of "Alert" (rows alert_df)) ->
             (forall t', In t' (Driving.labels_of "Alert" alerts) ->
                         alert_col t' <> alert_col t) ->
             r (alert_col t)
             = if has_col (alert_col t) (columns tech_df) then tech (alert_col t)
               else VInt 0))
    (rows tech_df) (rows out).
Proof.
  unfold add_alert_data_to_techs.
  destruct (negb (has_col "Alert" (columns alert_df))); [discriminate |].
  destruct (alert_types_of (rows alert_df)) as [alert_types |] eqn:Htypes; [| discriminate].
  destruct (create_count_columns alert_types tech_df) as (f & Hrows & Hcols & Hf).
  cbv zeta in Hrows, Hcols, Hf.
  set (df1 := fold_left _ alert_types tech_df) in *.
  set (df2 := if has_col "Total_Alerts" (columns df1) then df1
              else assign "Total_Alerts" (fun _ => VInt 0) df1).
  assert (Hrows2 : exists g : row -> row,
            rows df2 = map g (rows tech_df)
            /\ forall r k, k <> "Total_Alerts" -> g r k = f r k).
  { unfold df2. destruct (has_col "Total_Alerts" (columns df1)).
    - exists f. auto.
    - exists (fun r => set_col "Total_Alerts" (VInt 0) (f r)). split.
      + cbn [rows assign]. rewrite Hrows, map_map. reflexivity.
      + intros r k Hk. apply set_col_other. exact Hk. }
  destruct Hrows2 as (g & Hrows2 & Hg).
  destruct (negb (has_col "Device" (columns alert_df))); [discriminate |].
  assert (Htypes_in : forall t, In t (Driving.labels_of "Alert" (rows alert_df)) ->
                                has_col (alert_col t) (map alert_col alert_types) = true).
  { intros t Ht. apply has_col_In, in_map.
    apply (proj1 (In_labels_of _ _ _)) in Ht. destruct Ht as (a & Ha & Heq).
    clear - Htypes Ha Heq. revert alert_types Htypes.
    induction (rows alert_df) as [| x xs IH]; intros alert_types Htypes; [contradiction |].
    cbn [alert_types_of] in Htypes.
    destruct (x "Alert") as [| s | | |] eqn:Hx; try discriminate.
    destruct (alert_types_of xs) as [ts |]; [| discriminate].
    injection Htypes as <-.
    destruct Ha as [-> | Ha].
    - left. congruence.
    - right. exact (IH Ha ts eq_refl). }
  assert (Hresult : forall tech,
            let alerts := device_alerts (rows alert_df) tech in
            let r := with_alert_counts (rows alert_df) (g tech) in
            r "Total_Alerts" = VInt (Z.of_nat (List.length alerts))
            /\ (forall k, k <> "Total_Alerts" -> startswith "Alert_" k = false ->
                          r k = tech k)
            /\ (forall t,
                  In t (Driving.labels_of "Alert" alerts) ->
                  (forall t', In t' (Driving.labels_of "Alert" alerts) ->
                              alert_col t' = alert_col t -> t' = t) ->
                  r (alert_col t) = VInt (count_of t alerts))
            /\ (forall t,
                  In t (Driving.labels_of "Alert" (rows alert_df)) ->
                  (forall t', In t' (Driving.labels_of "Alert" alerts) ->
                              alert_col t' <> alert_col t) ->
                  r (alert_col t)
                  = if has_col (alert_col t) (columns tech_df) then tech (alert_col t)
                    else VInt 0)).
  { intros tech. cbv zeta.
    assert (Hdev : g tech "Device" = tech "Device").
    { rewrite Hg by discriminate. rewrite Hf.
      destruct (has_col "Device" (map alert_col alert_types)) eqn:E; [| reflexivity].
      apply has_col_In, in_map_iff in E. destruct E as (t & Heq & _). discriminate. }
    assert (Halerts : device_alerts (rows alert_df) (g tech)
                      = device_alerts (rows alert_df) tech).
    { unfold device_alerts. rewrite Hdev. reflexivity. }
    unfold with_alert_counts. rewrite Halerts.
    set (alerts := device_alerts (rows alert_df) tech).
    set (types := Driving.sorted_unique (Driving.labels_of "Alert" alerts)).
    destruct (write_counts (fun t => VInt (count_of t alerts)) types (g tech))
      as [Hother Hcount].
    cbv zeta in Hother, Hcount.
    split; [unfold set_col; rewrite String.eqb_refl; reflexivity |].
    split; [| split].
    - intros k Hk Hprefix. rewrite set_col_other by exact Hk.
      rewrite Hother by (intros t _; apply not_eq_sym, not_alert_col; exact Hprefix).
      rewrite Hg by exact Hk. rewrite Hf.
      destruct (has_col k (map alert_col alert_types)) eqn:E; [| reflexivity].
      apply has_col_In, in_map_iff in E. destruct E as (t & <- & _).
      rewrite alert_col_prefix in Hprefix. discriminate.
    - intros t Ht Hone. rewrite set_col_other by discriminate.
      apply Hcount.
      + left. apply (proj2 (In_sorted_unique _ _)). exact Ht.
      + intros t' Ht'. apply Hone. apply (proj1 (In_sorted_unique _ _)). exact Ht'.
    - intros t Ht Hnone. rewrite set_col_other by discriminate.
      rewrite Hother.
      + rewrite Hg by discriminate. rewrite Hf, (Htypes_in t Ht).
        destruct (has_col (alert_col t) (columns tech_df)); reflexivity.
      + intros t' Ht'. apply Hnone. apply (proj1 (In_sorted_unique _ _)). exact Ht'. }
  destruct (rows df2) as [| first others] eqn:Hdf2.
  - intros H. injection H as <-. rewrite Hdf2.
    destruct (rows tech_df); [constructor | discriminate].
  - destruct (negb (has_col "Device" (columns df2))); [discriminate |].
    intros H. injection H as <-. cbn [rows].
    change (Forall2 ?P ?l (?h first :: map ?h others))
      with (Forall2 P l (map h (first :: others))).
    rewrite Hrows2, map_map.
    apply Forall2_map_right. exact Hresult.
Qed.

End TechnicianAlerts.

Definition tech_with_device (code device : string) : row := fun c =>
  if String.eqb c "TechCode" then VStr code
  else if String.eqb c "Device" then VStr device
  else NA.

Definition alert_of (device alert_type : string) : row := fun c =>
  if String.eqb c "Device" then VStr device
  else if String.eqb c "Alert" then VStr alert_type
  else NA.

Definition two_techs_with_devices : DataFrame :=
  {| columns := ["TechCode"; "Device"];
     rows := [ tech_with_device "JS" "James"; tech_with_device "JD" "Joe" ] |}.

Definition alerts_of_james : DataFrame :=
  {| columns := ["Device"; "Alert"];
     rows := [ alert_of "James" "Harsh Braking"; alert_of "James" "Speeding Over";
               alert_of "James" "Harsh Braking"; alert_of "Zed" "After Hours" ] |}.

Lemma alert_totals_per_technician_example :
  match TechAlerts.add_alert_data_to_techs two_techs_with_devices alerts_of_james with
  | Some out =>
      Forall2 (fun tech r : row =>
                 r "Total_Alerts"
                 = VInt (Z.of_nat (List.length
                                     (TechAlerts.device_alerts (rows alerts_of_james) tech))))
        (rows two_techs_with_devices) (rows out)
      /\ map (fun r : row => (r "TechCode", r "Alert_Harsh_Braking", r "Total_Alerts"))
           (rows out)
         = [ (VStr "JS", VInt 2, VInt 3); (VStr "JD", VInt 0, VInt 0) ]
  | None => False
  end.
Proof.
  destruct (TechAlerts.add_alert_data_to_techs two_techs_with_devices alerts_of_james)
    as [out |] eqn:Hrun.
  - split.
    + pose proof (@alert_totals_per_technician two_techs_with_devices alerts_of_james
                    out Hrun) as H.
      induction H as [| tech r techs rs (Htotal & _) H IH]; constructor; assumption.
    + vm_compute in Hrun. injection Hrun as <-. reflexivity.
  - vm_compute in Hrun. discriminate Hrun.
Defined.

(** ** Cancellation and performance metrics *)

Section JobCounts.
Import PyNum TextMining Classifier GroupBy.

(** What the two metric functions read off a job of a frame with the
    columns [cols]: its technician, whether it has a job id, whether it
    is cancelled. *)
Definition tech_of (cols : list string) (r : row) : cell :=
  if has_col "TechCode" cols then r "TechCode" else r "Technician".

Definition has_job_id (cols : list string) (r : row) : bool :=
  if has_col "JobId" cols then negb (isna (r "JobId"))
  else if has_col "JobNumber" cols then negb (isna (r "JobNumber"))
  else if has_col "InvoiceNumber" cols then negb (isna (r "InvoiceNumber"))
  else true.

Definition canceled_in (cols : list string) (r : row) : bool :=
  if has_col "JobCanceled" cols then Cancellation.is_canceled r
  else str_contains ["Cancel"] (r "Status").

(** The jobs of a technician. *)
Definition jobs_of (cols : list string) (tech : cell) (rs : list row) : list row :=
  filter (fun r => cell_eqb (tech_of cols r) tech) rs.

(** A flag column as the importer and the classifier leave it: booleans
    and missing values. *)
Definition flag_cell (c : cell) : Prop := c = NA \/ exists b, c = VBool b.

Lemma all_some_map {A B : Type} (f : A -> option B) (l : list A) (out : list B) :
  all_some (map f l) = Some out -> Forall2 (fun a b => f a = Some b) l out.
Proof.
  revert out. induction l as [| a l IH]; intros out H; simpl in H.
  - injection H as <-. constructor.
  - destruct (f a) as [b |] eqn:Hb; [| discriminate].
    destruct (all_some (map f l)) as [ys |]; [| discriminate].
    injection H as <-. constructor; [exact Hb | apply IH; reflexivity].
Qed.

Lemma all_some_total {A B : Type} (f : A -> option B) (l : list A) :
  (forall a, In a l -> f a <> None) -> exists out, all_some (map f l) = Some out.
Proof.
  induction l as [| a l IH]; intros H; simpl.
  - eexists. reflexivity.
  - destruct (f a) as [b |] eqn:Hb.
    + destruct IH as [ys Hys]; [intros x Hx; apply H; right; exact Hx |].
      rewrite Hys. eexists. reflexivity.
    + exfalso. apply (H a); [left; reflexivity | exact Hb].
Qed.

Lemma Forall2_diag {A : Type} (R : A -> A -> Prop) (l : list A) :
  (forall x, R x x) -> Forall2 R l l.
Proof. intros H. induction l; constructor; auto. Qed.

Lemma Forall2_compose {A B C : Type} (R : A -> B -> Prop) (S : B -> C -> Prop)
    (T : A -> C -> Prop) (l1 : list A) (l2 : list B) (l3 : list C) :
  (forall a b c, R a b -> S b c -> T a c) ->
  Forall2 R l1 l2 -> Forall2 S l2 l3 -> Forall2 T l1 l3.
Proof.
  intros H H12. revert l3. induction H12; intros l3 H23; inversion H23; subst;
    constructor; eauto.
Qed.

Lemma Forall2_weaken {A B : Type} (R T : A -> B -> Prop) (l1 : list A) (l2 : list B) :
  (forall a b, R a b -> T a b) -> Forall2 R l1 l2 -> Forall2 T l1 l2.
Proof. intros H H12. induction H12; constructor; auto. Qed.

Lemma Forall2_filter {A B : Type} (R : A -> B -> Prop) (p : A -> bool) (q : B -> bool)
    (l1 : list A) (l2 : list B) :
  (forall a b, R a b -> p a = q b) ->
  Forall2 R l1 l2 -> Forall2 R (filter p l1) (filter q l2).
Proof.
  intros H H12. induction H12 as [| a b l1 l2 Hab _ IH]; simpl; [constructor |].
  rewrite <- (H a b Hab). destruct (p a); [constructor; assumption | exact IH].
Qed.

Lemma Forall2_map_eq {A B C : Type} (R : A -> B -> Prop) (f : A -> C) (h : B -> C)
    (l1 : list A) (l2 : list B) :
  (forall a b, R a b -> f a = h b) -> Forall2 R l1 l2 -> map f l1 = map h l2.
Proof.
  intros H H12. induction H12 as [| a b l1 l2 Hab _ IH]; simpl; [reflexivity |].
  rewrite (H a b Hab), IH. reflexivity.
Qed.

Lemma Forall2_combine_values {A B C : Type} (f : A * B -> C) (P : A -> C -> Prop)
    (l : list A) (vs : list B) :
  (forall a v, In v vs -> P a (f (a, v))) ->
  List.length vs = List.length l ->
  Forall2 P l (map f (combine l vs)).
Proof.
  revert vs. induction l as [| a l IH]; intros vs H Hlen; simpl.
  - constructor.
  - destruct vs as [| v vs]; [discriminate |]. simpl. constructor.
    + apply H. left. reflexivity.
    + apply IH; [intros x w Hw; apply H; right; exact Hw |].
      simpl in Hlen. congruence.
Qed.

Lemma filter_filter {A : Type} (p q : A -> bool) (l : list A) :
  filter p (filter q l) = filter (fun x => q x && p x) l.
Proof.
  induction l as [| a l IH]; simpl; [reflexivity |].
  destruct (q a); simpl; [destruct (p a) |]; rewrite IH; reflexivity.
Qed.

(** *** The frame the metrics are counted on *)

(** The column [c] of [r'] is [v r], and [r'] is [r] elsewhere. *)
Definition column_set (c : string) (v : row -> cell -> Prop) (r r' : row) : Prop :=
  v r (r' c) /\ forall k, k <> c -> r' k = r k.

Lemma with_tech_code_step (df df1 : DataFrame) :
  with_tech_code df = Returns df1 ->
  Forall2 (column_set "TechCode" (fun r c => c = tech_of (columns df) r)) (rows df) (rows df1)
  /\ has_col "TechCode" (columns df1) = true
  /\ forall k, k <> "TechCode" -> has_col k (columns df1) = has_col k (columns df).
Proof.
  unfold with_tech_code, tech_of.
  destruct (has_col "TechCode" (columns df)) eqn:Htc.
  - intros H. injection H as <-. split; [| split; [exact Htc | reflexivity]].
    apply Forall2_diag. intros r. split; reflexivity.
  - destruct (has_col "Technician" (columns df)); [| discriminate].
    intros H. injection H as <-. split; [| split].
    + cbn [rows assign]. apply Forall2_map_right. intros r. split.
      * unfold set_col. rewrite String.eqb_refl. reflexivity.
      * intros k Hk. apply set_col_other. exact Hk.
    + rewrite has_col_assign, String.eqb_refl. apply orb_true_r.
    + intros k Hk. rewrite has_col_assign.
      destruct (String.eqb_spec k "TechCode"); [contradiction | apply orb_false_r].
Qed.

Lemma has_col_assign_values (k c : string) (values : list cell) (df : DataFrame) :
  has_col k (columns (assign_values c values df)) = has_col k (columns df) || String.eqb k c.
Proof.
  unfold assign_values. cbn [columns].
  destruct (has_col c (columns df)) eqn:Hc.
  - destruct (String.eqb_spec k c) as [-> | _].
    + rewrite Hc. reflexivity.
    + rewrite orb_false_r. reflexivity.
  - rewrite has_col_app. unfold has_col at 2. cbn [existsb].
    rewrite orb_false_r. reflexivity.
Qed.

Lemma with_job_id_step (df : DataFrame) :
  Forall2 (column_set "JobId" (fun r c => isna c = negb (has_job_id (columns df) r)))
    (rows df) (rows (with_job_id df))
  /\ forall k, k <> "JobId" -> has_col k (columns (with_job_id df)) = has_col k (columns df).
Proof.
  unfold with_job_id, has_job_id.
  destruct (has_col "JobId" (columns df)).
  { split; [| reflexivity]. apply Forall2_diag. intros r. split; [| reflexivity].
    rewrite negb_involutive. reflexivity. }
  assert (Hcols : forall k c, k <> "JobId" -> c = "JobId" ->
                              has_col k (columns df) || String.eqb k c = has_col k (columns df)).
  { intros k c Hk ->. destruct (String.eqb_spec k "JobId"); [contradiction | apply orb_false_r]. }
  assert (Hcopy : forall c, c <> "JobId" ->
            Forall2 (column_set "JobId" (fun r x => isna x = negb (negb (isna (r c)))))
              (rows df) (rows (assign "JobId" (fun r => r c) df))).
  { intros c Hc. cbn [rows assign]. apply Forall2_map_right. intros r. split.
    - unfold set_col. rewrite String.eqb_refl, negb_involutive. reflexivity.
    - intros k Hk. apply set_col_other. exact Hk. }
  destruct (has_col "JobNumber" (columns df)).
  { split; [apply Hcopy; discriminate |].
    intros k Hk. rewrite has_col_assign. apply Hcols; [exact Hk | reflexivity]. }
  destruct (has_col "InvoiceNumber" (columns df)).
  { split; [apply Hcopy; discriminate |].
    intros k Hk. rewrite has_col_assign. apply Hcols; [exact Hk | reflexivity]. }
  split.
  - cbn [rows assign_values]. apply Forall2_combine_values.
    + intros r v Hv. apply in_map_iff in Hv. destruct Hv as (i & <- & _). split.
      * cbn [fst snd]. unfold set_col. rewrite String.eqb_refl. reflexivity.
      * intros k Hk. cbn [fst snd]. apply set_col_other. exact Hk.
    + rewrite length_map, length_seq. reflexivity.
  - intros k Hk. rewrite has_col_assign_values. apply Hcols; [exact Hk | reflexivity].
Qed.

(** The flag of a job in the column the cancellations are counted in. *)
Definition canceled_flag (cols : list string) (r : row) : cell :=
  if has_col "JobCanceled" cols then r "JobCanceled"
  else VBool (str_contains ["Cancel"] (r "Status")).

Lemma canceled_flags_step (df : DataFrame) (g : Random.generator) :
  has_col "JobCanceled" (columns df) || has_col "Status" (columns df) = true ->
  exists df3,
    (if has_col "JobCanceled" (columns df) then (df, g)
     else if has_col "Status" (columns df)
     then (assign "JobCanceled" (fun r => VBool (str_contains ["Cancel"] (r "Status"))) df, g)
     else let (flags, g) := np_choice (1 # 10) (List.length (rows df)) g in
          (assign_values "JobCanceled" (map VBool flags) df, g))
    = (df3, g)
    /\ Forall2 (column_set "JobCanceled" (fun r c => c = canceled_flag (columns df) r))
         (rows df) (rows df3)
    /\ forall k, k <> "JobCanceled" -> has_col k (columns df3) = has_col k (columns df).
Proof.
  unfold canceled_flag.
  destruct (has_col "JobCanceled" (columns df)).
  - intros _. exists df. split; [reflexivity |]. split; [| reflexivity].
    apply Forall2_diag. intros r. split; reflexivity.
  - destruct (has_col "Status" (columns df)); [| discriminate].
    intros _. eexists. split; [reflexivity |]. split.
    + cbn [rows assign]. apply Forall2_map_right. intros r. split.
      * unfold set_col. rewrite String.eqb_refl. reflexivity.
      * intros k Hk. apply set_col_other. exact Hk.
    + intros k Hk. rewrite has_col_assign.
      destruct (String.eqb_spec k "JobCanceled"); [contradiction | apply orb_false_r].
Qed.


(** *** The keys and the sums of the groups *)

Lemma In_insert_key (k x : cell) (keys : list cell) :
  In x (insert_key k keys) -> x = k \/ In x keys.
Proof.
  induction keys as [| y keys IH]; simpl.
  - intros [<- | []]. left. reflexivity.
  - destruct (cell_eqb k y); [| destruct (key_ltb k y)]; simpl; intuition.
Qed.

Lemma insert_key_covers (k x : cell) (keys : list cell) :
  cell_eqb x k = true \/ (exists y, In y keys /\ cell_eqb x y = true) ->
  exists y, In y (insert_key k keys) /\ cell_eqb x y = true.
Proof.
  induction keys as [| a keys IH]; simpl.
  - intros [H | (y & [] & _)]. exists k. split; [left; reflexivity | exact H].
  - intros H. destruct (cell_eqb k a) eqn:Hka; [| destruct (key_ltb k a)].
    + destruct H as [H | (y & [<- | Hy] & Hxy)].
      * exists k. split; [left; reflexivity | exact H].
      * exists k. split; [left; reflexivity |].
        apply cell_eqb_trans with (b := a); [exact Hxy |].
        rewrite cell_eqb_sym. exact Hka.
      * exists y. split; [right; exact Hy | exact Hxy].
    + destruct H as [H | (y & Hy & Hxy)].
      * exists k. split; [left; reflexivity | exact H].
      * exists y. split; [right; exact Hy | exact Hxy].
    + destruct H as [H | (y & [<- | Hy] & Hxy)].
      * destruct IH as (z & Hz & Hxz); [left; exact H |].
        exists z. split; [right; exact Hz | exact Hxz].
      * exists a. split; [left; reflexivity | exact Hxy].
      * destruct IH as (z & Hz & Hxz); [right; exists y; split; assumption |].
        exists z. split; [right; exact Hz | exact Hxz].
Qed.

(** The keys of a column of cells: [groupby] takes them of the cells of
    a column. *)
Definition keys_of (cells : list cell) : list cell :=
  fold_right insert_key [] (filter (fun c => negb (isna c)) cells).

(** A key is one of the cells, and not missing. *)
Lemma In_keys_of (t : cell) (cells : list cell) :
  In t (keys_of cells) -> isna t = false /\ In t cells.
Proof.
  unfold keys_of. induction cells as [| c cells IH]; simpl; [intros [] |].
  destruct (isna c) eqn:Hna; simpl.
  - intros H. destruct (IH H) as [Ht Hin]. split; [exact Ht | right; exact Hin].
  - intros H. apply In_insert_key in H. destruct H as [-> | H].
    + split; [exact Hna | left; reflexivity].
    + destruct (IH H) as [Ht Hin]. split; [exact Ht | right; exact Hin].
Qed.

(** Every cell that is not missing has its key. *)
Lemma keys_of_covers (c : cell) (cells : list cell) :
  In c cells -> isna c = false ->
  exists t, In t (keys_of cells) /\ cell_eqb c t = true.
Proof.
  unfold keys_of. induction cells as [| c0 cells IH]; simpl; [intros [] |].
  intros Hin Hna. destruct Hin as [-> | Hin].
  - rewrite Hna. simpl. apply insert_key_covers. left. apply cell_eqb_refl.
  - destruct (IH Hin Hna) as (t & Ht & Heq).
    destruct (isna c0); simpl.
    + exists t. split; assumption.
    + apply insert_key_covers. right. exists t. split; assumption.
Qed.

Lemma In_group_keys (col : string) (t : cell) (rs : list row) :
  In t (group_keys col rs) -> isna t = false /\ exists r, In r rs /\ r col = t.
Proof.
  intros H. apply In_keys_of in H. destruct H as [Ht Hin].
  split; [exact Ht |]. apply in_map_iff in Hin. destruct Hin as (r & Hr & Hin).
  exists r. split; assumption.
Qed.

(** The technicians of the jobs, as the metrics list them. *)
Definition tech_keys (cols : list string) (rs : list row) : list cell :=
  keys_of (map (tech_of cols) rs).

Lemma In_tech_keys (cols : list string) (tech : cell) (rs : list row) :
  In tech (tech_keys cols rs) -> isna tech = false /\ jobs_of cols tech rs <> [].
Proof.
  intros H. apply In_keys_of in H. destruct H as [Ht Hin].
  split; [exact Ht |]. apply in_map_iff in Hin. destruct Hin as (r & Hr & Hin).
  assert (Hjob : In r (jobs_of cols tech rs)).
  { apply filter_In. split; [exact Hin |]. rewrite Hr. apply cell_eqb_refl. }
  intros Hnil. rewrite Hnil in Hjob. exact Hjob.
Qed.

Lemma tech_keys_covers (cols : list string) (r : row) (rs : list row) :
  In r rs -> isna (tech_of cols r) = false ->
  exists tech, In tech (tech_keys cols rs) /\ cell_eqb (tech_of cols r) tech = true.
Proof.
  intros Hr Hna. apply keys_of_covers; [| exact Hna].
  apply in_map_iff. exists r. split; [reflexivity | exact Hr].
Qed.

(** The sum of a column of flags is the number of flags that are set. *)
Lemma sum_cells_flags (cs : list cell) :
  Forall flag_cell cs ->
  exists q, sum_cells cs = Some q
            /\ (q == inject_Z (Z.of_nat (List.length
                                           (filter (fun c => py_eq c (VBool true)) cs))))%Q.
Proof.
  induction 1 as [| c cs Hc _ IH].
  - exists 0%Q. split; reflexivity.
  - destruct IH as (q & Hsum & Hq).
    destruct Hc as [-> | [[|] ->]]; cbn [sum_cells]; rewrite Hsum.
    + exists q. split; [reflexivity | exact Hq].
    + eexists. split; [reflexivity |].
      change (filter (fun c => py_eq c (VBool true)) (VBool true :: cs))
        with (VBool true :: filter (fun c => py_eq c (VBool true)) cs).
      cbn [List.length].
      rewrite Hq, Nat2Z.inj_succ, <- Z.add_1_l, inject_Z_plus. reflexivity.
    + eexists. split; [reflexivity |].
      change (filter (fun c => py_eq c (VBool true)) (VBool false :: cs))
        with (filter (fun c => py_eq c (VBool true)) cs).
      rewrite Hq. change (inject_Z 0) with 0%Q. ring.
Qed.

(** The rate of a part of the jobs. *)
Lemma divide_part (a : Q) (k n : Z) :
  (a == inject_Z k)%Q -> (0 <= k <= n)%Z -> (0 < n)%Z ->
  exists q, divide a n = Finite q /\ (0 <= q <= 1)%Q.
Proof.
  intros Ha Hk Hn. unfold divide.
  destruct (Z.eqb_spec n 0) as [-> | _]; [lia |].
  eexists. split; [reflexivity |].
  assert (Hn' : (0 < inject_Z n)%Q) by (unfold Qlt, inject_Z; cbn [Qnum Qden]; lia).
  split.
  - apply Qle_shift_div_l; [exact Hn' |].
    rewrite Qmult_0_l, Ha. unfold Qle, inject_Z; cbn [Qnum Qden]; lia.
  - apply Qle_shift_div_r; [exact Hn' |].
    rewrite Qmult_1_l, Ha. rewrite <- Zle_Qle. apply Hk.
Qed.


Lemma filter_map_length {A B : Type} (p : B -> bool) (f : A -> B) (l : list A) :
  List.length (filter p (map f l)) = List.length (filter (fun x => p (f x)) l).
Proof.
  induction l as [| a l IH]; simpl; [reflexivity |].
  destruct (p (f a)); simpl; rewrite IH; reflexivity.
Qed.

Lemma filter_all {A : Type} (p : A -> bool) (l : list A) :
  Forall (fun x => p x = true) l -> filter p l = l.
Proof.
  induction 1 as [| a l Ha _ IH]; simpl; [reflexivity |].
  rewrite Ha, IH. reflexivity.
Qed.

Lemma filter_disjoint_length {A : Type} (p q : A -> bool) (l : list A) :
  (forall x, In x l -> p x && q x = false) ->
  (List.length (filter p l) + List.length (filter q l) <= List.length l)%nat.
Proof.
  induction l as [| a l IH]; intros H; simpl; [lia |].
  assert (Ha := H a (or_introl eq_refl)).
  assert (IH' := IH (fun x Hx => H x (or_intror Hx))).
  destruct (p a), (q a); simpl; try discriminate; lia.
Qed.

Lemma Forall2_join {K A B : Type} (P : K -> A -> Prop) (Q : K -> B -> Prop)
    (ks : list K) (l1 : list A) (l2 : list B) :
  Forall2 P ks l1 -> Forall2 Q ks l2 ->
  Forall2 (fun a b => exists k, In k ks /\ P k a /\ Q k b) l1 l2.
Proof.
  intros H1. revert l2. induction H1 as [| k a ks l1 Hka _ IH]; intros l2 H2;
    inversion H2 as [| k' b ks' l2' Hkb H2' ]; subst; constructor.
  - exists k. split; [left; reflexivity | split; assumption].
  - eapply Forall2_weaken; [| apply IH; exact H2'].
    intros x y (k0 & Hk0 & Hx & Hy). exists k0. split; [right; exact Hk0 | split; assumption].
Qed.

(** *** The frame of the jobs *)

(** A job of the frame handed over, and its row once the technician and
    the job id have their columns. *)
Definition job_row (cols : list string) (r r' : row) : Prop :=
  r' "TechCode" = tech_of cols r
  /\ isna (r' "JobId") = negb (has_job_id cols r)
  /\ forall k, k <> "TechCode" -> k <> "JobId" -> r' k = r k.

Lemma job_frame (df df1 : DataFrame) :
  with_tech_code df = Returns df1 ->
  Forall2 (job_row (columns df)) (rows df) (rows (with_job_id df1))
  /\ (forall k, k <> "TechCode" -> has_col k (columns df1) = has_col k (columns df))
  /\ forall k, k <> "TechCode" -> k <> "JobId" ->
               has_col k (columns (with_job_id df1)) = has_col k (columns df).
Proof.
  intros H1.
  destruct (@with_tech_code_step df df1 H1) as (Hr1 & _ & Hc1).
  destruct (with_job_id_step df1) as (Hr2 & Hc2).
  split; [| split; [exact Hc1 |]].
  - eapply Forall2_compose; [| exact Hr1 | exact Hr2].
    intros r r1 r2 [Ht Ho1] [Hid Ho2]. split; [| split].
    + rewrite Ho2 by discriminate. exact Ht.
    + rewrite Hid. f_equal. unfold has_job_id.
      rewrite !Hc1, !Ho1 by discriminate. reflexivity.
    + intros k Hk1 Hk2. rewrite Ho2, Ho1 by assumption. reflexivity.
  - intros k Hk1 Hk2. rewrite Hc2, Hc1 by assumption. reflexivity.
Qed.

Lemma with_tech_code_returns (df : DataFrame) :
  has_col "TechCode" (columns df) || has_col "Technician" (columns df) = true ->
  with_tech_code df
  = Returns (if has_col "TechCode" (columns df) then df
             else assign "TechCode" (fun r => r "Technician") df).
Proof.
  unfold with_tech_code.
  destruct (has_col "TechCode" (columns df)); [reflexivity |].
  destruct (has_col "Technician" (columns df)); [reflexivity | discriminate].
Qed.

(** The technicians and the groups of the frame the metrics are counted
    on are those of the frame handed over. *)
Lemma job_groups (cols : list string) (R : row -> row -> Prop) (rs rs' : list row) :
  (forall r r', R r r' -> r' "TechCode" = tech_of cols r) ->
  Forall2 R rs rs' ->
  group_keys "TechCode" rs' = tech_keys cols rs
  /\ forall tech, Forall2 R (jobs_of cols tech rs) (group_of "TechCode" tech rs').
Proof.
  intros HR H. split.
  - unfold group_keys, tech_keys, keys_of. f_equal. f_equal. symmetry.
    apply (Forall2_map_eq (R := R)); [| exact H].
    intros r r' Hrr. symmetry. apply HR. exact Hrr.
  - intros tech. unfold jobs_of, group_of. apply Forall2_filter; [| exact H].
    intros r r' Hrr. rewrite (HR r r' Hrr). reflexivity.
Qed.

(** The number of the jobs with a job id in a group. *)
Lemma count_present_job_id (cols : list string) (R : row -> row -> Prop)
    (jobs jobs' : list row) :
  (forall r r', R r r' -> isna (r' "JobId") = negb (has_job_id cols r)) ->
  Forall2 R jobs jobs' ->
  count_present "JobId" jobs' = Z.of_nat (List.length (filter (has_job_id cols) jobs)).
Proof.
  intros HR H. unfold count_present. f_equal. symmetry.
  apply (Forall2_length (R := R)). apply Forall2_filter; [| exact H].
  intros r r' Hrr. rewrite (HR r r' Hrr), negb_involutive. reflexivity.
Qed.

(** The sum of a flag column over a group is the number of the jobs whose
    flag is set. *)
Lemma sum_col_flags (col : string) (R : row -> row -> Prop) (flag : row -> bool)
    (jobs jobs' : list row) (q : Q) :
  (forall r r', R r r' -> flag_cell (r' col) /\ py_eq (r' col) (VBool true) = flag r) ->
  Forall2 R jobs jobs' ->
  sum_col col jobs' = Some q ->
  (q == inject_Z (Z.of_nat (List.length (filter flag jobs))))%Q.
Proof.
  intros HR H Hsum.
  assert (Hcells : Forall flag_cell (map (fun r : row => r col) jobs')).
  { apply Forall_forall. intros c Hc. apply in_map_iff in Hc.
    destruct Hc as (r' & <- & Hr').
    destruct (@Forall2_in_right _ _ _ _ _ _ H Hr') as (r & _ & Hrr).
    apply (HR r r' Hrr). }
  destruct (sum_cells_flags Hcells) as (q' & Hq' & Hcount).
  unfold sum_col in Hsum. rewrite Hq' in Hsum. injection Hsum as <-.
  rewrite Hcount, filter_map_length.
  assert (Hlen : List.length (filter flag jobs)
                 = List.length (filter (fun r' : row => py_eq (r' col) (VBool true)) jobs')).
  { apply (Forall2_length (R := R)). apply Forall2_filter; [| exact H].
    intros r r' Hrr. symmetry. apply (HR r r' Hrr). }
  rewrite Hlen. reflexivity.
Qed.

Lemma sum_col_flags_some (col : string) (jobs' : list row) :
  Forall (fun r' : row => flag_cell (r' col)) jobs' -> sum_col col jobs' <> None.
Proof.
  intros H.
  assert (Hcells : Forall flag_cell (map (fun r : row => r col) jobs')).
  { apply Forall_forall. intros c Hc. apply in_map_iff in Hc.
    destruct Hc as (r' & <- & Hr'). exact (proj1 (Forall_forall _ _) H r' Hr'). }
  destruct (sum_cells_flags Hcells) as (q & Hq & _).
  unfold sum_col. rewrite Hq. discriminate.
Qed.


Lemma Forall2_with_left {A B : Type} (P : A -> Prop) (R : A -> B -> Prop)
    (l : list A) (l' : list B) :
  Forall P l -> Forall2 R l l' -> Forall2 (fun a b => P a /\ R a b) l l'.
Proof.
  intros HP H. induction H as [| a b l l' Hab _ IH]; [constructor |].
  inversion HP as [| ? ? Ha Hl]; subst. constructor; [split; assumption | apply IH; exact Hl].
Qed.

(** *** [calculate_cancellation_metrics] *)

(** A job of the frame handed over, and its row in the frame the
    cancellations are counted on. *)
Definition counted_job (cols : list string) (r r' : row) : Prop :=
  r' "TechCode" = tech_of cols r
  /\ isna (r' "JobId") = negb (has_job_id cols r)
  /\ flag_cell (r' "JobCanceled")
  /\ Cancellation.is_canceled r' = canceled_in cols r
  /\ r' "CancellationReason" = r "CancellationReason".

Lemma cancellation_frame (df df1 : DataFrame) (g : Random.generator) :
  with_tech_code df = Returns df1 ->
  has_col "JobCanceled" (columns df) || has_col "Status" (columns df) = true ->
  (has_col "JobCanceled" (columns df) = true ->
   Forall (fun r : row => flag_cell (r "JobCanceled")) (rows df)) ->
  exists df3,
    (let df2 := with_job_id df1 in
     if has_col "JobCanceled" (columns df2) then (df2, g)
     else if has_col "Status" (columns df2)
     then (assign "JobCanceled" (fun r => VBool (str_contains ["Cancel"] (r "Status"))) df2, g)
     else let (flags, g) := np_choice (1 # 10) (List.length (rows df2)) g in
          (assign_values "JobCanceled" (map VBool flags) df2, g))
    = (df3, g)
    /\ Forall2 (counted_job (columns df)) (rows df) (rows df3)
    /\ has_col "CancellationReason" (columns df3)
       = has_col "CancellationReason" (columns df).
Proof.
  intros H1 Hflag Hflags.
  destruct (@job_frame df df1 H1) as (H12 & _ & Hcols).
  set (df2 := with_job_id df1) in *.
  destruct (@canceled_flags_step df2 g) as (df3 & HE & Hr3 & Hc3).
  { rewrite !Hcols by discriminate. exact Hflag. }
  exists df3. split; [exact HE |]. split.
  - assert (Hleft : Forall (fun r : row => has_col "JobCanceled" (columns df) = true ->
                                           flag_cell (r "JobCanceled")) (rows df)).
    { destruct (has_col "JobCanceled" (columns df)).
      - eapply Forall_impl; [| exact (Hflags eq_refl)]. intros r Hr _. exact Hr.
      - apply Forall_forall. intros r _ Hc. discriminate Hc. }
    pose proof (Forall2_with_left Hleft H12) as H12'.
    eapply Forall2_compose; [| exact H12' | exact Hr3].
    intros r r2 r3 (Hfc & Ht & Hid & Ho) [Hf Ho3]. unfold counted_job.
    rewrite (Ho3 "TechCode"), (Ho3 "JobId"), (Ho3 "CancellationReason") by discriminate.
    split; [exact Ht |]. split; [exact Hid |].
    assert (Hflag3 : r3 "JobCanceled" = canceled_flag (columns df) r).
    { rewrite Hf. unfold canceled_flag.
      rewrite Hcols, !Ho by discriminate. reflexivity. }
    unfold Cancellation.is_canceled, canceled_in. rewrite Hflag3. unfold canceled_flag.
    destruct (has_col "JobCanceled" (columns df)).
    + split; [exact (Hfc eq_refl) |]. split; [reflexivity | apply Ho; discriminate].
    + split; [right; eexists; reflexivity |].
      split; [| apply Ho; discriminate].
      destruct (str_contains ["Cancel"] (r "Status")); reflexivity.
  - rewrite Hc3, Hcols by discriminate. reflexivity.
Qed.

(** What a row of the cancellation metrics holds for its technician. *)
Definition cancellation_counts (cols : list string) (rs : list row) (tech : cell)
    (m : Cancellation.CancellationRow) : Prop :=
  let jobs := jobs_of cols tech rs in
  Cancellation.TechCode m = tech
  /\ Cancellation.TotalJobs m = Z.of_nat (List.length (filter (has_job_id cols) jobs))
  /\ (Cancellation.CanceledJobs m
      == inject_Z (Z.of_nat (List.length (filter (canceled_in cols) jobs))))%Q
  /\ Cancellation.CancellationRate m
     = divide (Cancellation.CanceledJobs m) (Cancellation.TotalJobs m).

Lemma cancellation_rows (df : DataFrame) (g : Random.generator) :
  has_col "TechCode" (columns df) || has_col "Technician" (columns df) = true ->
  has_col "JobCanceled" (columns df) || has_col "Status" (columns df) = true ->
  (has_col "JobCanceled" (columns df) = true ->
   Forall (fun r : row => flag_cell (r "JobCanceled")) (rows df)) ->
  (has_col "CancellationReason" (columns df) = true ->
   Forall (fun r : row => r "CancellationReason" <> VStr "TechCode") (rows df)) ->
  exists out,
    Cancellation.calculate_cancellation_metrics df g
    = (Returns out,
       (if has_col "TechCode" (columns df) then df
        else assign "TechCode" (fun r => r "Technician") df),
       g)
    /\ Forall2 (cancellation_counts (columns df) (rows df))
         (tech_keys (columns df) (rows df)) out.
Proof.
  intros Htech Hflag Hflags Hreason.
  pose proof (@with_tech_code_returns df Htech) as H1.
  set (df1 := if has_col "TechCode" (columns df) then df
              else assign "TechCode" (fun r => r "Technician") df) in *.
  set (cols := columns df) in *.
  destruct (@cancellation_frame df df1 g H1 Hflag Hflags) as (df3 & HE & Hrows & Hcr).
  fold cols in Hrows, Hcr.
  unfold Cancellation.calculate_cancellation_metrics. rewrite H1.
  cbv zeta in HE. cbv zeta. rewrite HE. clear HE.
  rewrite Hcr.
  destruct (@job_groups cols (counted_job cols) (rows df) (rows df3)) as [Hkeys Hgroups];
    [intros r r' H; apply H | exact Hrows |].
  rewrite Hkeys.
  set (f := Cancellation.cancellation_row (has_col "CancellationReason" cols) (rows df3)).
  destruct (@all_some_total _ _ f (tech_keys cols (rows df))) as [out Hout].
  { intros tech _. unfold f, Cancellation.cancellation_row. cbv zeta.
    destruct (sum_col "JobCanceled" (group_of "TechCode" tech (rows df3))) eqn:Hsum;
      [discriminate |].
    exfalso. revert Hsum. apply sum_col_flags_some.
    apply Forall_forall. intros r' Hr'. apply filter_In in Hr'. destruct Hr' as [Hr' _].
    destruct (@Forall2_in_right _ _ _ _ _ _ Hrows Hr') as (r & _ & _ & _ & Hfc & _).
    exact Hfc. }
  rewrite Hout.
  assert (Hclash : has_col "CancellationReason" cols
                   && existsb (cell_eqb (VStr "TechCode"))
                        (group_keys "CancellationReason" (Cancellation.with_reason (rows df3)))
                   = false).
  { destruct (has_col "CancellationReason" cols) eqn:Hc; [| reflexivity].
    cbn [andb]. apply not_true_is_false. intros Hex.
    apply existsb_exists in Hex. destruct Hex as (c & Hc_in & Hc_eq).
    apply In_group_keys in Hc_in. destruct Hc_in as (_ & r' & Hr' & Hr'c).
    apply filter_In in Hr'. destruct Hr' as [Hr' _].
    destruct (@Forall2_in_right _ _ _ _ _ _ Hrows Hr') as (r & Hr & _ & _ & _ & _ & Hre).
    pose proof (proj1 (Forall_forall _ _) (Hreason eq_refl) r Hr) as Hne.
    cbv beta in Hne. rewrite <- Hre, Hr'c in Hne.
    destruct c as [| s | z | q | b]; try (cbn in Hc_eq; discriminate).
    change (String.eqb "TechCode" s = true) in Hc_eq.
    apply String.eqb_eq in Hc_eq. subst s. apply Hne. reflexivity. }
  rewrite Hclash. exists out. split; [reflexivity |].
  apply all_some_map in Hout.
  eapply Forall2_weaken; [| exact Hout].
  intros tech m. unfold f, Cancellation.cancellation_row. cbv zeta.
  destruct (sum_col "JobCanceled" (group_of "TechCode" tech (rows df3))) as [q |] eqn:Hsum;
    [| discriminate].
  intros Hm. injection Hm as <-. unfold cancellation_counts. cbn.
  split; [reflexivity |]. split; [| split; [| reflexivity]].
  - apply count_present_job_id with (R := counted_job cols); [| apply Hgroups].
    intros r r' H. apply H.
  - apply sum_col_flags with (col := "JobCanceled") (R := counted_job cols)
                             (jobs' := group_of "TechCode" tech (rows df3));
      [| apply Hgroups | exact Hsum].
    intros r r' (_ & _ & Hfc & Hc & _). split; [exact Hfc | exact Hc].
Qed.

(** X22. For jobs with a technician column and with a cancellation flag
    that is a boolean or missing (or, without that column, with a
    status), [calculate_cancellation_metrics] returns and draws nothing.
    Every technician that occurs has a row, and every row is the row of a
    technician with jobs. [CanceledJobs] is the number of the technician's
    jobs that are cancelled, but [TotalJobs] counts only those of its
    jobs that have a job id: the rate is between 0 and 1 when every job
    of the technician has one. A technician column the frame lacks is
    written into the frame of the caller. *)
Theorem cancellation_rate_counts_jobs_with_id (df : DataFrame) (g : Random.generator) :
  has_col "TechCode" (columns df) || has_col "Technician" (columns df) = true ->
  has_col "JobCanceled" (columns df) || has_col "Status" (columns df) = true ->
  (has_col "JobCanceled" (columns df) = true ->
   Forall (fun r : row => flag_cell (r "JobCanceled")) (rows df)) ->
  (has_col "CancellationReason" (columns df) = true ->
   Forall (fun r : row => r "CancellationReason" <> VStr "TechCode") (rows df)) ->
  exists out,
    Cancellation.calculate_cancellation_metrics df g
    = (Returns out,
       (if has_col "TechCode" (columns df) then df
        else assign "TechCode" (fun r => r "Technician") df),
       g)
    /\ (forall r, In r (rows df) -> isna (tech_of (columns df) r) = false ->
          exists m, In m out
                    /\ cell_eqb (tech_of (columns df) r) (Cancellation.TechCode m) = true)
    /\ Forall
         (fun m =>
            let jobs := jobs_of (columns df) (Cancellation.TechCode m) (rows df) in
            jobs <> []
            /\ Cancellation.TotalJobs m
               = Z.of_nat (List.length (filter (has_job_id (columns df)) jobs))
            /\ (Cancellation.CanceledJobs m
                == inject_Z (Z.of_nat (List.length (filter (canceled_in (columns df)) jobs))))%Q
            /\ Cancellation.CancellationRate m
               = divide (Cancellation.CanceledJobs m) (Cancellation.TotalJobs m)
            /\ (Forall (fun r => has_job_id (columns df) r = true) jobs ->
                exists q, Cancellation.CancellationRate m = Finite q /\ (0 <= q <= 1)%Q))
         out.
Proof.
  intros Htech Hflag Hflags Hreason.
  destruct (@cancellation_rows df g Htech Hflag Hflags Hreason) as (out & Hcall & Hrows).
  exists out. split; [exact Hcall |]. split.
  - intros r Hr Hna.
    destruct (@tech_keys_covers (columns df) r (rows df) Hr Hna) as (tech & Htech_in & Heq).
    destruct (@Forall2_in_left _ _ _ _ _ _ Hrows Htech_in) as (m & Hm & Hcode & _).
    exists m. split; [exact Hm |]. rewrite Hcode. exact Heq.
  - apply Forall_forall. intros m Hm.
    destruct (@Forall2_in_right _ _ _ _ _ _ Hrows Hm)
      as (tech & Htech_in & Hcode & Hids & Hcanceled & Hrate).
    cbv zeta. rewrite Hcode.
    apply In_tech_keys in Htech_in. destruct Htech_in as [_ Hne].
    split; [exact Hne |]. split; [exact Hids |]. split; [exact Hcanceled |].
    split; [exact Hrate |].
    intros Hall. rewrite Hrate.
    apply divide_part
      with (k := Z.of_nat (List.length (filter (canceled_in (columns df))
                                          (jobs_of (columns df) tech (rows df))))).
    + exact Hcanceled.
    + rewrite Hids, (filter_all _ Hall). split; [lia |].
      apply Nat2Z.inj_le, filter_length_le.
    + rewrite Hids, (filter_all _ Hall).
      destruct (jobs_of (columns df) tech (rows df)); [contradiction | cbn [List.length]; lia].
Qed.


(** *** [calculate_performance_metrics] *)

(** What a row of the performance metrics holds for its technician. *)
Definition performance_counts (cols : list string) (rs : list row) (tech : cell)
    (p : Performance.PerformanceRow) : Prop :=
  let jobs := jobs_of cols tech rs in
  Performance.TechCode p = tech
  /\ Performance.TotalJobs p = Z.of_nat (List.length (filter (has_job_id cols) jobs))
  /\ (Performance.FTC_Jobs p
      == inject_Z (Z.of_nat (List.length (filter (is_true "Is_FTC") jobs))))%Q
  /\ Performance.FTC_Rate p
     = divide (Performance.FTC_Jobs p) (Performance.TotalJobs p).

Lemma performance_rows (time_statistics : list cell -> option (cell * cell * cell * cell))
    (df : DataFrame) (g : Random.generator) (perf : list Performance.PerformanceRow) :
  has_col "TechCode" (columns df) || has_col "Technician" (columns df) = true ->
  has_col "Is_FTC" (columns df) = true ->
  has_col "Is_DiagnosticOnly" (columns df) = true ->
  Forall (fun r : row => flag_cell (r "Is_FTC")) (rows df) ->
  fst (Performance.calculate_performance_metrics time_statistics df g) = Returns perf ->
  Performance.calculate_performance_metrics time_statistics df g = (Returns perf, g)
  /\ Forall2 (performance_counts (columns df) (rows df))
       (tech_keys (columns df) (rows df)) perf.
Proof.
  intros Htech Hftc Hdiag Hflags.
  pose proof (@with_tech_code_returns df Htech) as H1.
  set (df1 := if has_col "TechCode" (columns df) then df
              else assign "TechCode" (fun r => r "Technician") df) in *.
  set (cols := columns df) in *.
  destruct (@job_frame df df1 H1) as (Hrows & Hc1 & Hcols).
  fold cols in Hrows, Hc1, Hcols.
  unfold Performance.calculate_performance_metrics. rewrite H1.
  rewrite (Hc1 "Is_FTC"), Hftc, (Hc1 "Is_DiagnosticOnly"), Hdiag by discriminate.
  cbv zeta. cbv iota beta.
  rewrite (Hcols "TimeOnJob") by discriminate.
  set (df2 := with_job_id df1) in *.
  destruct (@job_groups cols (job_row cols) (rows df) (rows df2)) as [Hkeys Hgroups];
    [intros r r' H; apply H | exact Hrows |].
  rewrite Hkeys.
  set (f := Performance.performance_row time_statistics (has_col "TimeOnJob" cols) (rows df2)).
  destruct (all_some (map f (tech_keys cols (rows df)))) as [out |] eqn:Hout;
    cbn [fst]; [| discriminate].
  intros Hperf. injection Hperf as ->. split; [reflexivity |].
  apply all_some_map in Hout.
  eapply Forall2_weaken; [| exact Hout].
  intros tech p. unfold f, Performance.performance_row. cbv zeta.
  destruct (sum_col "Is_FTC" (group_of "TechCode" tech (rows df2))) as [ftc |] eqn:Hsum;
    [| discriminate].
  destruct (sum_col "Is_DiagnosticOnly" (group_of "TechCode" tech (rows df2)))
    as [diagnostic |]; [| discriminate].
  assert (Hcounts : forall time,
            performance_counts cols (rows df) tech
              (Performance.mkPerformance tech
                 (count_present "JobId" (group_of "TechCode" tech (rows df2)))
                 ftc diagnostic
                 (divide ftc (count_present "JobId" (group_of "TechCode" tech (rows df2))))
                 (divide diagnostic
                    (count_present "JobId" (group_of "TechCode" tech (rows df2))))
                 time)).
  { intros time. unfold performance_counts. cbn.
    split; [reflexivity |]. split; [| split; [| reflexivity]].
    - apply count_present_job_id with (R := job_row cols); [| apply Hgroups].
      intros r r' H. apply H.
    - assert (Hrel : Forall2 (fun r r' : row => flag_cell (r "Is_FTC") /\ job_row cols r r')
                       (jobs_of cols tech (rows df))
                       (group_of "TechCode" tech (rows df2))).
      { apply Forall2_with_left; [| apply Hgroups].
        apply Forall_forall. intros r Hr. apply filter_In in Hr.
        exact (proj1 (Forall_forall _ _) Hflags r (proj1 Hr)). }
      apply sum_col_flags
        with (col := "Is_FTC")
             (R := fun r r' : row => flag_cell (r "Is_FTC") /\ job_row cols r r')
             (jobs' := group_of "TechCode" tech (rows df2));
        [| exact Hrel | exact Hsum].
      intros r r' (Hfc & _ & _ & Ho). unfold is_true.
      rewrite (Ho "Is_FTC") by discriminate. split; [exact Hfc | reflexivity]. }
  destruct (has_col "TimeOnJob" cols).
  - destruct (time_statistics _) as [statistics |]; [| discriminate].
    intros Hp. injection Hp as <-. apply Hcounts.
  - intros Hp. injection Hp as <-. apply Hcounts.
Qed.


(** The rates of two parts of the jobs that share no job. *)
Lemma divide_parts (a b : Q) (j k n : Z) :
  (a == inject_Z j)%Q -> (b == inject_Z k)%Q ->
  (0 <= j)%Z -> (0 <= k)%Z -> (j + k <= n)%Z -> (0 < n)%Z ->
  exists p q, divide a n = Finite p /\ divide b n = Finite q
              /\ (0 <= p)%Q /\ (0 <= q)%Q /\ (p + q <= 1)%Q.
Proof.
  intros Ha Hb Hj Hk Hjk Hn. unfold divide.
  destruct (Z.eqb_spec n 0) as [-> | _]; [lia |].
  do 2 eexists. split; [reflexivity |]. split; [reflexivity |].
  assert (Hn' : (0 < inject_Z n)%Q) by (unfold Qlt, inject_Z; cbn [Qnum Qden]; lia).
  assert (Hpos : forall (x : Q) (i : Z), (x == inject_Z i)%Q -> (0 <= i)%Z ->
                                         (0 <= x / inject_Z n)%Q).
  { intros x i Hx Hi. apply Qle_shift_div_l; [exact Hn' |].
    rewrite Qmult_0_l, Hx. unfold Qle, inject_Z; cbn [Qnum Qden]; lia. }
  split; [apply (Hpos a j Ha Hj) |]. split; [apply (Hpos b k Hb Hk) |].
  assert (Hsum : (a / inject_Z n + b / inject_Z n == (a + b) / inject_Z n)%Q).
  { field. intros H0. rewrite H0 in Hn'. discriminate Hn'. }
  rewrite Hsum. apply Qle_shift_div_r; [exact Hn' |].
  rewrite Qmult_1_l, Ha, Hb, <- inject_Z_plus, <- Zle_Qle. exact Hjk.
Qed.

(** *** The metrics of the classified jobs *)

(** X23. For jobs with a technician column and a cancellation flag that
    is a boolean or missing: on the frame [classify_all_jobs] returns,
    [calculate_cancellation_metrics] returns, and when
    [calculate_performance_metrics] returns too it has drawn nothing and
    the two tables list the same technicians in the same order, with the
    same [TotalJobs]. No job is counted both as completed on the first
    trip and as cancelled: [FTC_Jobs] and [CanceledJobs] together are at
    most the number of the technician's jobs, and the two rates add up to
    at most 1 when every one of its jobs has a job id. *)
Theorem first_trips_and_cancellations_share_no_job
    (time_statistics : list cell -> option (cell * cell * cell * cell))
    (df : DataFrame) (g : Random.generator) (perf : list Performance.PerformanceRow) :
  has_col "TechCode" (columns df) || has_col "Technician" (columns df) = true ->
  has_col "JobCanceled" (columns df) = true ->
  Forall (fun r : row => flag_cell (r "JobCanceled")) (rows df) ->
  (has_col "CancellationReason" (columns df) = true ->
   Forall (fun r : row => r "CancellationReason" <> VStr "TechCode") (rows df)) ->
  fst (Performance.calculate_performance_metrics time_statistics (classify_all_jobs df) g)
  = Returns perf ->
  exists canc,
    fst (fst (Cancellation.calculate_cancellation_metrics (classify_all_jobs df) g))
    = Returns canc
    /\ snd (Performance.calculate_performance_metrics time_statistics (classify_all_jobs df) g)
       = g
    /\ Forall2
         (fun p c =>
            let jobs := jobs_of (columns df) (Performance.TechCode p) (rows df) in
            Performance.TechCode p = Cancellation.TechCode c
            /\ Performance.TotalJobs p = Cancellation.TotalJobs c
            /\ (Performance.FTC_Jobs p + Cancellation.CanceledJobs c
                <= inject_Z (Z.of_nat (List.length jobs)))%Q
            /\ (Forall (fun r => has_job_id (columns df) r = true) jobs ->
                exists a b, Performance.FTC_Rate p = Finite a
                            /\ Cancellation.CancellationRate c = Finite b
                            /\ (0 <= a)%Q /\ (0 <= b)%Q /\ (a + b <= 1)%Q))
         perf canc.
Proof.
  intros Htech Hcanc Hflags Hreason Hperf.
  destruct (classify_all_jobs_rows df) as (f & Hrowsj & Hcolsj & Hf).
  set (jobs := classify_all_jobs df) in *.
  set (cols := columns df) in *.
  assert (Hkeep : forall k, has_col k ["Is_FTC"; "Is_DiagnosticOnly"; "Is_Recall"; "JobType"]
                            = false ->
                            has_col k (columns jobs) = has_col k cols).
  { intros k Hk. rewrite Hcolsj, Hk. apply orb_false_r. }
  assert (Hadded : forall k, has_col k ["Is_FTC"; "Is_DiagnosticOnly"; "Is_Recall"; "JobType"]
                             = true ->
                             has_col k (columns jobs) = true).
  { intros k Hk. rewrite Hcolsj, Hk. apply orb_true_r. }
  assert (Hrel : Forall2 (classified cols) (rows df) (rows jobs)).
  { rewrite Hrowsj. apply Forall2_map_right. exact Hf. }
  assert (Hother : forall job r k, classified cols job r ->
                     has_col k ["Is_FTC"; "Is_DiagnosticOnly"; "Is_Recall"; "JobType"] = false ->
                     r k = job k).
  { intros job r k (_ & _ & _ & _ & Ho) Hk. unfold has_col in Hk. cbn [existsb] in Hk.
    rewrite !orb_false_iff in Hk. destruct Hk as (H1 & H2 & H3 & H4 & _).
    apply Ho; intros ->; discriminate. }
  assert (Hsame : forall job r, classified cols job r ->
                    tech_of (columns jobs) r = tech_of cols job
                    /\ has_job_id (columns jobs) r = has_job_id cols job
                    /\ r "JobCanceled" = job "JobCanceled"
                    /\ r "CancellationReason" = job "CancellationReason").
  { intros job r Hc. unfold tech_of, has_job_id.
    rewrite !Hkeep by reflexivity.
    rewrite !(Hother job r _ Hc) by reflexivity. repeat split; reflexivity. }
  (* the cancellation metrics of the classified jobs *)
  destruct (@cancellation_rows jobs g) as (canc & Hcall & Hcrows).
  { rewrite !Hkeep by reflexivity. exact Htech. }
  { rewrite !Hkeep by reflexivity. fold cols. rewrite Hcanc. reflexivity. }
  { intros _. apply Forall_forall. intros r Hr.
    destruct (@Forall2_in_right _ _ _ _ _ _ Hrel Hr) as (job & Hjob & Hc).
    rewrite (proj1 (proj2 (proj2 (Hsame job r Hc)))).
    exact (proj1 (Forall_forall _ _) Hflags job Hjob). }
  { rewrite Hkeep by reflexivity. intros Hcr. apply Forall_forall. intros r Hr.
    destruct (@Forall2_in_right _ _ _ _ _ _ Hrel Hr) as (job & Hjob & Hc).
    rewrite (proj2 (proj2 (proj2 (Hsame job r Hc)))).
    exact (proj1 (Forall_forall _ _) (Hreason Hcr) job Hjob). }
  (* the performance metrics of the classified jobs *)
  destruct (@performance_rows time_statistics jobs g perf) as (Hpcall & Hprows).
  { rewrite !Hkeep by reflexivity. exact Htech. }
  { apply Hadded. reflexivity. }
  { apply Hadded. reflexivity. }
  { apply Forall_forall. intros r Hr.
    destruct (@Forall2_in_right _ _ _ _ _ _ Hrel Hr) as (job & _ & _ & Hftc & _).
    right. eexists. exact Hftc. }
  { exact Hperf. }
  exists canc. rewrite Hcall, Hpcall. split; [reflexivity |]. split; [reflexivity |].
  eapply Forall2_weaken; [| exact (Forall2_join Hprows Hcrows)].
  intros p c (tech & Htech_in & (Hpcode & Hptotal & Hpftc & Hprate)
                              & (Hccode & Hctotal & Hccanc & Hcrate)).
  cbv zeta. rewrite Hpcode.
  set (own := jobs_of cols tech (rows df)).
  set (ownj := jobs_of (columns jobs) tech (rows jobs)) in *.
  assert (Hown : Forall2 (classified cols) own ownj).
  { unfold own, ownj, jobs_of. apply Forall2_filter; [| exact Hrel].
    intros job r Hc. rewrite (proj1 (Hsame job r Hc)). reflexivity. }
  assert (Hlen : List.length ownj = List.length own).
  { symmetry. exact (Forall2_length Hown). }
  assert (Hdisjoint : (List.length (filter (is_true "Is_FTC") ownj)
                       + List.length (filter (canceled_in (columns jobs)) ownj)
                       <= List.length own)%nat).
  { rewrite <- Hlen. apply filter_disjoint_length. intros r Hr.
    destruct (@Forall2_in_right _ _ _ _ _ _ Hown Hr) as (job & _ & Hc).
    pose proof (Hsame job r Hc) as (_ & _ & Hjc & _).
    destruct Hc as (_ & Hftc & _).
    unfold is_true, canceled_in, Cancellation.is_canceled.
    rewrite (Hkeep "JobCanceled") by reflexivity. fold cols. rewrite Hcanc, Hftc, Hjc.
    unfold canceled_job, is_true. fold cols. rewrite Hcanc. cbn [andb].
    destruct (py_eq (job "JobCanceled") (VBool true));
      [rewrite andb_false_r; reflexivity | apply andb_false_r]. }
  split; [rewrite Hccode; reflexivity |].
  split; [rewrite Hptotal, Hctotal; reflexivity |].
  split.
  - rewrite Hpftc, Hccanc, <- inject_Z_plus, <- Zle_Qle. lia.
  - intros Hall.
    assert (Hallj : Forall (fun r => has_job_id (columns jobs) r = true) ownj).
    { apply Forall_forall. intros r Hr.
      destruct (@Forall2_in_right _ _ _ _ _ _ Hown Hr) as (job & Hjob & Hc).
      rewrite (proj1 (proj2 (Hsame job r Hc))).
      exact (proj1 (Forall_forall _ _) Hall job Hjob). }
    rewrite Hprate, Hcrate, Hctotal, Hptotal, (filter_all _ Hallj).
    apply In_tech_keys in Htech_in. destruct Htech_in as [_ Hne]. fold ownj in Hne.
    eapply divide_parts; [exact Hpftc | exact Hccanc | lia | lia | | ].
    + rewrite Hlen. lia.
    + destruct ownj; [contradiction | cbn [List.length]; lia].
Qed.

End JobCounts.

(** Three visits of two technicians: both visits of [B] are cancelled, one
    of them has no job id and the other is marked as completed on the
    first trip. *)
Definition visit (tech : string) (id canceled first_trip : cell) : row := fun c =>
  if String.eqb c "TechCode" then VStr tech
  else if String.eqb c "JobId" then id
  else if String.eqb c "JobCanceled" then canceled
  else if String.eqb c "CompletedOnFirstTrip" then first_trip
  else NA.

Definition three_visits : DataFrame :=
  {| columns := ["TechCode"; "JobId"; "JobCanceled"; "CompletedOnFirstTrip"];
     rows := [ visit "B" (VInt 1) (VBool true) (VBool true);
               visit "A" (VInt 2) (VBool false) (VBool true);
               visit "B" NA (VBool true) (VBool false) ] |}.

Definition idle_generator : Random.generator := Random.mkGen (fun _ => 0%Q) 0.

Definition no_time_statistics : list cell -> option (cell * cell * cell * cell) :=
  fun _ => None.

Lemma cancellation_rate_counts_jobs_with_id_example :
  exists out,
    fst (fst (Cancellation.calculate_cancellation_metrics three_visits idle_generator))
    = GroupBy.Returns out
    /\ Forall
         (fun m =>
            let jobs := jobs_of (columns three_visits) (Cancellation.TechCode m)
                          (rows three_visits) in
            jobs <> []
            /\ Cancellation.TotalJobs m
               = Z.of_nat (List.length (filter (has_job_id (columns three_visits)) jobs))
            /\ (Forall (fun r => has_job_id (columns three_visits) r = true) jobs ->
                exists q, Cancellation.CancellationRate m = PyNum.Finite q
                          /\ (0 <= q <= 1)%Q))
         out.
Proof.
  destruct (@cancellation_rate_counts_jobs_with_id three_visits idle_generator)
    as (out & Hcall & _ & Hall).
  - reflexivity.
  - reflexivity.
  - intros _. repeat (apply Forall_cons; [right; eexists; reflexivity |]). apply Forall_nil.
  - intros H. vm_compute in H. discriminate H.
  - exists out. split; [rewrite Hcall; reflexivity |].
    eapply Forall_impl; [| exact Hall].
    intros m (Hne & Hids & _ & _ & Hrate). cbv zeta. auto.
Defined.

(** The second visit of [B] has no job id: it is counted as cancelled but
    not as a job, and the cancellation rate of [B] is 2. *)
Example cancellation_rate_without_job_id :
  match fst (fst (Cancellation.calculate_cancellation_metrics three_visits idle_generator)) with
  | GroupBy.Returns out =>
      map (fun m => (Cancellation.TechCode m, Cancellation.TotalJobs m,
                     Cancellation.CancellationRate m)) out
  | _ => []
  end
  = [ (VStr "A", 1%Z, PyNum.Finite 0); (VStr "B", 1%Z, PyNum.Finite 2) ].
Proof. vm_compute. reflexivity. Qed.

Lemma first_trips_and_cancellations_share_no_job_example :
  exists perf canc,
    fst (Performance.calculate_performance_metrics no_time_statistics
           (Classifier.classify_all_jobs three_visits) idle_generator)
    = GroupBy.Returns perf
    /\ fst (fst (Cancellation.calculate_cancellation_metrics
                  (Classifier.classify_all_jobs three_visits) idle_generator))
       = GroupBy.Returns canc
    /\ Forall2
         (fun p c =>
            Performance.TechCode p = Cancellation.TechCode c
            /\ (Performance.FTC_Jobs p + Cancellation.CanceledJobs c
                <= inject_Z (Z.of_nat (List.length
                                         (jobs_of (columns three_visits)
                                            (Performance.TechCode p) (rows three_visits)))))%Q)
         perf canc.
Proof.
  assert (Hperf : exists perf,
            fst (Performance.calculate_performance_metrics no_time_statistics
                   (Classifier.classify_all_jobs three_visits) idle_generator)
            = GroupBy.Returns perf)
    by (eexists; vm_compute; reflexivity).
  destruct Hperf as [perf Hperf]. exists perf.
  destruct (@first_trips_and_cancellations_share_no_job no_time_statistics three_visits
              idle_generator perf) as (canc & Hcanc & _ & Hall).
  - reflexivity.
  - reflexivity.
  - repeat (apply Forall_cons; [right; eexists; reflexivity |]). apply Forall_nil.
  - intros H. vm_compute in H. discriminate H.
  - exact Hperf.
  - exists canc. split; [exact Hperf |]. split; [exact Hcanc |].
    eapply Forall2_weaken; [| exact Hall].
    intros p c (Hcode & _ & Hsum & _). cbv zeta in Hsum. split; assumption.
Defined.

(** The first visit of [B] is marked as completed on the first trip and
    as cancelled: it counts as cancelled only. *)
Example first_trip_of_a_canceled_job :
  match fst (Performance.calculate_performance_metrics no_time_statistics
               (Classifier.classify_all_jobs three_visits) idle_generator) with
  | GroupBy.Returns perf =>
      map (fun p => (Performance.TechCode p, Performance.FTC_Jobs p)) perf
  | _ => []
  end
  = [ (VStr "A", 1%Q); (VStr "B", 0%Q) ].
Proof. vm_compute. reflexivity. Qed.
